(* ===== verification/_CoqProject ===== *)
-Q . S2P
Prelude.v
JsNum.v
Json.v
Kind.v
Light.v
Switch.v
Fan.v
Cover.v
Sensor.v
Registry.v
Topics.v
Slug.v
Store.v
Mqtt.v
Service.v
Query.v
Transfer.v
System.v
Templates.v
Web.v
Socket.v
Sync.v
Dashboard.v
Control.v
Api.v
Pipeline.v
Model.v
View.v
