(* ===== verification/Prelude.v ===== *)
(** * A verification development for mqtt-sim, the MQTT smart-home device simulator

    The program is a NestJS service (src/mqtt-sim/src) that simulates
    smart-home devices over MQTT, and an Angular app (src/mqtt-web/src/app)
    that lists and drives them over HTTP and a socket.io connection.  Its
    parts, leaves first:

    - the JavaScript value layer that every part computes with: numbers
      (IEEE doubles with NaN and the infinities), JSON objects with
      insertion-ordered keys, truthiness, the coercions [Number()],
      [parseFloat], the relational operators and [+];
    - the kind contract (devices/kinds/device-kind.ts) and its five
      implementations light, switch, fan, cover, sensor.temp
      (devices/kinds/*.kind.ts), looked up through the registry
      (devices/kinds/registry.ts);
    - the topic namespace (mqtt/topics.ts), the slug function
      (devices/slug.util.ts) and the discovery payload (devices/discovery.ts);
    - the device service (devices/devices.service.ts): device and state
      store, the telemetry timers, create / command / update / telemetry /
      remove, export and import;
    - the MQTT adapter (mqtt/mqtt.service.ts): publish, the wildcard
      command subscription and the inbound topic router;
    - the HTTP layer (devices/devices.controller.ts,
      health/health.controller.ts, the DTOs and main.ts's global
      ValidationPipe) and the WebSocket gateway (devices/devices.gateway.ts);
    - the app: its HTTP client (core/services/api.service.ts), its device
      list (core/services/device-state.service.ts) and socket
      (core/services/websocket.service.ts), its wire types
      (core/models/device.model.ts), the dashboard, the device view and
      form, and the export and import dialogs.

    Files of this development, in dependency order:

    - [Prelude] (this file): the result type of fallible code with its bind
      notation [let* x := m in k] in [sim_scope], the exception taxonomy, shared tactics and
      the hint database [sim].
    - [JsNum]: JavaScript numbers as exact rationals plus [NaN] and the two
      infinities; [<], [<=], [===], [Math.min], [Math.max], [+], [-], [*],
      [/], [Math.round], [Math.sign], [Math.abs]; [Number::toString]; the
      string-to-number conversions of [Number()] and [parseFloat].
    - [Json]: JSON values and objects, property lookup, assignment and
      object spread, truthiness, [ToNumber], [ToString], [typeof x ===
      'number'], the abstract relational comparison, [+] on values,
      [Array.prototype.includes], and the JSON round trip through storage.
    - [Kind]: the kind contract as a record of operations ([DeviceKind]),
      the per-kind lemmas every kind shares.
    - [Light], [Switch], [Fan], [Cover], [Sensor]: one file per kind, each a
      Module with [capabilities], [defaultState], [validate], [reduce] and
      [tick] translated from the .kind.ts file, and its theorems
      (validation ranges, clamping, and for integer positions and
      speeds the cover's convergence and the double inversion that
      cancels itself).
    - [Registry]: [getKind] on a plain object literal, with the members
      inherited from [Object.prototype] kept apart ([kind_ref]).
    - [Topics], [Slug]: the topic builders and the command-topic parser
      (parsing inverts [cmd]; state, status and discovery topics are never
      commands), and [toSlug] (its result is a slug, it is idempotent).
    - [Store]: the two TypeORM tables, the unique [(type, slug)] index and
      the repository calls [save], [insert], [update], [delete].
    - [Mqtt]: [MqttService]: its flags, its handler table, the published
      and subscribed topics in call order, the inbound router.
    - [Service]: [DevicesService] as operations of a state and exception
      monad [M] over [Svc] (store, MQTT client, timers, gateway event log,
      id generator); the invariant [inv] (unique slugs per type, unique
      ids none of which the id generator will still draw, one state row
      per device, a timer exactly for the
      devices with a positive interval) and its preservation by every
      operation; create (the auto-slug probe, the retry loop), command,
      telemetry, update, delete, start-up.
    - [Query]: [list()] with its page and limit normalisation and the
      SQLite constraint on LIMIT/OFFSET; the queries have no ORDER BY, so
      the order of the rows is an argument [Plan] (a ranking of the rows
      for each of TypeORM's two queries), and the theorems hold for every
      plan.
    - [Transfer]: [exportAll] and the two passes of [importAll].
    - [System]: the process as a step function over HTTP routes, MQTT
      messages and timer ticks, with its liveness; reachability from
      [onModuleInit] on any stored table that satisfies the store's
      constraints, and the invariant on every reachable state.
    - [Templates]: the capability templates file (devices/kinds/templates.ts)
      read through its mtime-keyed cache over a filesystem snapshot, the
      parsers being section variables; the cache is transparent while a
      file's text changes only with its modification time.
    - [Web]: the Angular client's [DeviceStateService] fed by the socket
      and by GET /devices (with at most 50 devices the client lists the
      server's devices, each once, in the database's order), and the
      gateway's rooms (handleConnection, the
      subscribe handlers, one delivery per room an event is sent to).
    - [Socket]: the browser's [WebsocketService]: the socket's lifecycle,
      socket.io's buffering of emits while disconnected, and the rooms of
      its server-side socket; a connected socket of the app is always in
      [devices:all] and in no type room.
    - [Sync]: the composition of server and client: every operation of the
      process, failures and imports included, appends events that announce
      exactly how the device ids changed, so a client of the list page
      keeps the server's ids across any run; a socket also in a device's
      room counts that device's deletion twice.
    - [Dashboard]: the dashboard page: the saved-order view built on a
      [Map], drag and
      drop (a drag survives the next emission; a stale order of the right
      length hides new devices), the light switch (it agrees with the
      light's reducer; on a device that came through the socket it always
      sends ON), delete (the total drops by two), and the string ids of
      the client's list.
    - [Control]: the device view's controls (every brightness slider value
      is accepted; the colour-temperature slider is dead), the device form
      (an unchecked slug fails with 400; the edit form cannot clear a
      template) and the import dialog's request.
    - [Api]: the HTTP interface: every [ApiService] call as the request it
      sends, and the service's answer [serve]: Nest's route table in
      registration order with Express's matching, the global
      [ValidationPipe] on the DTOs, each handler's call (an operation of
      [System] or a read-only route), and [HealthController].  The app's
      calls reach the handlers the client models assume; [getDevice] is
      always a 404; every import is refused by the pipe; [ready] is [ok]
      exactly when the database and MQTT are.
    - [Pipeline]: the request-id middleware and the logging interceptor
      around [Api.serve] (common/*.ts, main.ts): one log line with the
      client's status per routed request, none for an unrouted 404, and
      the client's id echoed back trimmed.
    - [Model]: the interfaces of device.model.ts as type descriptors with
      a checker of parsed JSON, and the export dialog.  A listed device has
      its declared type exactly when it has a slug, a template and a state
      row; the export never has [ExportResponse]'s type unless empty.
    - [View]: the components' lifecycles ([DeviceControl], [DeviceForm],
      [DashboardPage], [ImportDialog], [AppShell]): the device view's route
      subscription and [ngOnDestroy] on the socket's rooms (one visit gives
      the rooms back; a route that changes the id leaves the socket in the
      first device's room, whose events then arrive twice), the form's
      [ngOnInit] and loads (saving the edit form unchanged sends the
      device's own name and template; its template select offers templates
      of every kind, which the create route refuses), the dashboard's type
      chips, and the
      import dialog (it never shows a result: the pipe refuses every
      import), and the app shell's routes and start (the dashboard's start
      loads the list twice).

    Fuel and bounds.  The auto-slug probe runs with fuel one more than the
    number of devices, which is enough: each round that finds its
    candidate taken is witnessed by a distinct device of the type
    ([probe_terminates]).  The retry loop of createDevice is the code's
    own bound of five retries.  [uuidv4()] is a counter drawing
    [uuid-0], [uuid-1], ...; the invariant asks that no stored id is one
    it will draw, the freshness a random v4 uuid gives.  No other loop of the model needs fuel:
    the rest recurse on lists.

    Not modelled: CORS, Swagger and the Nest modules (wiring; the
    module order only fixes the route order of [Api.routes]); the YAML and
    JSON parsers of the templates file (section variables of
    [Templates]); command.dto.ts
    and light.machine.ts (not imported by the service); templates and
    styles beyond the guards and options the theorems read (rendering); the form's [submitting] flag, snack bars, dialogs'
    opening and navigation (UI plumbing); the FileReader and the download
    (browser I/O); percent-decoding of
    URL parameters (the theorems take ids without [%]); the broker and the
    network.  The brightness slider's values are checked exhaustively
    over 0..255 by computation.

    Numbers.  IEEE doubles are modelled by exact rationals ([Q]) extended
    with NaN and the infinities; rounding error, [-0] and overflow to
    infinity are not modelled.  The two agree on integers below 2^53,
    where doubles compute exactly; the theorems whose statement
    depends on rounding (the cover's step count and its double
    inversion) are stated for integer positions and speeds, and on
    fractions the code behaves otherwise ([100 - (100 - 0.1)] is
    [0.09999999999999432]).  Every other JavaScript operation the code
    performs on numbers (comparison with NaN, [Math.min]/[Math.max] with
    NaN, string coercion) is modelled as the language defines it.

    Strings are Rocq [string]s (8-bit characters), not UTF-16.
*)

From Stdlib Require Import String List Bool ZArith.
Import ListNotations.

Declare Scope sim_scope.
Delimit Scope sim_scope with sim.

(** ** Exceptions

    The exceptions the code throws, by class: [Error] thrown by the kinds'
    [validate], [TypeError] raised by the language, and the NestJS HTTP
    exceptions of the service ([BadRequestException], [NotFoundException],
    [ConflictException]); [QueryFailed] is a TypeORM [QueryFailedError] with
    its driver code. *)
Inductive exn : Type :=
| Error (msg : string)
| TypeError (msg : string)
| BadRequest (msg : string)
| NotFound (msg : string)
| Conflict (msg : string)
| QueryFailed (code : string).

(** The message of an exception, [e.message]. *)
Definition exn_message (e : exn) : string :=
  match e with
  | Error m | TypeError m | BadRequest m | NotFound m | Conflict m => m
  | QueryFailed c => c
  end.

(** ** Results of fallible code *)
Inductive result (A : Type) : Type :=
| Ok (a : A)
| Throw (e : exn).
Arguments Ok {A} a.
Arguments Throw {A} e.

Definition bind {A B : Type} (m : result A) (k : A -> result B) : result B :=
  match m with
  | Ok a => k a
  | Throw e => Throw e
  end.

Notation "'let*' x ':=' m 'in' k" := (bind m (fun x => k))
  (at level 200, x name, m at level 100, k at level 200) : sim_scope.

(** [throwIf c e] is the code's [if (c) throw e]. *)
Definition throwIf (c : bool) (e : exn) : result unit :=
  if c then Throw e else Ok tt.

Definition is_ok {A} (r : result A) : bool :=
  match r with Ok _ => true | Throw _ => false end.

Open Scope sim_scope.

Lemma bind_Ok {A B} (a : A) (k : A -> result B) : bind (Ok a) k = k a.
Proof. reflexivity. Qed.

Lemma bind_Throw {A B} (e : exn) (k : A -> result B) : bind (Throw e) k = Throw e.
Proof. reflexivity. Qed.

Lemma bind_Ok_inv {A B} (m : result A) (k : A -> result B) (b : B) :
  bind m k = Ok b -> exists a, m = Ok a /\ k a = Ok b.
Proof. destruct m; simpl; [eauto | discriminate]. Qed.

Lemma throwIf_Ok c e : throwIf c e = Ok tt <-> c = false.
Proof. destruct c; simpl; split; congruence. Qed.

Create HintDb sim.
Create Rewrite HintDb sim_rw.
#[export] Hint Rewrite @bind_Ok @bind_Throw : sim_rw.

(** ** Tactics shared by the development *)

(** Invert a hypothesis and substitute. *)
Ltac inv H := inversion H; subst; clear H.

(** Case on the innermost [if] or [match] scrutinee of the goal,
    remembering the equation. *)
Ltac destruct_goal_match :=
  match goal with
  | |- context [match ?x with _ => _ end] =>
      lazymatch x with
      | context [match _ with _ => _ end] => fail
      | _ => let E := fresh "E" in destruct x eqn:E
      end
  end.

(** Split a [bind m k = Ok b] hypothesis into its two halves. *)
Ltac bind_inv :=
  repeat match goal with
  | H : bind ?m _ = Ok _ |- _ =>
      let a := fresh "a" in let Ha := fresh "Ha" in let Hk := fresh "Hk" in
      apply bind_Ok_inv in H; destruct H as (a & Ha & Hk)
  end.

(** ** Generic list lemmas *)

Lemma find_app {A} (f : A -> bool) (l1 l2 : list A) :
  find f (l1 ++ l2) = match find f l1 with Some x => Some x | None => find f l2 end.
Proof. induction l1 as [|x l1 IH]; simpl; [reflexivity|]. destruct (f x); auto. Qed.

Lemma existsb_false_iff {A} (f : A -> bool) (l : list A) :
  existsb f l = false <-> forall x, In x l -> f x = false.
Proof.
  induction l as [|y l IH]; simpl; [tauto|].
  rewrite orb_false_iff, IH. firstorder congruence.
Qed.
