(* ===== verification/JsNum.v ===== *)
(** * JavaScript numbers

    The Number type of ECMAScript as the simulator uses it: exact
    rationals in place of IEEE doubles, with [NaN] and the two infinities
    kept, since [Number()], [parseFloat] and [Math.min]/[Math.max] produce
    and propagate them.  Finite results are kept in [Qred] normal form, so
    two finite numbers that are equal as rationals are equal as terms. *)

From Stdlib Require Import QArith Qabs Qround Qminmax ZArith String Ascii List Bool Lia Lqa.
From Stdlib Require Import DecimalString DecimalN.
From S2P Require Import Prelude.
Import ListNotations.
Open Scope string_scope.

Inductive num : Type :=
| Fin (q : Q)
| NaN
| PosInf
| NegInf.

(** A finite number in normal form. *)
Definition fin (q : Q) : num := Fin (Qred q).

Definition qltb (x y : Q) : bool := negb (Qle_bool y x).

(** ** Comparison *)

(** [a < b] on numbers (Number::lessThan): false whenever one side is NaN. *)
Definition num_lt (a b : num) : bool :=
  match a, b with
  | NaN, _ | _, NaN => false
  | Fin x, Fin y => qltb x y
  | NegInf, NegInf => false
  | NegInf, _ => true
  | _, NegInf => false
  | PosInf, _ => false
  | Fin _, PosInf => true
  end.

(** [a <= b]: [!(b < a)] unless one side is NaN. *)
Definition num_le (a b : num) : bool :=
  match a, b with
  | NaN, _ | _, NaN => false
  | _, _ => negb (num_lt b a)
  end.

(** [a === b] on numbers: numeric equality, NaN unequal to itself. *)
Definition num_eqb (a b : num) : bool :=
  match a, b with
  | Fin x, Fin y => Qeq_bool x y
  | PosInf, PosInf | NegInf, NegInf => true
  | _, _ => false
  end.

Definition is_nan (a : num) : bool := match a with NaN => true | _ => false end.

(** [Math.min(a, b)] and [Math.max(a, b)]: NaN if either argument is NaN. *)
Definition num_min (a b : num) : num :=
  if is_nan a || is_nan b then NaN else if num_lt b a then b else a.
Definition num_max (a b : num) : num :=
  if is_nan a || is_nan b then NaN else if num_lt a b then b else a.

(** The [clamp(v, lo, hi) = Math.max(lo, Math.min(hi, v))] helper that
    light.kind.ts, cover.kind.ts and sensor.temp.kind.ts each define. *)
Definition clamp (v lo hi : num) : num := num_max lo (num_min hi v).

(** ** Arithmetic *)

Definition num_neg (a : num) : num :=
  match a with
  | Fin x => fin (- x)
  | NaN => NaN
  | PosInf => NegInf
  | NegInf => PosInf
  end.

Definition num_add (a b : num) : num :=
  match a, b with
  | NaN, _ | _, NaN => NaN
  | Fin x, Fin y => fin (x + y)
  | PosInf, NegInf | NegInf, PosInf => NaN
  | PosInf, _ | _, PosInf => PosInf
  | NegInf, _ | _, NegInf => NegInf
  end.

Definition num_sub (a b : num) : num := num_add a (num_neg b).

(** Sign of a number: [Some true] positive, [Some false] negative,
    [None] zero or NaN. *)
Definition num_sign_of (a : num) : option bool :=
  match a with
  | Fin x => if Qeq_bool x 0 then None else Some (Qle_bool 0 x)
  | PosInf => Some true
  | NegInf => Some false
  | NaN => None
  end.

Definition inf_of (pos : bool) : num := if pos then PosInf else NegInf.

Definition num_mul (a b : num) : num :=
  match a, b with
  | NaN, _ | _, NaN => NaN
  | Fin x, Fin y => fin (x * y)
  | _, _ =>
      match num_sign_of a, num_sign_of b with
      | Some sa, Some sb => inf_of (Bool.eqb sa sb)
      | _, _ => NaN  (* infinity times zero *)
      end
  end.

Definition num_div (a b : num) : num :=
  match a, b with
  | NaN, _ | _, NaN => NaN
  | Fin x, Fin y =>
      if Qeq_bool y 0 then
        match num_sign_of a with
        | Some s => inf_of s
        | None => NaN
        end
      else fin (x / y)
  | Fin _, _ => Fin 0
  | _, Fin y =>
      match num_sign_of a, num_sign_of b with
      | Some sa, Some sb => inf_of (Bool.eqb sa sb)
      | Some sa, None => inf_of sa
      | _, _ => NaN
      end
  | _, _ => NaN
  end.

(** [Math.round]: the nearest integer, halves rounded up. *)
Definition num_round (a : num) : num :=
  match a with
  | Fin x => fin (inject_Z (Qfloor (x + (1 # 2))))
  | _ => a
  end.

(** [Math.sign] and [Math.abs]. *)
Definition num_sign (a : num) : num :=
  match a with
  | Fin x => if Qeq_bool x 0 then Fin 0 else if Qle_bool 0 x then Fin 1 else Fin (-1)
  | PosInf => Fin 1
  | NegInf => Fin (-1)
  | NaN => NaN
  end.

Definition num_abs (a : num) : num :=
  match a with
  | Fin x => fin (Qabs x)
  | NegInf => PosInf
  | _ => a
  end.

(** [Math.pow(10, d)].  For an integer exponent this is exact; a
    fractional exponent gives an irrational power, outside the rational
    model, where the exponent is rounded down. *)
Definition num_pow10 (d : num) : num :=
  match d with
  | Fin x => fin (Qpower 10 (Qfloor x))
  | PosInf => PosInf
  | NegInf => Fin 0
  | NaN => NaN
  end.

(** Truthiness of a number: false for 0 and NaN. *)
Definition num_truthy (a : num) : bool :=
  match a with
  | Fin x => negb (Qeq_bool x 0)
  | NaN => false
  | _ => true
  end.

(** ** Number to string (Number::toString with radix 10)

    A finite rational is written with the digits of its decimal expansion,
    found by scaling with powers of ten; the expansion is exact for every
    rational with a terminating decimal expansion of at most 40 fractional
    digits, which covers every value the simulator computes from decimal
    input.  The layout (plain, fractional or exponent notation) follows
    Number::toString. *)

Definition N_to_digits (n : N) : string := NilEmpty.string_of_uint (N.to_uint n).

(** [decimal_digits x] for [x > 0]: an integer [m] not divisible by ten
    and an exponent [f] with [x = m * 10^-f], found by scaling up to 40
    times. *)
Fixpoint scale_up (fuel : nat) (x : Q) (f : Z) : Z * Z :=
  match fuel with
  | O => (Qfloor x, f)
  | S fuel' =>
      if Z.eqb (Zpos (Qden (Qred x))) 1 then (Qnum (Qred x), f)
      else scale_up fuel' (x * 10) (f + 1)
  end.

Fixpoint strip_zeros (fuel : nat) (m f : Z) : Z * Z :=
  match fuel with
  | O => (m, f)
  | S fuel' =>
      if (m =? 0)%Z then (m, f)
      else if (m mod 10 =? 0)%Z then strip_zeros fuel' (m / 10) (f - 1)
      else (m, f)
  end.

Definition decimal_digits (x : Q) : Z * Z :=
  let '(m, f) := scale_up 40 x 0 in
  strip_zeros 400 m f.

Fixpoint zeros (n : nat) : string :=
  match n with O => "" | S n' => String "0" (zeros n') end.

Definition Z_to_digits (z : Z) : string := N_to_digits (Z.to_N z).

(** The layout of Number::toString given the digit string [s] of length
    [k] and the decimal exponent [n] with value [0.s * 10^n]. *)
Definition layout (s : string) (n : Z) : string :=
  let k := Z.of_nat (String.length s) in
  if (k <=? n)%Z && (n <=? 21)%Z then s ++ zeros (Z.to_nat (n - k))
  else if (0 <? n)%Z && (n <=? 21)%Z then
    substring 0 (Z.to_nat n) s ++ "." ++ substring (Z.to_nat n) (Z.to_nat (k - n)) s
  else if (-6 <? n)%Z && (n <=? 0)%Z then
    "0." ++ zeros (Z.to_nat (- n)) ++ s
  else
    let e := (n - 1)%Z in
    let es := (if (0 <=? e)%Z then "+" else "-") ++ Z_to_digits (Z.abs e) in
    if (k =? 1)%Z then s ++ "e" ++ es
    else substring 0 1 s ++ "." ++ substring 1 (Z.to_nat (k - 1)) s ++ "e" ++ es.

Definition num_to_string (a : num) : string :=
  match a with
  | NaN => "NaN"
  | PosInf => "Infinity"
  | NegInf => "-Infinity"
  | Fin x =>
      if Qeq_bool x 0 then "0"
      else
        let '(m, f) := decimal_digits (Qabs x) in
        let s := Z_to_digits m in
        (if Qle_bool 0 x then "" else "-") ++ layout s (Z.of_nat (String.length s) - f)
  end.

(** ** String to number *)

Definition ascii_code (c : ascii) : nat := nat_of_ascii c.

Definition is_digit (c : ascii) : bool :=
  (48 <=? ascii_code c)%nat && (ascii_code c <=? 57)%nat.

Definition digit_value (c : ascii) : Z := Z.of_nat (ascii_code c - 48).

(** StrWhiteSpaceChar restricted to 8-bit characters: TAB, LF, VT, FF,
    CR, SPACE and NO-BREAK SPACE. *)
Definition is_js_space (c : ascii) : bool :=
  let n := ascii_code c in
  ((9 <=? n) && (n <=? 13))%nat || (n =? 32)%nat || (n =? 160)%nat.

Fixpoint drop_spaces (l : list ascii) : list ascii :=
  match l with
  | c :: l' => if is_js_space c then drop_spaces l' else l
  | [] => []
  end.

Definition trim_list (l : list ascii) : list ascii := rev (drop_spaces (rev (drop_spaces l))).

(** The longest run of decimal digits: its value, its length, the rest. *)
Fixpoint read_digits (l : list ascii) (acc : Z) (n : nat) : Z * nat * list ascii :=
  match l with
  | c :: l' => if is_digit c then read_digits l' (acc * 10 + digit_value c) (S n)
               else (acc, n, l)
  | [] => (acc, n, [])
  end.

Definition infinity_chars : list ascii := list_ascii_of_string "Infinity".

Fixpoint strip_prefix (p l : list ascii) : option (list ascii) :=
  match p, l with
  | [], _ => Some l
  | c :: p', d :: l' => if Ascii.eqb c d then strip_prefix p' l' else None
  | _, [] => None
  end.

(** The exponent part [(e|E) (+|-)? digits], if complete. *)
Definition read_exponent (l : list ascii) : Z * list ascii :=
  match l with
  | e :: l1 =>
      if Ascii.eqb e "e" || Ascii.eqb e "E" then
        let '(sg, l2) :=
          match l1 with
          | s :: l2 => if Ascii.eqb s "+" then (1%Z, l2)
                       else if Ascii.eqb s "-" then ((-1)%Z, l2) else (1%Z, l1)
          | [] => (1%Z, l1)
          end in
        let '(v, n, l3) := read_digits l2 0 0 in
        if (n =? 0)%nat then (0%Z, l) else ((sg * v)%Z, l3)
      else (0%Z, l)
  | [] => (0%Z, l)
  end.

(** The longest prefix that is a StrUnsignedDecimalLiteral, with its value. *)
Definition read_unsigned_decimal (l : list ascii) : option (num * list ascii) :=
  match strip_prefix infinity_chars l with
  | Some rest => Some (PosInf, rest)
  | None =>
      let '(d1, n1, r1) := read_digits l 0 0 in
      let '(mant, scale, n, r2) :=
        match r1 with
        | c :: r1' =>
            if Ascii.eqb c "." then
              let '(d2, n2, r2) := read_digits r1' 0 0 in
              ((d1 * 10 ^ Z.of_nat n2 + d2)%Z, Z.of_nat n2, (n1 + n2)%nat, r2)
            else (d1, 0%Z, n1, r1)
        | [] => (d1, 0%Z, n1, r1)
        end in
      if (n =? 0)%nat then None
      else
        let '(e, r3) := read_exponent r2 in
        Some (fin (inject_Z mant * Qpower 10 (e - scale)), r3)
  end.

(** The longest prefix that is a StrDecimalLiteral (optional sign). *)
Definition read_decimal (l : list ascii) : option (num * list ascii) :=
  match l with
  | c :: l' =>
      if Ascii.eqb c "-" then
        match read_unsigned_decimal l' with
        | Some (v, r) => Some (num_neg v, r)
        | None => None
        end
      else if Ascii.eqb c "+" then read_unsigned_decimal l'
      else read_unsigned_decimal l
  | [] => None
  end.

(** Digits of a non-decimal integer literal (0x, 0o, 0b). *)
Definition radix_digit (radix : Z) (c : ascii) : option Z :=
  let n := Z.of_nat (ascii_code c) in
  let v := if (48 <=? n)%Z && (n <=? 57)%Z then (n - 48)%Z
           else if (97 <=? n)%Z && (n <=? 102)%Z then (n - 87)%Z
           else if (65 <=? n)%Z && (n <=? 70)%Z then (n - 55)%Z
           else 99%Z in
  if (v <? radix)%Z then Some v else None.

Fixpoint read_radix (radix : Z) (l : list ascii) (acc : Z) : option Z :=
  match l with
  | [] => Some acc
  | c :: l' => match radix_digit radix c with
               | Some v => read_radix radix l' (acc * radix + v)
               | None => None
               end
  end.

Definition radix_literal (l : list ascii) : option num :=
  match l with
  | z :: x :: (_ :: _) as ds =>
      if Ascii.eqb z "0" then
        let radix := if Ascii.eqb x "x" || Ascii.eqb x "X" then 16%Z
                     else if Ascii.eqb x "o" || Ascii.eqb x "O" then 8%Z
                     else if Ascii.eqb x "b" || Ascii.eqb x "B" then 2%Z else 0%Z in
        if (radix =? 0)%Z then None
        else option_map (fun v => fin (inject_Z v)) (read_radix radix ds 0)
      else None
  | _ => None
  end.

(** StringToNumber, the conversion of [Number(s)] and of the relational
    operators: the whole trimmed string must be a numeric literal; the
    empty string is 0. *)
Definition string_to_number (s : string) : num :=
  let l := trim_list (list_ascii_of_string s) in
  match l with
  | [] => Fin 0
  | _ =>
      match radix_literal l with
      | Some v => v
      | None =>
          match read_decimal l with
          | Some (v, []) => v
          | _ => NaN
          end
      end
  end.

(** [parseFloat(s)]: the longest decimal-literal prefix after leading
    white space, NaN if there is none. *)
Definition parse_float (s : string) : num :=
  match read_decimal (drop_spaces (list_ascii_of_string s)) with
  | Some (v, _) => v
  | None => NaN
  end.

(** ** Lemmas *)

Lemma Qred_idem q : Qred (Qred q) = Qred q.
Proof. apply Qred_complete, Qred_correct. Qed.

Lemma clamp_not_nan v lo hi :
  is_nan v = false -> is_nan lo = false -> is_nan hi = false -> is_nan (clamp v lo hi) = false.
Proof.
  unfold clamp, num_max, num_min. intros Hv Hl Hh.
  rewrite Hv, Hh, Hl. simpl.
  destruct (num_lt v hi); simpl; rewrite ?Hv, ?Hh, ?Hl; simpl;
  destruct (num_lt lo _); assumption.
Qed.

(** [lo <= n <= hi] for a finite [n]. *)
Definition num_inb (lo hi : Q) (n : num) : bool :=
  match n with
  | Fin q => Qle_bool lo q && Qle_bool q hi
  | _ => false
  end.

Lemma qltb_iff x y : qltb x y = true <-> x < y.
Proof.
  unfold qltb. rewrite negb_true_iff.
  split; intros H.
  - apply Qnot_le_lt. intros Hle. apply Qle_bool_iff in Hle. congruence.
  - destruct (Qle_bool y x) eqn:E; [|reflexivity].
    apply Qle_bool_iff in E. exfalso. apply (Qlt_not_le x y); assumption.
Qed.

Lemma qltb_false x y : qltb x y = false <-> y <= x.
Proof.
  unfold qltb. rewrite negb_false_iff. apply Qle_bool_iff.
Qed.

Lemma num_inb_iff lo hi n : num_inb lo hi n = true <-> exists q, n = Fin q /\ lo <= q /\ q <= hi.
Proof.
  destruct n; simpl; split; intros H; try discriminate;
    try (destruct H as (? & ? & ?); discriminate).
  - apply andb_true_iff in H as [H1 H2]. apply Qle_bool_iff in H1, H2. eauto.
  - destruct H as (q' & Hq & H1 & H2). inversion Hq; subst.
    apply andb_true_iff. split; apply Qle_bool_iff; assumption.
Qed.

Lemma Qle_bool_false x y : Qle_bool x y = false <-> y < x.
Proof.
  split; intros H.
  - apply Qnot_le_lt. intros Hle. apply Qle_bool_iff in Hle. congruence.
  - destruct (Qle_bool x y) eqn:E; [|reflexivity].
    apply Qle_bool_iff in E. exfalso. apply (Qlt_not_le y x); assumption.
Qed.

(** Ltac for goals about [num_lt] on finite numbers. *)
Ltac num_cases :=
  repeat match goal with
  | |- context [qltb ?x ?y] =>
      let E := fresh "E" in destruct (qltb x y) eqn:E;
      [apply qltb_iff in E | apply qltb_false in E]
  | H : context [qltb ?x ?y] |- _ =>
      let E := fresh "E" in destruct (qltb x y) eqn:E;
      [apply qltb_iff in E | apply qltb_false in E]
  end.

(** The result of [clamp] lies in the interval whenever the value is a
    number other than NaN. *)
Lemma clamp_inb v lo hi :
  lo <= hi -> is_nan v = false -> num_inb lo hi (clamp v (Fin lo) (Fin hi)) = true.
Proof.
  intros Hlh Hv. apply num_inb_iff.
  destruct v as [q| | |]; try discriminate; unfold clamp, num_max, num_min; simpl.
  all: num_cases; simpl; num_cases; eexists; split; try reflexivity; lra.
Qed.

(** Within the interval, [clamp] returns the value (up to the
    representation of equal rationals). *)
Lemma clamp_id q lo hi :
  lo <= q -> q <= hi -> exists q', clamp (Fin q) (Fin lo) (Fin hi) = Fin q' /\ q' == q.
Proof.
  intros H1 H2. unfold clamp, num_max, num_min; simpl.
  num_cases; simpl; num_cases; eexists; split; try reflexivity; lra.
Qed.

#[export] Hint Resolve clamp_inb : sim.

(** A finite number in lowest terms (the form [fin] produces), or a
    non-finite number other than NaN. *)
Definition qnormb (q : Q) : bool :=
  Z.eqb (Qnum (Qred q)) (Qnum q) && Pos.eqb (Qden (Qred q)) (Qden q).

Definition normal_num (n : num) : bool :=
  match n with Fin q => qnormb q | NaN => false | _ => true end.

Lemma qnormb_spec q : qnormb q = true <-> Qred q = q.
Proof.
  unfold qnormb. rewrite andb_true_iff, Z.eqb_eq, Pos.eqb_eq.
  destruct (Qred q) as [a b] eqn:E, q as [c d]. simpl. split.
  - intros [-> ->]. reflexivity.
  - intros H. inversion H. auto.
Qed.

(** [clamp] returns one of its three arguments. *)
Lemma clamp_cases v lo hi :
  is_nan lo = false -> is_nan hi = false ->
  clamp v lo hi = lo \/ clamp v lo hi = hi \/ clamp v lo hi = v.
Proof.
  intros Hl Hh. unfold clamp, num_max, num_min.
  destruct (is_nan v) eqn:Hv.
  - destruct v; try discriminate. rewrite Hh. simpl. rewrite Hl. simpl. auto.
  - rewrite Hh; simpl. destruct (num_lt v hi); simpl; rewrite ?Hl, ?Hh, ?Hv; simpl;
      destruct (num_lt lo _); auto.
Qed.

Lemma normal_clamp v lo hi :
  normal_num v = true -> normal_num lo = true -> normal_num hi = true ->
  normal_num (clamp v lo hi) = true.
Proof.
  intros Hv Hl Hh.
  assert (is_nan lo = false) by (destruct lo; simpl in *; congruence).
  assert (is_nan hi = false) by (destruct hi; simpl in *; congruence).
  destruct (clamp_cases v lo hi) as [E|[E|E]]; auto; rewrite E; assumption.
Qed.
