(* ===== verification/Json.v ===== *)
(** * JSON values and the JavaScript operations the simulator applies to them

    Device state, capabilities and commands are free-form JSON in the
    code ([Record<string, any>]).  A [json] is a JSON value whose numbers are
    JavaScript numbers ([JsNum.num]); an object is the list of its
    properties in insertion order.  [undefined] (an absent property) is
    [None] in an [option json].  This file gives the language's operations
    on such values: property read, assignment and spread, truthiness,
    [ToNumber], [ToString], the relational comparison, [+], [??],
    [Array.prototype.includes] on string arrays, and the JSON round trip
    that the database column ([simple-json]) and MQTT publishing apply. *)

From Stdlib Require Import QArith String Ascii List Bool ZArith.
From S2P Require Import Prelude JsNum.
Import ListNotations.
Open Scope string_scope.

#[warnings="-register-all"]
Inductive json : Type :=
| JNull
| JBool (b : bool)
| JNum (n : num)
| JStr (s : string)
| JArr (l : list json)
| JObj (o : list (string * json)).

Definition obj := list (string * json).

(** ** Objects *)

(** [o[k]]: the value of property [k], [None] for undefined. *)
Fixpoint get (o : obj) (k : string) : option json :=
  match o with
  | [] => None
  | (k', v) :: o' => if String.eqb k k' then Some v else get o' k
  end.

(** [k in o]. *)
Definition has (o : obj) (k : string) : bool :=
  match get o k with Some _ => true | None => false end.

(** [o[k] = v]: an existing property keeps its position, a new one is
    appended. *)
Fixpoint set (o : obj) (k : string) (v : json) : obj :=
  match o with
  | [] => [(k, v)]
  | (k', v') :: o' => if String.eqb k k' then (k, v) :: o' else (k', v') :: set o' k v
  end.

(** [delete o[k]]. *)
Fixpoint remove (o : obj) (k : string) : obj :=
  match o with
  | [] => []
  | (k', v') :: o' => if String.eqb k k' then o' else (k', v') :: remove o' k
  end.

(** [o[k] = v] for a possibly undefined [v]: assigning undefined leaves a
    property that JSON omits, the same JSON as deleting it. *)
Definition set_opt (o : obj) (k : string) (v : option json) : obj :=
  match v with Some x => set o k x | None => remove o k end.

(** [{...a, ...b}]: the properties of [b] assigned over those of [a]. *)
Definition spread (a b : obj) : obj := fold_left (fun acc kv => set acc (fst kv) (snd kv)) b a.

(** The key of array index [n], [String(n)]: below [2^32], the length
    bound of arrays and buffers, Number::toString of an integer is its
    decimal digits. *)
Definition index_key (n : nat) : string := N_to_digits (N.of_nat n).

Fixpoint index_keys {A} (n : nat) (l : list A) : list (string * A) :=
  match l with
  | [] => []
  | x :: l' => (index_key n, x) :: index_keys (S n) l'
  end.

(** Whether a key is a string of decimal digits, as array indices are. *)
Fixpoint all_digits (s : string) : bool :=
  match s with
  | EmptyString => true
  | String c s' => is_digit c && all_digits s'
  end.

(** [{...v}] for any value: the own enumerable properties of [v];
    an array or a string spreads its indices. *)
Definition own_props (v : json) : obj :=
  match v with
  | JObj o => o
  | JArr l => index_keys 0 l
  | JStr s => index_keys 0 (map (fun c => JStr (String c EmptyString)) (list_ascii_of_string s))
  | _ => []
  end.

(** [Object.keys(v)]. *)
Definition keys (v : json) : list string := map fst (own_props v).

(** [v.k] on a value that is not null or undefined. *)
Definition prop (v : option json) (k : string) : option json :=
  match v with
  | Some (JObj o) => get o k
  | _ => None
  end.

(** ** Primitive conversions *)

(** Truthiness of a possibly undefined value. *)
Definition truthy (v : option json) : bool :=
  match v with
  | None | Some JNull => false
  | Some (JBool b) => b
  | Some (JNum n) => num_truthy n
  | Some (JStr s) => negb (String.eqb s "")
  | Some (JArr _) | Some (JObj _) => true
  end.

(** [v == null]: null or undefined. *)
Definition nullish (v : option json) : bool :=
  match v with None | Some JNull => true | _ => false end.

(** [v ?? d]. *)
Definition coalesce (v : option json) (d : json) : json :=
  match v with None | Some JNull => d | Some x => x end.

(** [typeof v === 'number']. *)
Definition is_number (v : option json) : bool :=
  match v with Some (JNum _) => true | _ => false end.

(** [typeof v === 'string']. *)
Definition is_string (v : option json) : bool :=
  match v with Some (JStr _) => true | _ => false end.

Fixpoint join (sep : string) (l : list string) : string :=
  match l with
  | [] => ""
  | [s] => s
  | s :: l' => s ++ sep ++ join sep l'
  end.

(** [String(v)]; inside an array, null becomes the empty string. *)
Fixpoint to_string (v : json) : string :=
  match v with
  | JNull => "null"
  | JBool b => if b then "true" else "false"
  | JNum n => num_to_string n
  | JStr s => s
  | JArr l => join "," (map (fun x => match x with JNull => "" | _ => to_string x end) l)
  | JObj _ => "[object Object]"
  end.

(** The primitive of ToPrimitive: an array or object becomes its string. *)
Inductive prim : Type :=
| PUndef
| PNull
| PBool (b : bool)
| PNum (n : num)
| PStr (s : string).

Definition to_prim (v : option json) : prim :=
  match v with
  | None => PUndef
  | Some JNull => PNull
  | Some (JBool b) => PBool b
  | Some (JNum n) => PNum n
  | Some (JStr s) => PStr s
  | Some x => PStr (to_string x)
  end.

Definition prim_to_number (p : prim) : num :=
  match p with
  | PUndef => NaN
  | PNull => Fin 0
  | PBool b => if b then Fin 1 else Fin 0
  | PNum n => n
  | PStr s => string_to_number s
  end.

Definition prim_to_string (p : prim) : string :=
  match p with
  | PUndef => "undefined"
  | PNull => "null"
  | PBool b => if b then "true" else "false"
  | PNum n => num_to_string n
  | PStr s => s
  end.

(** [Number(v)], the ToNumber of the relational operators. *)
Definition to_number (v : option json) : num := prim_to_number (to_prim v).

(** String comparison by character codes. *)
Fixpoint str_lt (s t : string) : bool :=
  match s, t with
  | EmptyString, String _ _ => true
  | String c s', String d t' =>
      if Ascii.eqb c d then str_lt s' t'
      else (nat_of_ascii c <? nat_of_ascii d)%nat
  | _, EmptyString => false
  end.

(** The abstract relational comparison [a < b]: strings compare as
    strings, everything else as numbers (NaN compares false). *)
Definition js_lt (a b : option json) : bool :=
  match to_prim a, to_prim b with
  | PStr s, PStr t => str_lt s t
  | pa, pb => num_lt (prim_to_number pa) (prim_to_number pb)
  end.

(** [a + b]: string concatenation when either primitive is a string,
    numeric addition otherwise. *)
Definition js_add (a b : option json) : json :=
  match to_prim a, to_prim b with
  | (PStr _) as pa, pb | pa, (PStr _ as pb) => JStr (prim_to_string pa ++ prim_to_string pb)
  | pa, pb => JNum (num_add (prim_to_number pa) (prim_to_number pb))
  end.

(** [a - b]: always numeric. *)
Definition js_sub (a b : option json) : num := num_sub (to_number a) (to_number b).

(** [[...].includes(v)] for an array of strings (SameValueZero). *)
Definition str_in (v : option json) (l : list string) : bool :=
  match v with
  | Some (JStr s) => existsb (String.eqb s) l
  | _ => false
  end.

(** [v === s] for a string literal [s]. *)
Definition is_str (v : option json) (s : string) : bool :=
  match v with Some (JStr t) => String.eqb t s | _ => false end.

Definition num_lit (q : Q) : json := JNum (Fin q).

(** ** The JSON round trip

    [JSON.parse(JSON.stringify(v))]: what the [simple-json] column stores
    and what an MQTT subscriber receives.  Non-finite numbers become
    [null]. *)
Fixpoint serialize (v : json) : json :=
  match v with
  | JNum (Fin q) => JNum (Fin q)
  | JNum _ => JNull
  | JArr l => JArr (map serialize l)
  | JObj o => JObj (map (fun kv => (fst kv, serialize (snd kv))) o)
  | _ => v
  end.

(** Structural equality of two JSON texts, [JSON.stringify(a) ===
    JSON.stringify(b)] on serialized values: key order matters, numbers
    compare by value. *)
Fixpoint json_eqb (a b : json) : bool :=
  match a, b with
  | JNull, JNull => true
  | JBool x, JBool y => Bool.eqb x y
  | JNum x, JNum y => num_eqb x y
  | JStr x, JStr y => String.eqb x y
  | JArr l1, JArr l2 =>
      (fix go (l1 l2 : list json) : bool :=
         match l1, l2 with
         | [], [] => true
         | x :: r1, y :: r2 => json_eqb x y && go r1 r2
         | _, _ => false
         end) l1 l2
  | JObj o1, JObj o2 =>
      (fix go (o1 o2 : obj) : bool :=
         match o1, o2 with
         | [], [] => true
         | (k1, x) :: r1, (k2, y) :: r2 => String.eqb k1 k2 && json_eqb x y && go r1 r2
         | _, _ => false
         end) o1 o2
  | _, _ => false
  end.

Definition stringify_eq (a b : json) : bool := json_eqb (serialize a) (serialize b).

(** ** Lemmas on objects *)

Lemma get_set_eq (o : obj) k v : get (set o k v) k = Some v.
Proof.
  induction o as [|[k' v'] o IH]; simpl.
  - now rewrite String.eqb_refl.
  - destruct (String.eqb k k') eqn:E; simpl.
    + now rewrite String.eqb_refl.
    + now rewrite E.
Qed.

Lemma get_set_ne (o : obj) k k' v : k <> k' -> get (set o k v) k' = get o k'.
Proof.
  intros Hne. induction o as [|[k0 v0] o IH]; simpl.
  - apply String.eqb_neq in Hne. rewrite String.eqb_sym, Hne. reflexivity.
  - destruct (String.eqb k k0) eqn:E; simpl.
    + apply String.eqb_eq in E. subst k0.
      apply String.eqb_neq in Hne. now rewrite String.eqb_sym, Hne.
    + now rewrite IH.
Qed.

Lemma get_set (o : obj) k k' v :
  get (set o k v) k' = if String.eqb k k' then Some v else get o k'.
Proof.
  destruct (String.eqb k k') eqn:E.
  - apply String.eqb_eq in E. subst. apply get_set_eq.
  - apply get_set_ne. now apply String.eqb_neq.
Qed.

Lemma get_None (o : obj) k : ~ In k (map fst o) -> get o k = None.
Proof.
  induction o as [|[k' v'] o IH]; simpl; [reflexivity|].
  intros Hn. destruct (String.eqb k k') eqn:E.
  - apply String.eqb_eq in E. subst. tauto.
  - apply IH. tauto.
Qed.

Lemma get_spread (a b : obj) k :
  NoDup (map fst b) ->
  get (spread a b) k = match get b k with Some v => Some v | None => get a k end.
Proof.
  unfold spread. revert a. induction b as [|[k' v'] b IH]; intros a Hnd; simpl in *.
  - reflexivity.
  - inversion Hnd as [|? ? Hnin Hnd']; subst.
    rewrite IH by assumption. rewrite get_set.
    destruct (String.eqb k k') eqn:E.
    + apply String.eqb_eq in E. subst k'.
      rewrite get_None by assumption. now rewrite String.eqb_refl.
    + rewrite String.eqb_sym, E. reflexivity.
Qed.

Lemma set_keys (o : obj) k v : has o k = true -> map fst (set o k v) = map fst o.
Proof.
  unfold has. induction o as [|[k' v'] o IH]; simpl; [discriminate|].
  destruct (String.eqb k k') eqn:E; simpl.
  - apply String.eqb_eq in E. now subst.
  - intros H. f_equal. now apply IH.
Qed.

Lemma prop_obj (o : obj) k : prop (Some (JObj o)) k = get o k.
Proof. reflexivity. Qed.

(** A property of a serialized object is the serialized property. *)
Lemma get_serialize (o : obj) k :
  get (map (fun kv => (fst kv, serialize (snd kv))) o) k = option_map serialize (get o k).
Proof. induction o as [|[k' v] o IH]; simpl; [reflexivity|]. destruct (String.eqb k k'); auto. Qed.

#[export] Hint Rewrite get_set_eq prop_obj : sim_rw.

(** ** Field specifications

    A state invariant as a list of per-property conditions; [set]
    preserves it when the new value satisfies the condition of its key. *)
Definition field_spec := list (string * (option json -> bool)).

Definition fields_ok (spec : field_spec) (o : obj) : bool :=
  forallb (fun kp => snd kp (get o (fst kp))) spec.

Definition key_ok (spec : field_spec) (k : string) (v : json) : bool :=
  forallb (fun kp => if String.eqb (fst kp) k then snd kp (Some v) else true) spec.

Lemma fields_ok_set spec o k v :
  fields_ok spec o = true -> key_ok spec k v = true -> fields_ok spec (set o k v) = true.
Proof.
  unfold fields_ok, key_ok. rewrite !forallb_forall. intros Ho Hk [k' p] Hin. simpl.
  specialize (Ho _ Hin). specialize (Hk _ Hin). simpl in *.
  rewrite get_set. destruct (String.eqb k k') eqn:E.
  - rewrite String.eqb_sym, E in Hk. exact Hk.
  - exact Ho.
Qed.

#[export] Hint Resolve fields_ok_set : sim.

Lemma fields_ok_if (c : bool) spec o o' :
  fields_ok spec o = true -> (c = true -> fields_ok spec o' = true) ->
  fields_ok spec (if c then o' else o) = true.
Proof. destruct c; auto. Qed.

Lemma is_number_not_nan v :
  is_number v = true -> (match v with Some (JNum NaN) => false | _ => true end) = true ->
  is_nan (to_number v) = false.
Proof. destruct v as [[| | [] | | |]|]; simpl; congruence. Qed.

Lemma truthy_coalesce v d : truthy v = true -> Some (coalesce v d) = v.
Proof. destruct v as [[]|]; simpl; congruence. Qed.

Lemma coalesce_not_nullish v d : nullish v = false -> Some (coalesce v d) = v.
Proof. destruct v as [[]|]; simpl; congruence. Qed.

Lemma str_in_sub v l1 l2 :
  (forall s, In s l1 -> In s l2) -> str_in v l1 = true -> str_in v l2 = true.
Proof.
  destruct v as [[]|]; simpl; try discriminate. intros Hsub H.
  apply existsb_exists in H as (x & Hx & Heq). apply String.eqb_eq in Heq. subst.
  apply existsb_exists. exists x. split; [auto | apply String.eqb_refl].
Qed.

(** Compute [get] through [set]s with literal keys. *)
Ltac simpl_get :=
  repeat (rewrite get_set; cbn [String.eqb Ascii.eqb Bool.eqb]).

(** Close a goal about the invariant of an object built by a chain of
    conditional assignments, leaving one [key_ok] goal per assignment. *)
Ltac fields_chain :=
  repeat match goal with
  | |- fields_ok _ (if ?c then _ else _) = true =>
      let E := fresh "Ec" in destruct c eqn:E
  | |- fields_ok _ (match ?x with _ => _ end) = true =>
      let E := fresh "Em" in destruct x eqn:E
  | |- fields_ok _ (set _ _ _) = true => apply fields_ok_set
  end.

Lemma set_set (o : obj) k v w : set (set o k v) k w = set o k w.
Proof.
  induction o as [|[k' v'] o IH]; simpl.
  - now rewrite String.eqb_refl.
  - destruct (String.eqb k k') eqn:E; simpl.
    + now rewrite String.eqb_refl.
    + now rewrite E, IH.
Qed.

Lemma set_get_same (o : obj) k v : get o k = Some v -> set o k v = o.
Proof.
  induction o as [|[k' v'] o IH]; simpl; [discriminate|].
  destruct (String.eqb k k') eqn:E.
  - apply String.eqb_eq in E. intros H. inversion H. now subst.
  - intros H. now rewrite IH.
Qed.

Lemma all_digits_index_key n : all_digits (index_key n) = true.
Proof.
  unfold index_key, N_to_digits. generalize (N.to_uint (N.of_nat n)).
  intros u; induction u; simpl; auto.
Qed.

(** An object spread from an array or a buffer has no property whose
    name is not an index. *)
Lemma get_index_keys {A} (f : A -> json) n (l : list A) k :
  all_digits k = false -> get (index_keys n (map f l)) k = None.
Proof.
  intros Hk. revert n. induction l as [|x l IH]; intros n; simpl; [reflexivity|].
  destruct (String.eqb k (index_key n)) eqn:E; [|apply IH].
  apply String.eqb_eq in E. subst k. rewrite all_digits_index_key in Hk. discriminate.
Qed.

