(* ===== verification/Kind.v ===== *)
(** * The kind contract (devices/kinds/device-kind.ts)

    [DeviceKind] is the TypeScript interface [DeviceKind<TState, TCmd>] as
    a record of operations over JSON: the optional members
    ([defaultTelemetryInterval], [validate], [tick]) are [option]s.  The
    state is the JSON value stored in [DeviceState.data]; a command is the
    plain object that [coerceCommandValues] returns; capabilities are the
    merged object stored in [Device.capabilities].

    [tick] returns [SameObject] when the code returns its argument
    [prev] itself and [NewObject v] when it builds a new object: the
    telemetry heartbeat persists the result only when [data !== st.data],
    a reference comparison.  [Math.random()] is an explicit stream of
    draws in [0, 1).

    [KindLaws] is what a kind promises to the service: a well-formedness
    predicate on states that its default state satisfies and that
    [validate]-accepted commands and ticks preserve. *)

From Stdlib Require Import QArith String List Bool.
From S2P Require Import Prelude JsNum Json.
Import ListNotations.
Open Scope string_scope.

(** Successive results of [Math.random()]. *)
Definition rng := nat -> Q.

Definition rng_ok (r : rng) : Prop := forall i, 0 <= r i /\ r i < 1.

Inductive tick_out : Type :=
| SameObject
| NewObject (v : json).

Record DeviceKind : Type := {
  kind_id : string;                           (* id: string *)
  title : string;
  capabilities : obj;                         (* capabilities: () => Record *)
  defaultTelemetryInterval : option num;      (* defaultTelemetryInterval?: () => number *)
  defaultState : obj -> json;                 (* defaultState: (caps?) => TState *)
  validate : option (obj -> obj -> result unit);  (* validate?: (cmd, caps?) => void *)
  reduce : json -> obj -> obj -> json;        (* reduce: (prev, cmd, caps?) => TState *)
  tick : option (rng -> json -> obj -> tick_out)  (* tick?: (prev, caps?) => TState *)
}.

(** [kind.validate?.(cmd, caps)]: no validation when absent. *)
Definition run_validate (k : DeviceKind) (cmd caps : obj) : result unit :=
  match validate k with
  | Some f => f cmd caps
  | None => Ok tt
  end.

(** The state after a tick: the tick's object, or [prev] itself. *)
Definition tick_value (prev : json) (t : tick_out) : json :=
  match t with
  | SameObject => prev
  | NewObject v => v
  end.

(** [kind.defaultTelemetryInterval?.() ?? 0]. *)
Definition default_interval (k : DeviceKind) : num :=
  match defaultTelemetryInterval k with
  | Some n => n
  | None => Fin 0
  end.

(** What a kind promises: a state invariant [wf], established by the
    default state and preserved by accepted commands and by ticks, under
    the kind's conditions on commands ([cmd_ok]) and capabilities
    ([caps_ok]). *)
Class KindLaws (k : DeviceKind) : Type := {
  wf : json -> bool;
  cmd_ok : obj -> bool;
  caps_ok : obj -> bool;
  wf_default : forall caps, caps_ok caps = true -> wf (defaultState k caps) = true;
  wf_reduce : forall s cmd caps,
      wf s = true -> caps_ok caps = true -> cmd_ok cmd = true ->
      run_validate k cmd caps = Ok tt -> wf (reduce k s cmd caps) = true;
  wf_tick : forall r s caps f,
      rng_ok r -> wf s = true -> caps_ok caps = true -> tick k = Some f ->
      wf (tick_value s (f r s caps)) = true
}.

(** A kind reads a command only through named properties: two commands
    that agree on every key that is not an array index are validated and
    reduced alike.  The spread of a [Buffer] has index keys only. *)
Definition index_blind (k : DeviceKind) : Prop :=
  forall prev cmd cmd' caps,
    (forall key, all_digits key = false -> get cmd key = get cmd' key) ->
    run_validate k cmd caps = run_validate k cmd' caps /\ reduce k prev cmd caps = reduce k prev cmd' caps.

(** Rewrite every [get cmd "key"] of a goal into [get cmd' "key"]. *)
Ltac index_blind_rewrite H :=
  repeat (rewrite H by reflexivity).

