(* ===== verification/Light.v ===== *)
(** * The light kind (devices/kinds/light.kind.ts)

    On/off with optional brightness (0..255), colour temperature
    (153..500 mired) and RGB colour, and a display [mode] among white, ct
    and rgb.  Each operation of [LightKind] is a definition of [Module
    Light], translated statement by statement; the theorems give the
    validation ranges, the effect of a validated command, the mode
    selection rule and the state invariant. *)

From Stdlib Require Import QArith String List Bool Lqa.
From S2P Require Import Prelude JsNum Json Kind.
Import ListNotations.
Open Scope string_scope.

Module Light.

(** [clampRGB(c)]: each channel [clamp(Number(c?.r ?? 255), 0, 255)]. *)
Definition clampRGB (c : option json) : json :=
  let ch k := JNum (clamp (to_number (Some (coalesce (prop c k) (num_lit 255)))) (Fin 0) (Fin 255)) in
  JObj [("r", ch "r"); ("g", ch "g"); ("b", ch "b")].

Definition capabilities : obj :=
  [("brightness", JBool true); ("color_temp", JBool false); ("rgb", JBool false)].

(** [{ ...LightKind.capabilities(), ...(caps||{}) }]. *)
Definition merged_caps (caps : obj) : obj := spread capabilities caps.

Definition defaultState (caps : obj) : json :=
  let c := merged_caps caps in
  let st : obj := [("state", JStr "OFF")] in
  let st := if truthy (get c "brightness") then set st "brightness" (num_lit 0) else st in
  let st := if truthy (get c "color_temp")
            then set (set st "colorTemp" (num_lit 350)) "mode" (JStr "ct") else st in
  let st := if truthy (get c "rgb") then
              let st := set st "color" (JObj [("r", num_lit 255); ("g", num_lit 255); ("b", num_lit 255)]) in
              set st "mode" (if truthy (get c "color_temp") then coalesce (get st "mode") (JStr "rgb")
                             else JStr "rgb")
            else st in
  let st := if negb (truthy (get c "color_temp")) && negb (truthy (get c "rgb"))
            then set st "mode" (JStr "white") else st in
  JObj st.

(** [['white', ...(c.color_temp?['ct']:[]), ...(c.rgb?['rgb']:[])]]. *)
Definition allowed_modes (c : obj) : list string :=
  ["white"] ++ (if truthy (get c "color_temp") then ["ct"] else [])
            ++ (if truthy (get c "rgb") then ["rgb"] else []).

(** [v == null || v < 0 || v > 255] for one colour channel. *)
Definition bad_channel (v : option json) : bool :=
  nullish v || js_lt v (Some (num_lit 0)) || js_lt (Some (num_lit 255)) v.

Definition validate (cmd caps : obj) : result unit :=
  let c := merged_caps caps in
  let* _ := throwIf (truthy (get cmd "state") && negb (str_in (get cmd "state") ["ON"; "OFF"]))
                    (Error "state must be ON|OFF") in
  let* _ := (if has cmd "brightness" then
     let* _ := throwIf (negb (truthy (get c "brightness"))) (Error "brightness not supported") in
     throwIf (js_lt (get cmd "brightness") (Some (num_lit 0))
              || js_lt (Some (num_lit 255)) (get cmd "brightness")) (Error "brightness 0..255")
   else Ok tt) in
  let* _ := (if has cmd "colorTemp" then
     let* _ := throwIf (negb (truthy (get c "color_temp"))) (Error "color_temp not supported") in
     throwIf (js_lt (get cmd "colorTemp") (Some (num_lit 153))
              || js_lt (Some (num_lit 500)) (get cmd "colorTemp")) (Error "colorTemp 153..500")
   else Ok tt) in
  let* _ := (if has cmd "color" then
     let* _ := throwIf (negb (truthy (get c "rgb"))) (Error "rgb not supported") in
     let col := Some (coalesce (get cmd "color") (JObj [])) in
     throwIf (existsb bad_channel [prop col "r"; prop col "g"; prop col "b"])
             (Error "color r/g/b 0..255")
   else Ok tt) in
  (if has cmd "mode" then
     let allowed := allowed_modes c in
     throwIf (negb (str_in (get cmd "mode") allowed))
             (Error ("mode must be one of " ++ join "," allowed))
   else Ok tt).

Definition reduce (prev : json) (cmd caps : obj) : json :=
  let c := merged_caps caps in
  let next := own_props prev in
  let next := if truthy (get cmd "state")
              then set next "state" (JStr (if is_str (get cmd "state") "ON" then "ON" else "OFF"))
              else next in
  let next := if truthy (get c "brightness") && is_number (get cmd "brightness")
              then set next "brightness" (JNum (clamp (to_number (get cmd "brightness")) (Fin 0) (Fin 255)))
              else next in
  let next := if truthy (get c "color_temp") && is_number (get cmd "colorTemp")
              then set (set next "colorTemp"
                              (JNum (clamp (to_number (get cmd "colorTemp")) (Fin 153) (Fin 500))))
                       "mode" (JStr "ct")
              else next in
  let next := if truthy (get c "rgb") && truthy (get cmd "color")
              then set (set next "color" (clampRGB (get cmd "color"))) "mode" (JStr "rgb")
              else next in
  let next := match get cmd "mode" with
              | Some m => if truthy (Some m) && str_in (Some m) (allowed_modes c)
                          then set next "mode" m else next
              | None => next
              end in
  let next := if negb (truthy (get next "mode"))
              then set next "mode" (JStr (if truthy (get c "rgb") then "rgb"
                                          else if truthy (get c "color_temp") then "ct" else "white"))
              else next in
  JObj next.

Definition kind : DeviceKind := {|
  kind_id := "light";
  title := "Light";
  Kind.capabilities := capabilities;
  defaultTelemetryInterval := Some (Fin 0);
  Kind.defaultState := defaultState;
  Kind.validate := Some validate;
  Kind.reduce := reduce;
  tick := None
|}.


(** ** The state invariant

    A light state is an object whose [state] is ON or OFF, whose
    brightness, colour temperature and colour channels, when present, are
    numbers in their ranges, and whose [mode] is white, ct or rgb. *)
Definition num_field (lo hi : Q) (v : option json) : bool :=
  match v with
  | None => true
  | Some (JNum n) => num_inb lo hi n
  | _ => false
  end.

Definition channel_ok (v : option json) : bool :=
  match v with Some (JNum n) => num_inb 0 255 n | _ => false end.

Definition color_field (v : option json) : bool :=
  match v with
  | None => true
  | Some (JObj c) => channel_ok (get c "r") && channel_ok (get c "g") && channel_ok (get c "b")
  | _ => false
  end.

Definition spec : field_spec :=
  [("state", fun v => str_in v ["ON"; "OFF"]);
   ("brightness", num_field 0 255);
   ("colorTemp", num_field 153 500);
   ("color", color_field);
   ("mode", fun v => str_in v ["white"; "ct"; "rgb"])].

Definition wf (s : json) : bool :=
  match s with JObj o => fields_ok spec o | _ => false end.

(** The commands the invariant is stated for: brightness and colour
    temperature are not NaN, and the channels of a colour, when the
    command has one, convert to numbers ([Number(v)] is not NaN).
    Commands parsed from JSON satisfy the first two; the third is what
    [validate] does not check. *)
Definition not_nan_field (v : option json) : bool :=
  match v with Some (JNum NaN) => false | _ => true end.

Definition channels_numeric (col : json) : bool :=
  forallb (fun k => negb (is_nan (to_number (prop (Some col) k)))) ["r"; "g"; "b"].

Definition cmd_ok (cmd : obj) : bool :=
  not_nan_field (get cmd "brightness") && not_nan_field (get cmd "colorTemp") &&
  match get cmd "color" with Some col => channels_numeric col | None => true end.

(** ** Lemmas *)

#[local] Arguments str_in : simpl never.
#[local] Arguments color_field : simpl never.

(** What an accepted command satisfies. *)
Lemma validate_ok_inv cmd caps :
  validate cmd caps = Ok tt ->
  (has cmd "brightness" = true ->
     truthy (get (merged_caps caps) "brightness") = true /\
     js_lt (get cmd "brightness") (Some (num_lit 0)) = false /\
     js_lt (Some (num_lit 255)) (get cmd "brightness") = false) /\
  (has cmd "colorTemp" = true ->
     truthy (get (merged_caps caps) "color_temp") = true /\
     js_lt (get cmd "colorTemp") (Some (num_lit 153)) = false /\
     js_lt (Some (num_lit 500)) (get cmd "colorTemp") = false) /\
  (has cmd "color" = true ->
     let col := Some (coalesce (get cmd "color") (JObj [])) in
     truthy (get (merged_caps caps) "rgb") = true /\
     existsb bad_channel [prop col "r"; prop col "g"; prop col "b"] = false) /\
  (has cmd "mode" = true -> str_in (get cmd "mode") (allowed_modes (merged_caps caps)) = true).
Proof.
  unfold validate, throwIf. intros H.
  repeat match type of H with
  | context [if ?c then _ else _] =>
      let E := fresh "E" in destruct c eqn:E; simpl in H; try discriminate
  end.
  all: repeat split; intros; try discriminate;
       repeat match goal with H : _ || _ = false |- _ => apply orb_false_iff in H as [? ?] end;
       try apply negb_false_iff; auto.
  all: simpl; repeat match goal with H : bad_channel ?x = false |- _ => rewrite H; clear H end;
       reflexivity.
Qed.

Lemma allowed_modes_sub c s : In s (allowed_modes c) -> In s ["white"; "ct"; "rgb"].
Proof.
  unfold allowed_modes. destruct (truthy (get c "color_temp")), (truthy (get c "rgb"));
  simpl; intuition.
Qed.

Lemma has_truthy cmd k : truthy (get cmd k) = true -> has cmd k = true.
Proof. unfold has. destruct (get cmd k); simpl; congruence. Qed.

Lemma is_number_has cmd k : is_number (get cmd k) = true -> has cmd k = true.
Proof. unfold has. destruct (get cmd k); simpl; congruence. Qed.

(** A clamped colour channel of an accepted command is in range. *)
Lemma clampRGB_ok cmd :
  truthy (get cmd "color") = true ->
  existsb bad_channel (map (prop (Some (coalesce (get cmd "color") (JObj [])))) ["r"; "g"; "b"]) = false ->
  match get cmd "color" with Some col => channels_numeric col | None => true end = true ->
  color_field (Some (clampRGB (get cmd "color"))) = true.
Proof.
  intros Ht Hbad Hnan. rewrite (truthy_coalesce _ _ Ht) in Hbad.
  destruct (get cmd "color") as [col|]; [|discriminate]. unfold channels_numeric in Hnan.
  simpl in Hbad, Hnan. rewrite !orb_false_iff in Hbad. rewrite !andb_true_iff in Hnan.
  unfold clampRGB, color_field, channel_ok; simpl.
  destruct Hbad as (H1 & H2 & H3 & _). destruct Hnan as (N1 & N2 & N3 & _).
  unfold bad_channel in H1, H2, H3. rewrite !orb_false_iff in H1, H2, H3.
  destruct H1 as [[Hn1 _] _], H2 as [[Hn2 _] _], H3 as [[Hn3 _] _].
  rewrite !coalesce_not_nullish by assumption.
  rewrite !negb_true_iff in N1, N2, N3.
  rewrite !clamp_inb; auto; lra.
Qed.

(** The invariant is preserved by every accepted command. *)
Lemma wf_reduce_light s cmd caps :
  wf s = true -> cmd_ok cmd = true -> validate cmd caps = Ok tt -> wf (reduce s cmd caps) = true.
Proof.
  intros Hs Hc Hv. apply validate_ok_inv in Hv as (Hb & Hct & Hcol & Hmode).
  unfold cmd_ok in Hc. rewrite !andb_true_iff in Hc. destruct Hc as ((Nb & Nct) & Ncol).
  destruct s as [| | | | | o]; try discriminate. cbn [wf] in Hs.
  unfold reduce; cbv zeta; cbn [wf own_props].
  fields_chain; try assumption; unfold key_ok; simpl; rewrite ?andb_true_r.
  all: repeat match goal with H : _ && _ = true |- _ => apply andb_true_iff in H as [? ?] end.
  all: try solve [destruct (is_str _ _); reflexivity
                 | destruct (truthy _); [reflexivity | destruct (truthy _); reflexivity]].
  all: try solve [apply clamp_inb; [lra | apply is_number_not_nan; assumption]].
  all: try solve [apply clampRGB_ok; [assumption | apply Hcol, has_truthy; assumption | assumption]].
  all: try solve [apply (str_in_sub _ (allowed_modes (merged_caps caps)));
                  [intros ?; apply allowed_modes_sub | assumption]].
  all: repeat destruct_goal_match; reflexivity.
Qed.

Lemma wf_default_light caps : wf (defaultState caps) = true.
Proof.
  unfold defaultState; cbv zeta.
  destruct (truthy (get (merged_caps caps) "brightness")),
           (truthy (get (merged_caps caps) "color_temp")),
           (truthy (get (merged_caps caps) "rgb")); reflexivity.
Qed.

(** [get] through the conditional assignments of [reduce], for a key
    that none of them writes after the one of interest. *)
Lemma get_if_set_ne (c : bool) o o' k k' v :
  k <> k' -> get o' k' = get o k' ->
  get (if c then set o' k v else o) k' = get o k'.
Proof. intros Hne H. destruct c; [rewrite get_set_ne; assumption | reflexivity]. Qed.

(** A numeric brightness command on a dimmable light stores the clamped
    value, whatever else the command holds. *)
Lemma reduce_brightness_get prev cmd caps n :
  truthy (get (merged_caps caps) "brightness") = true ->
  get cmd "brightness" = Some (JNum n) ->
  prop (Some (reduce prev cmd caps)) "brightness" = Some (JNum (clamp n (Fin 0) (Fin 255))).
Proof.
  intros Hc Hb. unfold reduce; cbv zeta; rewrite prop_obj.
  rewrite Hc, Hb; cbn [andb is_number].
  destruct (negb _); [rewrite get_set_ne by discriminate|].
  all: destruct (get cmd "mode") as [m|]; [destruct (_ && _); [rewrite get_set_ne by discriminate|]|].
  all: destruct (_ && truthy (get cmd "color")); [rewrite !get_set_ne by discriminate|].
  all: destruct (_ && is_number (get cmd "colorTemp")); [rewrite !get_set_ne by discriminate|].
  all: rewrite get_set_eq; reflexivity.
Qed.

(** The kind reads commands through named properties only. *)
Lemma light_index_blind : index_blind kind.
Proof.
  intros prev cmd cmd' caps H. unfold run_validate. cbn [kind Kind.validate Kind.reduce].
  unfold validate, reduce, has in *. index_blind_rewrite H. split; reflexivity.
Qed.

(** ** Witnesses *)

Lemma wf_reduce_light_witness :
  wf (reduce (defaultState []) [("state", JStr "ON"); ("brightness", num_lit 200)] []) = true.
Proof. apply wf_reduce_light; vm_compute; reflexivity. Defined.

Lemma reduce_brightness_get_witness :
  prop (Some (reduce (defaultState []) [("brightness", num_lit 300)] [])) "brightness" =
  Some (JNum (clamp (Fin 300) (Fin 0) (Fin 255))).
Proof. apply reduce_brightness_get; reflexivity. Defined.

End Light.

#[export] Instance light_laws : KindLaws Light.kind := {
  wf := Light.wf;
  cmd_ok := Light.cmd_ok;
  caps_ok := fun _ => true;
  wf_default := fun caps _ => Light.wf_default_light caps;
  wf_reduce := fun s cmd caps Hs _ Hc Hv => Light.wf_reduce_light s cmd caps Hs Hc Hv;
  wf_tick := fun r s caps f _ _ _ (H : None = Some f) => match H with eq_refl => I end
}.
