(* ===== verification/Switch.v ===== *)
(** * The switch kind (devices/kinds/switch.kind.ts)

    On/off only.  Its [reduce] builds a fresh object holding [state]
    alone, so any other property of the previous state is dropped. *)

From Stdlib Require Import QArith String List Bool.
From S2P Require Import Prelude JsNum Json Kind.
Import ListNotations.
Open Scope string_scope.

Module Switch.

Definition capabilities : obj := [].

Definition defaultState (_ : obj) : json := JObj [("state", JStr "OFF")].

Definition validate (cmd _ : obj) : result unit :=
  throwIf (truthy (get cmd "state") && negb (str_in (get cmd "state") ["ON"; "OFF"]))
          (Error "state must be ON|OFF").

(** [({ state: cmd.state ? (cmd.state === 'ON' ? 'ON' : 'OFF') : prev.state })];
    an undefined [prev.state] is an absent property. *)
Definition reduce (prev : json) (cmd _ : obj) : json :=
  if truthy (get cmd "state")
  then JObj [("state", JStr (if is_str (get cmd "state") "ON" then "ON" else "OFF"))]
  else match prop (Some prev) "state" with
       | Some v => JObj [("state", v)]
       | None => JObj []
       end.

Definition kind : DeviceKind := {|
  kind_id := "switch";
  title := "Switch";
  Kind.capabilities := capabilities;
  defaultTelemetryInterval := Some (Fin 0);
  Kind.defaultState := defaultState;
  Kind.validate := Some validate;
  Kind.reduce := reduce;
  tick := None
|}.

(** A switch state: an object whose [state] is ON or OFF. *)
Definition wf (s : json) : bool :=
  match s with JObj o => str_in (get o "state") ["ON"; "OFF"] | _ => false end.

(** ** Lemmas *)

Lemma wf_reduce_switch s cmd caps :
  wf s = true -> wf (reduce s cmd caps) = true.
Proof.
  unfold reduce. destruct (truthy (get cmd "state")).
  - destruct (is_str _ _); reflexivity.
  - destruct s as [| | | | |o]; try discriminate. simpl. intros H.
    destruct (get o "state"); [exact H | discriminate].
Qed.

(** The kind reads commands through named properties only. *)
Lemma switch_index_blind : index_blind kind.
Proof.
  intros prev cmd cmd' caps H. unfold run_validate. cbn [kind Kind.validate Kind.reduce].
  unfold validate, reduce, has in *. index_blind_rewrite H. split; reflexivity.
Qed.

End Switch.

#[export] Instance switch_laws : KindLaws Switch.kind := {
  wf := Switch.wf;
  cmd_ok := fun _ => true;
  caps_ok := fun _ => true;
  wf_default := fun caps _ => eq_refl;
  wf_reduce := fun s cmd caps Hs _ _ _ => Switch.wf_reduce_switch s cmd caps Hs;
  wf_tick := fun r s caps f _ _ _ (H : None = Some f) => match H with eq_refl => I end
}.
