(* ===== verification/Fan.v ===== *)
(** * The fan kind (devices/kinds/fan.kind.ts)

    On/off with an integer speed in [0, maxSpeed]: a positive speed turns
    the fan on, OFF forces speed 0, ON at speed 0 snaps to [defaultSpeed].
    The theorems give each of these rules, the validation range, and the
    invariant "on exactly when the speed is positive". *)

From Stdlib Require Import QArith String List Bool Lqa.
From S2P Require Import Prelude JsNum Json Kind.
Import ListNotations.
Open Scope string_scope.

Module Fan.

Definition capabilities : obj := [("maxSpeed", num_lit 3); ("defaultSpeed", num_lit 1)].

(** [{ ...FanKind.capabilities(), ...(caps||{}) }]. *)
Definition merged_caps (caps : obj) : obj := spread capabilities caps.

Definition defaultState (_ : obj) : json := JObj [("state", JStr "OFF"); ("speed", num_lit 0)].

Definition validate (cmd caps : obj) : result unit :=
  let c := merged_caps caps in
  let* _ := throwIf (truthy (get cmd "state") && negb (str_in (get cmd "state") ["ON"; "OFF"]))
                    (Error "state must be ON|OFF") in
  throwIf (negb (nullish (get cmd "speed")) &&
           (js_lt (get cmd "speed") (Some (num_lit 0)) || js_lt (get c "maxSpeed") (get cmd "speed")))
          (Error ("speed 0.." ++ prim_to_string (to_prim (get c "maxSpeed")))).

Definition reduce (prev : json) (cmd caps : obj) : json :=
  let c := merged_caps caps in
  let next := own_props prev in
  let next :=
    if truthy (get cmd "state") then
      let next := set next "state" (JStr (if is_str (get cmd "state") "ON" then "ON" else "OFF")) in
      let next := if is_str (get next "state") "OFF" then set next "speed" (num_lit 0) else next in
      let next := if is_str (get next "state") "ON" &&
                     (match get next "speed" with Some (JNum n) => num_eqb n (Fin 0) | _ => false end)
                  then set_opt next "speed" (get c "defaultSpeed")
                  else next in
      next
    else next in
  let next :=
    if is_number (get cmd "speed") then
      let next := set next "speed"
                    (JNum (num_max (Fin 0) (num_min (to_number (get c "maxSpeed")) (to_number (get cmd "speed"))))) in
      set next "state" (JStr (if js_lt (Some (num_lit 0)) (get next "speed") then "ON" else "OFF"))
    else next in
  JObj next.

Definition kind : DeviceKind := {|
  kind_id := "fan";
  title := "Fan";
  Kind.capabilities := capabilities;
  defaultTelemetryInterval := Some (Fin 0);
  Kind.defaultState := defaultState;
  Kind.validate := Some validate;
  Kind.reduce := reduce;
  tick := None
|}.

(** ** The state invariant: ON exactly when the speed is a positive number,
    OFF exactly when it is 0. *)
Definition speed_of (o : obj) : option Q :=
  match get o "speed" with Some (JNum (Fin q)) => Some q | _ => None end.

Definition wf (s : json) : bool :=
  match s with
  | JObj o =>
      match speed_of o with
      | Some q => (is_str (get o "state") "ON" && qltb 0 q)
                  || (is_str (get o "state") "OFF" && Qeq_bool q 0)
      | None => false
      end
  | _ => false
  end.

(** The capabilities the invariant needs: a positive default speed and a
    maximum speed that converts to a number. *)
Definition caps_ok (caps : obj) : bool :=
  let c := merged_caps caps in
  match get c "defaultSpeed" with Some (JNum (Fin d)) => qltb 0 d | _ => false end &&
  match to_number (get c "maxSpeed") with Fin _ => true | _ => false end.

(** The commands the invariant is stated for: a numeric speed is not NaN
    (true of every command parsed from JSON). *)
Definition cmd_ok (cmd : obj) : bool :=
  match get cmd "speed" with Some (JNum NaN) => false | _ => true end.

(** ** Lemmas *)

(** C38: [validate] on a numeric speed: accepted exactly within [0, maxSpeed]. *)
Lemma validate_speed q m caps :
  get (merged_caps caps) "maxSpeed" = Some (JNum (Fin m)) ->
  validate [("speed", JNum (Fin q))] caps = Ok tt <-> 0 <= q /\ q <= m.
Proof.
  intros Hm. unfold validate. rewrite Hm. cbn - [qltb].
  unfold throwIf. num_cases; simpl; split; intros H; try discriminate;
    try (destruct H; exfalso; lra); try reflexivity; lra.
Qed.

(** A numeric speed command sets the clamped speed and turns the fan on
    exactly when that speed is positive. *)
Lemma reduce_speed prev cmd caps v m :
  get (merged_caps caps) "maxSpeed" = Some (JNum (Fin m)) ->
  get cmd "speed" = Some (JNum v) ->
  let s := num_max (Fin 0) (num_min (Fin m) v) in
  get (own_props (reduce prev cmd caps)) "speed" = Some (JNum s) /\
  get (own_props (reduce prev cmd caps)) "state" = Some (JStr (if num_lt (Fin 0) s then "ON" else "OFF")).
Proof.
  intros Hm Hv s. unfold reduce; cbv zeta. rewrite Hm, Hv. simpl own_props.
  split.
  - rewrite get_set_ne by discriminate. apply get_set_eq.
  - rewrite get_set_eq. rewrite get_set_eq. reflexivity.
Qed.

Lemma max0_min_fin m v :
  is_nan v = false -> exists q, num_max (Fin 0) (num_min (Fin m) v) = Fin q /\ 0 <= q.
Proof.
  intros Hv. unfold num_max, num_min.
  destruct v as [x| | |]; try discriminate; simpl; num_cases; simpl; num_cases;
    eexists; split; try reflexivity; lra.
Qed.

(** The numeric-speed assignment re-establishes the invariant on any object. *)
Lemma wf_speed_stage o m v :
  is_nan v = false ->
  let s := num_max (Fin 0) (num_min (Fin m) v) in
  let o1 := set o "speed" (JNum s) in
  wf (JObj (set o1 "state" (JStr (if js_lt (Some (num_lit 0)) (get o1 "speed") then "ON" else "OFF")))) = true.
Proof.
  intros Hv s o1. destruct (max0_min_fin m v Hv) as (q & Hq & Hq0). subst s o1.
  rewrite Hq. unfold wf, speed_of. rewrite get_set_ne, !get_set_eq by discriminate.
  cbn [js_lt to_prim num_lit prim_to_number num_lt]. num_cases; simpl; [reflexivity|].
  apply Qeq_bool_iff. lra.
Qed.

Lemma wf_reduce_fan s cmd caps :
  wf s = true -> caps_ok caps = true -> cmd_ok cmd = true -> wf (reduce s cmd caps) = true.
Proof.
  unfold caps_ok, cmd_ok. intros Hs Hc Hcmd. apply andb_true_iff in Hc as [Hd Hm].
  unfold reduce; cbv zeta.
  destruct (is_number (get cmd "speed")) eqn:Hn.
  - destruct (to_number (get (merged_caps caps) "maxSpeed")) as [m| | |] eqn:Em; try discriminate.
    apply wf_speed_stage. destruct (get cmd "speed") as [[| | [] | | |]|]; try discriminate; reflexivity.
  - destruct s as [| | | | |o]; try discriminate. simpl own_props.
    destruct (truthy (get cmd "state")); [|exact Hs].
    destruct (get (merged_caps caps) "defaultSpeed") as [[| | [d| | |] | | |]|] eqn:Ed; try discriminate.
    unfold wf, speed_of in Hs |- *. destruct (get o "speed") as [[| | [q| | |] | | |]|] eqn:Eq; try discriminate.
    destruct (is_str (get cmd "state") "ON");
      repeat progress (simpl_get; cbn [is_str andb orb String.eqb Ascii.eqb Bool.eqb num_eqb num_lit];
                       rewrite ?Eq).
    + destruct (Qeq_bool q 0) eqn:Eq0; unfold set_opt;
        repeat progress (simpl_get; cbn [is_str andb orb String.eqb Ascii.eqb Bool.eqb]; rewrite ?Eq).
      * rewrite Hd. reflexivity.
      * apply orb_true_iff in Hs as [Hs | Hs]; apply andb_true_iff in Hs as [_ Hs];
          [rewrite Hs; reflexivity | congruence].
    + reflexivity.
Qed.

(** The kind reads commands through named properties only. *)
Lemma fan_index_blind : index_blind kind.
Proof.
  intros prev cmd cmd' caps H. unfold run_validate. cbn [kind Kind.validate Kind.reduce].
  unfold validate, reduce, has in *. index_blind_rewrite H. split; reflexivity.
Qed.

(** ** Witnesses *)

Lemma wf_reduce_fan_witness :
  wf (reduce (defaultState []) [("speed", num_lit 2)] []) = true.
Proof. apply wf_reduce_fan; vm_compute; reflexivity. Defined.

Lemma validate_speed_witness :
  validate [("speed", JNum (Fin 2))] [] = Ok tt <-> 0 <= 2 /\ 2 <= 3.
Proof. apply validate_speed. reflexivity. Defined.

Lemma reduce_speed_witness :
  let s := num_max (Fin 0) (num_min (Fin 3) (Fin 5)) in
  get (own_props (reduce (defaultState []) [("speed", JNum (Fin 5))] [])) "speed" = Some (JNum s) /\
  get (own_props (reduce (defaultState []) [("speed", JNum (Fin 5))] [])) "state" =
    Some (JStr (if num_lt (Fin 0) s then "ON" else "OFF")).
Proof. exact (reduce_speed (defaultState []) [("speed", JNum (Fin 5))] [] (Fin 5) 3 eq_refl eq_refl). Defined.

End Fan.

#[export] Instance fan_laws : KindLaws Fan.kind := {
  wf := Fan.wf;
  cmd_ok := Fan.cmd_ok;
  caps_ok := Fan.caps_ok;
  wf_default := fun caps _ => eq_refl;
  wf_reduce := fun s cmd caps Hs Hc Hcmd _ => Fan.wf_reduce_fan s cmd caps Hs Hc Hcmd;
  wf_tick := fun r s caps f _ _ _ (H : None = Some f) => match H with eq_refl => I end
}.
