(* ===== verification/Cover.v ===== *)
(** * The cover kind (devices/kinds/cover.kind.ts)

    A blind with a position in [0, 100] and an action among OPEN, CLOSE
    and STOP.  [tick] moves the position by [speedPerTick] towards the
    extreme while [moving] and stops there.  [reduce] applies the [invert]
    capability twice, a no-op the source comments on and the spec asks to
    keep.  The theorems give the convergence of [tick] with its step
    count and the invert no-op, both for integer positions and speeds:
    the model computes in rationals, and JavaScript's doubles compute
    integers below 2^53 exactly, so there the two agree.  On fractions
    they do not (ten steps of 0.1 do not add up to 1, and
    [100 - (100 - 0.1)] is [0.09999999999999432]); the model is silent
    there. *)

From Stdlib Require Import QArith String List Bool Lqa ZArith Lia.
From S2P Require Import Prelude JsNum Json Kind.
Import ListNotations.
Open Scope string_scope.

Module Cover.

Definition capabilities : obj := [("speedPerTick", num_lit 5); ("invert", JBool false)].

(** [{ ...CoverKind.capabilities(), ...(caps||{}) }]. *)
Definition merged_caps (caps : obj) : obj := spread capabilities caps.

Definition defaultState (caps : obj) : json :=
  let c := merged_caps caps in
  JObj [("position", num_lit (if truthy (get c "invert") then 100 else 0));
        ("action", JStr "STOP"); ("moving", JBool false)].

Definition validate (cmd _ : obj) : result unit :=
  let* _ := throwIf (negb (nullish (get cmd "position")) &&
                     (js_lt (get cmd "position") (Some (num_lit 0)) || js_lt (Some (num_lit 100)) (get cmd "position")))
                    (Error "position 0..100") in
  throwIf (truthy (get cmd "action") && negb (str_in (get cmd "action") ["OPEN"; "CLOSE"; "STOP"]))
          (Error "action must be OPEN|CLOSE|STOP").

(** [next.position = 100 - next.position]. *)
Definition invert_position (next : obj) : obj :=
  set next "position" (JNum (js_sub (Some (num_lit 100)) (get next "position"))).

Definition reduce (prev : json) (cmd caps : obj) : json :=
  let c := merged_caps caps in
  let next := own_props prev in
  let next := if is_number (get cmd "position") then
                let next := set next "position" (JNum (clamp (to_number (get cmd "position")) (Fin 0) (Fin 100))) in
                let next := set next "action" (JStr "STOP") in
                set next "moving" (JBool false)
              else next in
  let next := match get cmd "action" with
              | Some a => if truthy (Some a) then
                            let next := set next "action" a in
                            set next "moving" (JBool (is_str (Some a) "OPEN" || is_str (Some a) "CLOSE"))
                          else next
              | None => next
              end in
  let next := if truthy (get c "invert") then invert_position next else next in
  let next := if truthy (get c "invert") then invert_position next else next in
  JObj next.

Definition tick (_ : rng) (prev : json) (caps : obj) : tick_out :=
  let c := merged_caps caps in
  if negb (truthy (prop (Some prev) "moving")) then SameObject
  else
    let action := prop (Some prev) "action" in
    let pos := prop (Some prev) "position" in
    let pos := if is_str action "OPEN" then Some (js_add pos (get c "speedPerTick")) else pos in
    let pos := if is_str action "CLOSE" then Some (JNum (js_sub pos (get c "speedPerTick"))) else pos in
    let pos := clamp (to_number pos) (Fin 0) (Fin 100) in
    let atEnd := (is_str action "OPEN" && num_le (Fin 100) pos)
                 || (is_str action "CLOSE" && num_le pos (Fin 0)) in
    NewObject (JObj ([("position", JNum pos)]
                     ++ (match (if atEnd then Some (JStr "STOP") else action) with
                         | Some a => [("action", a)]
                         | None => []
                         end)
                     ++ [("moving", JBool (negb atEnd))])).

Definition kind : DeviceKind := {|
  kind_id := "cover";
  title := "Cover / Blind";
  Kind.capabilities := capabilities;
  defaultTelemetryInterval := Some (Fin 2);
  Kind.defaultState := defaultState;
  Kind.validate := Some validate;
  Kind.reduce := reduce;
  Kind.tick := Some tick
|}.

(** [n] successive telemetry ticks. *)
Fixpoint ticks (n : nat) (r : rng) (s : json) (caps : obj) : json :=
  match n with
  | O => s
  | S n' => ticks n' r (tick_value s (tick r s caps)) caps
  end.

(** The resting state at the open end. *)
Definition opened : json :=
  JObj [("position", num_lit 100); ("action", JStr "STOP"); ("moving", JBool false)].



(** ** Lemmas *)

(** A stopped cover is left as it is: the tick returns [prev] itself. *)
Lemma tick_stopped r s caps :
  truthy (prop (Some s) "moving") = false -> tick r s caps = SameObject.
Proof. intros H. unfold tick. rewrite H. reflexivity. Qed.

Lemma ticks_stopped n r s caps :
  truthy (prop (Some s) "moving") = false -> ticks n r s caps = s.
Proof.
  intros H. induction n as [|n IH]; simpl; [reflexivity|].
  rewrite tick_stopped by assumption. exact IH.
Qed.

(** One tick of an opening cover. *)
Lemma tick_open r o p sp caps :
  get (merged_caps caps) "speedPerTick" = Some (JNum (Fin sp)) ->
  get o "position" = Some (JNum (Fin p)) -> get o "action" = Some (JStr "OPEN") ->
  truthy (get o "moving") = true -> 0 <= p -> 0 < sp ->
  tick r (JObj o) caps =
  NewObject (if Qle_bool 100 (p + sp) then opened
             else JObj [("position", JNum (fin (p + sp))); ("action", JStr "OPEN"); ("moving", JBool true)]).
Proof.
  intros Hsp Hp Ha Hm Hp0 Hsp0. unfold tick. rewrite !prop_obj, Hm, Hp, Ha, Hsp.
  cbn [negb is_str String.eqb Ascii.eqb Bool.eqb andb orb js_add to_prim prim_to_number to_number num_add].
  unfold clamp, num_max, num_min, fin, opened, num_lit. cbn [is_nan orb num_lt num_le negb].
  pose proof (Qred_correct (p + sp)) as Hr.
  destruct (Qle_bool 100 (p + sp)) eqn:E; [apply Qle_bool_iff in E | apply Qle_bool_false in E];
    num_cases; cbn [num_lt num_le negb andb orb]; num_cases; try (exfalso; lra);
    cbn [is_nan negb andb orb num_lt num_le app]; num_cases; try (exfalso; lra); reflexivity.
Qed.

Lemma inject_Z_S n : inject_Z (Z.of_nat (S n)) == inject_Z (Z.of_nat n) + 1.
Proof. rewrite Nat2Z.inj_succ, <- Z.add_1_r, inject_Z_plus. reflexivity. Qed.

(** In rationals, an opening cover at position [p] with step [sp > 0]
    reaches the open end and stops within [n] ticks as soon as
    [p + n * sp >= 100], and stays there. *)
Lemma ticks_open_reach n r o p sp caps :
  get (merged_caps caps) "speedPerTick" = Some (JNum (Fin sp)) -> 0 < sp ->
  get o "position" = Some (JNum (Fin p)) -> get o "action" = Some (JStr "OPEN") ->
  truthy (get o "moving") = true -> 0 <= p ->
  (1 <= n)%nat -> 100 <= p + inject_Z (Z.of_nat n) * sp ->
  ticks n r (JObj o) caps = opened.
Proof.
  revert o p. induction n as [|n IH]; intros o p Hsp Hsp0 Hp Ha Hm Hp0 Hn Hreach; [lia|].
  simpl ticks. rewrite (tick_open r o p sp caps) by assumption. simpl tick_value.
  destruct (Qle_bool 100 (p + sp)) eqn:E.
  - apply ticks_stopped. reflexivity.
  - apply Qle_bool_false in E. rewrite inject_Z_S in Hreach.
    destruct n as [|n].
    { assert (H0 : inject_Z (Z.of_nat 0) == 0) by reflexivity. rewrite H0 in Hreach. lra. }
    pose proof (Qred_correct (p + sp)) as Hr.
    apply (IH _ (Qred (p + sp))); try reflexivity; try assumption; try lia; try lra.
Qed.








(** ** Theorems *)

(** C39: An opening cover at an integer position [p] with an integer
    step [sp > 0] reaches the open end and stops within [n] ticks as
    soon as [p + n * sp >= 100], and stays there. *)
Theorem ticks_open_converge n r o (p sp : Z) caps :
  get (merged_caps caps) "speedPerTick" = Some (JNum (Fin (inject_Z sp))) -> (0 < sp)%Z ->
  get o "position" = Some (JNum (Fin (inject_Z p))) -> get o "action" = Some (JStr "OPEN") ->
  truthy (get o "moving") = true -> (0 <= p)%Z ->
  (1 <= n)%nat -> (100 <= p + Z.of_nat n * sp)%Z ->
  ticks n r (JObj o) caps = opened.
Proof.
  intros Hsp Hsp0 Hp Ha Hm Hp0 Hn Hreach.
  apply (ticks_open_reach n r o (inject_Z p) (inject_Z sp)); auto.
  - change 0 with (inject_Z 0). rewrite <- Zlt_Qlt. exact Hsp0.
  - change 0 with (inject_Z 0). rewrite <- Zle_Qle. exact Hp0.
  - change 100 with (inject_Z 100). rewrite <- inject_Z_mult, <- inject_Z_plus, <- Zle_Qle. exact Hreach.
Qed.


(** The kind reads commands through named properties only. *)
Lemma cover_index_blind : index_blind kind.
Proof.
  intros prev cmd cmd' caps H. unfold run_validate. cbn [kind Kind.validate Kind.reduce].
  unfold validate, reduce, has in *. index_blind_rewrite H. split; reflexivity.
Qed.

(** ** Witnesses *)

Lemma ticks_open_converge_witness :
  ticks 20 (fun _ => 0) (JObj [("position", num_lit 0); ("action", JStr "OPEN"); ("moving", JBool true)]) [] = opened.
Proof.
  apply (ticks_open_converge 20 _ _ 0 5); try reflexivity; try lia; vm_compute; reflexivity.
Defined.


End Cover.
