(* ===== verification/Registry.v ===== *)
(** * The kind registry (devices/kinds/registry.ts)

    [REGISTRY] is a plain object literal, so [REGISTRY[id]] also finds
    the members every object inherits from [Object.prototype]
    ([constructor], [toString], ...): [getKind] returns them instead of
    throwing "Unsupported device type", and the first method call on them
    fails with a [TypeError].  [kind_ref] keeps the two apart:
    [Registered] is one of the five kinds, [Inherited] a prototype
    member.  [call_*] are the service's method calls through a
    [kind_ref]. *)

From Stdlib Require Import QArith String List Bool.
From S2P Require Import Prelude JsNum Json Kind Light Switch Fan Cover Sensor.
Import ListNotations.
Open Scope string_scope.

Module Registry.

Definition REGISTRY : list (string * DeviceKind) :=
  [(kind_id Light.kind, Light.kind); (kind_id Switch.kind, Switch.kind);
   (kind_id Sensor.kind, Sensor.kind); (kind_id Cover.kind, Cover.kind);
   (kind_id Fan.kind, Fan.kind)].

(** The members of [Object.prototype], all truthy. *)
Definition object_prototype : list string :=
  ["constructor"; "__defineGetter__"; "__defineSetter__"; "hasOwnProperty";
   "__lookupGetter__"; "__lookupSetter__"; "isPrototypeOf"; "propertyIsEnumerable";
   "toString"; "valueOf"; "__proto__"; "toLocaleString"].

Inductive kind_ref : Type :=
| Registered (k : DeviceKind)
| Inherited (name : string).

Fixpoint lookup (id : string) (l : list (string * DeviceKind)) : option DeviceKind :=
  match l with
  | [] => None
  | (k, v) :: l' => if String.eqb id k then Some v else lookup id l'
  end.

(** [REGISTRY[id]]: an own property, else an inherited one, else undefined. *)
Definition registry_get (id : string) : option kind_ref :=
  match lookup id REGISTRY with
  | Some k => Some (Registered k)
  | None => if existsb (String.eqb id) object_prototype then Some (Inherited id) else None
  end.

Definition getKind (id : string) : result kind_ref :=
  match registry_get id with
  | Some k => Ok k
  | None => Throw (Error ("Unsupported device type: " ++ id))
  end.

Definition hasKind (id : string) : bool :=
  match registry_get id with Some _ => true | None => false end.

(** [Object.keys(REGISTRY)]: own keys only. *)
Definition kindIds : list string := map fst REGISTRY.

Definition listKinds : list (string * string * obj) :=
  map (fun kv => (kind_id (snd kv), title (snd kv), capabilities (snd kv))) REGISTRY.

(** ** Method calls through a [kind_ref] *)

Definition not_a_function (m : string) : exn := TypeError ("kind." ++ m ++ " is not a function").

(** [kind.capabilities()]. *)
Definition call_capabilities (k : kind_ref) : result obj :=
  match k with
  | Registered k => Ok (capabilities k)
  | Inherited _ => Throw (not_a_function "capabilities")
  end.

(** [kind.defaultTelemetryInterval?.() ?? 0]. *)
Definition call_default_interval (k : kind_ref) : num :=
  match k with
  | Registered k => default_interval k
  | Inherited _ => Fin 0
  end.

Definition call_defaultState (k : kind_ref) (caps : obj) : result json :=
  match k with
  | Registered k => Ok (defaultState k caps)
  | Inherited _ => Throw (not_a_function "defaultState")
  end.

(** [kind.validate?.(cmd, caps)]. *)
Definition call_validate (k : kind_ref) (cmd caps : obj) : result unit :=
  match k with
  | Registered k => run_validate k cmd caps
  | Inherited _ => Ok tt
  end.

Definition call_reduce (k : kind_ref) (prev : json) (cmd caps : obj) : result json :=
  match k with
  | Registered k => Ok (reduce k prev cmd caps)
  | Inherited _ => Throw (not_a_function "reduce")
  end.

(** [typeof kind.tick === 'function' ? kind.tick(...) : ...]. *)
Definition tick_fn (k : kind_ref) : option (rng -> json -> obj -> tick_out) :=
  match k with
  | Registered k => tick k
  | Inherited _ => None
  end.

(** ** Lemmas *)

Lemma getKind_Registered_inv id k :
  getKind id = Ok (Registered k) -> lookup id REGISTRY = Some k.
Proof.
  unfold getKind, registry_get. destruct (lookup id REGISTRY); [congruence|].
  destruct (existsb _ _); discriminate.
Qed.

(** Every registered kind's default interval is a number. *)
Lemma lookup_interval_ok id k : lookup id REGISTRY = Some k -> is_nan (default_interval k) = false.
Proof.
  unfold REGISTRY. simpl.
  repeat (destruct (String.eqb _ _); [intros H; injection H as <-; reflexivity|]). discriminate.
Qed.

Lemma lookup_index_blind id k : lookup id REGISTRY = Some k -> index_blind k.
Proof.
  unfold REGISTRY. simpl.
  repeat (destruct (String.eqb _ _); [intros H; injection H as <-|]); try discriminate.
  - apply Light.light_index_blind.
  - apply Switch.switch_index_blind.
  - apply Sensor.sensor_index_blind.
  - apply Cover.cover_index_blind.
  - apply Fan.fan_index_blind.
Qed.

(** Every kind accepts the empty command. *)
Lemma lookup_validate_empty id k caps : lookup id REGISTRY = Some k -> run_validate k [] caps = Ok tt.
Proof.
  unfold REGISTRY. simpl.
  repeat (destruct (String.eqb _ _); [intros H; injection H as <-; reflexivity|]). discriminate.
Qed.

Lemma getKind_registered id k :
  lookup id REGISTRY = Some k -> getKind id = Ok (Registered k).
Proof. intros H. unfold getKind, registry_get. rewrite H. reflexivity. Qed.

End Registry.
