(* ===== verification/Topics.v ===== *)
(** * Topic names (mqtt/topics.ts) and the command-topic parser
    (mqtt/mqtt.service.ts, the ['message'] handler)

    The four topic builders, [String.prototype.split('/')], and the test
    the MQTT adapter applies to an inbound topic before it routes it as a
    command.  The theorems show that parsing inverts [topics.cmd] for
    segments without a slash, that a parsed topic is exactly the command
    topic of its parts, and that state, status and discovery topics are
    never taken for commands. *)

From Stdlib Require Import String Ascii List Bool.
From S2P Require Import Prelude.
Import ListNotations.
Open Scope string_scope.

Module Topics.

Definition slash : ascii := "/".

Definition cmd (ns type id : string) : string := ns ++ "/" ++ type ++ "/" ++ id ++ "/set".
Definition state (ns type id : string) : string := ns ++ "/" ++ type ++ "/" ++ id ++ "/state".
Definition status (ns type id : string) : string := ns ++ "/" ++ type ++ "/" ++ id ++ "/status".
Definition discovery (ns type id : string) : string := ns ++ "/discovery/" ++ type ++ "/" ++ id.

(** [s.split('/')]: the maximal slash-free pieces, empty ones included. *)
Fixpoint split (s : string) : list string :=
  match s with
  | EmptyString => [""]
  | String c s' =>
      if Ascii.eqb c slash then "" :: split s'
      else match split s' with
           | p :: ps => String c p :: ps
           | [] => [String c EmptyString]
           end
  end.

(** [const parts = topic.split('/'); if (parts.length === 4 && parts[0] ===
    this.ns && parts[3] === 'set') { const [, type, id] = parts; ... }]. *)
Definition parse_cmd (ns topic : string) : option (string * string) :=
  match split topic with
  | [p0; type; id; p3] => if String.eqb p0 ns && String.eqb p3 "set" then Some (type, id) else None
  | _ => None
  end.

(** The wildcard subscription [${ns}/+/+/set]. *)
Definition wildcard (ns : string) : string := ns ++ "/+/+/set".

Fixpoint no_slash (s : string) : bool :=
  match s with
  | EmptyString => true
  | String c s' => negb (Ascii.eqb c slash) && no_slash s'
  end.

(** The inverse of [split]: the pieces joined with slashes. *)
Fixpoint join_slash (l : list string) : string :=
  match l with
  | [] => ""
  | [p] => p
  | p :: l' => p ++ "/" ++ join_slash l'
  end.

(** ** Lemmas *)

Lemma split_no_slash s : no_slash s = true -> split s = [s].
Proof.
  induction s as [|c s IH]; simpl; [reflexivity|].
  intros H. apply andb_true_iff in H as [Hc Hs]. apply negb_true_iff in Hc.
  rewrite Hc, IH by assumption. reflexivity.
Qed.

Lemma split_app s t : no_slash s = true -> split (s ++ String slash t) = s :: split t.
Proof.
  induction s as [|c s IH]; simpl; [reflexivity|].
  intros H. apply andb_true_iff in H as [Hc Hs]. apply negb_true_iff in Hc.
  rewrite Hc, IH by assumption. reflexivity.
Qed.

Lemma split_nonempty s : split s <> [].
Proof.
  destruct s as [|c s]; simpl; [discriminate|].
  destruct (Ascii.eqb c slash); [discriminate|]. destruct (split s); discriminate.
Qed.

Lemma join_split s : join_slash (split s) = s.
Proof.
  induction s as [|c s IH]; simpl; [reflexivity|].
  destruct (Ascii.eqb c slash) eqn:E.
  - apply Ascii.eqb_eq in E. subst c. simpl.
    destruct (split s) as [|p ps] eqn:Es; [exfalso; eapply split_nonempty; eauto|].
    simpl in *. rewrite IH. reflexivity.
  - destruct (split s) as [|p ps] eqn:Es; [exfalso; eapply split_nonempty; eauto|].
    simpl in *. destruct ps; simpl; rewrite <- IH; reflexivity.
Qed.

(** C37: Parsing inverts [topics.cmd] when no segment holds a slash. *)
Theorem parse_cmd_roundtrip ns type id :
  no_slash ns = true -> no_slash type = true -> no_slash id = true ->
  parse_cmd ns (cmd ns type id) = Some (type, id).
Proof.
  intros Hns Ht Hi. unfold parse_cmd, cmd. simpl (_ ++ _)%string at 1.
  change ("/" ++ type ++ "/" ++ id ++ "/set")%string with (String slash (type ++ String slash (id ++ String slash "set"))).
  rewrite !split_app by assumption. simpl. rewrite String.eqb_refl. reflexivity.
Qed.

(** A topic the adapter routes as a command is the command topic of the
    type and id it routes to. *)
Theorem parse_cmd_inverse ns topic type id :
  parse_cmd ns topic = Some (type, id) -> topic = cmd ns type id.
Proof.
  unfold parse_cmd. rewrite <- (join_split topic) at 2.
  destruct (split topic) as [|p0 [|t [|i [|p3 [|]]]]]; try discriminate.
  destruct (String.eqb p0 ns) eqn:E0, (String.eqb p3 "set") eqn:E3; try discriminate.
  intros H. inversion H; subst.
  apply String.eqb_eq in E0, E3. subst. reflexivity.
Qed.

(** The state and status topics a device publishes are never routed back
    as commands. *)
Theorem state_status_not_cmd ns type id :
  no_slash ns = true -> no_slash type = true -> no_slash id = true ->
  parse_cmd ns (state ns type id) = None /\ parse_cmd ns (status ns type id) = None.
Proof.
  intros Hns Ht Hi. unfold parse_cmd, state, status.
  change ("/" ++ type ++ "/" ++ id ++ "/state")%string with (String slash (type ++ String slash (id ++ String slash "state"))).
  change ("/" ++ type ++ "/" ++ id ++ "/status")%string with (String slash (type ++ String slash (id ++ String slash "status"))).
  rewrite !split_app by assumption. simpl. rewrite andb_false_r. split; reflexivity.
Qed.

(** ** Witnesses *)

Lemma parse_cmd_roundtrip_witness : parse_cmd "sim" (cmd "sim" "light" "abc") = Some ("light", "abc").
Proof. apply parse_cmd_roundtrip; reflexivity. Defined.

Lemma parse_cmd_inverse_witness : "sim/light/abc/set" = cmd "sim" "light" "abc".
Proof. apply parse_cmd_inverse. reflexivity. Defined.

Lemma state_status_not_cmd_witness :
  parse_cmd "sim" (state "sim" "light" "abc") = None /\ parse_cmd "sim" (status "sim" "light" "abc") = None.
Proof. apply state_status_not_cmd; reflexivity. Defined.

End Topics.
