(* ===== verification/Store.v ===== *)
(** * The device store (devices/device.entity.ts, devices/device-state.entity.ts)

    The two TypeORM entities and the repository calls the service makes.
    [Device] has the columns of [device.entity.ts]; the [Device] table is
    a list in insertion order, the order in which a plain [find()] (the
    export, the start-up, the import) is taken to return rows; the
    paged [list()], whose
    order SQLite's plan chooses, takes it as a [Query.Plan].  The table
    has the unique index on [(type, slug)] checked by [save] and [update] as
    SQLite does (a NULL slug never collides).  [DeviceState] rows are a
    [gmap] from [deviceId] to the stored JSON; the [simple-json] column
    stores [JSON.stringify(data)], so the stored value is [serialize
    data]; [states.update] on a missing row changes nothing, and deleting
    a device deletes its row ([onDelete: 'CASCADE']).  Identifiers
    ([PrimaryGeneratedColumn('uuid')]) and timestamps come from counters. *)

From Stdlib Require Import QArith String List Bool.
From stdpp Require Import gmap strings.
From S2P Require Import Prelude JsNum Json.
Import ListNotations.
Open Scope string_scope.

Module Store.

Record Device : Type := mkDevice {
  id : string;
  type : string;
  name : string;
  slug : option string;
  capabilities : obj;
  templateId : option string;
  topicBase : string;
  retained : bool;
  telemetryIntervalSec : num;
  createdAt : nat;
  updatedAt : nat
}.

Record DB : Type := mkDB {
  devices : list Device;
  states : gmap string json
}.

(** [findOneBy({ id })]. *)
Definition findById (db : DB) (i : string) : option Device :=
  find (fun d => String.eqb (id d) i) (devices db).

Definition slug_eqb (a b : option string) : bool :=
  match a, b with Some x, Some y => String.eqb x y | _, _ => false end.

(** [findOne({ where: { type, slug } })] with a slug given. *)
Definition findByTypeSlug (db : DB) (t s : string) : option Device :=
  find (fun d => String.eqb (type d) t && slug_eqb (slug d) (Some s)) (devices db).

(** Whether a row other than [d] holds [d]'s [(type, slug)]. *)
Definition collides (db : DB) (d : Device) : bool :=
  existsb (fun e => negb (String.eqb (id e) (id d)) && String.eqb (type e) (type d)
                    && slug_eqb (slug e) (slug d)) (devices db).

Definition unique_violation : exn := QueryFailed "SQLITE_CONSTRAINT".

(** The NOT NULL columns: SQLite stores a NaN bound to the [int] column
    [telemetryIntervalSec] as NULL, which the constraint rejects. *)
Definition row_ok (d : Device) : bool := negb (is_nan (telemetryIntervalSec d)).

(** [devices.save(entity)]: an UPDATE of the row with the same id, or an
    INSERT at the end; the unique index can reject either. *)
Definition save (db : DB) (d : Device) : result DB :=
  if negb (row_ok d) || collides db d then Throw unique_violation
  else if existsb (fun e => String.eqb (id e) (id d)) (devices db)
  then Ok (mkDB (map (fun e => if String.eqb (id e) (id d) then d else e) (devices db)) (states db))
  else Ok (mkDB (devices db ++ [d]) (states db)).

(** [devices.save(devices.create({...}))] of a new entity: an INSERT with
    the generated id; the primary key and the unique index can reject it. *)
Definition insert (db : DB) (d : Device) : result DB :=
  if negb (row_ok d) || collides db d || existsb (fun e => String.eqb (id e) (id d)) (devices db)
  then Throw unique_violation
  else Ok (mkDB (devices db ++ [d]) (states db)).

(** [devices.update({ id }, patch)] of an existing row: an UPDATE ...
    WHERE id, which the unique index can reject. *)
Definition update (db : DB) (d : Device) : result DB :=
  if negb (row_ok d) || collides db d then Throw unique_violation
  else Ok (mkDB (map (fun e => if String.eqb (id e) (id d) then d else e) (devices db)) (states db)).

(** [devices.delete({ id })], with the cascade to the state row. *)
Definition delete (db : DB) (i : string) : DB :=
  mkDB (List.filter (fun e => negb (String.eqb (id e) i)) (devices db)) (base.delete i (states db)).

(** [states.findOneBy({ deviceId })]. *)
Definition getState (db : DB) (i : string) : option json := states db !! i.

(** [states.save(states.create({ deviceId, data }))]. *)
Definition insertState (db : DB) (i : string) (data : json) : DB :=
  mkDB (devices db) (<[i := serialize data]> (states db)).

(** [states.update({ deviceId }, { data })]: no row, no change. *)
Definition updateState (db : DB) (i : string) (data : json) : DB :=
  match states db !! i with
  | Some _ => mkDB (devices db) (<[i := serialize data]> (states db))
  | None => db
  end.

(** ** Invariants of the store *)

(** The unique index: no two rows share a [(type, slug)] with a slug. *)
Definition slugs_unique (db : DB) : Prop :=
  forall d e, In d (devices db) -> In e (devices db) -> id d <> id e ->
    type d = type e -> slug d <> None -> slug d <> slug e.

(** Ids are a key. *)
Definition ids_unique (db : DB) : Prop := NoDup (map id (devices db)).

(** Every device has its state row and every state row its device. *)
Definition states_paired (db : DB) : Prop :=
  forall i, is_Some (states db !! i) <-> exists d, In d (devices db) /\ id d = i.

(** [save]'s UPDATE branch: the row with the entity's id replaced. *)
Definition replace (x e : Device) : Device := if String.eqb (id e) (id x) then x else e.

(** ** Lemmas *)

Lemma NoDup_list_filter {A} (f : A -> bool) (l : list A) : NoDup l -> NoDup (List.filter f l).
Proof.
  induction l as [|x l IH]; simpl; intros H; [constructor|].
  inversion H as [|? ? Hx Hl]; subst. destruct (f x); [|auto].
  constructor; [|auto]. intros Hin. apply Hx.
  apply list_elem_of_In in Hin. apply filter_In in Hin as [Hin _]. now apply list_elem_of_In.
Qed.

Lemma ids_unique_eq d e1 e2 :
  ids_unique d -> In e1 (devices d) -> In e2 (devices d) -> id e1 = id e2 -> e1 = e2.
Proof.
  unfold ids_unique. generalize (devices d) as l. induction l as [|x l IH]; simpl; [tauto|].
  intros Hnd H1 H2 Hid. inversion Hnd as [|? ? Hx Hnd']; subst.
  destruct H1 as [<-|H1], H2 as [<-|H2]; auto.
  - exfalso. apply Hx, list_elem_of_In. rewrite Hid. now apply in_map.
  - exfalso. apply Hx, list_elem_of_In. rewrite <- Hid. now apply in_map.
Qed.

Lemma findById_In d i e : findById d i = Some e -> In e (devices d) /\ id e = i.
Proof.
  unfold findById. intros H. apply find_some in H as [H1 H2]. apply String.eqb_eq in H2. auto.
Qed.

Lemma findById_None d i : findById d i = None -> forall e, In e (devices d) -> id e <> i.
Proof.
  unfold findById. intros H e He Heq. apply (find_none _ _ H) in He.
  rewrite Heq, String.eqb_refl in He. discriminate.
Qed.

(** An UPDATE that keeps the id, type and slug of the row passes the
    unique index. *)
Lemma save_replace d x e :
  row_ok x = true -> slugs_unique d -> findById d (id x) = Some e -> type x = type e -> slug x = slug e ->
  save d x = Ok (mkDB (map (replace x) (devices d)) (states d)).
Proof.
  intros Hrow Hsu He Ht Hs. apply findById_In in He as [He Hid]. unfold save.
  rewrite Hrow. replace (collides d x) with false.
  - replace (existsb _ _) with true; [reflexivity|].
    symmetry. apply existsb_exists. exists e. rewrite Hid, String.eqb_refl. auto.
  - symmetry. apply existsb_false_iff. intros y Hy.
    destruct (String.eqb (id y) (id x)) eqn:E1, (String.eqb (type y) (type x)) eqn:E2,
      (slug_eqb (slug y) (slug x)) eqn:E3; simpl; auto.
    exfalso. apply String.eqb_neq in E1. apply String.eqb_eq in E2.
    destruct (slug y) as [a|] eqn:Ey, (slug x) as [b|] eqn:Ex; try discriminate.
    apply String.eqb_eq in E3. subst b.
    apply (Hsu y e Hy He); congruence.
Qed.

Lemma id_replace x e : id (replace x e) = id e.
Proof. unfold replace. destruct (String.eqb_spec (id e) (id x)); congruence. Qed.

Lemma findById_replace d x j :
  findById (mkDB (map (replace x) (devices d)) (states d)) j = option_map (replace x) (findById d j).
Proof.
  unfold findById. simpl. induction (devices d) as [|e l IH]; simpl; [reflexivity|].
  rewrite id_replace. destruct (String.eqb (id e) j); [reflexivity | exact IH].
Qed.

Lemma findById_delete d i j :
  findById (delete d i) j = if String.eqb j i then None else findById d j.
Proof.
  unfold findById, delete. simpl.
  induction (devices d) as [|e l IH]; simpl; [destruct (String.eqb j i); reflexivity|].
  destruct (String.eqb_spec (id e) i); simpl; rewrite ?IH;
    destruct (String.eqb_spec j i), (String.eqb_spec (id e) j); simpl; congruence.
Qed.

End Store.
