(* ===== verification/Mqtt.v ===== *)
(** * The MQTT adapter (mqtt/mqtt.service.ts)

    [MqttService] keeps one client: the [connected] flag, the
    [cmdWildcardSubscribed] flag, the exact-topic handler table, whether
    a command router is registered, and, as the observable effect of the
    client, the list of messages handed to [client.publish] and of
    topics handed to [client.subscribe] / [unsubscribe], in call order.
    A payload is a string or, for an object, its JSON text, represented by
    the serialized value.  The ['message'] handler parses the topic with
    [Topics.parse_cmd] and hands [(type, id, payload)] to the router; the
    inbound payload is a [Buffer], its bytes as integers 0..255. *)

From Stdlib Require Import String Ascii List Bool ZArith.
From S2P Require Import Prelude JsNum Json Topics.
Import ListNotations.
Open Scope string_scope.

Module Mqtt.

Inductive payload : Type :=
| PText (s : string)
| PJson (v : json).

Record Message : Type := mkMessage {
  m_topic : string;
  m_payload : payload;
  m_retain : bool;
  m_qos : nat
}.

Inductive ClientCall : Type :=
| Subscribe (topic : string)
| Unsubscribe (topic : string).

Record Client : Type := mkClient {
  ns : string;
  qos : nat;
  retained : bool;                 (* MQTT_RETAINED *)
  connected : bool;
  cmdWildcardSubscribed : bool;
  handlers : list string;          (* topics of the exact-topic handler map *)
  cmdHandler : bool;               (* a command router is registered *)
  outbox : list Message;           (* client.publish calls, oldest first *)
  calls : list ClientCall          (* client.subscribe / unsubscribe calls *)
}.

Definition with_outbox (c : Client) (o : list Message) : Client :=
  mkClient (ns c) (qos c) (retained c) (connected c) (cmdWildcardSubscribed c)
           (handlers c) (cmdHandler c) o (calls c).

Definition with_calls (c : Client) (l : list ClientCall) : Client :=
  mkClient (ns c) (qos c) (retained c) (connected c) (cmdWildcardSubscribed c)
           (handlers c) (cmdHandler c) (outbox c) l.

(** [publish(topic, payload, opts)]: [retain: opts?.retain ?? this.retained]. *)
Definition publish (c : Client) (topic : string) (p : payload) (retain : option bool) : Client :=
  let data := match p with PText s => PText s | PJson v => PJson (serialize v) end in
  let r := match retain with Some b => b | None => retained c end in
  with_outbox c (outbox c ++ [mkMessage topic data r (qos c)]).

(** [subscribeCommandsWildcard()]: once per process. *)
Definition subscribeCommandsWildcard (c : Client) : Client :=
  if cmdWildcardSubscribed c then c
  else let c := with_calls c (calls c ++ [Subscribe (Topics.wildcard (ns c))]) in
       mkClient (ns c) (qos c) (retained c) (connected c) true
                (handlers c) (cmdHandler c) (outbox c) (calls c).

(** [onCommand(handler)]. *)
Definition onCommand (c : Client) : Client :=
  mkClient (ns c) (qos c) (retained c) (connected c) (cmdWildcardSubscribed c)
           (handlers c) true (outbox c) (calls c).

(** [subscribe(topic, handler)]: the broker subscription only for a new topic. *)
Definition subscribe (c : Client) (topic : string) : Client :=
  let c' := if existsb (String.eqb topic) (handlers c) then c
            else with_calls c (calls c ++ [Subscribe topic]) in
  mkClient (ns c') (qos c') (retained c') (connected c') (cmdWildcardSubscribed c')
           (topic :: filter (fun t => negb (String.eqb t topic)) (handlers c'))
           (cmdHandler c') (outbox c') (calls c').

Definition unsubscribe (c : Client) (topic : string) : Client :=
  let c' := with_calls c (calls c ++ [Unsubscribe topic]) in
  mkClient (ns c') (qos c') (retained c') (connected c') (cmdWildcardSubscribed c')
           (filter (fun t => negb (String.eqb t topic)) (handlers c'))
           (cmdHandler c') (outbox c') (calls c').

Definition set_connected (c : Client) (b : bool) : Client :=
  mkClient (ns c) (qos c) (retained c) b (cmdWildcardSubscribed c)
           (handlers c) (cmdHandler c) (outbox c) (calls c).

Definition willTopic (c : Client) : string := ns c ++ "/service/status".

(** The ['connect'] event. *)
Definition on_connect (c : Client) : Client :=
  let c := set_connected c true in
  let c := publish c (willTopic c) (PText "online") (Some true) in
  if cmdWildcardSubscribed c then subscribeCommandsWildcard c else c.

(** The ['reconnect'] and ['close'] events. *)
Definition on_disconnect (c : Client) : Client := set_connected c false.

(** What the ['message'] handler does with an inbound message: whether an
    exact-topic handler runs, and the command it routes, if any. *)
Record Dispatch : Type := mkDispatch {
  exact_handler : bool;
  routed : option (string * string * list Z)
}.

Definition on_message (c : Client) (topic : string) (msg : list Z) : Dispatch :=
  mkDispatch (existsb (String.eqb topic) (handlers c))
             (match Topics.parse_cmd (ns c) topic with
              | Some (type, id) => if cmdHandler c then Some (type, id, msg) else None
              | None => None
              end).

(** [isConnected()]. *)
Definition isConnected (c : Client) : bool := connected c.

End Mqtt.
