(* ===== verification/Service.v ===== *)
(** * The device service (devices/devices.service.ts)

    [DevicesService] as operations of a state and exception monad [M] over
    the service state [Svc]: the store, the MQTT client, the telemetry
    timer table, the log of WebSocket gateway events, the id generator
    and the clock.  A thrown exception keeps the effects that came before
    it, as the awaited calls of the code do.  The timer table maps a
    device id to the [Device] object the [setInterval] closure captured;
    a timer firing is the step [fire].  [uuidv4()] is a counter drawing
    [uuid-0], [uuid-1], ...; the invariant [ids_fresh] asks that no stored
    row carries an id it will still draw, which is what a random v4 uuid
    gives (the stored ids of an earlier run are arbitrary strings). *)

From Stdlib Require Import QArith String Ascii List Bool Arith Lia Lqa DecimalString DecimalN.
From stdpp Require Import gmap strings.
From S2P Require Import Prelude JsNum Json Kind Light Registry Topics Slug Store Mqtt.
Import ListNotations.
Open Scope string_scope.

Module Service.
Import Store.

(** The events of [DevicesGateway]. *)
Inductive Event : Type :=
| DeviceCreated (d : Device) (state : json)
| DeviceUpdated (d : Device)
| DeviceDeleted (id type : string)
| DeviceStateChanged (id type : string) (state : json).

Record Svc : Type := mkSvc {
  db : DB;
  mqtt : Mqtt.Client;
  timers : gmap string Device;     (* deviceId -> the device the closure captured *)
  events : list Event;
  uuid : nat;                      (* next generated id *)
  clock : nat;
  ns : string;                     (* MQTT_NAMESPACE *)
  discoveryEnabled : bool          (* DISCOVERY_ENABLED !== 'false' *)
}.

Definition set_db (s : Svc) (d : DB) : Svc :=
  mkSvc d (mqtt s) (timers s) (events s) (uuid s) (clock s) (ns s) (discoveryEnabled s).
Definition set_mqtt (s : Svc) (c : Mqtt.Client) : Svc :=
  mkSvc (db s) c (timers s) (events s) (uuid s) (clock s) (ns s) (discoveryEnabled s).
Definition set_timers (s : Svc) (t : gmap string Device) : Svc :=
  mkSvc (db s) (mqtt s) t (events s) (uuid s) (clock s) (ns s) (discoveryEnabled s).
Definition set_events (s : Svc) (e : list Event) : Svc :=
  mkSvc (db s) (mqtt s) (timers s) e (uuid s) (clock s) (ns s) (discoveryEnabled s).
Definition set_uuid (s : Svc) (n : nat) : Svc :=
  mkSvc (db s) (mqtt s) (timers s) (events s) n (clock s) (ns s) (discoveryEnabled s).

(** ** The monad *)

Definition M (A : Type) : Type := Svc -> result A * Svc.

Definition ret {A} (a : A) : M A := fun s => (Ok a, s).

Definition mbind {A B} (m : M A) (k : A -> M B) : M B :=
  fun s => match m s with
           | (Ok a, s') => k a s'
           | (Throw e, s') => (Throw e, s')
           end.

Definition throw {A} (e : exn) : M A := fun s => (Throw e, s).
Definition lift {A} (r : result A) : M A := fun s => (r, s).
Definition gets {A} (f : Svc -> A) : M A := fun s => (Ok (f s), s).
Definition modify (f : Svc -> Svc) : M unit := fun s => (Ok tt, f s).

Declare Scope svc_scope.
Notation "'let!' x ':=' m 'in' k" := (mbind m (fun x => k))
  (at level 200, x name, m at level 100, k at level 200) : svc_scope.
Open Scope svc_scope.

(** A fallible call of a repository or of the store. *)
Definition db_step (f : DB -> result DB) : M unit :=
  fun s => match f (db s) with
           | Ok d => (Ok tt, set_db s d)
           | Throw e => (Throw e, s)
           end.

(** [this.mqtt.publish(topic, payload, { retain })]. *)
Definition publish (topic : string) (p : Mqtt.payload) (retain : bool) : M unit :=
  modify (fun s => set_mqtt s (Mqtt.publish (mqtt s) topic p (Some retain))).

Definition emit (e : Event) : M unit := modify (fun s => set_events s (events s ++ [e])).

(** ** Telemetry *)

(** [if (!sec || sec <= 0) return]: a timer runs for a positive interval. *)
Definition armed (sec : num) : bool := num_truthy sec && negb (num_le sec (Fin 0)).

Definition clearTelemetryTimer (deviceId : string) : M unit :=
  modify (fun s => set_timers s (base.delete deviceId (timers s))).

Definition ensureTelemetryTimer (d : Device) : M unit :=
  let! _ := clearTelemetryTimer (id d) in
  if armed (telemetryIntervalSec d)
  then modify (fun s => set_timers s (<[id d := d]> (timers s)))
  else ret tt.

(** [heartbeatTick(device)] with the draws of [Math.random()]. *)
Definition heartbeatTick (r : rng) (device : Device) : M unit :=
  let! st := gets (fun s => getState (db s) (id device)) in
  match st with
  | None => ret tt
  | Some data0 =>
      let! kind := lift (Registry.getKind (type device)) in
      let caps := capabilities device in
      let! data :=
        match Registry.tick_fn kind with
        | Some f =>
            match f r data0 caps with
            | SameObject => ret data0
            | NewObject v =>
                let! _ := modify (fun s => set_db s (updateState (db s) (id device) v)) in
                ret v
            end
        | None => ret data0
        end in
      let! n := gets ns in
      let! _ := publish (Topics.state n (type device) (id device)) (Mqtt.PJson data) true in
      emit (DeviceStateChanged (id device) (type device) data)
  end.

(** The interval of device [i] elapsing: its closure runs on the device it
    captured. *)
Definition fire (r : rng) (i : string) : M unit :=
  let! t := gets (fun s => timers s !! i) in
  match t with
  | Some d => heartbeatTick r d
  | None => ret tt
  end.

(** ** Discovery (devices/discovery.ts) *)

(** A [Date] serialized by [JSON.stringify]: its ISO text, written here as
    the digits of the instant. *)
Definition iso (t : nat) : string := N_to_digits (N.of_nat t).

Definition opt_str (o : option string) : json :=
  match o with Some x => JStr x | None => JNull end.

Definition buildDiscoveryPayload (n : string) (d : Device) : json :=
  JObj [("id", JStr (id d)); ("type", JStr (type d)); ("name", JStr (name d));
        ("slug", opt_str (slug d)); ("templateId", opt_str (templateId d));
        ("capabilities", JObj (capabilities d));
        ("topics", JObj [("cmd", JStr (Topics.cmd n (type d) (id d)));
                         ("state", JStr (Topics.state n (type d) (id d)));
                         ("status", JStr (Topics.status n (type d) (id d)))]);
        ("createdAt", JStr (iso (createdAt d)));
        ("meta", JObj [("simulator", JStr "mqtt-sim"); ("version", JStr "0.1.0")])].

Definition publishDiscoveryIfEnabled (d : Device) : M unit :=
  fun s => if discoveryEnabled s
           then publish (Topics.discovery (ns s) (type d) (id d))
                        (Mqtt.PJson (buildDiscoveryPayload (ns s) d)) true s
           else (Ok tt, s).

Definition clearDiscovery (d : Device) : M unit :=
  fun s => publish (Topics.discovery (ns s) (type d) (id d)) (Mqtt.PText "") true s.

(** ** Create *)

(** [String(i)] for a counter. *)
Definition nat_str (i : nat) : string := N_to_digits (N.of_nat i).

(** The slug probed in round [i] of the auto-slug loop: [base], then
    [base-2], [base-3], ... *)
Definition candidate (base : string) (i : nat) : string :=
  if Nat.leb i 1 then base else base ++ "-" ++ nat_str i.

(** [while (await findOne({ where: { type, slug: finalSlug } })) finalSlug =
    `${base}-${i++}`], from round [i], with [fuel] rounds at most. *)
Fixpoint probe (fuel : nat) (d : DB) (type : string) (base : string) (i : nat) : option string :=
  match fuel with
  | O => None
  | S fuel' =>
      match findByTypeSlug d type (candidate base i) with
      | Some _ => probe fuel' d type base (S i)
      | None => Some (candidate base i)
      end
  end.

(** [if (slug)]: a non-empty string. *)
Definition truthy_str (o : option string) : option string :=
  match o with Some x => if String.eqb x "" then None else Some x | None => None end.

Inductive CreateOut : Type :=
| Existed (id slug : string)
| Created (d : Device) (state : json).

Definition generated_id (n : nat) : string := "uuid-" ++ nat_str n.

(** [this.devices.create({ type, name, slug, ... })] with its generated id. *)
Definition new_device (s : Svc) (type name slug : string) (caps : obj)
    (templateId : option string) (interval : num) : Device :=
  mkDevice (generated_id (uuid s)) type name (Some slug) caps templateId
           (ns s ++ "/" ++ type) true interval (clock s) (clock s).

(** One round of the [while (true)] loop body: save the device and its
    state, then publish birth, status, state and discovery, arm the
    timer and notify the gateway. *)
Definition create_once (kind : Registry.kind_ref) (type name slug : string) (caps : obj)
    (templateId : option string) (interval : num) : M CreateOut :=
  fun s =>
    let d := new_device s type name slug caps templateId interval in
    let s := set_uuid s (S (uuid s)) in
    (let! _ := db_step (fun b => insert b d) in
     let! init := lift (Registry.call_defaultState kind caps) in
     let! _ := modify (fun s => set_db s (insertState (db s) (id d) init)) in
     let! n := gets ns in
     let! _ := publish (n ++ "/service/birth")
                 (Mqtt.PJson (JObj [("deviceId", JStr (id d)); ("type", JStr type)])) false in
     let! _ := publish (Topics.status n type (id d)) (Mqtt.PText "online") true in
     let! _ := publish (Topics.state n type (id d)) (Mqtt.PJson init) true in
     let! _ := publishDiscoveryIfEnabled d in
     let! _ := (if num_lt (Fin 0) interval then ensureTelemetryTimer d else ret tt) in
     let! _ := emit (DeviceCreated d init) in
     ret (Created d init)) s.

Definition is_unique (e : exn) : bool :=
  match e with QueryFailed c => String.eqb c "SQLITE_CONSTRAINT" | _ => false end.

(** The retry loop: round [attempt], [rem = 5 - attempt] rounds left.  A
    unique violation for an automatic slug retries with
    [`${toSlug(name)}-${attempt + 1}`] until [++attempt > 5]. *)
Fixpoint save_loop (rem attempt : nat) (auto : bool) (kind : Registry.kind_ref)
    (type name finalSlug : string) (caps : obj) (templateId : option string) (interval : num)
    : M CreateOut :=
  fun s =>
    match create_once kind type name finalSlug caps templateId interval s with
    | (Throw e, s') =>
        if is_unique e && auto then
          match rem with
          | O => (Throw (Conflict ("Could not allocate unique slug for base '" ++ finalSlug ++ "'")), s')
          | S rem' => save_loop rem' (S attempt) auto kind type name
                        (Slug.toSlug name ++ "-" ++ nat_str (S attempt + 1)) caps templateId interval s'
          end
        else (Throw e, s')
    | r => r
    end.

Definition createDevice (type name : string) (slug : option string) (caps : option obj)
    (templateId : option string) : M CreateOut :=
  let! kind := (match Registry.getKind type with
                | Ok k => ret k
                | Throw _ => throw (BadRequest ("Unsupported device type: " ++ type))
                end) in
  let! existing := gets (fun s => match truthy_str slug with
                                  | Some sl => findByTypeSlug (db s) type sl
                                  | None => None
                                  end) in
  match existing, truthy_str slug with
  | Some e, Some sl => ret (Existed (id e) sl)
  | _, _ =>
      let! finalSlug := (match truthy_str slug with
                         | Some sl => ret sl
                         | None => fun s =>
                             match probe (S (length (devices (db s)))) (db s) type (Slug.toSlug name) 1 with
                             | Some c => (Ok c, s)
                             | None => (Throw (Error "slug probe"), s)
                             end
                         end) in
      let! kc := lift (Registry.call_capabilities kind) in
      let mergedCaps := spread kc (match caps with Some c => c | None => [] end) in
      let interval := Registry.call_default_interval kind in
      save_loop 5 0 (match truthy_str slug with Some _ => false | None => true end)
                kind type name finalSlug mergedCaps templateId interval
  end.

(** ** Commands *)

(** The payload [applyCommand] receives: the [Buffer] of an MQTT message
    (its bytes), or the parsed JSON body of [POST /devices/:id/command],
    an object or an array (express's JSON parser accepts no other body),
    written as [{...body}]. *)
Inductive raw : Type :=
| RawBuffer (bytes : list Z)
| RawObject (o : obj).

(** [typeof raw === 'object' ? raw : JSON.parse(raw)] followed by the
    spread of [coerceCommandValues]: a [Buffer] is an object, and its
    spread has one property per byte index. *)
Definition raw_obj (r : raw) : obj :=
  match r with
  | RawBuffer b => index_keys 0 (map (fun z => JNum (Fin (inject_Z z))) b)
  | RawObject o => o
  end.

Definition numericFields : list string :=
  ["brightness"; "colorTemperature"; "position"; "speed";
   "temperature"; "humidity"; "pressure"; "value"].

(** [coerceCommandValues(cmd)] on an object: a string field of
    [numericFields] that [parseFloat] reads as a number becomes that number. *)
Definition coerce_field (o : obj) (field : string) : obj :=
  match get o field with
  | Some (JStr v) => let n := parse_float v in if is_nan n then o else set o field (JNum n)
  | _ => o
  end.

Definition coerceCommandValues (cmd : obj) : obj := fold_left coerce_field numericFields cmd.

Definition applyCommand (deviceId type : string) (payload : raw) : M unit :=
  let! kind := lift (Registry.getKind type) in
  let! prev := gets (fun s => getState (db s) deviceId) in
  let! dev := gets (fun s => findById (db s) deviceId) in
  match prev, dev with
  | Some prev, Some dev =>
      let caps := capabilities dev in
      let cmd := coerceCommandValues (raw_obj payload) in
      let! _ := (match Registry.call_validate kind cmd caps with
                 | Ok _ => ret tt
                 | Throw e => throw (BadRequest (exn_message e))
                 end) in
      let! next := lift (Registry.call_reduce kind prev cmd caps) in
      let! _ := modify (fun s => set_db s (updateState (db s) deviceId next)) in
      let! n := gets ns in
      let! _ := publish (Topics.state n type deviceId) (Mqtt.PJson next) true in
      emit (DeviceStateChanged deviceId type next)
  | _, _ => ret tt
  end.

Definition find_or_404 (i : string) : M Device :=
  fun s => match findById (db s) i with
           | Some d => (Ok d, s)
           | None => (Throw (NotFound ("Device not found: " ++ i)), s)
           end.

Definition sendById (i : string) (cmd : obj) : M unit :=
  let! dev := find_or_404 i in
  applyCommand i (type dev) (RawObject cmd).

(** ** Update and delete *)

Definition with_interval (d : Device) (n : num) : Device :=
  mkDevice (id d) (type d) (name d) (slug d) (capabilities d) (templateId d)
           (topicBase d) (retained d) n (createdAt d) (updatedAt d).

Definition updateTelemetry (i : string) (intervalSec : num) : M (string * num) :=
  let! _ := (if num_lt intervalSec (Fin 0)
             then throw (BadRequest "intervalSec must be >= 0") else ret tt) in
  let! dev := find_or_404 i in
  let dev := with_interval dev intervalSec in
  let! _ := db_step (fun b => save b dev) in
  let! _ := ensureTelemetryTimer dev in
  ret (i, intervalSec).

(** [s.trim()]. *)
Definition trim (s : string) : string := string_of_list_ascii (trim_list (list_ascii_of_string s)).

(** The body of [PATCH /devices/:id]: each field as the parsed JSON gives it. *)
Definition updateDevice (i : string) (bname bcaps btemplate : option json) : M (string * bool) :=
  let! dev := find_or_404 i in
  let nm := match bname with
            | Some (JStr n) => if String.eqb (trim n) "" then name dev else trim n
            | _ => name dev
            end in
  let caps := match bcaps with
              | Some (JObj o) => spread (capabilities dev) o
              | Some (JArr l) => spread (capabilities dev) (own_props (JArr l))
              | _ => capabilities dev
              end in
  let tid := match btemplate with Some (JStr t) => Some t | _ => templateId dev end in
  let dev := mkDevice (id dev) (type dev) nm (slug dev) caps tid
                      (topicBase dev) (retained dev) (telemetryIntervalSec dev)
                      (createdAt dev) (updatedAt dev) in
  let! _ := db_step (fun b => save b dev) in
  let! _ := publishDiscoveryIfEnabled dev in
  let! _ := emit (DeviceUpdated dev) in
  ret (id dev, true).

Definition refreshDiscovery (i : string) : M (string * bool) :=
  let! dev := find_or_404 i in
  let! _ := publishDiscoveryIfEnabled dev in
  ret (i, true).

Definition remove (i : string) : M (string * bool) :=
  let! dev := find_or_404 i in
  let! _ := clearTelemetryTimer i in
  let! n := gets ns in
  let! _ := publish (Topics.state n (type dev) i) (Mqtt.PText "") true in
  let! _ := publish (Topics.status n (type dev) i) (Mqtt.PText "") true in
  let! _ := clearDiscovery dev in
  let! _ := modify (fun s => set_db s (delete (db s) i)) in
  let! _ := emit (DeviceDeleted i (type dev)) in
  ret (i, true).

(** ** Start-up *)

Fixpoint for_each {A} (f : A -> M unit) (l : list A) : M unit :=
  match l with
  | [] => ret tt
  | x :: l' => let! _ := f x in for_each f l'
  end.

(** [onModuleInit()]: the wildcard subscription, the router, and a timer
    for every device with [telemetryIntervalSec > 0]. *)
Definition onModuleInit : M unit :=
  let! _ := modify (fun s => set_mqtt s (Mqtt.onCommand (Mqtt.subscribeCommandsWildcard (mqtt s)))) in
  let! withTelemetry := gets (fun s => List.filter (fun d => num_lt (Fin 0) (telemetryIntervalSec d))
                                             (devices (db s))) in
  for_each ensureTelemetryTimer withTelemetry.

(** The two services as their constructors leave them: the namespace
    ([MQTT_NAMESPACE], default 'sim'), the QoS and retain defaults, the
    discovery flag, a client not connected with no subscription and no
    router, no timer; [d] is the database the process finds. *)
Definition boot (n : string) (qos : nat) (retained discovery : bool) (d : DB) : Svc :=
  mkSvc d (Mqtt.mkClient n qos retained false false [] false [] []) ∅ [] 0 0 n discovery.

(** The state [updateTelemetry] leaves behind for a device. *)
Definition telemetry_post (s : Svc) (dev : Device) (n : num) : Svc :=
  set_timers (set_db s (mkDB (map (replace (with_interval dev n)) (devices (db s))) (states (db s))))
    (if armed n then <[id dev := with_interval dev n]> (base.delete (id dev) (timers s))
     else base.delete (id dev) (timers s)).

(** ** The service invariant *)

(** No stored id is one the generator will still draw: the freshness
    that [uuidv4()] gives the service's ids, stated of the counter that
    stands for it. *)
Definition ids_fresh (s : Svc) : Prop :=
  forall d, In d (devices (db s)) -> forall n, uuid s <= n -> id d <> generated_id n.

(** The timer table follows the intervals: a device has a timer exactly
    when its interval is positive, the timer's device is the device with
    that id, captured with the current interval. *)
Definition timers_sync (s : Svc) : Prop :=
  forall i, match timers s !! i with
    | Some d => id d = i /\ exists e, findById (db s) i = Some e /\
                 telemetryIntervalSec e = telemetryIntervalSec d /\ armed (telemetryIntervalSec e) = true
    | None => forall e, findById (db s) i = Some e -> armed (telemetryIntervalSec e) = false
    end.

Definition inv (s : Svc) : Prop :=
  slugs_unique (db s) /\ ids_unique (db s) /\ states_paired (db s) /\ ids_fresh s /\ timers_sync s.

(** The state at process start: the stored rows satisfy the store's
    invariants, no stored id is one the id generator will draw, and no
    timer runs. *)
Definition boot_ok (s : Svc) : Prop :=
  slugs_unique (db s) /\ ids_unique (db s) /\ states_paired (db s) /\ ids_fresh s /\ timers s = ∅.

(** [m] keeps the invariant, whatever its outcome. *)
Definition preserves {A} (m : M A) : Prop := forall s, inv s -> inv (snd (m s)).

(** ** Lemmas *)

Lemma nat_str_inj a b : nat_str a = nat_str b -> a = b.
Proof.
  unfold nat_str, N_to_digits. intros H.
  apply (f_equal NilEmpty.uint_of_string) in H. rewrite !NilEmpty.usu in H.
  injection H as H. apply DecimalN.Unsigned.to_uint_inj in H. lia.
Qed.

Lemma string_app_inv_l (s t u : string) : (s ++ t = s ++ u)%string -> t = u.
Proof. induction s; simpl; [auto|]. intros H; injection H; auto. Qed.

Lemma string_app_length (s t : string) : String.length (s ++ t) = String.length s + String.length t.
Proof. induction s; simpl; auto. Qed.

Lemma candidate_inj base i j : 1 <= i -> 1 <= j -> candidate base i = candidate base j -> i = j.
Proof.
  unfold candidate. intros Hi Hj.
  destruct (Nat.leb_spec i 1), (Nat.leb_spec j 1); intros Heq; try lia;
    try (apply (f_equal String.length) in Heq; rewrite string_app_length in Heq; simpl in Heq; lia).
  apply string_app_inv_l in Heq. injection Heq as Heq. now apply nat_str_inj.
Qed.

Lemma filter_length_lt {A} (f : A -> bool) (l : list A) x :
  In x l -> f x = false -> length (List.filter f l) < length l.
Proof.
  induction l as [|y l IH]; simpl; [tauto|]. intros [Heq|Hin] Hf.
  - subst y. rewrite Hf. pose proof (List.filter_length_le f l). lia.
  - destruct (f y); simpl; specialize (IH Hin Hf); lia.
Qed.

Lemma findByTypeSlug_some d t sl e :
  findByTypeSlug d t sl = Some e -> In e (devices d) /\ type e = t /\ slug e = Some sl.
Proof.
  unfold findByTypeSlug. intros H. apply find_some in H as [Hin H].
  apply andb_true_iff in H as [H1 H2]. apply String.eqb_eq in H1.
  destruct (slug e) as [x|]; [|discriminate]. apply String.eqb_eq in H2. subst. auto.
Qed.

(** The probe runs one round per device holding one of the candidates, so
    a list [L] holding all of them bounds the rounds. *)
Lemma probe_some fuel d t base i (L : list Device) :
  1 <= i ->
  (forall e j, In e (devices d) -> type e = t -> i <= j ->
     slug e = Some (candidate base j) -> In e L) ->
  length L < fuel ->
  exists c, probe fuel d t base i = Some c.
Proof.
  revert i L. induction fuel as [|fuel IH]; intros i L Hi HL Hlen; [lia|]. simpl.
  destruct (findByTypeSlug d t (candidate base i)) as [e|] eqn:E; [|eauto].
  apply findByTypeSlug_some in E as (Hin & Ht & Hs).
  set (p := fun x => negb (slug_eqb (slug x) (Some (candidate base i)))).
  apply (IH (S i) (List.filter p L)); [lia| |].
  - intros e' j Hin' Ht' Hj Hs'. apply filter_In. split; [apply (HL e' j); auto; lia|].
    unfold p. rewrite Hs'. simpl. apply negb_true_iff, String.eqb_neq.
    intros Heq. apply candidate_inj in Heq; lia.
  - assert (length (List.filter p L) < length L); [|lia].
    apply (filter_length_lt p L e); [apply (HL e i); auto|].
    unfold p. rewrite Hs. simpl. now rewrite String.eqb_refl.
Qed.

Lemma probe_free fuel d t base i c :
  probe fuel d t base i = Some c -> findByTypeSlug d t c = None.
Proof.
  revert i. induction fuel as [|fuel IH]; simpl; [discriminate|]. intros i.
  destruct (findByTypeSlug d t (candidate base i)) eqn:E; [apply IH|].
  intros H; injection H as <-. exact E.
Qed.

(** C4: The auto-slug loop ends within its fuel, on a slug no device of the
    type holds. *)
Lemma probe_terminates d t base :
  exists c, probe (S (length (devices d))) d t base 1 = Some c /\ findByTypeSlug d t c = None.
Proof.
  destruct (probe_some (S (length (devices d))) d t base 1 (devices d)) as [c Hc];
    [lia | intros; assumption | lia |].
  exists c. split; [exact Hc | eapply probe_free; eauto].
Qed.

Lemma num_lt_armed n : num_lt (Fin 0) n = true -> armed n = true.
Proof.
  unfold armed, num_le. destruct n as [q| | |]; simpl; try discriminate; auto.
  intros H. rewrite H. apply qltb_iff in H.
  destruct (Qeq_bool q 0) eqn:E; [apply Qeq_bool_eq in E; lra | reflexivity].
Qed.

Lemma armed_pos n : armed n = num_lt (Fin 0) n.
Proof.
  unfold armed, num_le. destruct n as [q| | |]; simpl; auto.
  destruct (qltb 0 q) eqn:H; simpl.
  - apply qltb_iff in H. destruct (Qeq_bool q 0) eqn:E; [apply Qeq_bool_eq in E; lra | reflexivity].
  - apply andb_false_r.
Qed.

Lemma generated_id_inj a b : generated_id a = generated_id b -> a = b.
Proof. unfold generated_id. intros H. apply string_app_inv_l, nat_str_inj in H. exact H. Qed.

Lemma findById_app_ne l st d i :
  id d <> i -> findById (mkDB (l ++ [d]) st) i = findById (mkDB l st) i.
Proof.
  unfold findById. simpl. induction l as [|e l IH]; simpl.
  - intros H. apply String.eqb_neq in H. rewrite H. reflexivity.
  - intros H. destruct (String.eqb (id e) i); auto.
Qed.

Lemma findById_app_new l st d :
  (forall e, In e l -> id e <> id d) -> findById (mkDB (l ++ [d]) st) (id d) = Some d.
Proof.
  unfold findById. simpl. induction l as [|e l IH]; simpl; intros H.
  - now rewrite String.eqb_refl.
  - destruct (String.eqb (id e) (id d)) eqn:E.
    + apply String.eqb_eq in E. exfalso. eapply H; eauto.
    + apply IH. intros e' He'. apply H; auto.
Qed.

Lemma findById_complete d i e :
  In e (devices d) -> id e = i -> exists e', findById d i = Some e'.
Proof.
  intros He Hi. destruct (findById d i) as [e'|] eqn:E; eauto.
  exfalso. eapply findById_None; eauto.
Qed.

(** An INSERT with a free slug and a fresh id succeeds. *)
Lemma insert_ok d e :
  row_ok e = true ->
  findByTypeSlug d (type e) (match slug e with Some x => x | None => "" end) = None ->
  slug e <> None ->
  (forall x, In x (devices d) -> id x <> id e) ->
  insert d e = Ok (mkDB (devices d ++ [e]) (states d)).
Proof.
  intros Hrow Hfree Hs Hid. unfold insert. rewrite Hrow.
  replace (collides d e) with false; [replace (existsb _ _) with false; [reflexivity|]|].
  - symmetry. apply existsb_false_iff. intros x Hx. apply String.eqb_neq, Hid, Hx.
  - symmetry. apply existsb_false_iff. intros x Hx.
    destruct (String.eqb (id x) (id e)), (String.eqb (type x) (type e)) eqn:Et,
      (slug_eqb (slug x) (slug e)) eqn:Es; simpl; auto.
    exfalso. destruct (slug e) as [sl|]; [|congruence].
    unfold findByTypeSlug in Hfree. eapply find_none in Hfree; [|exact Hx].
    simpl in Hfree. rewrite Et, Es in Hfree. discriminate.
Qed.

(** A successful round of the loop body. *)
Lemma create_once_ok s k t nm sl caps tid iv db1 :
  insert (db s) (new_device s t nm sl caps tid iv) = Ok db1 ->
  let d := new_device s t nm sl caps tid iv in
  let init := defaultState k caps in
  exists s', create_once (Registry.Registered k) t nm sl caps tid iv s = (Ok (Created d init), s') /\
    db s' = insertState db1 (id d) init /\
    timers s' = (if num_lt (Fin 0) iv then <[id d := d]> (base.delete (id d) (timers s))
                 else timers s) /\
    uuid s' = S (uuid s) /\ ns s' = ns s /\ discoveryEnabled s' = discoveryEnabled s /\
    Mqtt.outbox (mqtt s') = app (Mqtt.outbox (mqtt s)) (app
      [Mqtt.mkMessage (ns s ++ "/service/birth")
         (Mqtt.PJson (serialize (JObj [("deviceId", JStr (id d)); ("type", JStr t)]))) false (Mqtt.qos (mqtt s));
       Mqtt.mkMessage (Topics.status (ns s) t (id d)) (Mqtt.PText "online") true (Mqtt.qos (mqtt s));
       Mqtt.mkMessage (Topics.state (ns s) t (id d)) (Mqtt.PJson (serialize init)) true (Mqtt.qos (mqtt s))]
      (if discoveryEnabled s
       then [Mqtt.mkMessage (Topics.discovery (ns s) t (id d))
               (Mqtt.PJson (serialize (buildDiscoveryPayload (ns s) d))) true (Mqtt.qos (mqtt s))]
       else [])) /\
    Mqtt.qos (mqtt s') = Mqtt.qos (mqtt s) /\ events s' = app (events s) [DeviceCreated d init].
Proof.
  intros Hins d init. subst d init.
  unfold create_once, db_step, ensureTelemetryTimer, clearTelemetryTimer, publishDiscoveryIfEnabled.
  destruct (num_lt (Fin 0) iv) eqn:Hlt;
    cbv [mbind ret lift gets modify publish emit set_db set_mqtt set_timers set_events set_uuid
         Mqtt.publish Mqtt.with_outbox];
    simpl; rewrite Hins; simpl; [rewrite (num_lt_armed iv Hlt)|];
    destruct (discoveryEnabled s); simpl; eexists; repeat split; simpl; rewrite <- ?app_assoc; reflexivity.
Qed.

Lemma generated_id_fresh s :
  ids_fresh s -> forall e, In e (devices (db s)) -> id e <> generated_id (uuid s).
Proof.
  intros Hig e He. exact (Hig e He (uuid s) (le_n _)).
Qed.

Lemma slugs_unique_app l st d :
  slugs_unique (mkDB l st) ->
  (forall e, In e l -> type e = type d -> slug d <> None -> slug e <> slug d) ->
  slugs_unique (mkDB (l ++ [d]) st).
Proof.
  unfold slugs_unique. simpl. intros H Hd e1 e2 H1 H2 Hid Ht Hs.
  apply in_app_or in H1, H2. simpl in H1, H2.
  destruct H1 as [H1|[<-|[]]], H2 as [H2|[<-|[]]]; try congruence; eauto.
  - intros Heq. apply (Hd e1); auto; congruence.
  - apply not_eq_sym, Hd; auto.
Qed.

Lemma ids_unique_app l st d :
  ids_unique (mkDB l st) -> (forall e, In e l -> id e <> id d) -> ids_unique (mkDB (l ++ [d]) st).
Proof.
  unfold ids_unique. simpl. rewrite map_app. simpl. intros H Hd.
  apply NoDup_app. split; [exact H | split; [|apply NoDup_singleton]].
  intros x Hx Hx'. apply list_elem_of_singleton in Hx'. subst x.
  apply list_elem_of_In, in_map_iff in Hx as (e & Heq & He). eapply Hd; eauto.
Qed.

Lemma states_paired_app l st d v :
  states_paired (mkDB l st) -> states_paired (mkDB (l ++ [d]) (<[id d := v]> st)).
Proof.
  unfold states_paired. simpl. intros H i. rewrite lookup_insert_is_Some.
  split.
  - intros [<-|[_ Hi]]; [exists d; rewrite in_app_iff; simpl; auto|].
    apply H in Hi as (e & He & <-). exists e. rewrite in_app_iff. auto.
  - intros (e & He & <-). apply in_app_or in He as [He|[<-|[]]]; [|auto].
    destruct (decide (id d = id e)); [auto | right; split; [auto | apply H; eauto]].
Qed.

(** [createDevice]'s INSERT of a device with a free slug keeps the
    invariant. *)
Lemma create_once_inv s kd t nm sl caps tid iv :
  is_nan iv = false -> inv s -> findByTypeSlug (db s) t sl = None ->
  inv (snd (create_once (Registry.Registered kd) t nm sl caps tid iv s)).
Proof.
  intros Hnan (Hsu & Hiu & Hsp & Hig & Hts) Hfree.
  assert (Hfresh : forall e, In e (devices (db s)) -> id e <> id (new_device s t nm sl caps tid iv))
    by (apply generated_id_fresh, Hig).
  destruct (create_once_ok s kd t nm sl caps tid iv
              (mkDB (devices (db s) ++ [new_device s t nm sl caps tid iv]) (states (db s))))
    as (s' & Hrun & Hdb & Htm & Hu & _);
    [apply insert_ok; [unfold row_ok; simpl; now rewrite Hnan | exact Hfree | discriminate | exact Hfresh]|].
  rewrite Hrun. cbn [snd]. unfold inv, ids_fresh, timers_sync.
  rewrite Hdb, Htm, Hu. unfold insertState. cbn [devices states].
  set (d := new_device s t nm sl caps tid iv) in *.
  assert (Hid : id d = generated_id (uuid s)) by reflexivity.
  assert (Hty : type d = t) by reflexivity.
  assert (Hsl : slug d = Some sl) by reflexivity.
  assert (Hiv : telemetryIntervalSec d = iv) by reflexivity.
  clearbody d. split; [|split; [|split; [|split]]].
  - apply slugs_unique_app; auto. intros e He Ht _ Hs.
    eapply find_none in Hfree; [|exact He]. rewrite Ht, Hs, Hty, Hsl in Hfree.
    simpl in Hfree. rewrite !String.eqb_refl in Hfree. discriminate.
  - apply ids_unique_app; auto.
  - apply states_paired_app; auto.
  - intros e He. apply in_app_or in He as [He|[<-|[]]].
    + intros n Hn. apply (Hig e He). lia.
    + intros n Hn. rewrite Hid. intros Heq. apply generated_id_inj in Heq. lia.
  - intros i. destruct (decide (id d = i)) as [<-|Hne].
    + rewrite findById_app_new by auto. destruct (num_lt (Fin 0) iv) eqn:Hlt.
      * rewrite lookup_insert_eq. split; [auto|]. exists d. rewrite armed_pos, Hiv. auto.
      * specialize (Hts (id d)). destruct (timers s !! id d) as [x|].
        -- destruct Hts as (_ & e & He & _). apply findById_In in He as [He Heid].
           exfalso. eapply Hfresh; eauto.
        -- intros e He. injection He as <-. rewrite armed_pos, Hiv. exact Hlt.
    + rewrite findById_app_ne by auto. specialize (Hts i).
      destruct (num_lt (Fin 0) iv); [rewrite lookup_insert_ne, lookup_delete_ne by auto|]; exact Hts.
Qed.

Lemma save_loop_ok rem att auto kind t nm fs caps tid iv s r s' :
  create_once kind t nm fs caps tid iv s = (Ok r, s') ->
  save_loop rem att auto kind t nm fs caps tid iv s = (Ok r, s').
Proof. intros H. destruct rem; simpl; rewrite H; reflexivity. Qed.

Lemma save_loop_inv rem att au s kd t nm fs caps tid iv :
  is_nan iv = false -> inv s -> findByTypeSlug (db s) t fs = None ->
  inv (snd (save_loop rem att au (Registry.Registered kd) t nm fs caps tid iv s)).
Proof.
  intros Hnan Hinv Hfree. pose proof (create_once_inv s kd t nm fs caps tid iv Hnan Hinv Hfree) as H.
  destruct (create_once_ok s kd t nm fs caps tid iv
              (mkDB (devices (db s) ++ [new_device s t nm fs caps tid iv]) (states (db s))))
    as (s' & Hrun & _).
  - apply insert_ok; [unfold row_ok; simpl; now rewrite Hnan | exact Hfree | discriminate |
      apply generated_id_fresh, Hinv].
  - rewrite Hrun in H. rewrite (save_loop_ok _ _ _ _ _ _ _ _ _ _ _ _ _ Hrun). exact H.
Qed.

(** [createDevice] keeps the service invariant, whatever the outcome. *)
Theorem createDevice_inv s t nm sl caps tid :
  inv s -> inv (snd (createDevice t nm sl caps tid s)).
Proof.
  intros Hinv. unfold createDevice. cbv [mbind ret throw gets lift].
  destruct (Registry.getKind t) as [kind|e] eqn:Hk; [|exact Hinv].
  destruct (truthy_str sl) as [x|] eqn:Hsl.
  - destruct (findByTypeSlug (db s) t x) as [e|] eqn:Hex; [exact Hinv|].
    destruct (Registry.call_capabilities kind) as [kc|e] eqn:Hc; [|exact Hinv].
    destruct kind as [kd|]; [|discriminate]. apply save_loop_inv; auto;
      eapply Registry.lookup_interval_ok, Registry.getKind_Registered_inv, Hk.
  - destruct (probe (S (length (devices (db s)))) (db s) t (Slug.toSlug nm) 1) as [fs|] eqn:Hp;
      [|exact Hinv].
    destruct (Registry.call_capabilities kind) as [kc|e] eqn:Hc; [|exact Hinv].
    destruct kind as [kd|]; [|discriminate]. apply save_loop_inv; auto;
      [eapply Registry.lookup_interval_ok, Registry.getKind_Registered_inv, Hk | eapply probe_free; eauto].
Qed.

Lemma probe_candidate fuel d t base i c :
  probe fuel d t base i = Some c -> exists j, i <= j /\ c = candidate base j.
Proof.
  revert i. induction fuel as [|fuel IH]; simpl; [discriminate|]. intros i.
  destruct (findByTypeSlug d t (candidate base i)).
  - intros H. destruct (IH (S i) H) as (j & Hj & ->). exists j. split; [lia | reflexivity].
  - intros H. injection H as <-. exists i. auto.
Qed.

Lemma findByTypeSlug_app_free l st d t x :
  findByTypeSlug (mkDB l st) t x = None -> type d = t -> slug d = Some x ->
  findByTypeSlug (mkDB (l ++ [d]) st) t x = Some d.
Proof.
  unfold findByTypeSlug. simpl. intros H Ht Hs. rewrite find_app, H. simpl.
  rewrite Ht, Hs. simpl. rewrite !String.eqb_refl. reflexivity.
Qed.

Lemma save_loop_created rem att au s kd t nm fs caps tid iv :
  is_nan iv = false -> inv s -> findByTypeSlug (db s) t fs = None ->
  let d := new_device s t nm fs caps tid iv in
  exists s', save_loop rem att au (Registry.Registered kd) t nm fs caps tid iv s =
             (Ok (Created d (defaultState kd caps)), s') /\
    findByTypeSlug (db s') t fs = Some d /\ findById (db s') (id d) = Some d /\
    getState (db s') (id d) = Some (serialize (defaultState kd caps)) /\ inv s'.
Proof.
  intros Hnan Hinv Hfree d. pose proof (generated_id_fresh s (proj1 (proj2 (proj2 (proj2 Hinv))))) as Hfr.
  destruct (create_once_ok s kd t nm fs caps tid iv (mkDB (devices (db s) ++ [d]) (states (db s))))
    as (s' & Hrun & Hdb & _).
  { apply insert_ok; [unfold row_ok; simpl; now rewrite Hnan | exact Hfree | discriminate | exact Hfr]. }
  exists s'. rewrite (save_loop_ok _ _ _ _ _ _ _ _ _ _ _ _ _ Hrun).
  pose proof (create_once_inv s kd t nm fs caps tid iv Hnan Hinv Hfree) as Hi. rewrite Hrun in Hi.
  split; [reflexivity|]. split; [|split; [|split; [|exact Hi]]];
    rewrite Hdb; unfold insertState, getState; cbn [devices states].
  - apply findByTypeSlug_app_free; [exact Hfree | reflexivity | reflexivity].
  - apply findById_app_new, Hfr.
  - apply lookup_insert_eq.
Qed.

(** C1: [createDevice] of a registered type, with no slug or one no device of
    the type holds, creates the device: a generated id, the merged
    capabilities, a slug no other device of the type holds (the caller's,
    or the name's slug with a suffix [-i]), found again by its type and
    slug, with the kind's default state stored; and the invariant holds
    after it. *)
Theorem createDevice_creates s t nm sl caps tid kd :
  inv s -> Registry.lookup t Registry.REGISTRY = Some kd ->
  match truthy_str sl with Some x => findByTypeSlug (db s) t x = None | None => True end ->
  exists d s', createDevice t nm sl caps tid s = (Ok (Created d (defaultState kd (capabilities d))), s') /\
    id d = generated_id (uuid s) /\ type d = t /\
    capabilities d = spread (Kind.capabilities kd) (match caps with Some c => c | None => [] end) /\
    (exists fs, slug d = Some fs /\ findByTypeSlug (db s') t fs = Some d /\
       match truthy_str sl with
       | Some x => fs = x
       | None => exists j, 1 <= j /\ fs = candidate (Slug.toSlug nm) j
       end) /\
    findById (db s') (id d) = Some d /\
    getState (db s') (id d) = Some (serialize (defaultState kd (capabilities d))) /\ inv s'.
Proof.
  intros Hinv Hk Hsl. unfold createDevice. cbv [mbind ret throw gets lift].
  rewrite (Registry.getKind_registered _ _ Hk).
  cbn [Registry.call_capabilities Registry.call_default_interval].
  set (mc := spread (Kind.capabilities kd) (match caps with Some c => c | None => [] end)).
  destruct (truthy_str sl) as [x|] eqn:Ex.
  - rewrite Hsl.
    destruct (save_loop_created 5 0 false s kd t nm x mc tid (default_interval kd)
                (Registry.lookup_interval_ok _ _ Hk) Hinv Hsl)
      as (s' & Hrun & Hf & Hid & Hst & Hi).
    exists (new_device s t nm x mc tid (default_interval kd)), s'. rewrite Hrun.
    refine (conj eq_refl (conj eq_refl (conj eq_refl (conj eq_refl (conj _ (conj Hid (conj Hst Hi))))))).
    exists x. auto.
  - destruct (probe_some (S (length (devices (db s)))) (db s) t (Slug.toSlug nm) 1 (devices (db s)))
      as [fs Hp]; [lia | intros; assumption | lia |].
    pose proof (probe_free _ _ _ _ _ _ Hp) as Hfree. rewrite Hp.
    destruct (save_loop_created 5 0 true s kd t nm fs mc tid (default_interval kd)
                (Registry.lookup_interval_ok _ _ Hk) Hinv Hfree)
      as (s' & Hrun & Hf & Hid & Hst & Hi).
    exists (new_device s t nm fs mc tid (default_interval kd)), s'. rewrite Hrun.
    refine (conj eq_refl (conj eq_refl (conj eq_refl (conj eq_refl (conj _ (conj Hid (conj Hst Hi))))))).
    exists fs. split; [reflexivity | split; [exact Hf | eapply probe_candidate; eauto]].
Qed.

(** C2: [createDevice] with the slug of an existing device of the type
    returns that device and changes nothing. *)
Theorem createDevice_idempotent s t nm x caps tid e k :
  Registry.getKind t = Ok k -> x <> "" -> findByTypeSlug (db s) t x = Some e ->
  createDevice t nm (Some x) caps tid s = (Ok (Existed (id e) x), s).
Proof.
  intros Hk Hx He. unfold createDevice, truthy_str. cbv [mbind ret throw gets lift].
  rewrite Hk. apply String.eqb_neq in Hx. rewrite Hx, He. reflexivity.
Qed.

Lemma inv_boot_empty n q r dsc : inv (boot n q r dsc (mkDB [] ∅)).
Proof.
  unfold inv, boot, slugs_unique, ids_unique, states_paired, ids_fresh, timers_sync, findById.
  cbn. repeat split; try tauto; try constructor.
  - rewrite lookup_empty. intros [x Hx]. discriminate.
  - intros [d [[] _]].
  - intros i. rewrite lookup_empty. discriminate.
Qed.

Lemma boot_ok_empty n q r dsc : boot_ok (boot n q r dsc (mkDB [] ∅)).
Proof.
  pose proof (inv_boot_empty n q r dsc) as (H1 & H2 & H3 & H4 & _).
  unfold boot_ok. cbn in *. auto.
Qed.

(** *** Operations that keep the invariant step by step *)

Lemma preserves_ret {A} (a : A) : preserves (ret a).
Proof. intros s H. exact H. Qed.

Lemma preserves_throw {A} e : preserves (A := A) (throw e).
Proof. intros s H. exact H. Qed.

Lemma preserves_lift {A} (r : result A) : preserves (lift r).
Proof. intros s H. exact H. Qed.

Lemma preserves_gets {A} (f : Svc -> A) : preserves (gets f).
Proof. intros s H. exact H. Qed.

Lemma preserves_bind {A B} (m : M A) (k : A -> M B) :
  preserves m -> (forall a, preserves (k a)) -> preserves (mbind m k).
Proof.
  intros Hm Hk s H. unfold mbind. specialize (Hm s H).
  destruct (m s) as [[a|e] s']; [apply Hk|]; exact Hm.
Qed.

Lemma preserves_publish t p r : preserves (publish t p r).
Proof. intros s H. exact H. Qed.

Lemma preserves_emit e : preserves (emit e).
Proof. intros s H. exact H. Qed.

Lemma preserves_publishDiscovery d : preserves (publishDiscoveryIfEnabled d).
Proof. intros s H. unfold publishDiscoveryIfEnabled. destruct (discoveryEnabled s); exact H. Qed.

Lemma preserves_clearDiscovery d : preserves (clearDiscovery d).
Proof. intros s H. exact H. Qed.

Lemma updateState_devices d i v : devices (updateState d i v) = devices d.
Proof. unfold updateState. destruct (states d !! i); reflexivity. Qed.

Lemma findById_updateState d i v j : findById (updateState d i v) j = findById d j.
Proof. unfold findById. now rewrite updateState_devices. Qed.

(** The invariant only looks at the devices, the keys of the state rows,
    the timers and the id counter. *)
Lemma inv_frame s s' :
  inv s -> devices (db s') = devices (db s) ->
  (forall j, is_Some (states (db s') !! j) <-> is_Some (states (db s) !! j)) ->
  timers s' = timers s -> uuid s' = uuid s -> inv s'.
Proof.
  intros (Hsu & Hiu & Hsp & Hig & Hts) Hd Hst Ht Hu.
  unfold inv, slugs_unique, ids_unique, states_paired, ids_fresh, timers_sync, findById in *.
  rewrite Hd, Ht, Hu. split; [|split; [|split; [|split]]]; auto.
  intros i. rewrite Hst. apply Hsp.
Qed.

Lemma preserves_updateState i v :
  preserves (modify (fun s => set_db s (updateState (db s) i v))).
Proof.
  intros s H. unfold modify. apply (inv_frame s); auto; cbn [snd db set_db]; [apply updateState_devices|].
  intros j. unfold updateState. destruct (states (db s) !! i) eqn:E; [|reflexivity].
  cbn [states]. rewrite lookup_insert_is_Some.
  split; [intros [<-|[_ Hj]]; [rewrite E; eauto | exact Hj] | intros Hj; destruct (decide (i = j)); auto].
Qed.

Create HintDb svc.
#[export] Hint Resolve preserves_ret preserves_throw preserves_lift preserves_gets
  preserves_publish preserves_emit preserves_publishDiscovery preserves_clearDiscovery
  preserves_updateState : svc.

(** Decompose a [preserves] goal along the binds of the operation and the
    cases of its matches. *)
Ltac preserve :=
  repeat first
    [ solve [eauto with svc]
    | apply preserves_bind; [|intros ?; cbv beta]
    | progress (cbv beta iota)
    | destruct_goal_match ].

Lemma preserves_applyCommand i t p : preserves (applyCommand i t p).
Proof. unfold applyCommand. preserve. Qed.

Lemma preserves_heartbeatTick r d : preserves (heartbeatTick r d).
Proof. unfold heartbeatTick. preserve. Qed.

#[export] Hint Resolve preserves_heartbeatTick : svc.

Lemma preserves_fire r i : preserves (fire r i).
Proof. unfold fire. preserve. Qed.

Lemma preserves_sendById i c : preserves (sendById i c).
Proof. unfold sendById. apply preserves_bind; [intros s H; unfold find_or_404; destruct findById; exact H|].
  intros a. apply preserves_applyCommand. Qed.

(** *** Commands *)

Lemma coerce_fields_none (fields : list string) (o : obj) :
  (forall f, In f fields -> get o f = None) -> fold_left coerce_field fields o = o.
Proof.
  revert o. induction fields as [|f fields IH]; intros o H; simpl; [reflexivity|].
  unfold coerce_field at 2. rewrite (H f (or_introl eq_refl)). apply IH. intros g Hg. apply H. now right.
Qed.

(** [coerceCommandValues] leaves the spread of a buffer as it is: its
    keys are indices, none of them a numeric field's name. *)
Lemma coerce_index_keys (bytes : list Z) :
  coerceCommandValues (raw_obj (RawBuffer bytes)) = raw_obj (RawBuffer bytes).
Proof.
  apply coerce_fields_none. intros f Hf. apply get_index_keys.
  repeat destruct Hf as [<-|Hf]; try reflexivity. destruct Hf.
Qed.

(** C6: An MQTT command's payload is never read: for a registered type,
    [applyCommand] with the [Buffer] of the message, whatever its bytes,
    does exactly what it does with the empty command [{}], because the
    spread [{...raw}] of a [Buffer] has only index keys. *)
Theorem applyCommand_ignores_buffer s i t k bytes :
  Registry.lookup t Registry.REGISTRY = Some k ->
  applyCommand i t (RawBuffer bytes) s = applyCommand i t (RawObject []) s.
Proof.
  intros Hk. unfold applyCommand. rewrite (Registry.getKind_registered _ _ Hk). cbv [mbind lift gets].
  destruct (getState (db s) i) as [prev|]; [|reflexivity].
  destruct (findById (db s) i) as [dev|]; [|reflexivity].
  rewrite coerce_index_keys.
  destruct (Registry.lookup_index_blind t k Hk prev (raw_obj (RawBuffer bytes)) [] (capabilities dev))
    as [Hv Hr]; [intros key Hkey; apply get_index_keys, Hkey|].
  cbn [Registry.call_validate Registry.call_reduce]. rewrite Hv, Hr. reflexivity.
Qed.

(** An MQTT command for a kind is never refused: its validation is
    that of the empty command. *)
Lemma applyCommand_buffer_ok s i t k bytes :
  Registry.lookup t Registry.REGISTRY = Some k -> fst (applyCommand i t (RawBuffer bytes) s) = Ok tt.
Proof.
  intros Hk. unfold applyCommand. rewrite (Registry.getKind_registered _ _ Hk). cbv [mbind lift gets].
  destruct (getState (db s) i) as [prev|]; [|reflexivity].
  destruct (findById (db s) i) as [dev|]; [|reflexivity].
  rewrite coerce_index_keys.
  destruct (Registry.lookup_index_blind t k Hk prev (raw_obj (RawBuffer bytes)) [] (capabilities dev))
    as [Hv _]; [intros key Hkey; apply get_index_keys, Hkey|].
  cbn [Registry.call_validate Registry.call_reduce]. rewrite Hv, (Registry.lookup_validate_empty _ _ _ Hk).
  reflexivity.
Qed.

(** *** Updates and deletes *)

Lemma replace_keys d x e e1 :
  ids_unique d -> findById d (id x) = Some e -> type x = type e -> slug x = slug e ->
  In e1 (devices d) -> type (replace x e1) = type e1 /\ slug (replace x e1) = slug e1.
Proof.
  intros Hiu He Ht Hs H1. apply findById_In in He as [He Hid]. unfold replace.
  destruct (String.eqb_spec (id e1) (id x)); [|auto].
  assert (e1 = e) by (apply (ids_unique_eq d); congruence). subst. auto.
Qed.

Lemma map_id_replace l x : map id (map (replace x) l) = map id l.
Proof. rewrite map_map. apply map_ext, id_replace. Qed.

Lemma in_replace l x i : (exists e, In e (map (replace x) l) /\ id e = i) <-> (exists e, In e l /\ id e = i).
Proof.
  split.
  - intros (e & He & <-). apply in_map_iff in He as (e' & <- & He'). exists e'. auto using id_replace.
  - intros (e & He & <-). exists (replace x e). split; [now apply in_map | apply id_replace].
Qed.

(** A [save] that keeps the row's id, type and slug keeps the invariant,
    given the timers agree with the new rows. *)
Lemma inv_replace s s' x e :
  inv s -> findById (db s) (id x) = Some e -> type x = type e -> slug x = slug e ->
  db s' = mkDB (map (replace x) (devices (db s))) (states (db s)) -> uuid s' = uuid s ->
  timers_sync s' -> inv s'.
Proof.
  intros (Hsu & Hiu & Hsp & Hig & _) He Ht Hs Hdb Hu Hts.
  unfold inv, slugs_unique, ids_unique, states_paired, ids_fresh. rewrite Hdb, Hu. cbn [devices states].
  split; [|split; [|split; [|split]]]; auto.
  - intros d1 d2 H1 H2. apply in_map_iff in H1 as (e1 & <- & H1), H2 as (e2 & <- & H2).
    destruct (replace_keys _ _ _ e1 Hiu He Ht Hs H1) as [-> ->].
    destruct (replace_keys _ _ _ e2 Hiu He Ht Hs H2) as [-> ->]. rewrite !id_replace. auto.
  - rewrite map_id_replace. exact Hiu.
  - intros i. rewrite in_replace. apply Hsp.
  - intros d1 H1. apply in_map_iff in H1 as (e1 & <- & H1). rewrite id_replace. auto.
Qed.

Lemma inv_delete s s' i :
  inv s -> db s' = delete (db s) i -> timers s' = base.delete i (timers s) -> uuid s' = uuid s -> inv s'.
Proof.
  intros (Hsu & Hiu & Hsp & Hig & Hts) Hdb Htm Hu.
  unfold inv, slugs_unique, ids_unique, states_paired, ids_fresh, timers_sync.
  rewrite Hdb, Htm, Hu. unfold delete at 1 2 3 4. cbn [devices states].
  split; [|split; [|split; [|split]]].
  - intros d1 d2 H1 H2. apply filter_In in H1 as [H1 _], H2 as [H2 _]. auto.
  - assert (Hm : forall l, map id (List.filter (fun e => negb (String.eqb (id e) i)) l) =
                           List.filter (fun k => negb (String.eqb k i)) (map id l)).
    { induction l as [|e l IH]; simpl; [reflexivity|]. destruct (String.eqb (id e) i); simpl; congruence. }
    rewrite Hm. apply NoDup_list_filter, Hiu.
  - intros j. rewrite lookup_delete_is_Some. split.
    + intros [Hne Hj]. apply Hsp in Hj as (e & He & <-). exists e. split; [|reflexivity].
      apply filter_In. split; [exact He|]. apply negb_true_iff, String.eqb_neq. auto.
    + intros (e & He & <-). apply filter_In in He as [He Hne].
      apply negb_true_iff, String.eqb_neq in Hne. split; [auto | apply Hsp; eauto].
  - intros d1 H1. apply filter_In in H1 as [H1 _]. auto.
  - intros j. rewrite findById_delete. destruct (String.eqb_spec j i) as [->|Hne].
    + rewrite lookup_delete_eq. discriminate.
    + rewrite lookup_delete_ne by auto. exact (Hts j).
Qed.

Lemma find_or_404_ok s i dev : findById (db s) i = Some dev -> find_or_404 i s = (Ok dev, s).
Proof. unfold find_or_404. intros ->. reflexivity. Qed.

Lemma find_or_404_missing {A} s i (k : Device -> M A) :
  findById (db s) i = None -> mbind (find_or_404 i) k s = (Throw (NotFound ("Device not found: " ++ i)), s).
Proof. unfold mbind, find_or_404. intros ->. reflexivity. Qed.

(** What [remove] does to a device that exists. *)
Lemma remove_run s i dev :
  findById (db s) i = Some dev ->
  remove i s = (Ok (i, true),
    mkSvc (delete (db s) i)
      (Mqtt.with_outbox (mqtt s) (app (Mqtt.outbox (mqtt s))
        [Mqtt.mkMessage (Topics.state (ns s) (type dev) i) (Mqtt.PText "") true (Mqtt.qos (mqtt s));
         Mqtt.mkMessage (Topics.status (ns s) (type dev) i) (Mqtt.PText "") true (Mqtt.qos (mqtt s));
         Mqtt.mkMessage (Topics.discovery (ns s) (type dev) i) (Mqtt.PText "") true (Mqtt.qos (mqtt s))]))
      (base.delete i (timers s)) (app (events s) [DeviceDeleted i (type dev)])
      (uuid s) (clock s) (ns s) (discoveryEnabled s)).
Proof.
  intros Hd. pose proof (proj2 (findById_In _ _ _ Hd)) as Hid.
  unfold remove. cbv [mbind ret gets modify publish emit clearTelemetryTimer clearDiscovery
    set_db set_mqtt set_timers set_events Mqtt.publish Mqtt.with_outbox].
  rewrite (find_or_404_ok _ _ _ Hd). cbn. rewrite Hid, <- !app_assoc. reflexivity.
Qed.

(** C8: [remove] of a device: the device, its state row and its timer are
    gone, the retained state, status and discovery topics are cleared
    with empty retained messages, in that order, the gateway hears of
    it, and the invariant holds after it. *)
Theorem remove_retracts s i dev :
  inv s -> findById (db s) i = Some dev ->
  exists s', remove i s = (Ok (i, true), s') /\
    findById (db s') i = None /\ getState (db s') i = None /\ timers s' !! i = None /\
    Mqtt.outbox (mqtt s') = app (Mqtt.outbox (mqtt s))
      [Mqtt.mkMessage (Topics.state (ns s) (type dev) i) (Mqtt.PText "") true (Mqtt.qos (mqtt s));
       Mqtt.mkMessage (Topics.status (ns s) (type dev) i) (Mqtt.PText "") true (Mqtt.qos (mqtt s));
       Mqtt.mkMessage (Topics.discovery (ns s) (type dev) i) (Mqtt.PText "") true (Mqtt.qos (mqtt s))] /\
    events s' = app (events s) [DeviceDeleted i (type dev)] /\ inv s'.
Proof.
  intros Hinv Hd. rewrite (remove_run s i dev Hd). eexists. split; [reflexivity|].
  cbn [db timers mqtt events Mqtt.outbox Mqtt.with_outbox].
  split; [|split; [|split; [|split; [|split]]]].
  - rewrite findById_delete, String.eqb_refl. reflexivity.
  - apply lookup_delete_eq.
  - apply lookup_delete_eq.
  - reflexivity.
  - reflexivity.
  - eapply inv_delete; [exact Hinv | reflexivity | reflexivity | reflexivity].
Qed.

(** [remove] of an unknown id throws [NotFound] and changes nothing. *)
Theorem remove_missing s i :
  findById (db s) i = None -> remove i s = (Throw (NotFound ("Device not found: " ++ i)), s).
Proof. apply find_or_404_missing. Qed.

(** C10: A negative interval is refused before any lookup. *)
Theorem updateTelemetry_negative s i n :
  num_lt n (Fin 0) = true ->
  updateTelemetry i n s = (Throw (BadRequest "intervalSec must be >= 0"), s).
Proof. intros H. unfold updateTelemetry. cbv [mbind throw]. rewrite H. reflexivity. Qed.

Lemma findById_replace_ne d x j :
  id x <> j -> findById (mkDB (map (replace x) (devices d)) (states d)) j = findById d j.
Proof.
  intros H. rewrite findById_replace. destruct (findById d j) as [e|] eqn:E; [|reflexivity].
  apply findById_In in E as [_ <-]. simpl. unfold replace.
  destruct (String.eqb_spec (id e) (id x)); congruence.
Qed.

Lemma updateTelemetry_run s n dev :
  slugs_unique (db s) -> num_lt n (Fin 0) = false -> is_nan n = false -> findById (db s) (id dev) = Some dev ->
  updateTelemetry (id dev) n s = (Ok (id dev, n), telemetry_post s dev n).
Proof.
  intros Hsu Hn Hnan Hd.
  unfold updateTelemetry, ensureTelemetryTimer, clearTelemetryTimer, db_step.
  cbv [mbind ret throw gets modify set_db set_timers]. rewrite Hn, (find_or_404_ok _ _ _ Hd).
  rewrite (save_replace (db s) (with_interval dev n) dev)
    by (first [unfold row_ok; simpl; now rewrite Hnan | exact Hsu | exact Hd | reflexivity]).
  unfold telemetry_post, set_timers, set_db. cbn [telemetryIntervalSec with_interval id].
  destruct (armed n); reflexivity.
Qed.

Lemma findById_telemetry_post s n dev :
  findById (db s) (id dev) = Some dev ->
  findById (db (telemetry_post s dev n)) (id dev) = Some (with_interval dev n).
Proof.
  intros Hd. unfold telemetry_post, set_timers, set_db. cbn [db].
  rewrite findById_replace, Hd. simpl. unfold replace. simpl. now rewrite String.eqb_refl.
Qed.

Lemma telemetry_post_inv s n dev :
  inv s -> findById (db s) (id dev) = Some dev -> inv (telemetry_post s dev n).
Proof.
  intros Hinv Hd. pose proof Hinv as (_ & _ & _ & _ & Hts).
  pose proof (findById_telemetry_post s n dev Hd) as Hf.
  apply (inv_replace s _ (with_interval dev n) dev Hinv Hd); try reflexivity.
  intros j. unfold telemetry_post, set_timers, set_db in *. cbn [timers db] in *.
  destruct (String.eqb_spec (id dev) j) as [<-|Hne]; destruct (armed n) eqn:Ha.
  - rewrite lookup_insert_eq. split; [reflexivity|]. exists (with_interval dev n). rewrite Hf. auto.
  - rewrite lookup_delete_eq. intros e He. rewrite Hf in He. injection He as <-. exact Ha.
  - rewrite lookup_insert_ne, lookup_delete_ne, findById_replace_ne by auto. exact (Hts j).
  - rewrite lookup_delete_ne, findById_replace_ne by auto. exact (Hts j).
Qed.

(** C9: [updateTelemetry] of a device: the new interval is stored, the device
    has a timer exactly when the interval is positive, the timer holds
    the updated device, and the invariant holds after it. *)
Theorem updateTelemetry_sets s i n dev :
  inv s -> num_lt n (Fin 0) = false -> is_nan n = false -> findById (db s) i = Some dev ->
  exists s', updateTelemetry i n s = (Ok (i, n), s') /\
    findById (db s') i = Some (with_interval dev n) /\
    timers s' !! i = (if armed n then Some (with_interval dev n) else None) /\ inv s'.
Proof.
  intros Hinv Hn Hnan Hd. pose proof (findById_In _ _ _ Hd) as [_ Hid]. subst i.
  rewrite (updateTelemetry_run s n dev (proj1 Hinv) Hn Hnan Hd). eexists. split; [reflexivity|].
  split; [apply findById_telemetry_post, Hd|]. split; [|apply telemetry_post_inv; auto].
  unfold telemetry_post, set_timers. cbn [timers].
  destruct (armed n); [apply lookup_insert_eq | apply lookup_delete_eq].
Qed.

Lemma timers_sync_replace s s' x e :
  timers_sync s -> findById (db s) (id x) = Some e ->
  telemetryIntervalSec x = telemetryIntervalSec e ->
  db s' = mkDB (map (replace x) (devices (db s))) (states (db s)) -> timers s' = timers s ->
  timers_sync s'.
Proof.
  intros Hts He Hiv Hdb Htm j. rewrite Hdb, Htm. specialize (Hts j).
  destruct (String.eqb_spec (id x) j) as [<-|Hne]; [|rewrite findById_replace_ne by auto; exact Hts].
  pose proof (findById_In _ _ _ He) as [_ Hie].
  rewrite findById_replace, He. simpl. unfold replace. rewrite Hie, String.eqb_refl.
  destruct (timers s !! id x) as [d|].
  - destruct Hts as (Hd & e' & He' & Hi & Ha). rewrite He in He'. injection He' as <-.
    split; [exact Hd|]. exists x. rewrite Hiv. auto.
  - intros e' He'. injection He' as <-. rewrite Hiv. apply Hts, He.
Qed.

(** The device [updateDevice] saves: the body's name, capabilities and
    template over the stored ones, the rest unchanged. *)
Lemma updateDevice_run s i bn bc bt dev :
  findById (db s) i = Some dev -> slugs_unique (db s) -> row_ok dev = true ->
  exists x, id x = id dev /\ type x = type dev /\ slug x = slug dev /\
    telemetryIntervalSec x = telemetryIntervalSec dev /\
    fst (updateDevice i bn bc bt s) = Ok (id dev, true) /\
    db (snd (updateDevice i bn bc bt s)) = mkDB (map (replace x) (devices (db s))) (states (db s)) /\
    timers (snd (updateDevice i bn bc bt s)) = timers s /\
    uuid (snd (updateDevice i bn bc bt s)) = uuid s.
Proof.
  intros Hd Hsu Hrow. pose proof (findById_In _ _ _ Hd) as [_ Hid].
  unfold updateDevice, db_step. cbv [mbind ret gets emit modify set_db set_events].
  rewrite (find_or_404_ok _ _ _ Hd).
  match goal with |- context [save (db s) ?x] => set (y := x) end.
  rewrite (save_replace (db s) y dev) by (auto; rewrite <- Hid in Hd; exact Hd).
  exists y. unfold publishDiscoveryIfEnabled, publish, modify, set_mqtt.
  destruct (discoveryEnabled s); repeat split; reflexivity.
Qed.

(** [updateDevice] keeps the invariant. *)
Theorem updateDevice_inv s i bn bc bt : inv s -> inv (snd (updateDevice i bn bc bt s)).
Proof.
  intros Hinv. pose proof Hinv as (Hsu & _ & _ & _ & Hts).
  destruct (findById (db s) i) as [dev|] eqn:Hd.
  - destruct (row_ok dev) eqn:Hrow.
    2:{ unfold updateDevice, db_step. cbv [mbind ret gets]. rewrite (find_or_404_ok _ _ _ Hd).
        unfold save. unfold row_ok in *. cbn [telemetryIntervalSec]. rewrite Hrow. exact Hinv. }
    destruct (updateDevice_run s i bn bc bt dev Hd Hsu Hrow) as (x & Hid & Ht & Hs & Hiv & _ & Hdb & Htm & Hu).
    pose proof (findById_In _ _ _ Hd) as [_ Hi]. rewrite <- Hi, <- Hid in Hd.
    apply (inv_replace s _ x dev Hinv Hd Ht Hs Hdb Hu).
    apply (timers_sync_replace s _ x dev Hts Hd Hiv Hdb Htm).
  - unfold updateDevice. rewrite find_or_404_missing by exact Hd. exact Hinv.
Qed.

(** The telemetry timer keeps the device it captured: after
    [updateDevice] changes the capabilities, the timer of the device
    still holds the old ones, and its ticks use them. *)
Theorem updateDevice_keeps_timer s i bn bc bt :
  timers (snd (updateDevice i bn bc bt s)) = timers s.
Proof.
  unfold updateDevice, db_step. cbv [mbind ret gets emit modify set_db set_events find_or_404].
  destruct (findById (db s) i) as [dev|]; [|reflexivity].
  match goal with |- context [save (db s) ?x] => destruct (save (db s) x) end; [|reflexivity].
  unfold publishDiscoveryIfEnabled, publish, modify, set_mqtt. destruct (discoveryEnabled s); reflexivity.
Qed.

Lemma remove_inv s i : inv s -> inv (snd (remove i s)).
Proof.
  intros Hinv. destruct (findById (db s) i) as [dev|] eqn:Hd.
  - rewrite (remove_run s i dev Hd). eapply inv_delete; [exact Hinv | reflexivity | reflexivity | reflexivity].
  - unfold remove. rewrite find_or_404_missing by exact Hd. exact Hinv.
Qed.

Lemma updateTelemetry_inv s i n : inv s -> inv (snd (updateTelemetry i n s)).
Proof.
  intros Hinv. destruct (num_lt n (Fin 0)) eqn:Hn.
  { unfold updateTelemetry. cbv [mbind throw]. rewrite Hn. exact Hinv. }
  destruct (findById (db s) i) as [dev|] eqn:Hd.
  - destruct (is_nan n) eqn:Hnan.
    { unfold updateTelemetry, db_step. cbv [mbind ret throw]. rewrite Hn, (find_or_404_ok _ _ _ Hd).
      unfold save, row_ok. cbn [with_interval telemetryIntervalSec]. rewrite Hnan. exact Hinv. }
    pose proof (findById_In _ _ _ Hd) as [_ Hid]. subst i.
    rewrite (updateTelemetry_run s n dev (proj1 Hinv) Hn Hnan Hd). apply telemetry_post_inv; auto.
  - unfold updateTelemetry. cbv [mbind ret throw]. rewrite Hn. unfold find_or_404. rewrite Hd. exact Hinv.
Qed.

Lemma refreshDiscovery_inv s i : inv s -> inv (snd (refreshDiscovery i s)).
Proof.
  revert s. unfold refreshDiscovery. apply preserves_bind; [|intros a; preserve].
  intros s H. unfold find_or_404. destruct (findById (db s) i); exact H.
Qed.

(** *** Start-up *)

Lemma ensureTelemetryTimer_run d s :
  ensureTelemetryTimer d s =
  (Ok tt, set_timers s (if armed (telemetryIntervalSec d) then <[id d := d]> (base.delete (id d) (timers s))
                        else base.delete (id d) (timers s))).
Proof. unfold ensureTelemetryTimer, clearTelemetryTimer. cbv [mbind modify ret]. destruct armed; reflexivity. Qed.

(** Arming the timers of devices that all have a positive interval. *)
Lemma for_each_ensure L s :
  Forall (fun d => armed (telemetryIntervalSec d) = true) L ->
  for_each ensureTelemetryTimer L s =
  (Ok tt, set_timers s (fold_left (fun T d => <[id d := d]> T) L (timers s))).
Proof.
  revert s. induction L as [|d L IH]; intros s HL; simpl.
  - destruct s; reflexivity.
  - inversion HL as [|? ? Hd HL']; subst. unfold mbind. rewrite ensureTelemetryTimer_run, Hd.
    rewrite IH by exact HL'. cbn [timers set_timers]. rewrite insert_delete_eq. destruct s; reflexivity.
Qed.

Lemma lookup_fold_insert (L : list Device) (T : gmap string Device) j :
  NoDup (map id L) ->
  fold_left (fun T d => <[id d := d]> T) L T !! j =
  match find (fun d => String.eqb (id d) j) L with Some d => Some d | None => T !! j end.
Proof.
  revert T. induction L as [|d L IH]; intros T HL; simpl; [reflexivity|].
  inversion HL as [|? ? Hd HL']; subst. rewrite IH by exact HL'.
  destruct (String.eqb_spec (id d) j) as [<-|Hne].
  - destruct (find (fun x => String.eqb (id x) (id d)) L) as [x|] eqn:E; [|apply lookup_insert_eq].
    exfalso. apply find_some in E as [Hx Hid]. apply String.eqb_eq in Hid. apply Hd, list_elem_of_In.
    rewrite <- Hid. now apply in_map.
  - destruct (find _ L); [reflexivity|]. apply lookup_insert_ne, Hne.
Qed.

Lemma NoDup_map_filter {B} (f : Device -> B) (p : Device -> bool) l :
  NoDup (map f l) -> NoDup (map f (List.filter p l)).
Proof.
  induction l as [|x l IH]; simpl; intros H; [constructor|].
  inversion H as [|? ? Hx Hl]; subst. destruct (p x); simpl; [|auto].
  constructor; [|auto]. intros Hin. apply Hx. apply list_elem_of_In in Hin. apply list_elem_of_In.
  apply in_map_iff in Hin as (y & <- & Hy). apply filter_In in Hy as [Hy _]. now apply in_map.
Qed.

(** [onModuleInit] starts from the stored rows: afterwards the command
    wildcard is subscribed, the router is registered, and every device
    with a positive interval, and only those, has its timer: the
    invariant holds. *)
Theorem onModuleInit_inv s :
  boot_ok s ->
  inv (snd (onModuleInit s)) /\
  Mqtt.cmdWildcardSubscribed (mqtt (snd (onModuleInit s))) = true /\
  Mqtt.cmdHandler (mqtt (snd (onModuleInit s))) = true.
Proof.
  intros (Hsu & Hiu & Hsp & Hig & Ht0).
  set (L := List.filter (fun d => num_lt (Fin 0) (telemetryIntervalSec d)) (devices (db s))).
  assert (HL : Forall (fun d => armed (telemetryIntervalSec d) = true) L).
  { apply List.Forall_forall. intros d Hd. apply filter_In in Hd as [_ Hd]. now apply num_lt_armed. }
  assert (Hnd : NoDup (map id L)) by (apply NoDup_map_filter, Hiu).
  unfold onModuleInit. cbv [mbind modify gets].
  rewrite (for_each_ensure L _ HL). unfold set_timers, set_mqtt. cbn [snd timers mqtt db uuid].
  split; [|split; [|reflexivity]].
  - split; [exact Hsu|split; [exact Hiu|split; [exact Hsp|split; [exact Hig|]]]].
    intros j. cbn [timers db]. rewrite lookup_fold_insert by exact Hnd. rewrite Ht0.
    destruct (find (fun d => String.eqb (id d) j) L) as [d|] eqn:E.
    + apply find_some in E as [Hd Hj]. apply String.eqb_eq in Hj.
      pose proof (proj1 (filter_In _ _ _) Hd) as [Hdd Hpos]. split; [exact Hj|].
      destruct (findById_complete (db s) j d Hdd Hj) as [e He]. exists e. split; [exact He|].
      pose proof (findById_In _ _ _ He) as [He' Hej].
      assert (e = d) by (apply (ids_unique_eq (db s)); auto; congruence). subst e.
      split; [reflexivity | now apply num_lt_armed].
    + rewrite lookup_empty. intros e He. apply findById_In in He as [He Hej].
      rewrite armed_pos. destruct (num_lt (Fin 0) (telemetryIntervalSec e)) eqn:Hp; [|reflexivity].
      exfalso. eapply find_none in E; [|apply filter_In; split; [exact He | exact Hp]].
      rewrite Hej, String.eqb_refl in E. discriminate.
  - unfold Mqtt.onCommand, Mqtt.subscribeCommandsWildcard.
    destruct (Mqtt.cmdWildcardSubscribed (mqtt s)) eqn:E; [exact E | reflexivity].
Qed.

(** *** Every service operation keeps the invariant *)

Lemma preserves_createDevice t nm sl caps tid : preserves (createDevice t nm sl caps tid).
Proof. intros s H. apply createDevice_inv, H. Qed.

Lemma preserves_updateTelemetry i n : preserves (updateTelemetry i n).
Proof. intros s H. apply updateTelemetry_inv, H. Qed.

Lemma preserves_updateDevice i n c t : preserves (updateDevice i n c t).
Proof. intros s H. apply updateDevice_inv, H. Qed.

Lemma preserves_remove i : preserves (remove i).
Proof. intros s H. apply remove_inv, H. Qed.

Lemma preserves_refreshDiscovery i : preserves (refreshDiscovery i).
Proof. intros s H. apply refreshDiscovery_inv, H. Qed.

Lemma preserves_gets_bind {A B} (f : Svc -> A) (k : A -> M B) :
  (forall s, inv s -> inv (snd (k (f s) s))) -> preserves (mbind (gets f) k).
Proof. intros H s Hs. exact (H s Hs). Qed.

Lemma preserves_for_each {A} (f : A -> M unit) l : (forall a, preserves (f a)) -> preserves (for_each f l).
Proof. intros Hf. induction l as [|a l IH]; simpl; [apply preserves_ret | apply preserves_bind; auto]. Qed.

#[export] Hint Resolve preserves_createDevice preserves_updateTelemetry preserves_updateDevice
  preserves_remove preserves_refreshDiscovery preserves_sendById preserves_applyCommand
  preserves_fire : svc.

(** ** Witnesses *)

Lemma createDevice_creates_witness :
  exists d s', createDevice "light" "Lamp" None None None (boot "sim" 1 true true (mkDB [] ∅)) =
    (Ok (Created d (defaultState Light.kind (capabilities d))), s') /\
    id d = generated_id 0 /\ type d = "light" /\
    capabilities d = spread (Kind.capabilities Light.kind) [] /\
    (exists fs, slug d = Some fs /\ findByTypeSlug (db s') "light" fs = Some d /\
       exists j, 1 <= j /\ fs = candidate (Slug.toSlug "Lamp") j) /\
    findById (db s') (id d) = Some d /\
    getState (db s') (id d) = Some (serialize (defaultState Light.kind (capabilities d))) /\ inv s'.
Proof.
  apply (createDevice_creates (boot "sim" 1 true true (mkDB [] ∅)) "light" "Lamp" None None None Light.kind);
    [apply inv_boot_empty | reflexivity | exact I].
Defined.

Lemma createDevice_idempotent_witness :
  let s1 := snd (createDevice "light" "Lamp" (Some "lamp") None None (boot "sim" 1 true true (mkDB [] ∅))) in
  exists e, findByTypeSlug (db s1) "light" "lamp" = Some e /\
    createDevice "light" "Other" (Some "lamp") None None s1 = (Ok (Existed (id e) "lamp"), s1).
Proof.
  intros s1. eexists. split; [vm_compute; reflexivity|].
  apply (createDevice_idempotent s1 "light" "Other" "lamp" None None _ (Registry.Registered Light.kind));
    [reflexivity | discriminate | vm_compute; reflexivity].
Defined.

Lemma createDevice_inv_witness :
  inv (snd (createDevice "cover" "Blind" None None None (boot "sim" 1 true true (mkDB [] ∅)))).
Proof. apply createDevice_inv, inv_boot_empty. Defined.

Lemma remove_retracts_witness :
  let s1 := snd (createDevice "light" "Lamp" (Some "lamp") None None (boot "sim" 1 true true (mkDB [] ∅))) in
  exists dev, findById (db s1) "uuid-0" = Some dev /\
  exists s', remove "uuid-0" s1 = (Ok ("uuid-0", true), s') /\ findById (db s') "uuid-0" = None /\
    timers s' !! "uuid-0" = None.
Proof.
  intros s1. eexists. split; [vm_compute; reflexivity|].
  destruct (remove_retracts s1 "uuid-0" _ (createDevice_inv _ _ _ _ _ _ (inv_boot_empty _ _ _ _)) eq_refl)
    as (s' & H1 & H2 & _ & H3 & _). eauto.
Defined.

Lemma remove_missing_witness :
  remove "x" (boot "sim" 1 true true (mkDB [] ∅)) =
  (Throw (NotFound ("Device not found: " ++ "x")), boot "sim" 1 true true (mkDB [] ∅)).
Proof. apply remove_missing. reflexivity. Defined.

Lemma onModuleInit_inv_witness :
  inv (snd (onModuleInit (boot "sim" 1 true true (mkDB [] ∅)))).
Proof. apply onModuleInit_inv, boot_ok_empty. Defined.

Lemma updateTelemetry_negative_witness :
  updateTelemetry "x" (Fin (-1)) (boot "sim" 1 true true (mkDB [] ∅)) =
  (Throw (BadRequest "intervalSec must be >= 0"), boot "sim" 1 true true (mkDB [] ∅)).
Proof. apply updateTelemetry_negative. reflexivity. Defined.

Lemma updateTelemetry_sets_witness :
  let s1 := snd (createDevice "light" "Lamp" (Some "lamp") None None (boot "sim" 1 true true (mkDB [] ∅))) in
  exists dev, findById (db s1) "uuid-0" = Some dev /\
  exists s', updateTelemetry "uuid-0" (Fin 5) s1 = (Ok ("uuid-0", Fin 5), s') /\
    timers s' !! "uuid-0" = Some (with_interval dev (Fin 5)).
Proof.
  intros s1. eexists. split; [vm_compute; reflexivity|].
  destruct (updateTelemetry_sets s1 "uuid-0" (Fin 5) _
              (createDevice_inv _ _ _ _ _ _ (inv_boot_empty _ _ _ _)) eq_refl eq_refl eq_refl)
    as (s' & H1 & _ & H3 & _). eauto.
Defined.

Lemma updateDevice_inv_witness :
  let s1 := snd (createDevice "light" "Lamp" (Some "lamp") None None (boot "sim" 1 true true (mkDB [] ∅))) in
  inv (snd (updateDevice "uuid-0" (Some (JStr "Desk")) None None s1)).
Proof. intros s1. apply updateDevice_inv, createDevice_inv, inv_boot_empty. Defined.

Lemma applyCommand_ignores_buffer_witness :
  let s1 := snd (createDevice "light" "Lamp" (Some "lamp") None None (boot "sim" 1 true true (mkDB [] ∅))) in
  (* the bytes of {"state":"ON"} *)
  applyCommand "uuid-0" "light" (RawBuffer [123; 34; 115; 116; 97; 116; 101; 34; 58; 34; 79; 78; 34; 125]%Z) s1 =
  applyCommand "uuid-0" "light" (RawObject []) s1.
Proof. intros s1. apply (applyCommand_ignores_buffer s1 "uuid-0" "light" Light.kind). reflexivity. Defined.

End Service.
