(* ===== verification/Query.v ===== *)
(** * Listing devices (devices/devices.service.ts: list, and the GET
    /devices route of devices/devices.controller.ts)

    The route turns its query strings into numbers with [Number(page) ||
    1] and [Number(limit) || 50]; the service normalises them again,
    [page = Math.max(1, Number(page) || 1)] and [limit = Math.max(1,
    Math.min(500, Number(limit) || 50))], filters by a non-empty type and
    slug, and asks TypeORM for one page with [skip = (page - 1) * limit]
    and [take = limit].  TypeORM writes [LIMIT] and [OFFSET] into the SQL
    text, and SQLite accepts only integers there: a limit or an offset
    that is not a non-negative integer (a fractional limit, a fractional
    or infinite page) makes the query fail.  With a relation and [take],
    TypeORM sends two queries, [SELECT DISTINCT id ... LIMIT OFFSET] for
    the page's ids and [... WHERE id IN (...)] for its entities, and a
    [COUNT] for the total; none has an [ORDER BY], so the rows come in an
    order of SQLite's query plan, which the model leaves open as a [Plan]:
    a ranking of the rows for each of the two queries. *)

From Stdlib Require Import QArith Qround ZArith String List Bool Lia Lqa.
From stdpp Require Import gmap strings sorting.
From S2P Require Import Prelude JsNum Json Store Service.
Import ListNotations.
Open Scope string_scope.

Module Query.
Import Store.
Local Open Scope Q_scope.

(** [Number(q)] of an optional query string: [Number(undefined)] is NaN. *)
Definition query_number (q : option string) : num :=
  match q with Some s => string_to_number s | None => NaN end.

(** [n || d] on numbers. *)
Definition or_default (n : num) (d : Q) : num := if num_truthy n then n else Fin d.

(** [Math.ceil]. *)
Definition num_ceil (a : num) : num :=
  match a with Fin x => fin (inject_Z (Qceiling x)) | _ => a end.

Definition norm_page (page : num) : num := num_max (Fin 1) (or_default page 1).

Definition norm_limit (limit : num) : num :=
  num_max (Fin 1) (num_min (Fin 500) (or_default limit 50)).

(** The [where] object: [if (type) where.type = type; if (slug) where.slug = slug]. *)
Definition matches (type slug : option string) (d : Device) : bool :=
  match Service.truthy_str type with Some t => String.eqb (Store.type d) t | None => true end &&
  match Service.truthy_str slug with Some x => slug_eqb (Store.slug d) (Some x) | None => true end.

(** A number SQLite accepts as [LIMIT] or [OFFSET]. *)
Definition sql_int (n : num) : option nat :=
  match n with
  | Fin q => if Qeq_bool q (inject_Z (Qfloor q)) && Z.leb 0 (Qfloor q)
             then Some (Z.to_nat (Qfloor q)) else None
  | _ => None
  end.

Record ListPage : Type := mkListPage {
  data : list (Device * option json);
  page : num;
  limit : num;
  total : nat;
  pages : num
}.

(** The order of the rows of a query without [ORDER BY]: rows sorted by
    a rank, ties in table order.  Every order of rows with distinct ids
    is one of them. *)
Record Plan : Type := mkPlan { scan_rank : Device -> nat; fetch_rank : Device -> nat }.

Definition by_rank (r : Device -> nat) (l : list Device) : list Device :=
  @merge_sort _ (fun a b => (r a <= r b)%nat) (fun a b => decide (r a <= r b)%nat) l.

(** The plan that returns every query's rows in table order. *)
Definition table_order : Plan := mkPlan (fun _ => 0%nat) (fun _ => 0%nat).

(** [DevicesService.list]: the page of the ids query in the order
    [scan_rank], its entities in the order [fetch_rank]. *)
Definition listDevices (pl : Plan) (db : DB) (type slug : option string) (page limit : num) : result ListPage :=
  let page := norm_page page in
  let limit := norm_limit limit in
  let skip := num_mul (num_sub page (Fin 1)) limit in
  let rows := List.filter (matches type slug) (devices db) in
  match sql_int skip, sql_int limit with
  | Some sk, Some tk =>
      let total := length rows in
      Ok (mkListPage (map (fun d => (d, getState db (id d)))
                       (by_rank (fetch_rank pl) (firstn tk (skipn sk (by_rank (scan_rank pl) rows)))))
                     page limit total (num_ceil (num_div (Fin (inject_Z (Z.of_nat total))) limit)))
  | _, _ => Throw (QueryFailed "SQLITE_ERROR")
  end.

(** [DevicesController.list]: the query strings of GET /devices. *)
Definition controller_list (pl : Plan) (db : DB) (type slug page limit : option string) : result ListPage :=
  listDevices pl db type slug (or_default (query_number page) 1) (or_default (query_number limit) 50).

(** ** Lemmas *)

Lemma by_rank_perm r l : by_rank r l ≡ₚ l.
Proof. apply merge_sort_Permutation. Qed.

Lemma or_default_not_nan n d : is_nan (or_default n d) = false.
Proof. unfold or_default. destruct (num_truthy n) eqn:E; [destruct n; easy | reflexivity]. Qed.

Lemma norm_limit_clamp l : norm_limit l = clamp (or_default l 50) (Fin 1) (Fin 500).
Proof. reflexivity. Qed.

Lemma sql_int_Z (z : Z) : (0 <= z)%Z -> sql_int (Fin (inject_Z z)) = Some (Z.to_nat z).
Proof.
  intros Hz. unfold sql_int. rewrite Qfloor_Z.
  replace (Qeq_bool (inject_Z z) (inject_Z z)) with true by (symmetry; apply Qeq_bool_iff; reflexivity).
  apply Z.leb_le in Hz. rewrite Hz. reflexivity.
Qed.

Lemma sql_int_Some n k : sql_int n = Some k -> exists q, n = Fin q /\ q == inject_Z (Z.of_nat k).
Proof.
  unfold sql_int. destruct n as [q| | |]; try discriminate.
  destruct (Qeq_bool q (inject_Z (Qfloor q))) eqn:E; [|discriminate].
  destruct (Z.leb 0 (Qfloor q)) eqn:E2; [|discriminate]. simpl. intros H. injection H as <-.
  exists q. split; [reflexivity|]. apply Qeq_bool_iff in E.
  rewrite Z2Nat.id by (apply Z.leb_le, E2). exact E.
Qed.

Lemma Qred_inject_Z z : Qred (inject_Z z) = inject_Z z.
Proof.
  unfold Qred, inject_Z. pose proof (Z.ggcd_gcd z 1) as Hg. pose proof (Z.ggcd_correct_divisors z 1) as Hd.
  destruct (Z.ggcd z 1) as [g [a b]]. simpl in *. rewrite Z.gcd_1_r in Hg. subst g.
  destruct Hd as [Ha Hb]. rewrite Z.mul_1_l in Ha, Hb. subst. reflexivity.
Qed.

Lemma num_max_min_Z (p : Z) : (1 <= p)%Z -> num_max (Fin 1) (Fin (inject_Z p)) = Fin (inject_Z p).
Proof.
  intros Hp. unfold num_max. simpl. num_cases; [reflexivity|].
  assert (p = 1%Z) as -> by (apply Z.le_antisymm; [rewrite Zle_Qle; exact E | exact Hp]). reflexivity.
Qed.

(** [fin] of a rational equal to an integer is that integer. *)
Lemma fin_Z q z : q == inject_Z z -> fin q = Fin (inject_Z z).
Proof. intros H. unfold fin. f_equal. rewrite <- Qred_inject_Z. apply Qred_complete, H. Qed.

Lemma norm_page_cases p : norm_page p = PosInf \/ exists q, norm_page p = Fin q /\ 1 <= q.
Proof.
  unfold norm_page, num_max. pose proof (or_default_not_nan p 1) as Hn.
  destruct (or_default p 1) as [x| | |]; try discriminate; simpl; [|auto|right; eexists; split; [reflexivity|lra]].
  right. num_cases; eexists; split; try reflexivity; lra.
Qed.

Lemma norm_limit_range l : exists q, norm_limit l = Fin q /\ 1 <= q <= 500.
Proof.
  rewrite norm_limit_clamp.
  pose proof (clamp_inb (or_default l 50) 1 500 ltac:(lra) (or_default_not_nan l 50)) as H.
  apply num_inb_iff in H as (q & Hq & H1 & H2). eauto.
Qed.

(** An infinite page has no SQL offset. *)
Lemma sql_int_skip_inf l : sql_int (num_mul (num_sub PosInf (Fin 1)) (Fin l)) <> None -> 1 <= l -> False.
Proof.
  intros H Hl. apply H. unfold num_mul, num_sub, num_add, num_neg. simpl.
  destruct (Qeq_bool l 0) eqn:E; [apply Qeq_bool_iff in E; lra|].
  destruct (Qle_bool 0 l); reflexivity.
Qed.

Lemma or_default_Z (p : Z) d : (1 <= p)%Z -> or_default (Fin (inject_Z p)) d = Fin (inject_Z p).
Proof.
  intros Hp. unfold or_default. simpl. destruct (Qeq_bool (inject_Z p) 0) eqn:E; [|reflexivity].
  apply Qeq_bool_iff in E. unfold Qeq in E. simpl in E. lia.
Qed.

Lemma norm_limit_Z (l : Z) : (1 <= l <= 500)%Z -> norm_limit (Fin (inject_Z l)) = Fin (inject_Z l).
Proof.
  intros Hl. unfold norm_limit. rewrite or_default_Z by lia. unfold num_min. simpl.
  num_cases; [apply num_max_min_Z; lia|].
  assert (l = 500%Z) as -> by (apply Z.le_antisymm; [lia | rewrite Zle_Qle; exact E]). reflexivity.
Qed.

Lemma skip_Z (p l : Z) :
  num_mul (num_sub (Fin (inject_Z p)) (Fin 1)) (Fin (inject_Z l)) = Fin (inject_Z ((p - 1) * l)).
Proof.
  apply fin_Z. rewrite !Qred_correct, inject_Z_mult. unfold Z.sub. rewrite inject_Z_plus. reflexivity.
Qed.

(** The page of an integer page number and an integer limit. *)
Lemma listDevices_Z pl db t s (p l : Z) :
  (1 <= p)%Z -> (1 <= l <= 500)%Z ->
  listDevices pl db t s (Fin (inject_Z p)) (Fin (inject_Z l)) =
  let rows := List.filter (matches t s) (devices db) in
  Ok (mkListPage (map (fun d => (d, getState db (id d)))
                   (by_rank (fetch_rank pl) (firstn (Z.to_nat l) (skipn (Z.to_nat ((p - 1) * l)) (by_rank (scan_rank pl) rows)))))
                 (Fin (inject_Z p)) (Fin (inject_Z l)) (length rows)
                 (num_ceil (num_div (Fin (inject_Z (Z.of_nat (length rows)))) (Fin (inject_Z l))))).
Proof.
  intros Hp Hl. unfold listDevices, norm_page. rewrite or_default_Z, num_max_min_Z, norm_limit_Z, skip_Z by lia.
  rewrite !sql_int_Z by nia. reflexivity.
Qed.

(** ** Theorems *)

(** C11: Whatever the query, a page the service returns has a limit in
    [1, 500], a page number of at least 1, at most 500 rows, and the
    number of matching devices as its total. *)
Theorem listDevices_bounds pl db t s p l pg :
  listDevices pl db t s p l = Ok pg ->
  (exists q, limit pg = Fin q /\ 1 <= q <= 500) /\ (exists q, page pg = Fin q /\ 1 <= q) /\
  (length (data pg) <= 500)%nat /\ total pg = length (List.filter (matches t s) (devices db)).
Proof.
  unfold listDevices. destruct (norm_limit_range l) as (ql & Hl & Hl1 & Hl2). rewrite Hl.
  destruct (sql_int (num_mul (num_sub (norm_page p) (Fin 1)) (Fin ql))) as [sk|] eqn:Hsk; [|discriminate].
  destruct (sql_int (Fin ql)) as [tk|] eqn:Htk; [|discriminate].
  intros H. injection H as <-. simpl.
  destruct (sql_int_Some _ _ Htk) as (q' & Hq' & Hqe). injection Hq' as <-.
  split; [eauto|]. split.
  - destruct (norm_page_cases p) as [Hp|Hp]; [|exact Hp]. rewrite Hp in Hsk.
    exfalso. eapply sql_int_skip_inf; [rewrite Hsk; discriminate | exact Hl1].
  - split; [|reflexivity]. rewrite length_map, (Permutation_length (by_rank_perm _ _)).
    assert (Z.of_nat tk <= 500)%Z by (rewrite Zle_Qle, <- Hqe; exact Hl2).
    pose proof (firstn_le_length tk (skipn sk (by_rank (scan_rank pl) (List.filter (matches t s) (devices db))))). lia.
Qed.

(** C36: For an integer page [p >= 1] and an integer limit [l] in [1,
    500], the service returns the [l] matching devices after the first
    [(p - 1) * l], in the plan's order, each with its state row. *)
Theorem listDevices_page pl db t s (p l : Z) :
  (1 <= p)%Z -> (1 <= l <= 500)%Z ->
  exists pg, listDevices pl db t s (Fin (inject_Z p)) (Fin (inject_Z l)) = Ok pg /\
    data pg = map (fun d => (d, getState db (id d)))
                  (by_rank (fetch_rank pl) (firstn (Z.to_nat l) (skipn (Z.to_nat ((p - 1) * l))
                     (by_rank (scan_rank pl) (List.filter (matches t s) (devices db)))))) /\
    page pg = Fin (inject_Z p) /\ limit pg = Fin (inject_Z l) /\
    total pg = length (List.filter (matches t s) (devices db)).
Proof.
  intros Hp Hl. rewrite listDevices_Z by assumption. eexists. repeat split.
Qed.

(** C12: A limit that is not an integer (between 1 and 500, where the
    service keeps it) makes the query fail: GET /devices?limit=2.5 is a
    database error, not a page. *)
Theorem listDevices_fractional_limit pl db t s p q :
  1 < q < 500 -> Qeq_bool q (inject_Z (Qfloor q)) = false ->
  listDevices pl db t s p (Fin q) = Throw (QueryFailed "SQLITE_ERROR").
Proof.
  intros [H1 H2] Hq. unfold listDevices, norm_limit, or_default.
  replace (num_truthy (Fin q)) with true
    by (simpl; destruct (Qeq_bool q 0) eqn:E; [apply Qeq_bool_iff in E; lra | reflexivity]).
  unfold num_min, num_max. simpl.
  replace (qltb q 500) with true by (symmetry; apply qltb_iff; lra). simpl.
  replace (qltb 1 q) with true by (symmetry; apply qltb_iff; lra).
  assert (sql_int (Fin q) = None) as Hn by (unfold sql_int; rewrite Hq; reflexivity).
  rewrite Hn. destruct (sql_int (num_mul _ _)); reflexivity.
Qed.

(** ** Witnesses *)

Lemma listDevices_bounds_witness :
  exists pg, listDevices table_order (mkDB [] ∅) None None NaN (Fin 100000) = Ok pg /\
  ((exists q, limit pg = Fin q /\ 1 <= q <= 500) /\ (exists q, page pg = Fin q /\ 1 <= q) /\
   (length (data pg) <= 500)%nat /\ total pg = length (List.filter (matches None None) (devices (mkDB [] ∅)))).
Proof.
  eexists. split; [reflexivity|]. apply (listDevices_bounds table_order (mkDB [] ∅) None None NaN (Fin 100000)). reflexivity.
Defined.

Lemma listDevices_page_witness :
  exists pg, listDevices table_order (mkDB [] ∅) (Some "light") None (Fin (inject_Z 2)) (Fin (inject_Z 10)) = Ok pg /\
    data pg = map (fun d => (d, getState (mkDB [] ∅) (id d)))
                  (by_rank (fetch_rank table_order) (firstn (Z.to_nat 10) (skipn (Z.to_nat ((2 - 1) * 10))
                     (by_rank (scan_rank table_order) (List.filter (matches (Some "light") None) (devices (mkDB [] ∅))))))) /\
    page pg = Fin (inject_Z 2) /\ limit pg = Fin (inject_Z 10) /\
    total pg = length (List.filter (matches (Some "light") None) (devices (mkDB [] ∅))).
Proof. apply (listDevices_page table_order (mkDB [] ∅) (Some "light") None 2 10); lia. Defined.

Lemma listDevices_fractional_limit_witness :
  listDevices table_order (mkDB [] ∅) None None (Fin 1) (Fin (5 # 2)) = Throw (QueryFailed "SQLITE_ERROR").
Proof. apply listDevices_fractional_limit; [split; lra | reflexivity]. Defined.

End Query.
