(* ===== verification/Transfer.v ===== *)
(** * Export and import (devices/devices.service.ts: exportAll, importAll)

    [exportAll] lists every device with its state as JSON ([undefined]
    fields, which [JSON.stringify] drops, are left out).  [importAll] is
    the two passes of the code: the first counts the entries without a
    type or without both slug and id and collects the keys [type#slug];
    the second processes every entry again, inside a [try] whose [catch]
    counts an error, matching by [(type, slug)] then by id, creating with
    [createDevice] or patching the matched row; with [replaceAll] the
    devices with a slug whose key was not collected are removed.

    An entry is read as the service reads it: a string field ([id],
    [type], [name], [slug]) is a string when the JSON has one (another
    value is read as absent), [templateId] distinguishes absent, [null]
    and a string, [telemetryIntervalSec] counts only when it is a number. *)

From Stdlib Require Import QArith String List Bool Arith Lia.
From stdpp Require Import gmap strings.
From S2P Require Import Prelude JsNum Json Kind Registry Topics Slug Store Mqtt Service.
Import ListNotations.
Open Scope string_scope.

Module Transfer.
Import Store Service.
Open Scope svc_scope.

(** ** Export *)

Definition topics_of (n : string) (d : Device) : json :=
  JObj [("cmd", JStr (Topics.cmd n (type d) (id d)));
        ("state", JStr (Topics.state n (type d) (id d)));
        ("status", JStr (Topics.status n (type d) (id d)));
        ("discovery", JStr (Topics.discovery n (type d) (id d)))].

(** One element of [devices] in the export: [slug ?? undefined] and
    [templateId ?? undefined] are left out when null, the state is the
    stored row's data or [{}]. *)
Definition export_device (n : string) (st : option json) (d : Device) : json :=
  JObj ([("id", JStr (id d)); ("type", JStr (type d)); ("name", JStr (name d))] ++
        match slug d with Some x => [("slug", JStr x)] | None => [] end ++
        match templateId d with Some x => [("templateId", JStr x)] | None => [] end ++
        [("capabilities", JObj (capabilities d));
         ("telemetryIntervalSec", JNum (telemetryIntervalSec d));
         ("state", match st with Some v => v | None => JObj [] end);
         ("createdAt", JStr (iso (createdAt d)));
         ("updatedAt", JStr (iso (updatedAt d)));
         ("topics", topics_of n d)]).

Definition exportAll : M json :=
  fun s =>
    let ds := map (fun d => export_device (ns s) (getState (db s) (id d)) d) (devices (db s)) in
    (Ok (JObj [("version", JNum (Fin 1)); ("exportedAt", JStr (iso (clock s)));
               ("namespace", JStr (ns s)); ("count", JNum (Fin (inject_Z (Z.of_nat (length ds)))));
               ("devices", JArr ds)]), s).

(** ** Import *)

Inductive Detail : Type :=
| DError (dev : json) (error : string)
| DAction (id action : string).

Record Report : Type := mkReport {
  created : nat; updated : nat; unchanged : nat; deleted : nat; errors : nat;
  details : list Detail
}.

Definition report0 : Report := mkReport 0 0 0 0 0 [].

Definition add_error (r : Report) (dev : json) (msg : string) : Report :=
  mkReport (created r) (updated r) (unchanged r) (deleted r) (S (errors r)) (details r ++ [DError dev msg]).

Definition add_action (r : Report) (i a : string) : Report :=
  let c := if String.eqb a "created" then S (created r) else created r in
  let u := if String.eqb a "updated" then S (updated r) else updated r in
  let n := if String.eqb a "unchanged" then S (unchanged r) else unchanged r in
  mkReport c u n (deleted r) (errors r) (details r ++ [DAction i a]).

Definition add_deleted (r : Report) (k : nat) : Report :=
  mkReport (created r) (updated r) (unchanged r) (deleted r + k) (errors r) (details r).

(** [dev.k] for a string field. *)
Definition str_field (dev : json) (k : string) : option string :=
  match prop (Some dev) k with Some (JStr x) => Some x | _ => None end.

Definition type_of (dev : json) : string :=
  match str_field dev "type" with Some t => t | None => "undefined" end.

(** [incomingKeys] and the error count of the first pass; [dev.type] on
    a [null] entry throws. *)
Fixpoint first_pass (devs : list json) (r : Report) (keys : list string) : result (Report * list string) :=
  match devs with
  | [] => Ok (r, keys)
  | dev :: devs' =>
      match dev with
      | JNull => Throw (TypeError "Cannot read properties of null (reading 'type')")
      | _ =>
          if negb (truthy (prop (Some dev) "type")) then first_pass devs' (add_error r dev "type missing") keys
          else if negb (truthy (prop (Some dev) "slug")) && negb (truthy (prop (Some dev) "id"))
          then first_pass devs' (add_error r dev "slug or id required") keys
          else match str_field dev "slug", truthy (prop (Some dev) "slug") with
               | Some sl, true => first_pass devs' r (keys ++ [type_of dev ++ "#" ++ sl])
               | _, _ => first_pass devs' r keys
               end
      end
  end.

(** [try { ... } catch (e) { ... }]. *)
Definition catch {A} (m : M A) (h : exn -> M A) : M A :=
  fun s => match m s with
           | (Throw e, s') => h e s'
           | r => r
           end.

(** The lookup of the second pass: by [(type, slug)], then by id. *)
Definition find_existing (d : DB) (dev : json) : option Device :=
  let byslug := match truthy_str (str_field dev "slug") with
                | Some sl => findByTypeSlug d (type_of dev) sl
                | None => None
                end in
  match byslug with
  | Some e => Some e
  | None => match truthy_str (str_field dev "id") with
            | Some i => findById d i
            | None => None
            end
  end.

(** [dev.state && Object.keys(dev.state).length > 0]. *)
Definition state_override (dev : json) : option json :=
  match prop (Some dev) "state" with
  | Some v => if truthy (Some v) && negb (Nat.eqb (length (keys v)) 0) then Some v else None
  | None => None
  end.

Definition interval_override (dev : json) : option num :=
  match prop (Some dev) "telemetryIntervalSec" with Some (JNum n) => Some n | _ => None end.

(** The state override: [states.update] and a retained publish. *)
Definition apply_state (dev : json) (i : string) : M unit :=
  match state_override dev with
  | Some v =>
      let! _ := modify (fun s => set_db s (updateState (db s) i v)) in
      fun s => publish (Topics.state (ns s) (type_of dev) i) (Mqtt.PJson v) true s
  | None => ret tt
  end.

(** The create branch: [createDevice(dev.type, dev.name, dev.slug,
    dev.capabilities, dev.templateId ?? undefined)].  Without a name, the
    slug is computed from [undefined] (a [TypeError]) or, with a slug, the
    INSERT violates [name]'s NOT NULL constraint. *)
Definition import_create (dev : json) : M string :=
  let t := type_of dev in
  let caps := match prop (Some dev) "capabilities" with
              | Some v => if truthy (Some v) then Some (own_props v) else None
              | None => None
              end in
  let tid := str_field dev "templateId" in
  let! res := (match str_field dev "name" with
               | Some nm => createDevice t nm (str_field dev "slug") caps tid
               | None => fun s =>
                   match Registry.getKind t with
                   | Throw _ => (Throw (BadRequest ("Unsupported device type: " ++ t)), s)
                   | Ok k => match truthy_str (str_field dev "slug") with
                             | Some _ => match Registry.call_capabilities k with
                                         | Ok _ => (Throw unique_violation, s)
                                         | Throw e => (Throw e, s)
                                         end
                             | None => (Throw (TypeError "Cannot read properties of undefined (reading 'normalize')"), s)
                             end
                   end
               end) in
  let rid := match res with Existed i _ => i | Created d _ => id d end in
  let! _ := (match interval_override dev with
             | Some n => let! _ := updateTelemetry rid n in ret tt
             | None => ret tt
             end) in
  let! _ := apply_state dev rid in
  ret rid.

(** [JSON.stringify({ name, capabilities, templateId, telemetry })]. *)
Definition fingerprint (nm : string) (caps : obj) (tid : json) (tel : num) : json :=
  JObj [("name", JStr nm); ("capabilities", JObj caps); ("templateId", tid); ("telemetry", JNum tel)].

(** The patch of the update branch. *)
Definition patch_name (dev : json) (ex : Device) : option string :=
  match str_field dev "name" with
  | Some n => if negb (String.eqb n "") && negb (String.eqb n (name ex)) then Some n else None
  | None => None
  end.

(** [dev.templateId !== undefined && dev.templateId !== existing.templateId]:
    [Some None] is a patch to [null]. *)
Definition patch_templateId (dev : json) (ex : Device) : option (option string) :=
  match prop (Some dev) "templateId" with
  | Some JNull => match templateId ex with Some _ => Some None | None => None end
  | Some (JStr t) => match templateId ex with
                     | Some t' => if String.eqb t t' then None else Some (Some t)
                     | None => Some (Some t)
                     end
  | _ => None
  end.

Definition patch_caps (dev : json) (ex : Device) : option obj :=
  match prop (Some dev) "capabilities" with
  | Some v => if truthy (Some v) && negb (stringify_eq v (JObj (capabilities ex)))
              then Some (spread (capabilities ex) (own_props v)) else None
  | None => None
  end.

Definition patched (ex : Device) (pn : option string) (pt : option (option string)) (pc : option obj) : Device :=
  mkDevice (id ex) (type ex)
           (match pn with Some n => n | None => name ex end) (slug ex)
           (match pc with Some c => c | None => capabilities ex end)
           (match pt with Some t => t | None => templateId ex end)
           (topicBase ex) (retained ex) (telemetryIntervalSec ex) (createdAt ex) (updatedAt ex).

(** The update branch; its result is the action of the report. *)
Definition import_update (dev : json) (ex : Device) : M string :=
  let before := fingerprint (name ex) (capabilities ex) (opt_str (templateId ex)) (telemetryIntervalSec ex) in
  let pn := patch_name dev ex in
  let pt := patch_templateId dev ex in
  let pc := patch_caps dev ex in
  let! _ := (match pn, pt, pc with
             | None, None, None => ret tt
             | _, _, _ =>
                 let! _ := db_step (fun b => update b (patched ex pn pt pc)) in
                 let! upd := gets (fun s => findById (db s) (id ex)) in
                 match upd with Some u => publishDiscoveryIfEnabled u | None => ret tt end
             end) in
  let! _ := (match interval_override dev with
             | Some n => if negb (num_eqb n (telemetryIntervalSec ex))
                         then let! _ := updateTelemetry (id ex) n in ret tt else ret tt
             | None => ret tt
             end) in
  let! _ := apply_state dev (id ex) in
  (** [patch.templateId ?? existing.templateId]: a [null] patch falls back. *)
  let tid_after := match pt with Some (Some t) => JStr t | _ => opt_str (templateId ex) end in
  let after := fingerprint (match pn with Some n => n | None => name ex end)
                           (match pc with Some c => c | None => capabilities ex end) tid_after
                           (match interval_override dev with Some n => n | None => telemetryIntervalSec ex end) in
  ret (if stringify_eq before after then "unchanged" else "updated").

(** One entry of the second pass, inside its [try]. *)
Definition import_entry (dev : json) (r : Report) : M Report :=
  catch (let t := type_of dev in
         let! _ := lift (Registry.getKind t) in
         let! existing := gets (fun s => find_existing (db s) dev) in
         match existing with
         | None => let! rid := import_create dev in ret (add_action r rid "created")
         | Some ex => let! a := import_update dev ex in ret (add_action r (id ex) a)
         end)
        (fun e => ret (add_error r dev (exn_message e))).

Fixpoint second_pass (devs : list json) (r : Report) : M Report :=
  match devs with
  | [] => ret r
  | dev :: devs' => let! r' := import_entry dev r in second_pass devs' r'
  end.

(** The devices [replaceAll] removes: a slug whose key was not collected. *)
Definition to_delete (d : DB) (keys : list string) : list Device :=
  List.filter (fun e => match slug e with
                        | Some sl => negb (String.eqb sl "") && negb (existsb (String.eqb (type e ++ "#" ++ sl)) keys)
                        | None => false
                        end) (devices d).

Definition importAll (payload : json) : M Report :=
  match payload with
  | JObj p =>
      match get p "devices" with
      | Some (JArr devs) =>
          let! fp := lift (first_pass devs report0 []) in
          let '(r, keys) := fp in
          let! r := second_pass devs r in
          if truthy (get p "replaceAll") then
            let! del := gets (fun s => to_delete (db s) keys) in
            let! _ := for_each (fun d => let! _ := remove (id d) in ret tt) del in
            ret (if Nat.eqb (length del) 0 then r else add_deleted r (length del))
          else ret r
      | _ => throw (BadRequest "devices array required")
      end
  | _ => throw (BadRequest "devices array required")
  end.

(** ** Lemmas *)

Lemma preserves_catch {A} (m : M A) (h : exn -> M A) :
  preserves m -> (forall e, preserves (h e)) -> preserves (catch m h).
Proof.
  intros Hm Hh s H. unfold catch. specialize (Hm s H).
  destruct (m s) as [[a|e] s']; [exact Hm | apply Hh, Hm].
Qed.

Lemma mbind_inv {A B} (m : M A) (k : A -> M B) s :
  inv (snd (m s)) -> (forall a, preserves (k a)) -> inv (snd (mbind m k s)).
Proof. intros Hm Hk. unfold mbind. destruct (m s) as [[a|e] s']; [apply Hk|]; exact Hm. Qed.

Lemma preserves_apply_state dev i : preserves (apply_state dev i).
Proof.
  unfold apply_state. destruct (state_override dev); [|apply preserves_ret].
  apply preserves_bind; [apply preserves_updateState|]. intros _ s H. exact H.
Qed.

#[export] Hint Resolve preserves_apply_state : svc.

Lemma preserves_import_create dev : preserves (import_create dev).
Proof.
  unfold import_create. apply preserves_bind; [|intros ?; cbv beta; preserve].
  destruct (str_field dev "name"); [apply preserves_createDevice|].
  intros s H. repeat destruct_goal_match; exact H.
Qed.

Lemma find_existing_In d dev ex : find_existing d dev = Some ex -> In ex (devices d).
Proof.
  unfold find_existing. destruct (truthy_str (str_field dev "slug")).
  - destruct (findByTypeSlug d (type_of dev) s) eqn:E.
    + intros H. injection H as <-. apply findByTypeSlug_some in E. tauto.
    + destruct (truthy_str (str_field dev "id")); [|discriminate]. intros H. now apply findById_In in H.
  - destruct (truthy_str (str_field dev "id")); [|discriminate]. intros H. now apply findById_In in H.
Qed.

(** The patch of a matched row keeps its id, type, slug and interval. *)
Lemma patch_step_inv s ex pn pt pc :
  inv s -> In ex (devices (db s)) ->
  inv (snd (db_step (fun b => update b (patched ex pn pt pc)) s)).
Proof.
  intros Hinv Hin. pose proof Hinv as (_ & Hiu & _ & _ & Hts).
  destruct (findById_complete (db s) (id ex) ex Hin eq_refl) as [e He].
  assert (e = ex) by (apply findById_In in He as [He' Hid]; apply (ids_unique_eq (db s)); auto). subst e.
  unfold db_step, update. destruct (negb (row_ok _) || collides _ _); [exact Hinv|]. cbn [snd].
  apply (inv_replace s _ (patched ex pn pt pc) ex Hinv He); try reflexivity.
  apply (timers_sync_replace s _ (patched ex pn pt pc) ex Hts He); reflexivity.
Qed.

Lemma import_update_inv s dev ex :
  inv s -> In ex (devices (db s)) -> inv (snd (import_update dev ex s)).
Proof.
  intros Hinv Hin. unfold import_update. cbv zeta. apply mbind_inv; [|intros ?; cbv beta; preserve].
  destruct (patch_name dev ex), (patch_templateId dev ex), (patch_caps dev ex);
    try exact Hinv; apply mbind_inv; try (apply patch_step_inv; assumption); intros ?; preserve.
Qed.

Lemma preserves_import_entry dev r : preserves (import_entry dev r).
Proof.
  unfold import_entry. apply preserves_catch; [|intros; apply preserves_ret].
  apply preserves_bind; [apply preserves_lift | intros _].
  apply preserves_gets_bind. intros s Hs. destruct (find_existing (db s) dev) as [ex|] eqn:E.
  - apply mbind_inv; [apply import_update_inv; auto; eapply find_existing_In; eauto | intros; apply preserves_ret].
  - apply (preserves_bind _ _ (preserves_import_create dev)); [intros; apply preserves_ret | exact Hs].
Qed.

Lemma preserves_second_pass devs r : preserves (second_pass devs r).
Proof.
  revert r. induction devs as [|dev devs IH]; intros r; simpl; [apply preserves_ret|].
  apply preserves_bind; [apply preserves_import_entry | intros; apply IH].
Qed.

(** [importAll] keeps the service invariant. *)
Lemma preserves_importAll p : preserves (importAll p).
Proof.
  unfold importAll. destruct p as [| | | | |o]; try apply preserves_throw.
  destruct (get o "devices") as [[| | | |l|]|]; try apply preserves_throw.
  apply preserves_bind; [apply preserves_lift|]. intros [r keys]. cbv beta iota.
  apply preserves_bind; [apply preserves_second_pass|]. intros r'.
  destruct (truthy _); [|apply preserves_ret].
  apply preserves_bind; [apply preserves_gets|]. intros del.
  apply preserves_bind; [|intros; apply preserves_ret].
  apply preserves_for_each. intros d. apply preserves_bind; [apply preserves_remove | intros; apply preserves_ret].
Qed.

End Transfer.
