(* ===== verification/System.v ===== *)
(** * The running service (devices/devices.controller.ts, the router of
    mqtt/mqtt.service.ts, the telemetry timers)

    The process as a step function over its state: an HTTP request to a
    route of [DevicesController] (its errors go back to the client), a
    message on the command wildcard (the router calls [applyCommand]
    without awaiting it, so an exception there is an unhandled promise
    rejection, which ends a Node process that installs no handler, and
    [main.ts] installs none), or a telemetry interval elapsing.  The
    create route validates its [CreateDeviceDto] as the global
    [ValidationPipe] does and merges a template's capabilities; the
    template store ([kinds/templates.ts], a YAML file) is the section
    variable [getTemplate].  The reachable states are those of a booted
    process after any sequence of steps. *)

From Stdlib Require Import QArith String List Bool Arith Lia.
From stdpp Require Import gmap strings.
From S2P Require Import Prelude JsNum Json Kind Light Registry Topics Slug Store Mqtt Service Transfer.
Import ListNotations.
Open Scope string_scope.

Module System.
Import Store Service.
Open Scope svc_scope.

(** A template of the YAML file: its kind and capabilities. *)
Record Template : Type := mkTemplate { tkind : string; tcaps : option obj }.

(** [CreateDeviceDto] after the pipe's transformation. *)
Record CreateDto : Type := mkCreateDto {
  dto_type : string;
  dto_name : string;
  dto_slug : option string;
  dto_templateId : option string;
  dto_caps : option obj
}.

(** Its class-validator constraints: [@IsIn(kindIds())] on the type,
    [@MinLength(1)] on the name, the slug pattern on a slug. *)
Definition create_dto_ok (d : CreateDto) : bool :=
  existsb (String.eqb (dto_type d)) Registry.kindIds &&
  negb (String.eqb (dto_name d) "") &&
  match dto_slug d with Some x => Slug.is_slug x | None => true end.

Section Controller.

Variable getTemplate : string -> option Template.

(** [POST /devices]. *)
Definition controller_create (d : CreateDto) : M CreateOut :=
  if negb (create_dto_ok d) then throw (BadRequest "Bad Request") else
  let caps := match dto_caps d with Some c => c | None => [] end in
  match truthy_str (dto_templateId d) with
  | Some tid =>
      match getTemplate tid with
      | None => throw (BadRequest ("Unknown templateId: " ++ tid))
      | Some tpl =>
          if negb (String.eqb (tkind tpl) (dto_type d))
          then throw (BadRequest ("Template kind '" ++ tkind tpl ++ "' does not match type '" ++ dto_type d ++ "'"))
          else createDevice (dto_type d) (dto_name d) (dto_slug d)
                 (Some (spread (match tcaps tpl with Some c => c | None => [] end) caps)) (Some tid)
      end
  | None => createDevice (dto_type d) (dto_name d) (dto_slug d) (Some caps) None
  end.

(** What can happen to the process. *)
Inductive op : Type :=
| Create (d : CreateDto)                                   (* POST /devices *)
| Command (id : string) (body : obj)                       (* POST /devices/:id/command *)
| SetTelemetry (id : string) (intervalSec : option json)   (* PATCH /devices/:id/telemetry *)
| Update (id : string) (name caps templateId : option json) (* PATCH /devices/:id *)
| Rediscover (id : string)                                 (* POST /devices/:id/discovery *)
| Remove (id : string)                                     (* DELETE /devices/:id *)
| Import (payload : json)                                  (* POST /devices/import/json *)
| Message (topic : string) (payload : list Z)              (* an inbound MQTT message *)
| Tick (r : rng) (id : string).                            (* a telemetry interval elapses *)

Definition discard {A} (m : M A) : M unit := let! _ := m in ret tt.

(** The route handlers, and the router's call for a message. *)
Definition run_op (o : op) : M unit :=
  match o with
  | Create d => discard (controller_create d)
  | Command i body => sendById i body
  | SetTelemetry i v => discard (updateTelemetry i (to_number v))
  | Update i n c t => discard (updateDevice i n c t)
  | Rediscover i => discard (refreshDiscovery i)
  | Remove i => discard (remove i)
  | Import p => discard (Transfer.importAll p)
  | Message topic b =>
      fun s => match Mqtt.routed (Mqtt.on_message (mqtt s) topic b) with
               | Some (t, i, p) => applyCommand i t (RawBuffer p) s
               | None => (Ok tt, s)
               end
  | Tick r i => fire r i
  end.

(** The process: its service state and whether it still runs. *)
Record Proc : Type := mkProc { svc : Svc; alive : bool }.

(** An HTTP error is the client's; an exception of the router's or a
    timer's promise is unhandled and ends the process. *)
Definition async_op (o : op) : bool :=
  match o with Message _ _ | Tick _ _ => true | _ => false end.

Definition step (o : op) (p : Proc) : Proc :=
  if alive p then
    let '(r, s') := run_op o (svc p) in
    mkProc s' (negb (async_op o) || is_ok r)
  else p.

(** The process after [onModuleInit] on a database that satisfies the
    store's constraints, then after any sequence of steps. *)
Inductive reachable : Proc -> Prop :=
| reach_boot n q r dsc d :
    boot_ok (boot n q r dsc d) -> reachable (mkProc (snd (onModuleInit (boot n q r dsc d))) true)
| reach_step o p : reachable p -> reachable (step o p).

End Controller.

(** A process booted on an empty database. *)
Definition booted : Proc := mkProc (snd (onModuleInit (boot "sim" 1 true true (mkDB [] ∅)))) true.

(** A fan stored by an earlier run, with a 30 s telemetry interval, and
    the process that boots on it and restores its timer. *)
Definition stored_fan : Device :=
  mkDevice "3f2b8c1e-9d4a-4c6e-b1a7-5e0f2d9c8b61" "fan" "Fan" (Some "fan") [] None "sim/fan" true (Fin 30) 0 0.

Definition stored_db : DB := mkDB [stored_fan] {[ id stored_fan := JObj [("on", JBool false)] ]}.

Definition restored : Proc := mkProc (snd (onModuleInit (boot "sim" 1 true true stored_db))) true.

(** ** Lemmas *)

Lemma preserves_controller_create tpl d : preserves (controller_create tpl d).
Proof.
  unfold controller_create. destruct (negb (create_dto_ok d)); [apply preserves_throw|].
  repeat destruct_goal_match; eauto using preserves_throw, preserves_createDevice.
Qed.

Lemma preserves_discard {A} (m : M A) : preserves m -> preserves (discard m).
Proof. intros H. unfold discard. apply preserves_bind; [exact H | intros; apply preserves_ret]. Qed.

Lemma preserves_run_op tpl o : preserves (run_op tpl o).
Proof.
  destruct o; simpl; try apply preserves_discard;
    eauto using preserves_controller_create, Transfer.preserves_importAll with svc.
  intros s H. repeat case_match; simplify_eq; first [exact H | apply preserves_applyCommand, H].
Qed.

Lemma parse_cmd_cmd n t i :
  Topics.no_slash n = true -> Topics.no_slash t = true -> Topics.no_slash i = true ->
  Topics.parse_cmd n (Topics.cmd n t i) = Some (t, i).
Proof.
  intros Hn Ht Hi. unfold Topics.parse_cmd, Topics.cmd.
  change ("/" ++ t ++ "/" ++ i ++ "/set")%string
    with (String Topics.slash (t ++ String Topics.slash (i ++ String Topics.slash "set"))).
  rewrite !Topics.split_app by assumption. simpl. rewrite String.eqb_refl. reflexivity.
Qed.

(** ** Theorems *)

(** C3: Every state of a running process satisfies the service invariant:
    slugs unique per type, ids unique and none that the id generator will
    still draw, one state row per device, and a timer exactly for the
    devices with a positive interval, holding the device's interval.  The
    process may boot on any stored table that satisfies the store's
    constraints; [onModuleInit] restores the timers of its devices. *)
Theorem reachable_inv tpl p : reachable tpl p -> inv (svc p).
Proof.
  induction 1 as [n q r dsc d Hb | o p _ IH].
  - exact (proj1 (onModuleInit_inv _ Hb)).
  - unfold step. destruct (alive p); [|exact IH].
    pose proof (preserves_run_op tpl o (svc p) IH) as H.
    destruct (run_op tpl o (svc p)) as [r s']. exact H.
Qed.

(** C5: A message on the command wildcard whose type is not a kind (nor a
    member of [Object.prototype]) ends the process: [getKind] throws
    inside the promise of [applyCommand], which the router does not
    await, whatever the id and the payload. *)
Theorem unknown_type_command_kills tpl p t i payload :
  alive p = true -> Mqtt.cmdHandler (mqtt (svc p)) = true ->
  Registry.registry_get t = None ->
  Topics.no_slash (Mqtt.ns (mqtt (svc p))) = true -> Topics.no_slash t = true -> Topics.no_slash i = true ->
  alive (step tpl (Message (Topics.cmd (Mqtt.ns (mqtt (svc p))) t i) payload) p) = false.
Proof.
  intros Ha Hc Hk Hn Ht Hi. unfold step. rewrite Ha. simpl. unfold Mqtt.on_message. simpl.
  rewrite (parse_cmd_cmd _ _ _ Hn Ht Hi), Hc. unfold applyCommand. cbv [mbind lift].
  unfold Registry.getKind. rewrite Hk. reflexivity.
Qed.

(** C7: A message on the command wildcard for a kind never ends the process:
    whatever its bytes, the command validates and reduces as the empty
    command does. *)
Theorem registered_command_keeps_alive tpl p t k i payload :
  alive p = true -> Registry.lookup t Registry.REGISTRY = Some k ->
  Topics.no_slash (Mqtt.ns (mqtt (svc p))) = true -> Topics.no_slash t = true -> Topics.no_slash i = true ->
  alive (step tpl (Message (Topics.cmd (Mqtt.ns (mqtt (svc p))) t i) payload) p) = true.
Proof.
  intros Ha Hk Hn Ht Hi. unfold step. rewrite Ha. simpl. unfold Mqtt.on_message. simpl.
  rewrite (parse_cmd_cmd _ _ _ Hn Ht Hi). destruct (Mqtt.cmdHandler (mqtt (svc p))); [|reflexivity].
  pose proof (applyCommand_buffer_ok (svc p) i t k payload Hk) as H.
  destruct (applyCommand i t (RawBuffer payload) (svc p)) as [r s']. simpl in H. now subst r.
Qed.

(** ** Witnesses *)

Lemma reachable_inv_witness :
  inv (svc (step (fun _ => None) (Create (mkCreateDto "light" "Lamp" None None None)) restored)) /\
  timers (svc restored) !! id stored_fan = Some stored_fan.
Proof.
  split; [|reflexivity].
  apply (reachable_inv (fun _ => None)), reach_step, reach_boot.
  unfold boot_ok, slugs_unique, ids_unique, states_paired, ids_fresh, stored_db. cbn [db devices states boot timers].
  split; [|split; [|split; [|split]]].
  - intros d e [<-|[]] [<-|[]] Hne. congruence.
  - cbn [map]. apply NoDup_singleton.
  - intros i. rewrite lookup_singleton_is_Some. split.
    + intros <-. exists stored_fan. split; [left|]; reflexivity.
    + intros (d & [<-|[]] & <-). reflexivity.
  - intros d [<-|[]] n _. unfold generated_id. cbn. discriminate.
  - reflexivity.
Defined.

Lemma unknown_type_command_kills_witness :
  alive (step (fun _ => None) (Message (Topics.cmd (Mqtt.ns (mqtt (svc booted))) "thermostat" "x") [123; 125]%Z) booted) = false.
Proof.
  refine (unknown_type_command_kills (fun _ => None) booted "thermostat" "x" [123; 125]%Z _ _ _ _ _ _);
    vm_compute; reflexivity.
Defined.

Lemma registered_command_keeps_alive_witness :
  alive (step (fun _ => None) (Message (Topics.cmd (Mqtt.ns (mqtt (svc booted))) "light" "x") [123; 125]%Z) booted) = true.
Proof.
  refine (registered_command_keeps_alive (fun _ => None) booted "light" Light.kind "x" [123; 125]%Z _ _ _ _ _);
    reflexivity.
Defined.

End System.
