(* ===== verification/Templates.v ===== *)
(** * The capability templates (src/mqtt-sim: devices/kinds/templates.ts)

    The templates file (YAML, or JSON by its extension) is read through a
    cache keyed by the path and the file's modification time.  The
    filesystem is a snapshot [FS] of each path's modification time and
    text, and the two parsers are section variables (a parse error is a
    thrown exception).  [getTemplate] gives [System.controller_create]
    its template, [getTemplateMap] the templates route's answer.

    The theorem shows that the cache is transparent: while a file's text
    changes only together with its modification time, [loadTemplates]
    returns what reading the file afresh returns. *)

From Stdlib Require Import QArith String List Bool.
From S2P Require Import Prelude JsNum Json System.
Import ListNotations.
Open Scope string_scope.

Module Templates.
Import System.

(** The filesystem: per path, [mtimeMs] and the UTF-8 text, or no file. *)
Definition FS : Type := string -> option (Q * string).

(** [s.endsWith(suffix)]. *)
Definition ends_with (suffix s : string) : bool :=
  let n := String.length s in
  let k := String.length suffix in
  Nat.leb k n && String.eqb (substring (Nat.sub n k) k s) suffix.

(** [{ version: 1, templates: {} }]. *)
Definition empty_file : json := JObj [("version", num_lit 1); ("templates", JObj [])].

(** [typeof v === 'object'] on a value that is not null. *)
Definition is_object (v : json) : bool := match v with JObj _ | JArr _ => true | _ => false end.

(** [statSync(p).mtimeMs], 0 without a file. *)
Definition mtime (fs : FS) (p : string) : Q := match fs p with Some (m, _) => m | None => 0%Q end.

(** The cache: [{ path, mtime, data }]. *)
Record Cache : Type := mkCache { cpath : string; cmtime : Q; cdata : json }.

Section Loader.

(** [JSON.parse] and [yaml.load] (an empty YAML document is [null]). *)
Variable parse_json parse_yaml : string -> result json.

(** [readFileSafe(p)]. *)
Definition readFileSafe (fs : FS) (p : string) : result json :=
  match fs p with
  | None => Ok empty_file
  | Some (_, raw) =>
      let* parsed := if ends_with ".json" p then parse_json raw else parse_yaml raw in
      if negb (truthy (Some parsed)) || negb (is_object parsed) || negb (truthy (prop (Some parsed) "templates"))
      then Ok empty_file
      else Ok (JObj [("version", coalesce (prop (Some parsed) "version") (num_lit 1));
                     ("templates", coalesce (prop (Some parsed) "templates") (JObj []))])
  end.

(** [loadTemplates(p)]: the cached data when the path and [mtimeMs]
    agree, else a fresh read, cached when it succeeds. *)
Definition loadTemplates (fs : FS) (cache : option Cache) (p : string) : result json * option Cache :=
  let m := mtime fs p in
  let fresh := match readFileSafe fs p with
               | Ok d => (Ok d, Some (mkCache p m d))
               | Throw e => (Throw e, cache)
               end in
  match cache with
  | Some c => if String.eqb (cpath c) p && Qeq_bool (cmtime c) m then (Ok (cdata c), cache) else fresh
  | None => fresh
  end.

(** [loadTemplates().templates], through the cache. *)
Definition templates_of (fs : FS) (cache : option Cache) (p : string) : result json * option Cache :=
  let '(r, c) := loadTemplates fs cache p in
  (match r with Ok d => Ok (coalesce (prop (Some d) "templates") JNull) | Throw e => Throw e end, c).

(** [listTemplateIds()]: [Object.keys] of the templates. *)
Definition listTemplateIds (fs : FS) (cache : option Cache) (p : string) : result (list string) * option Cache :=
  let '(r, c) := templates_of fs cache p in
  (match r with Ok t => Ok (keys t) | Throw e => Throw e end, c).

(** [getTemplate(id)]: [templates[id]]. *)
Definition getTemplate (fs : FS) (cache : option Cache) (p id : string) : result (option json) * option Cache :=
  let '(r, c) := templates_of fs cache p in
  (match r with Ok t => Ok (prop (Some t) id) | Throw e => Throw e end, c).

(** [getTemplateMap()]. *)
Definition getTemplateMap (fs : FS) (cache : option Cache) (p : string) : result json * option Cache :=
  templates_of fs cache p.

End Loader.

(** A template as the create route reads it: [tpl.kind] in its
    [!==] test and its message, [tpl.capabilities || {}] spread.  A kind
    that is not a string is compared by its text. *)
Definition to_template (v : option json) : option Template :=
  if truthy v
  then Some (mkTemplate (prim_to_string (to_prim (prop v "kind")))
                        (let c := prop v "capabilities" in if truthy c then Some (own_props (coalesce c JNull)) else None))
  else None.

(** The assumption the cache rests on: a file's text is a function
    [view] of its path and modification time (a missing file reads as
    time 0), and the filesystem of each call agrees with it. *)
Definition timed (view : string -> Q -> option string) (fs : FS) : Prop :=
  (forall p m m', Qeq m m' -> view p m = view p m') /\
  (forall p, match fs p with Some (m, raw) => view p m = Some raw | None => view p 0%Q = None end).

(** The cache is coherent when its data is what a fresh read of its path
    gives on every filesystem that agrees with [view] and has the cached
    time. *)
Definition cache_ok (parse_json parse_yaml : string -> result json) (view : string -> Q -> option string)
    (cache : option Cache) : Prop :=
  forall c fs, cache = Some c -> timed view fs -> Qeq_bool (cmtime c) (mtime fs (cpath c)) = true ->
  readFileSafe parse_json parse_yaml fs (cpath c) = Ok (cdata c).

(** ** Lemmas *)

Section Facts.
Variable parse_json parse_yaml : string -> result json.
Variable view : string -> Q -> option string.

(** Two filesystems that agree with [view] and give a path the same
    time read the same file there. *)
Lemma readFileSafe_timed fs1 fs2 p :
  timed view fs1 -> timed view fs2 -> Qeq_bool (mtime fs1 p) (mtime fs2 p) = true ->
  readFileSafe parse_json parse_yaml fs1 p = readFileSafe parse_json parse_yaml fs2 p.
Proof.
  intros [Hv H1] [_ H2] Hq. apply Qeq_bool_iff in Hq. specialize (H1 p). specialize (H2 p).
  unfold readFileSafe, mtime in *.
  destruct (fs1 p) as [[m1 r1]|], (fs2 p) as [[m2 r2]|]; try reflexivity.
  - rewrite (Hv p m1 m2 Hq), H2 in H1. injection H1 as ->. reflexivity.
  - rewrite (Hv p m1 0%Q Hq), H2 in H1. discriminate.
  - rewrite (Hv p 0%Q m2 Hq), H2 in H1. discriminate.
Qed.

Lemma cache_ok_fresh fs p d :
  timed view fs -> readFileSafe parse_json parse_yaml fs p = Ok d ->
  cache_ok parse_json parse_yaml view (Some (mkCache p (mtime fs p) d)).
Proof.
  intros Hfs Hr c fs' E Hfs' Hq. injection E as <-. cbn in *. rewrite <- Hr.
  apply readFileSafe_timed; [exact Hfs' | exact Hfs |].
  apply Qeq_bool_iff. apply Qeq_bool_iff in Hq. symmetry. exact Hq.
Qed.

End Facts.

(** ** Theorems *)

(** C16: the templates cache is transparent.  On a filesystem whose files
    change their text only with their modification time, every call of
    [loadTemplates], whatever calls and changes came before, returns what
    reading the file afresh returns, and leaves a coherent cache. *)
Theorem loadTemplates_transparent parse_json parse_yaml view fs cache p :
  timed view fs -> cache_ok parse_json parse_yaml view cache ->
  fst (loadTemplates parse_json parse_yaml fs cache p) = readFileSafe parse_json parse_yaml fs p /\
  cache_ok parse_json parse_yaml view (snd (loadTemplates parse_json parse_yaml fs cache p)).
Proof.
  intros Hfs Hc. unfold loadTemplates.
  destruct cache as [c|];
    [destruct (String.eqb (cpath c) p && Qeq_bool (cmtime c) (mtime fs p)) eqn:E|].
  - apply andb_prop in E as [Ep Eq]. apply String.eqb_eq in Ep. subst p. cbn.
    split; [symmetry; exact (Hc c fs eq_refl Hfs Eq) | exact Hc].
  - all: destruct (readFileSafe parse_json parse_yaml fs p) as [d|e] eqn:Er; cbn;
      split; try reflexivity; try exact Hc; exact (cache_ok_fresh _ _ _ _ _ _ Hfs Er).
  - destruct (readFileSafe parse_json parse_yaml fs p) as [d|e] eqn:Er; cbn;
      split; try reflexivity; [exact (cache_ok_fresh _ _ _ _ _ _ Hfs Er) | intros c fs' Hn; discriminate Hn].
Qed.

Lemma loadTemplates_transparent_witness :
  fst (loadTemplates (fun _ => Ok JNull) (fun _ => Ok JNull) (fun _ => None) None "config/device-templates.yaml") =
    readFileSafe (fun _ => Ok JNull) (fun _ => Ok JNull) (fun _ => None) "config/device-templates.yaml" /\
  cache_ok (fun _ => Ok JNull) (fun _ => Ok JNull) (fun _ _ => None)
    (snd (loadTemplates (fun _ => Ok JNull) (fun _ => Ok JNull) (fun _ => None) None "config/device-templates.yaml")).
Proof.
  apply (loadTemplates_transparent _ _ (fun _ _ => None) (fun _ => None) None "config/device-templates.yaml").
  - split; [reflexivity | intros p; reflexivity].
  - intros c fs Hn; discriminate Hn.
Defined.

End Templates.
