(* ===== verification/Web.v ===== *)
(** * The web client's device list (src/mqtt-web: core/services/device-state.service.ts,
    fed by core/services/websocket.service.ts and core/services/api.service.ts)

    [DeviceStateService] keeps the browser's copy of the device list in
    RxJS subjects: the devices, the loading flag, the error messages, the
    page, the limit and the total.  It is filled by [loadDevices], a GET
    /devices through [ApiService.listDevices], and kept current by the
    four gateway events that [WebsocketService] relays: a created device
    is appended, an updated one replaces the entry with its id, a deleted
    one is filtered out, a state change is written into the entry's
    [state.data].

    The values that cross the wire are JSON texts: the gateway's payloads
    are those of devices/devices.gateway.ts with the objects the service
    hands it, the HTTP response is the page [Query.listDevices] returns
    under the database's row order [Query.Plan], each device with its
    [DeviceState] row.  A value is a JSON value; the
    in-place mutation of [updateDeviceState] is modelled by value, which
    is exact for the current list (the object it mutates is the one it
    then stores) but not for older snapshots that share the object. *)

From Stdlib Require Import QArith String List Bool Arith Lia.
From stdpp Require Import list.
From S2P Require Import Prelude JsNum Json Store Service Query.
Import ListNotations.
Open Scope string_scope.

Module Web.
Import Store Service.

(** ** What crosses the wire *)

(** A device entity as JSON: the columns of device.entity.ts, a NULL
    column as [null], the dates as ISO strings. *)
Definition entity_obj (d : Device) : obj :=
  [("id", JStr (id d)); ("type", JStr (type d)); ("name", JStr (name d));
   ("slug", opt_str (slug d)); ("capabilities", JObj (capabilities d));
   ("templateId", opt_str (templateId d)); ("topicBase", JStr (topicBase d));
   ("retained", JBool (retained d)); ("telemetryIntervalSec", JNum (telemetryIntervalSec d));
   ("createdAt", JStr (iso (createdAt d))); ("updatedAt", JStr (iso (updatedAt d)))].

(** [{ ...device, state: init }] of [createDevice]: the entity just saved,
    whose [templateId] is undefined when none was given. *)
Definition created_obj (d : Device) (init : json) : obj :=
  set (match templateId d with Some _ => entity_obj d | None => Json.remove (entity_obj d) "templateId" end)
      "state" init.

(** The gateway's payload of each event ([emitDeviceCreated],
    [emitDeviceUpdated], [emitDeviceDeleted], [emitDeviceStateChanged]). *)
Definition event_payload (e : Event) : json :=
  match e with
  | DeviceCreated d init => JObj (created_obj d init)
  | DeviceUpdated d => JObj (entity_obj d)
  | DeviceDeleted i t => JObj [("id", JStr i); ("type", JStr t)]
  | DeviceStateChanged i t st => JObj [("id", JStr i); ("type", JStr t); ("state", st)]
  end.

(** A device of GET /devices: the entity with its [state] relation, the
    [DeviceState] row [{ deviceId, data }] or [null]. *)
Definition listed_json (row : Device * option json) : json :=
  let '(d, st) := row in
  JObj (entity_obj d ++ [("state", match st with
                                   | Some v => JObj [("deviceId", JStr (id d)); ("data", v)]
                                   | None => JNull
                                   end)]).

(** ** The client's state *)

Record DeviceStateService : Type := mkDeviceStateService {
  devicesSubject : list json;
  loadingSubject : bool;
  errorSubject : list string;          (* the messages emitted, oldest first *)
  currentPageSubject : num;
  currentLimitSubject : num;
  totalDevicesSubject : num
}.

Definition initial : DeviceStateService := mkDeviceStateService [] false [] (Fin 1) (Fin 50) (Fin 0).

Definition with_devices (c : DeviceStateService) (l : list json) : DeviceStateService :=
  mkDeviceStateService l (loadingSubject c) (errorSubject c) (currentPageSubject c)
    (currentLimitSubject c) (totalDevicesSubject c).

Definition with_total (c : DeviceStateService) (n : num) : DeviceStateService :=
  mkDeviceStateService (devicesSubject c) (loadingSubject c) (errorSubject c) (currentPageSubject c)
    (currentLimitSubject c) n.

(** [a === b] on JSON-parsed values: primitives by value; two objects
    only when they are one object, which two parsed values never are. *)
Definition strict_eq (a b : option json) : bool :=
  match a, b with
  | None, None | Some JNull, Some JNull => true
  | Some (JBool x), Some (JBool y) => Bool.eqb x y
  | Some (JNum x), Some (JNum y) => num_eqb x y
  | Some (JStr x), Some (JStr y) => String.eqb x y
  | _, _ => false
  end.

Definition id_of (d : json) : option json := prop (Some d) "id".

(** [getDevice(id)]: [devices.find((d) => d.id === id)]. *)
Definition getDevice (c : DeviceStateService) (i : option json) : option json :=
  find (fun d => strict_eq (id_of d) i) (devicesSubject c).

(** [Array.prototype.findIndex]. *)
Fixpoint findIndex (p : json -> bool) (l : list json) : option nat :=
  match l with
  | [] => None
  | x :: l' => if p x then Some 0 else option_map S (findIndex p l')
  end.

(** [addDevice(device)]. *)
Definition addDevice (device : json) (c : DeviceStateService) : DeviceStateService :=
  with_total (with_devices c (devicesSubject c ++ [device])) (num_add (totalDevicesSubject c) (Fin 1)).

(** [updateDeviceLocal(device)]: the entry at the first index with the
    device's id is replaced (the index is in range). *)
Definition updateDeviceLocal (device : json) (c : DeviceStateService) : DeviceStateService :=
  match findIndex (fun d => strict_eq (id_of d) (id_of device)) (devicesSubject c) with
  | Some k => with_devices c (<[k := device]> (devicesSubject c))
  | None => c
  end.

(** [updateDeviceState(id, state)]: [device.state.data = state] when the
    device and its [state] are there.  A truthy [state] that is not an
    object makes the assignment throw (module code is strict) inside the
    subscription, which RxJS reports; the list is then unchanged. *)
Definition updateDeviceState (i state : option json) (c : DeviceStateService) : DeviceStateService :=
  match getDevice c i with
  | Some (JObj o) =>
      if truthy (get o "state") then
        match get o "state" with
        | Some (JObj st) => updateDeviceLocal (JObj (set o "state" (JObj (set_opt st "data" state)))) c
        | _ => c
        end
      else c
  | _ => c
  end.

(** [removeDevice(id)]. *)
Definition removeDevice (i : option json) (c : DeviceStateService) : DeviceStateService :=
  with_total (with_devices c (List.filter (fun d => negb (strict_eq (id_of d) i)) (devicesSubject c)))
    (num_sub (totalDevicesSubject c) (Fin 1)).

(** The listeners of [setupWebSocketListeners], each behind [if (x)]. *)
Definition onDeviceCreated (device : json) (c : DeviceStateService) : DeviceStateService :=
  if truthy (Some device) then addDevice device c else c.
Definition onDeviceUpdated (device : json) (c : DeviceStateService) : DeviceStateService :=
  if truthy (Some device) then updateDeviceLocal device c else c.
Definition onDeviceDeleted (data : json) (c : DeviceStateService) : DeviceStateService :=
  if truthy (Some data) then removeDevice (prop (Some data) "id") c else c.
Definition onDeviceStateChanged (data : json) (c : DeviceStateService) : DeviceStateService :=
  if truthy (Some data) then updateDeviceState (prop (Some data) "id") (prop (Some data) "state") c else c.

(** A gateway event reaching the client: [WebsocketService] passes the
    parsed payload to the subject of its event name. *)
Definition receive (e : Event) (c : DeviceStateService) : DeviceStateService :=
  let p := serialize (event_payload e) in
  match e with
  | DeviceCreated _ _ => onDeviceCreated p c
  | DeviceUpdated _ => onDeviceUpdated p c
  | DeviceDeleted _ _ => onDeviceDeleted p c
  | DeviceStateChanged _ _ _ => onDeviceStateChanged p c
  end.

Definition receive_all (es : list Event) (c : DeviceStateService) : DeviceStateService :=
  fold_left (fun c e => receive e c) es c.

(** ** Loading a page *)

Section Load.

(** The message of Angular's [HttpErrorResponse] for a failed request. *)
Variable http_message : exn -> string.

(** The order in which the server's database returns rows. *)
Variable plan : Query.Plan.

(** The subscriber of [loadDevices]: on a page, its devices and
    pagination; on an error, the message. *)
Definition on_list_response (r : result Query.ListPage) (c : DeviceStateService) : DeviceStateService :=
  match r with
  | Ok pg =>
      mkDeviceStateService (map (fun row => serialize (listed_json row)) (Query.data pg)) false (errorSubject c)
        (Query.page pg) (Query.limit pg) (Fin (inject_Z (Z.of_nat (Query.total pg))))
  | Throw e =>
      mkDeviceStateService (devicesSubject c) false (errorSubject c ++ ["Failed to load devices: " ++ http_message e])
        (currentPageSubject c) (currentLimitSubject c) (totalDevicesSubject c)
  end.

(** [loadDevices(type, slug, page, limit)]: the loading flag, then
    [ApiService.listDevices]'s GET with [page.toString()],
    [limit.toString()] and the type and slug when truthy, answered by
    the route [Query.controller_list] on the server's database. *)
Definition loadDevices (d : DB) (type slug : option string) (page limit : num)
    (c : DeviceStateService) : DeviceStateService :=
  let c := mkDeviceStateService (devicesSubject c) true (errorSubject c)
             (currentPageSubject c) (currentLimitSubject c) (totalDevicesSubject c) in
  on_list_response (Query.controller_list plan d (truthy_str type) (truthy_str slug)
                      (Some (num_to_string page)) (Some (num_to_string limit))) c.

End Load.

(** [pagination$]: [pages: Math.ceil(total / limit)]. *)
Definition pagination (c : DeviceStateService) : num * num * num * num :=
  (currentPageSubject c, currentLimitSubject c, totalDevicesSubject c,
   Query.num_ceil (num_div (totalDevicesSubject c) (currentLimitSubject c))).

(** [clearError()]. *)
Definition clearError (c : DeviceStateService) : DeviceStateService :=
  mkDeviceStateService (devicesSubject c) (loadingSubject c) (errorSubject c ++ [""])
    (currentPageSubject c) (currentLimitSubject c) (totalDevicesSubject c).

(** The ids the client lists, and the change an event makes to them. *)
Definition ids (c : DeviceStateService) : list (option json) := map id_of (devicesSubject c).

Definition feed (e : Event) (l : list (option json)) : list (option json) :=
  match e with
  | DeviceCreated d _ => l ++ [Some (JStr (id d))]
  | DeviceDeleted i _ => List.filter (fun x => negb (strict_eq x (Some (JStr i)))) l
  | _ => l
  end.

(** ** The gateway's rooms (devices/devices.gateway.ts) *)

(** A socket's rooms: [handleConnection] joins [devices:all]; the
    [subscribe:*] messages join and leave the rooms of a type or a device.
    A room is joined at most once. *)
Definition join (rooms : list string) (r : string) : list string :=
  if existsb (String.eqb r) rooms then rooms else rooms ++ [r].
Definition leave (rooms : list string) (r : string) : list string :=
  List.filter (fun x => negb (String.eqb x r)) rooms.

Definition handleConnection : list string := join [] "devices:all".
Definition handleSubscribeType (rooms : list string) (t : string) := join rooms ("devices:type:" ++ t).
Definition handleUnsubscribeType (rooms : list string) (t : string) := leave rooms ("devices:type:" ++ t).
Definition handleSubscribeDevice (rooms : list string) (i : string) := join rooms ("devices:id:" ++ i).
Definition handleUnsubscribeDevice (rooms : list string) (i : string) := leave rooms ("devices:id:" ++ i).

(** The rooms each [emit*] method broadcasts to, one [server.to(room).emit]
    call each. *)
Definition rooms_of (e : Event) : list string :=
  match e with
  | DeviceCreated d _ => ["devices:all"; "devices:type:" ++ type d]
  | DeviceUpdated d => ["devices:all"; "devices:type:" ++ type d; "devices:id:" ++ id d]
  | DeviceDeleted i t => ["devices:all"; "devices:type:" ++ t; "devices:id:" ++ i]
  | DeviceStateChanged i t _ => ["devices:all"; "devices:type:" ++ t; "devices:id:" ++ i]
  end.

(** The copies of an event a socket in [rooms] receives: one per
    broadcast to a room it is in. *)
Definition delivered (rooms : list string) (e : Event) : list Event :=
  flat_map (fun r => if existsb (String.eqb r) rooms then [e] else []) (rooms_of e).

(** The rooms of the web client: [devices:all] and device rooms, never a
    type room (the client never sends [subscribe:type]). *)
Definition client_rooms (rooms : list string) : Prop :=
  existsb (String.eqb "devices:all") rooms = true /\
  forall t, existsb (String.eqb ("devices:type:" ++ t)) rooms = false.

(** A stored light, for the examples. *)
Definition lamp : Device :=
  mkDevice "uuid-0" "light" "Lamp" (Some "lamp") [("brightness", JBool true)] None "sim/light" true (Fin 0) 0 0.

Definition lamp_b : Device :=
  mkDevice "uuid-1" "light" "Desk" (Some "desk") [] None "sim/light" true (Fin 0) 0 0.

(** ** Lemmas *)

Lemma strict_eq_str a i : strict_eq a (Some (JStr i)) = true -> a = Some (JStr i).
Proof. destruct a as [[]|]; simpl; try discriminate. intros H. apply String.eqb_eq in H. now subst. Qed.

Lemma findIndex_spec p l k :
  findIndex p l = Some k -> exists y, l !! k = Some y /\ p y = true /\ find p l = Some y.
Proof.
  revert k. induction l as [|x l IH]; intros k; simpl; [discriminate|].
  destruct (p x) eqn:E; [intros H; injection H as <-; eauto|].
  destruct (findIndex p l) as [k'|] eqn:Ek; simpl; [|discriminate].
  intros H; injection H as <-. destruct (IH k' eq_refl) as (y & ? & ? & ?). eauto.
Qed.

Lemma findIndex_None p l : findIndex p l = None -> find p l = None.
Proof.
  induction l as [|x l IH]; simpl; [reflexivity|].
  destruct (p x); [discriminate|]. destruct (findIndex p l); [discriminate|]. auto.
Qed.

(** The first element satisfying [p], replaced by an element satisfying
    it, is found. *)
Lemma find_insert_first p l k x :
  findIndex p l = Some k -> p x = true -> find p (<[k := x]> l) = Some x.
Proof.
  revert k. induction l as [|y l IH]; intros k; simpl; [discriminate|].
  destruct (p y) eqn:E; [intros H Hx; injection H as <-; simpl; now rewrite Hx|].
  destruct (findIndex p l) as [k'|]; simpl; [|discriminate].
  intros H Hx; injection H as <-. simpl. rewrite E. auto.
Qed.

Lemma map_insert_same {A B} (f : A -> B) l k x y :
  l !! k = Some y -> f y = f x -> map f (<[k := x]> l) = map f l.
Proof.
  revert k. induction l as [|z l IH]; intros [|k]; simpl; try discriminate.
  - intros H; injection H as ->. intros ->. reflexivity.
  - intros H Hf. f_equal. auto.
Qed.

Lemma map_filter_comm {A B} (f : A -> B) (p : B -> bool) l :
  map f (List.filter (fun x => p (f x)) l) = List.filter p (map f l).
Proof. induction l as [|x l IH]; simpl; [reflexivity|]. destruct (p (f x)); simpl; congruence. Qed.

(** [updateDeviceLocal] with a device of a string id keeps the ids. *)
Lemma updateDeviceLocal_ids device i c :
  id_of device = Some (JStr i) -> ids (updateDeviceLocal device c) = ids c.
Proof.
  intros Hi. unfold updateDeviceLocal. rewrite Hi.
  destruct (findIndex _ _) as [k|] eqn:Ek; [|reflexivity].
  destruct (findIndex_spec _ _ _ Ek) as (y & Hy & Hp & _). unfold ids. simpl.
  apply strict_eq_str in Hp. eapply map_insert_same; [exact Hy | congruence].
Qed.

Lemma updateDeviceState_ids i st c : ids (updateDeviceState (Some (JStr i)) st c) = ids c.
Proof.
  unfold updateDeviceState, getDevice.
  destruct (find _ _) as [[| | | | |o]|] eqn:Ef; try reflexivity.
  apply find_some in Ef as [_ Hp]. apply strict_eq_str in Hp.
  destruct (truthy (get o "state")); [|reflexivity].
  destruct (get o "state") as [[]|]; try reflexivity.
  apply updateDeviceLocal_ids with (i := i). unfold id_of in *. simpl in *.
  rewrite get_set_ne by discriminate. exact Hp.
Qed.

Lemma id_of_payload_str (o : obj) i : get o "id" = Some (JStr i) -> id_of (serialize (JObj o)) = Some (JStr i).
Proof. intros H. unfold id_of. simpl. rewrite get_serialize, H. reflexivity. Qed.

(** Every gateway event changes the ids the client lists as it changes
    the server's: a created device is appended, a deleted id is filtered
    out, an update or a state change keeps the ids. *)
Lemma receive_ids e c : ids (receive e c) = feed e (ids c).
Proof.
  destruct e as [d init | d | i t | i t st]; unfold receive; cbn [event_payload feed].
  - unfold onDeviceCreated. simpl truthy. cbv iota beta. unfold addDevice, ids. simpl.
    rewrite map_app. f_equal. simpl. f_equal. apply id_of_payload_str.
    unfold created_obj. rewrite get_set_ne by discriminate. destruct (templateId d); reflexivity.
  - unfold onDeviceUpdated. simpl truthy. cbv iota beta.
    apply updateDeviceLocal_ids with (i := id d), id_of_payload_str. reflexivity.
  - unfold onDeviceDeleted. simpl. unfold removeDevice, ids. simpl.
    exact (map_filter_comm id_of (fun x => negb (strict_eq x (Some (JStr i)))) _).
  - unfold onDeviceStateChanged. simpl. apply updateDeviceState_ids.
Qed.

(** Deleting twice filters once. *)
Lemma feed_deleted_idem i t l : feed (DeviceDeleted i t) (feed (DeviceDeleted i t) l) = feed (DeviceDeleted i t) l.
Proof.
  simpl. induction l as [|x l IH]; simpl; [reflexivity|].
  destruct (strict_eq x (Some (JStr i))) eqn:E; simpl; [exact IH | rewrite E; f_equal; exact IH].
Qed.

(** A socket that has just connected is in the rooms of a client. *)
Lemma client_rooms_connection : client_rooms handleConnection.
Proof. split; [reflexivity | intros t; reflexivity]. Qed.

(** A client in its rooms receives one or two copies of an event, which
    change its ids as one does. *)
Lemma receive_delivered_ids rooms e c :
  client_rooms rooms -> ids (receive_all (delivered rooms e) c) = feed e (ids c).
Proof.
  intros [Hall Htype]. unfold delivered, receive_all.
  destruct e as [d init | d | i t | i t st]; cbn [rooms_of flat_map]; rewrite Hall, Htype; cbn [app fold_left].
  - apply receive_ids.
  - destruct (existsb (String.eqb ("devices:id:" ++ _)) rooms); cbn [app fold_left]; rewrite ?receive_ids; reflexivity.
  - destruct (existsb (String.eqb ("devices:id:" ++ _)) rooms); cbn [app fold_left]; rewrite !receive_ids; [apply feed_deleted_idem | reflexivity].
  - destruct (existsb (String.eqb ("devices:id:" ++ _)) rooms); cbn [app fold_left]; rewrite ?receive_ids; reflexivity.
Qed.


(** ** Theorems *)

(** C: After the gateway reports an update of a listed device, the
    client ignores every state change of that device: the update's
    payload, which replaces the entry, has no [state], and
    [updateDeviceState] only writes into an existing [state]. *)
Theorem update_then_state_ignored c d t st :
  getDevice c (Some (JStr (id d))) <> None ->
  receive (DeviceStateChanged (id d) t st) (receive (DeviceUpdated d) c) = receive (DeviceUpdated d) c.
Proof.
  intros Hin. set (p := serialize (event_payload (DeviceUpdated d))).
  assert (Hid : id_of p = Some (JStr (id d))) by (apply id_of_payload_str; reflexivity).
  assert (Hr : receive (DeviceUpdated d) c = updateDeviceLocal p c) by reflexivity.
  rewrite Hr. unfold updateDeviceLocal. rewrite Hid.
  destruct (findIndex _ (devicesSubject c)) as [k|] eqn:Ek.
  - unfold receive, onDeviceStateChanged. simpl. unfold updateDeviceState, getDevice. simpl.
    rewrite (find_insert_first _ _ _ _ Ek) by (rewrite Hid; apply String.eqb_refl).
    subst p. reflexivity.
  - exfalso. apply Hin. apply findIndex_None, Ek.
Qed.

(** C: A device that reaches the client through [device:created] has no
    [state.data], which is what the UI reads: the gateway sends the
    state itself as [state], where GET /devices sends the [DeviceState]
    row [{ deviceId, data }]. *)
Theorem created_device_has_no_state_data c d init :
  getDevice c (Some (JStr (id d))) = None -> get init "data" = None ->
  exists dev, getDevice (receive (DeviceCreated d (JObj init)) c) (Some (JStr (id d))) = Some dev /\
    prop (Some dev) "state" = Some (serialize (JObj init)) /\ prop (prop (Some dev) "state") "data" = None.
Proof.
  intros Hnone Hdata. set (p := serialize (event_payload (DeviceCreated d (JObj init)))).
  assert (Hid : id_of p = Some (JStr (id d))).
  { apply id_of_payload_str. unfold created_obj. rewrite get_set_ne by discriminate.
    destruct (templateId d); reflexivity. }
  assert (Hst : prop (Some p) "state" = Some (serialize (JObj init))).
  { subst p. simpl. rewrite get_serialize. unfold created_obj. rewrite get_set_eq. reflexivity. }
  exists p. split; [|split; [exact Hst|]].
  - unfold getDevice in *. change (devicesSubject (receive (DeviceCreated d (JObj init)) c))
      with (app (devicesSubject c) [p]).
    rewrite find_app, Hnone. simpl. rewrite Hid. simpl. rewrite String.eqb_refl. reflexivity.
  - rewrite Hst. simpl. rewrite get_serialize, Hdata. reflexivity.
Qed.

(** C18: With at most 50 devices, the dashboard's [loadDevices()] (page
    1, limit 50, no filter) leaves the client listing exactly the server's
    devices, each once, in whatever order the database returns them. *)
Theorem loadDevices_mirrors msg pl db c :
  (length (devices db) <= 50)%nat ->
  ids (loadDevices msg pl db None None (Fin 1) (Fin 50) c) ≡ₚ map (fun d => Some (JStr (id d))) (devices db).
Proof.
  intros Hlen. unfold loadDevices.
  replace (Query.controller_list pl db (truthy_str None) (truthy_str None)
             (Some (num_to_string (Fin 1))) (Some (num_to_string (Fin 50))))
    with (Query.listDevices pl db None None (Fin (inject_Z 1)) (Fin (inject_Z 50))) by reflexivity.
  rewrite Query.listDevices_Z by lia. cbn zeta. unfold on_list_response, ids. cbn [Query.data devicesSubject].
  replace (List.filter (Query.matches None None) (devices db)) with (devices db)
    by (symmetry; apply forallb_filter_id, forallb_forall; reflexivity).
  change (Z.to_nat ((1 - 1) * 50)) with 0%nat. change (Z.to_nat 50) with 50%nat. rewrite skipn_O.
  rewrite firstn_all2 by (rewrite (Permutation_length (Query.by_rank_perm _ _)); lia).
  rewrite !map_map. apply (Permutation_map (fun d => Some (JStr (id d)))).
  rewrite !Query.by_rank_perm. reflexivity.
Qed.

(** ** Witnesses *)

Lemma update_then_state_ignored_witness :
  let c := receive (DeviceCreated lamp (JObj [("state", JStr "OFF")])) initial in
  receive (DeviceStateChanged (id lamp) "light" (JObj [("state", JStr "ON")])) (receive (DeviceUpdated lamp) c) =
  receive (DeviceUpdated lamp) c.
Proof. intros c. apply update_then_state_ignored. vm_compute. discriminate. Defined.

Lemma created_device_has_no_state_data_witness :
  exists dev, getDevice (receive (DeviceCreated lamp (JObj [("state", JStr "OFF")])) initial) (Some (JStr (id lamp))) = Some dev /\
    prop (Some dev) "state" = Some (serialize (JObj [("state", JStr "OFF")])) /\ prop (prop (Some dev) "state") "data" = None.
Proof. apply created_device_has_no_state_data; reflexivity. Defined.

(** A plan that returns the lamp's id last. *)
Lemma loadDevices_mirrors_witness :
  let pl := Query.mkPlan (fun d => if String.eqb (id d) "uuid-0" then 1%nat else 0%nat) (fun _ => 0%nat) in
  let db := mkDB [lamp; lamp_b] ∅ in
  ids (loadDevices (fun _ => "") pl db None None (Fin 1) (Fin 50) initial) = [Some (JStr "uuid-1"); Some (JStr "uuid-0")] /\
  ids (loadDevices (fun _ => "") pl db None None (Fin 1) (Fin 50) initial) ≡ₚ map (fun d => Some (JStr (id d))) (devices db).
Proof.
  intros pl db. split; [reflexivity|].
  apply (loadDevices_mirrors (fun _ => "") pl db initial). simpl. lia.
Defined.

End Web.
