(* ===== verification/Socket.v ===== *)
(** * The browser's socket (src/mqtt-web: core/services/websocket.service.ts)

    [WebsocketService] owns one socket.io client socket.  Its server side
    is a socket of the gateway (devices/devices.gateway.ts): while the
    client is connected, the server socket is in the rooms
    [handleConnection] and the [subscribe:*] handlers put it in; when the
    connection drops the server socket and its rooms are gone, and the
    next connection starts again from [handleConnection].  A message the
    client emits while disconnected waits in the client's send buffer and
    reaches the server after the next connection's [handleConnection].

    The theorem shows that the socket the app drives (it never sends
    [subscribe:type]) is, whenever it is connected, in [devices:all] and
    in no type room: the rooms [Sync.client_follows_server] assumes. *)

From Stdlib Require Import String List Bool.
From S2P Require Import Prelude Json Web.
Import ListNotations.
Open Scope string_scope.

Module Socket.
Import Web.

(** The messages the service emits on the socket. *)
Inductive msg : Type :=
| SubType (type : string)          (* subscribe:type *)
| UnsubType (type : string)        (* unsubscribe:type *)
| SubDevice (deviceId : string)    (* subscribe:device *)
| UnsubDevice (deviceId : string). (* unsubscribe:device *)

(** The gateway's handler of each message. *)
Definition handle (rooms : list string) (m : msg) : list string :=
  match m with
  | SubType t => handleSubscribeType rooms t
  | UnsubType t => handleUnsubscribeType rooms t
  | SubDevice i => handleSubscribeDevice rooms i
  | UnsubDevice i => handleUnsubscribeDevice rooms i
  end.

(** A client socket: whether it is connected, the rooms of its server
    socket, the messages buffered while disconnected. *)
Record Sock : Type := mkSock { sock_connected : bool; rooms : list string; sendBuffer : list msg }.

(** The service: [this.socket] ([null] after [disconnect()]) and the
    value of [connectedSubject]. *)
Record WebsocketService : Type := mkWebsocketService { socket : option Sock; connectedSubject : bool }.

(** [setupSocket()]: [io(wsUrl, ...)] returns a socket that starts to
    connect. *)
Definition setupSocket (w : WebsocketService) : WebsocketService :=
  mkWebsocketService (Some (mkSock false [] [])) (connectedSubject w).

(** The constructor: [connectedSubject] starts at [false]. *)
Definition init : WebsocketService := setupSocket (mkWebsocketService None false).

(** The ['connect'] event: the server runs [handleConnection], then the
    buffered messages; the listener emits [true]. *)
Definition on_connect (w : WebsocketService) : WebsocketService :=
  match socket w with
  | Some s => mkWebsocketService (Some (mkSock true (fold_left handle (sendBuffer s) handleConnection) [])) true
  | None => w
  end.

(** The ['disconnect'] event: the server socket is gone; the listener
    emits [false]. *)
Definition on_disconnect (w : WebsocketService) : WebsocketService :=
  match socket w with
  | Some s => mkWebsocketService (Some (mkSock false [] (sendBuffer s))) false
  | None => w
  end.

(** [this.socket.emit(...)] behind [if (!this.socket) return]. *)
Definition emit (m : msg) (w : WebsocketService) : WebsocketService :=
  match socket w with
  | None => w
  | Some s =>
      if sock_connected s
      then mkWebsocketService (Some (mkSock true (handle (rooms s) m) (sendBuffer s))) (connectedSubject w)
      else mkWebsocketService (Some (mkSock false (rooms s) (sendBuffer s ++ [m]))) (connectedSubject w)
  end.

Definition subscribeToDeviceType (t : string) := emit (SubType t).
Definition unsubscribeFromDeviceType (t : string) := emit (UnsubType t).
Definition subscribeToDevice (i : string) := emit (SubDevice i).
Definition unsubscribeFromDevice (i : string) := emit (UnsubDevice i).

(** [disconnect()]: [socket.disconnect()], which fires ['disconnect'] on
    a connected socket, then [this.socket = null]. *)
Definition disconnect (w : WebsocketService) : WebsocketService :=
  match socket w with
  | Some s => mkWebsocketService None (if sock_connected s then false else connectedSubject w)
  | None => w
  end.

(** [reconnect()]: [socket.connect()] (the connection comes as a later
    ['connect'] event), or a new socket. *)
Definition reconnect (w : WebsocketService) : WebsocketService :=
  match socket w with
  | Some _ => w
  | None => setupSocket w
  end.

Definition isConnected (w : WebsocketService) : bool := connectedSubject w.

(** What can happen to the app's socket: the connection's events and
    the calls the app makes (the device view subscribes to and leaves
    its device's room; nothing calls [subscribeToDeviceType]). *)
Inductive app_step : WebsocketService -> WebsocketService -> Prop :=
| step_connect w : app_step w (on_connect w)
| step_disconnected w : app_step w (on_disconnect w)
| step_subscribe i w : app_step w (subscribeToDevice i w)
| step_unsubscribe i w : app_step w (unsubscribeFromDevice i w)
| step_disconnect w : app_step w (disconnect w)
| step_reconnect w : app_step w (reconnect w).

Inductive reachable : WebsocketService -> Prop :=
| reach_init : reachable init
| reach_step w w' : reachable w -> app_step w w' -> reachable w'.

(** A device message; the buffer holds only those. *)
Definition device_msg (m : msg) : Prop := match m with SubDevice _ | UnsubDevice _ => True | _ => False end.

Definition sock_ok (s : Sock) : Prop :=
  (sock_connected s = true -> client_rooms (rooms s)) /\ Forall device_msg (sendBuffer s).

Definition ws_ok (w : WebsocketService) : Prop :=
  match socket w with Some s => sock_ok s | None => True end.

(** ** Lemmas *)

Lemma client_rooms_join rooms i : client_rooms rooms -> client_rooms (join rooms ("devices:id:" ++ i)).
Proof.
  intros [Hall Ht]. unfold join. destruct (existsb (String.eqb ("devices:id:" ++ i)) rooms); [split; assumption|].
  split; [rewrite existsb_app, Hall; reflexivity|]. intros t. rewrite existsb_app, Ht. reflexivity.
Qed.

Lemma client_rooms_leave rooms i : client_rooms rooms -> client_rooms (leave rooms ("devices:id:" ++ i)).
Proof.
  intros [Hall Ht]. unfold leave. split.
  - apply existsb_exists in Hall as (x & Hx & Hxe). apply existsb_exists. exists x. split; [|exact Hxe].
    apply String.eqb_eq in Hxe. subst x. apply filter_In. split; [exact Hx | reflexivity].
  - intros t. apply existsb_false_iff. intros x Hx. apply filter_In in Hx as [Hx _].
    exact (proj1 (existsb_false_iff _ _) (Ht t) x Hx).
Qed.

Lemma client_rooms_handle rooms m : client_rooms rooms -> device_msg m -> client_rooms (handle rooms m).
Proof.
  destruct m; simpl; try contradiction; intros H _; [apply client_rooms_join | apply client_rooms_leave]; exact H.
Qed.

Lemma client_rooms_buffer buf rooms :
  client_rooms rooms -> Forall device_msg buf -> client_rooms (fold_left handle buf rooms).
Proof.
  intros H Hb. revert rooms H. induction Hb as [|m buf Hm _ IH]; intros rooms H; [exact H|].
  apply IH, client_rooms_handle; assumption.
Qed.

Lemma app_step_ok w w' : ws_ok w -> app_step w w' -> ws_ok w'.
Proof.
  intros Hw Hs. unfold ws_ok in *. destruct Hs as [w|w|i w|i w|w|w];
    [unfold on_connect | unfold on_disconnect | unfold subscribeToDevice, emit
    | unfold unsubscribeFromDevice, emit | unfold disconnect | unfold reconnect, setupSocket];
    destruct (socket w) as [s|] eqn:Ew; cbn; rewrite ?Ew; try exact I; try exact Hw.
  all: try destruct Hw as [Hc Hb]; try destruct (sock_connected s) eqn:E; unfold sock_ok; cbn.
  all: split; [intros Hcon | ]; try discriminate;
    try solve [constructor | exact Hb | apply Forall_app; split; [exact Hb | repeat constructor]].
  all: first [exact (client_rooms_buffer _ _ client_rooms_connection Hb)
             | exact (client_rooms_handle _ (SubDevice _) (Hc eq_refl) I)
             | exact (client_rooms_handle _ (UnsubDevice _) (Hc eq_refl) I)].
Qed.

(** ** Theorems *)

(** C14: the app's socket is in the rooms of a device list.  Whatever
    connections, disconnections, device views and manual reconnects
    happen, a connected socket of [WebsocketService] is in
    [devices:all] and in no type room. *)
Theorem connected_rooms w s :
  reachable w -> socket w = Some s -> sock_connected s = true -> client_rooms (rooms s).
Proof.
  intros Hr. assert (Hok : ws_ok w).
  { induction Hr as [|w w' _ IH Hs]; [split; [discriminate | constructor] | exact (app_step_ok _ _ IH Hs)]. }
  intros Hs Hc. unfold ws_ok in Hok. rewrite Hs in Hok. exact (proj1 Hok Hc).
Qed.

Lemma connected_rooms_witness :
  client_rooms (rooms (mkSock true ["devices:all"; "devices:id:uuid-0"] [])).
Proof.
  apply (connected_rooms (subscribeToDevice "uuid-0" (on_connect init))); [|reflexivity | reflexivity].
  apply (reach_step (on_connect init)); [apply (reach_step init); [exact reach_init | apply step_connect] | apply step_subscribe].
Defined.

End Socket.
