(* ===== verification/Sync.v ===== *)
(** * The web client following the server

    The server's gateway events are the only way the web client learns of
    changes after a load.  This file connects the two sides: the service's
    operations (Service, Transfer, System) and the client's list (Web).

    [feeds m] says that whatever the state, [m] appends events to the log
    and changes the device ids of the table exactly as those events
    announce them ([Web.feed]: a creation appends, a deletion filters).
    Every operation of the process feeds, including the failing ones (a
    failing operation has written nothing the events do not announce) and
    the import.  With [Web.receive_delivered_ids], a client whose ids are
    the server's keeps them in step whatever the process does.

    What the events do not keep in step is the client's counter: a client
    that also joined a device's room (the control view of that device)
    receives that device's deletion twice and decrements its total twice. *)

From Stdlib Require Import QArith String List Bool Arith Lia.
From stdpp Require Import gmap strings.
From S2P Require Import Prelude JsNum Json Kind Registry Topics Slug Store Mqtt Service Transfer System Web.
Import ListNotations.
Open Scope string_scope.

Module Sync.
Import Store Service System Web.
Open Scope svc_scope.

(** The ids of the device table, as the client's [ids] writes them. *)
Definition sids (s : Svc) : list (option json) := map (fun i => Some (JStr i)) (map id (devices (db s))).

Definition replay (E : list Event) (l : list (option json)) : list (option json) :=
  fold_left (fun l e => feed e l) E l.

(** [s'] follows [s] by the events [E]: the log grew by [E], and the ids
    changed as [E] announces. *)
Definition fed (s s' : Svc) : Prop :=
  exists E, events s' = app (events s) E /\ sids s' = replay E (sids s).

Definition feeds_at {A} (s : Svc) (m : M A) : Prop := fed s (snd (m s)).

Definition feeds {A} (m : M A) : Prop := forall s, feeds_at s m.

(** The events a step of the process emitted. *)
Definition emitted (s s' : Svc) : list Event := skipn (length (events s)) (events s').

(** A client mirrors the server when it lists the server's ids in table order. *)
Definition mirrors (c : DeviceStateService) (s : Svc) : Prop := ids c = sids s.

(** A sequence of operations of the process. *)
Fixpoint run (tpl : string -> option Template) (os : list op) (p : Proc) : Proc :=
  match os with
  | [] => p
  | o :: os' => run tpl os' (step tpl o p)
  end.

(** ** The framework *)

Lemma fed_refl s : fed s s.
Proof. exists []. now rewrite app_nil_r. Qed.

Lemma fed_trans s1 s2 s3 : fed s1 s2 -> fed s2 s3 -> fed s1 s3.
Proof.
  intros (E1 & He1 & Hs1) (E2 & He2 & Hs2). exists (app E1 E2).
  rewrite He2, He1, Hs2, Hs1, app_assoc. unfold replay. now rewrite fold_left_app.
Qed.

Lemma feeds_at_quiet {A} s (m : M A) :
  events (snd (m s)) = events s -> map id (devices (db (snd (m s)))) = map id (devices (db s)) -> feeds_at s m.
Proof. intros He Hd. exists []. rewrite app_nil_r. unfold sids. rewrite Hd. auto. Qed.

Lemma feeds_at_bind {A B} s (m : M A) (k : A -> M B) :
  feeds_at s m -> (forall a, fst (m s) = Ok a -> feeds_at (snd (m s)) (k a)) -> feeds_at s (mbind m k).
Proof.
  unfold feeds_at, mbind. intros H1 Hk.
  destruct (m s) as [[a|e] s1]; cbn [fst snd] in *; [|exact H1].
  exact (fed_trans _ _ _ H1 (Hk a eq_refl)).
Qed.

Lemma feeds_bind {A B} (m : M A) (k : A -> M B) :
  feeds m -> (forall a, feeds (k a)) -> feeds (mbind m k).
Proof. intros Hm Hk s. apply feeds_at_bind; [apply Hm | intros a _; apply Hk]. Qed.

(** An operation that writes no event and no row. *)
Lemma feeds_quiet {A} (m : M A) :
  (forall s, events (snd (m s)) = events s /\ devices (db (snd (m s))) = devices (db s)) -> feeds m.
Proof. intros H s. destruct (H s) as [He Hd]. apply feeds_at_quiet; [exact He | now rewrite Hd]. Qed.

Ltac quiet := apply feeds_quiet; intros ?; split; reflexivity.

Lemma feeds_ret {A} (a : A) : feeds (ret a).
Proof. quiet. Qed.
Lemma feeds_throw {A} e : feeds (A := A) (throw e).
Proof. quiet. Qed.
Lemma feeds_lift {A} (r : result A) : feeds (lift r).
Proof. quiet. Qed.
Lemma feeds_gets {A} (f : Svc -> A) : feeds (gets f).
Proof. quiet. Qed.
Lemma feeds_publish t p r : feeds (publish t p r).
Proof. quiet. Qed.
Lemma feeds_clearTimer i : feeds (clearTelemetryTimer i).
Proof. quiet. Qed.
Lemma feeds_clearDiscovery d : feeds (clearDiscovery d).
Proof. quiet. Qed.
Lemma feeds_publishDiscovery d : feeds (publishDiscoveryIfEnabled d).
Proof. apply feeds_quiet. intros s. unfold publishDiscoveryIfEnabled. destruct (discoveryEnabled s); auto. Qed.
Lemma feeds_find_or_404 i : feeds (find_or_404 i).
Proof. apply feeds_quiet. intros s. unfold find_or_404. destruct (findById (db s) i); auto. Qed.
Lemma feeds_updateState i v : feeds (modify (fun s => set_db s (updateState (db s) i v))).
Proof. apply feeds_quiet. intros s. split; [reflexivity | apply updateState_devices]. Qed.
Lemma feeds_ensureTimer d : feeds (ensureTelemetryTimer d).
Proof. apply feeds_quiet. intros s. unfold ensureTelemetryTimer. destruct (armed _); auto. Qed.

(** The events that leave the ids alone. *)
Lemma feeds_emit_kept e : (forall l, feed e l = l) -> feeds (emit e).
Proof. intros Hf s. exists [e]. split; [reflexivity|]. unfold replay. simpl. now rewrite Hf. Qed.

Lemma feeds_emit_updated d : feeds (emit (DeviceUpdated d)).
Proof. apply feeds_emit_kept. reflexivity. Qed.
Lemma feeds_emit_state i t v : feeds (emit (DeviceStateChanged i t v)).
Proof. apply feeds_emit_kept. reflexivity. Qed.

Create HintDb sync.
#[export] Hint Resolve feeds_ret feeds_throw feeds_lift feeds_gets feeds_publish feeds_clearTimer
  feeds_clearDiscovery feeds_publishDiscovery feeds_find_or_404 feeds_updateState feeds_ensureTimer
  feeds_emit_updated feeds_emit_state : sync.

(** Decompose a [feeds] goal along the binds and the cases of the matches. *)
Ltac feeding :=
  repeat first
    [ solve [eauto with sync]
    | progress intros
    | apply feeds_bind; [|intros ?; cbv beta]
    | progress (cbv beta iota)
    | destruct_goal_match
    | solve [quiet] ].

(** ** The store's writes *)

(** An UPDATE of a row that is there keeps the ids; so does a failed one. *)
Lemma feeds_at_save s x e :
  findById (db s) (id x) = Some e -> feeds_at s (db_step (fun b => save b x)).
Proof.
  intros He. apply findById_In in He as [Hin Hid].
  apply feeds_at_quiet; unfold db_step, save;
    destruct (negb (row_ok x) || collides (db s) x); try reflexivity;
    destruct (existsb _ (devices (db s))) eqn:Ex; try reflexivity; cbn [snd db devices set_db].
  - apply map_id_replace.
  - exfalso. rewrite existsb_false_iff in Ex. specialize (Ex e Hin). cbv beta in Ex.
    rewrite Hid, String.eqb_refl in Ex. discriminate.
Qed.

Lemma feeds_update x : feeds (db_step (fun b => update b x)).
Proof.
  intros s. apply feeds_at_quiet; unfold db_step, update;
    destruct (negb (row_ok x) || collides (db s) x); try reflexivity. apply map_id_replace.
Qed.

(** The continuation of [find_or_404] runs on a device that is there. *)
Lemma feeds_find {A} i (k : Device -> M A) :
  (forall s dev, findById (db s) i = Some dev -> feeds_at s (k dev)) -> feeds (mbind (find_or_404 i) k).
Proof.
  intros Hk s. apply feeds_at_bind; [apply feeds_find_or_404|]. intros dev. unfold find_or_404. cbv beta.
  destruct (findById (db s) i) eqn:E; cbn [fst snd]; intros H; [injection H as <-; exact (Hk s _ E) | discriminate].
Qed.

(** The table after a DELETE, as the client filters it. *)
Lemma sids_delete s i : map (fun i => Some (JStr i)) (map id (devices (delete (db s) i))) = feed (DeviceDeleted i "") (sids s).
Proof. unfold delete, sids, feed. cbn [devices]. rewrite !map_map, <- map_filter_comm. reflexivity. Qed.

Lemma insert_devices d e d' : insert d e = Ok d' -> devices d' = app (devices d) [e].
Proof. unfold insert. destruct (_ || _ || _); intros H; [discriminate | now injection H as <-]. Qed.

Lemma feeds_at_save_bind {B} s x e (k : unit -> M B) :
  findById (db s) (id x) = Some e -> feeds (k tt) -> feeds_at s (mbind (db_step (fun b => save b x)) k).
Proof. intros He Hk. apply feeds_at_bind; [exact (feeds_at_save _ _ _ He) | intros [] _; apply Hk]. Qed.

#[export] Hint Resolve feeds_update : sync.

(** ** Every operation feeds *)

Lemma feeds_applyCommand i t p : feeds (applyCommand i t p).
Proof. unfold applyCommand. feeding. Qed.

Lemma feeds_heartbeatTick r d : feeds (heartbeatTick r d).
Proof. unfold heartbeatTick. feeding. Qed.

Lemma feeds_fire r i : feeds (fire r i).
Proof. unfold fire. feeding. Qed.

Lemma feeds_sendById i c : feeds (sendById i c).
Proof. unfold sendById. feeding. Qed.

Lemma feeds_updateTelemetry i n : feeds (updateTelemetry i n).
Proof.
  unfold updateTelemetry. apply feeds_bind; [feeding | intros _].
  apply feeds_find. intros s dev Hd. pose proof (proj2 (findById_In _ _ _ Hd)) as Hid.
  apply (feeds_at_save_bind _ _ dev); [cbn [id with_interval]; congruence | feeding].
Qed.

Lemma feeds_updateDevice i n c t : feeds (updateDevice i n c t).
Proof.
  unfold updateDevice. apply feeds_find. intros s dev Hd. pose proof (proj2 (findById_In _ _ _ Hd)) as Hid.
  apply (feeds_at_save_bind _ _ dev); [cbn [id]; congruence | feeding].
Qed.

Lemma feeds_refreshDiscovery i : feeds (refreshDiscovery i).
Proof. unfold refreshDiscovery. feeding. Qed.

Lemma feeds_remove i : feeds (remove i).
Proof.
  intros s. destruct (findById (db s) i) as [dev|] eqn:E.
  - unfold feeds_at. rewrite (remove_run _ _ _ E). exists [DeviceDeleted i (type dev)].
    split; [reflexivity|]. exact (sids_delete s i).
  - apply feeds_at_quiet; unfold remove; rewrite (find_or_404_missing _ _ _ E); reflexivity.
Qed.

(** A round of the create loop with a kind of the registry: either the
    INSERT fails and nothing is written, or the row is appended and its
    creation is announced. *)
Lemma feeds_create_once k t nm sl caps tid iv : feeds (create_once (Registry.Registered k) t nm sl caps tid iv).
Proof.
  intros s. destruct (insert (db s) (new_device s t nm sl caps tid iv)) as [db1|e] eqn:Hins.
  - destruct (create_once_ok s k t nm sl caps tid iv db1 Hins) as (s' & Hrun & Hdb & _ & _ & _ & _ & _ & _ & Hev).
    unfold feeds_at. rewrite Hrun. eexists. split; [exact Hev|]. cbn [snd].
    unfold sids, replay. rewrite Hdb. cbn [fold_left feed devices insertState].
    rewrite (insert_devices _ _ _ Hins), !map_app. reflexivity.
  - apply feeds_at_quiet; unfold create_once, mbind, db_step; cbn -[insert new_device]; rewrite Hins; reflexivity.
Qed.

Lemma feeds_save_loop rem att au k t nm fs caps tid iv :
  feeds (save_loop rem att au (Registry.Registered k) t nm fs caps tid iv).
Proof.
  revert att fs. induction rem as [|rem IH]; intros att fs s;
    pose proof (feeds_create_once k t nm fs caps tid iv s) as Hc; unfold feeds_at in *; cbn [save_loop];
    destruct (create_once _ _ _ _ _ _ _ s) as [[r|e] s']; cbn [snd] in *; try exact Hc;
    destruct (is_unique e && au); try exact Hc.
  exact (fed_trans _ _ _ Hc (IH _ _ s')).
Qed.

Lemma feeds_createDevice t nm sl caps tid : feeds (createDevice t nm sl caps tid).
Proof.
  unfold createDevice. apply feeds_bind; [destruct (Registry.getKind t); feeding | intros kind].
  apply feeds_bind; [feeding | intros ex].
  destruct ex, (truthy_str sl); try apply feeds_ret;
    (apply feeds_bind;
     [first [apply feeds_ret | apply feeds_quiet; intros s'; destruct (probe _ _ _ _ _); split; reflexivity]
     | intros fs]);
    (destruct kind as [k|x]; [apply feeds_bind; [apply feeds_lift | intros kc; apply feeds_save_loop] | quiet]).
Qed.

#[export] Hint Resolve feeds_createDevice feeds_updateTelemetry feeds_updateDevice feeds_remove : sync.

Lemma feeds_controller_create tpl d : feeds (controller_create tpl d).
Proof. unfold controller_create. feeding. Qed.

(** ** The import *)

Lemma feeds_catch {A} (m : M A) (h : exn -> M A) :
  feeds m -> (forall e, feeds (h e)) -> feeds (Transfer.catch m h).
Proof.
  intros Hm Hh s. pose proof (Hm s) as H1. unfold feeds_at, Transfer.catch in *.
  destruct (m s) as [[a|e] s1]; cbn [snd] in *; [exact H1 | exact (fed_trans _ _ _ H1 (Hh e s1))].
Qed.

Lemma feeds_for_each {A} (f : A -> M unit) l : (forall x, feeds (f x)) -> feeds (for_each f l).
Proof. intros Hf. induction l as [|x l IH]; simpl; [apply feeds_ret | apply feeds_bind; auto]. Qed.

Lemma feeds_apply_state dev i : feeds (Transfer.apply_state dev i).
Proof. unfold Transfer.apply_state. feeding. Qed.

#[export] Hint Resolve feeds_apply_state : sync.

Lemma feeds_import_create dev : feeds (Transfer.import_create dev).
Proof.
  unfold Transfer.import_create. apply feeds_bind; [|feeding].
  destruct (Transfer.str_field dev "name"); [apply feeds_createDevice|].
  apply feeds_quiet. intros s. repeat case_match; split; reflexivity.
Qed.

Lemma feeds_import_update dev ex : feeds (Transfer.import_update dev ex).
Proof. unfold Transfer.import_update. feeding. Qed.

#[export] Hint Resolve feeds_import_create feeds_import_update : sync.

Lemma feeds_second_pass devs r : feeds (Transfer.second_pass devs r).
Proof.
  revert r. induction devs as [|dev devs IH]; intros r; simpl; [apply feeds_ret|].
  apply feeds_bind; [apply feeds_catch; unfold Transfer.import_entry |]; feeding.
Qed.

Lemma feeds_importAll p : feeds (Transfer.importAll p).
Proof.
  unfold Transfer.importAll. repeat case_match; feeding;
    first [apply feeds_second_pass | apply feeds_for_each; intros; feeding].
Qed.

#[export] Hint Resolve feeds_controller_create feeds_sendById feeds_refreshDiscovery feeds_importAll feeds_fire : sync.

(** ** The process *)

Lemma feeds_run_op tpl o : feeds (run_op tpl o).
Proof.
  destruct o; unfold run_op, discard; try solve [feeding].
  intros s. unfold feeds_at. repeat case_match; [apply feeds_applyCommand | apply fed_refl].
Qed.

Lemma step_fed tpl o p : fed (svc p) (svc (step tpl o p)).
Proof.
  unfold step. destruct (alive p); [|apply fed_refl].
  pose proof (feeds_run_op tpl o (svc p)) as H. unfold feeds_at in H.
  destruct (run_op tpl o (svc p)). exact H.
Qed.

Lemma run_fed tpl os p : fed (svc p) (svc (run tpl os p)).
Proof.
  revert p. induction os as [|o os IH]; intros p; simpl; [apply fed_refl|].
  exact (fed_trans _ _ _ (step_fed tpl o p) (IH _)).
Qed.

Lemma emitted_fed s s' E : events s' = app (events s) E -> emitted s s' = E.
Proof. intros H. unfold emitted. rewrite H, skipn_app, skipn_all, Nat.sub_diag. reflexivity. Qed.

(** ** The client's side *)

Lemma receive_all_delivered rooms E c :
  client_rooms rooms -> ids (receive_all (flat_map (delivered rooms) E) c) = replay E (ids c).
Proof.
  intros H. revert c. induction E as [|e E IH]; intros c; [reflexivity|].
  cbn [flat_map]. unfold receive_all in *. rewrite fold_left_app, IH.
  change (fold_left (fun c e => receive e c) (delivered rooms e) c) with (receive_all (delivered rooms e) c).
  rewrite receive_delivered_ids by exact H. reflexivity.
Qed.

Lemma client_rooms_device i : client_rooms (handleSubscribeDevice handleConnection i).
Proof. split; [reflexivity | intros t; reflexivity]. Qed.

(** A socket in the room of device [i] receives each of its deletions twice. *)
Lemma delivered_device_room i t :
  delivered (handleSubscribeDevice handleConnection i) (DeviceDeleted i t) = [DeviceDeleted i t; DeviceDeleted i t].
Proof. unfold delivered, handleSubscribeDevice, handleConnection, join. simpl. rewrite String.eqb_refl. reflexivity. Qed.

(** ** Theorems *)

(** C13: the web client follows the server.  A client of the device list
    page (its socket in [devices:all], in device rooms perhaps, never in
    a type room) whose list has the ids of the table keeps them, in table
    order, whatever sequence of requests, MQTT messages and telemetry
    ticks the process runs, failing ones and imports included: applying
    the copies of the new events the gateway delivers to it gives the ids
    of the table after the run. *)
Theorem client_follows_server tpl os p c rooms :
  client_rooms rooms -> mirrors c (svc p) ->
  mirrors (receive_all (flat_map (delivered rooms) (emitted (svc p) (svc (run tpl os p)))) c) (svc (run tpl os p)).
Proof.
  intros Hr Hm. destruct (run_fed tpl os p) as (E & He & Hs).
  unfold mirrors. rewrite (emitted_fed _ _ _ He), receive_all_delivered, Hm, Hs by exact Hr. reflexivity.
Qed.

Lemma client_follows_server_witness :
  client_rooms handleConnection /\ mirrors initial (svc booted) /\
  mirrors (receive_all (flat_map (delivered handleConnection)
             (emitted (svc booted) (svc (run (fun _ => None)
                [Create (mkCreateDto "light" "Lamp" None None None); Remove "uuid-0"] booted)))) initial)
          (svc (run (fun _ => None) [Create (mkCreateDto "light" "Lamp" None None None); Remove "uuid-0"] booted)).
Proof.
  refine (conj client_rooms_connection (conj eq_refl _)).
  apply (client_follows_server _ _ _ _ _ client_rooms_connection). reflexivity.
Defined.

(** C19: the control view of device [i] joins the room [devices:id:i]
    besides [devices:all]; the deletion of [i] reaches its socket twice.
    The list drops the device once, but the total is lowered by two. *)
Theorem deleted_counted_twice i t c :
  let c' := receive_all (delivered (handleSubscribeDevice handleConnection i) (DeviceDeleted i t)) c in
  ids c' = feed (DeviceDeleted i t) (ids c) /\
  totalDevicesSubject c' = num_sub (num_sub (totalDevicesSubject c) (Fin 1)) (Fin 1).
Proof.
  intros c'. split; [apply receive_delivered_ids, client_rooms_device|].
  subst c'. rewrite delivered_device_room. reflexivity.
Qed.

End Sync.
