(* ===== verification/Dashboard.v ===== *)
(** * The dashboard page (src/mqtt-web: features/dashboard/dashboard.component.ts)

    The dashboard shows [DeviceStateService]'s list in an order the user
    can change by dragging.  Its [devices$] subscriber rebuilds the shown
    list from the order saved in [localStorage] when the saved order has
    as many ids as the list, looking each id up in a [Map] from id to
    device; [drop] moves a card with the CDK's [moveItemInArray] and saves
    the ids in their new order.  The page also switches lights and deletes
    devices, each through the HTTP API and then the client's list.

    The [Map] is an association list with the [Map]'s insertion semantics
    (a key already there keeps its position and takes the new value);
    keys are compared with [Web.strict_eq], which is [Map]'s SameValueZero
    on the values ids are (strings); [localStorage]'s item is the array of
    ids [JSON.stringify] wrote, read back by [JSON.parse].  The CDK's
    [moveItemInArray] is a library function: it is written here as its
    loop computes it, clamping both indices into the array and moving the
    element from one index to the other. *)

From Stdlib Require Import QArith String List Bool Arith Lia.
From stdpp Require Import list.
From S2P Require Import Prelude JsNum Json Kind Light Registry Store Service Query System Web Sync.
Import ListNotations.
Open Scope string_scope.

Module Dashboard.
Import Store Service System Web Sync.

(** ** The saved order *)

(** [map.set(k, v)] and [map.get(k)] of a [Map]. *)
Fixpoint map_set (m : list (option json * json)) (k : option json) (v : json) : list (option json * json) :=
  match m with
  | [] => [(k, v)]
  | (k', v') :: m' => if strict_eq k k' then (k, v) :: m' else (k', v') :: map_set m' k v
  end.

Fixpoint map_get (m : list (option json * json)) (k : option json) : option json :=
  match m with
  | [] => None
  | (k', v) :: m' => if strict_eq k k' then Some v else map_get m' k
  end.

(** [new Map(devices.map(d => [d.id, d]))]. *)
Definition device_map (devices : list json) : list (option json * json) :=
  fold_left (fun m d => map_set m (id_of d) d) devices [].

(** The [devices$] subscriber: [savedOrder.map(id => deviceMap.get(id))
    .filter(d => !!d)] when the saved order has the list's length, the
    list itself otherwise. *)
Definition on_devices (savedOrder : option (list json)) (devices : list json) : list json :=
  match savedOrder with
  | Some order =>
      if Nat.eqb (length order) (length devices)
      then List.filter (fun d => truthy (Some d)) (omap (fun i => map_get (device_map devices) (Some i)) order)
      else devices
  | None => devices
  end.

(** [JSON.stringify(devices.map(d => d.id))] parsed back: an undefined id
    is written as [null]. *)
Definition order_of (devices : list json) : list json :=
  map (fun d => match id_of d with Some v => serialize v | None => JNull end) devices.

(** The CDK's [moveItemInArray(array, fromIndex, toIndex)]: both indices
    clamped to [0 .. length - 1]; the element at [from] is taken out and
    put back at [to]. *)
Definition moveItemInArray {A} (l : list A) (fromIndex toIndex : nat) : list A :=
  let from := Nat.min fromIndex (length l - 1) in
  let to := Nat.min toIndex (length l - 1) in
  if Nat.eqb from to then l else
  match l !! from with
  | Some target => firstn to (base.delete from l) ++ target :: skipn to (base.delete from l)
  | None => l
  end.

(** The page: the list it shows ([this.devices]) and [localStorage]'s
    [deviceOrder] item. *)
Record Dashboard : Type := mkDashboard { shown : list json; deviceOrder : option (list json) }.

(** [devices$] emitting [devices]. *)
Definition render (devices : list json) (st : Dashboard) : Dashboard :=
  mkDashboard (on_devices (deviceOrder st) devices) (deviceOrder st).

(** [drop(event)] and [saveDeviceOrder()]. *)
Definition drop (previousIndex currentIndex : nat) (st : Dashboard) : Dashboard :=
  if Nat.eqb previousIndex currentIndex then st else
  let l := moveItemInArray (shown st) previousIndex currentIndex in
  mkDashboard l (Some (order_of l)).

(** Every entry has a string id. *)
Definition string_ids (l : list json) : Prop := Forall (fun d => exists i, id_of d = Some (JStr i)) l.

(** ** Switching, deleting, icons *)

(** [getStateValue(device, key)]: [device.state?.data?.[key]]. *)
Definition getStateValue (device : json) (key : string) : option json :=
  prop (prop (prop (Some device) "state") "data") key.

(** [toggleLightPower]: [currentState === 'ON' ? 'OFF' : 'ON']. *)
Definition newState (device : json) : string :=
  if strict_eq (getStateValue device "state") (Some (JStr "ON")) then "OFF" else "ON".

(** The body [toggleLightPower] posts to [/devices/:id/command]. *)
Definition toggle_cmd (device : json) : obj := [("state", JStr (newState device))].

(** Its [next] callback: [if (device.state?.data) { device.state.data['state']
    = newState; updateDeviceLocal(device) }].  An array takes the property,
    which JSON does not carry; on a truthy primitive the assignment throws
    (module code is strict) and nothing is updated. *)
Definition toggle_local (device : json) (c : DeviceStateService) : DeviceStateService :=
  match device with
  | JObj o =>
      match get o "state" with
      | Some (JObj so) =>
          match get so "data" with
          | Some (JObj dat) =>
              updateDeviceLocal
                (JObj (set o "state" (JObj (set so "data" (JObj (set dat "state" (JStr (newState device)))))))) c
          | Some (JArr _) => updateDeviceLocal device c
          | _ => c
          end
      | _ => c
      end
  | _ => c
  end.

(** [deleteDevice]'s [next] callback: [removeDevice(device.id)]. *)
Definition delete_local (device : json) (c : DeviceStateService) : DeviceStateService :=
  removeDevice (id_of device) c.

(** [filterByType(type)]: [loadDevices(type)] or [loadDevices()], page 1,
    limit 50. *)
Definition filterByType (http_message : exn -> string) (pl : Query.Plan) (d : DB) (type : option string)
    (c : DeviceStateService) : DeviceStateService :=
  loadDevices http_message pl d type None (Fin 1) (Fin 50) c.

Definition getDeviceIcon (type : string) : string :=
  if String.eqb type "light" then "lightbulb"
  else if String.eqb type "switch" then "toggle_on"
  else if String.eqb type "sensor.temp" then "thermostat"
  else if String.eqb type "cover" then "window"
  else if String.eqb type "fan" then "air"
  else "devices".

Definition getDeviceColor (type : string) : string :=
  if String.eqb type "light" then "#FFC107"
  else if String.eqb type "switch" then "#2196F3"
  else if String.eqb type "sensor.temp" then "#FF5722"
  else if String.eqb type "cover" then "#9C27B0"
  else if String.eqb type "fan" then "#4CAF50"
  else "#757575".

(** The client's states the app reaches: loads (the app's, the page's
    and [filterByType]'s), the socket's events, and the page's own
    updates of its list. *)
Inductive client_reach (http_message : exn -> string) : DeviceStateService -> Prop :=
| cr_initial : client_reach http_message initial
| cr_load pl d ty sl pg lim c :
    client_reach http_message c -> client_reach http_message (loadDevices http_message pl d ty sl pg lim c)
| cr_receive e c : client_reach http_message c -> client_reach http_message (receive e c)
| cr_toggle dv c :
    client_reach http_message c -> In dv (devicesSubject c) -> client_reach http_message (toggle_local dv c)
| cr_delete dv c : client_reach http_message c -> client_reach http_message (delete_local dv c).

(** A second stored light, and a device as GET /devices lists it. *)
Definition desk : Device :=
  mkDevice "uuid-1" "light" "Desk" (Some "desk") [] None "sim/light" true (Fin 0) 0 0.

Definition card (d : Device) : json := serialize (listed_json (d, None)).

(** ** Lemmas *)

Lemma strict_eq_str_l i a : strict_eq (Some (JStr i)) a = true -> a = Some (JStr i).
Proof. destruct a as [[]|]; simpl; try discriminate. intros H. apply String.eqb_eq in H. now subst. Qed.

Lemma strict_eq_strs a b : strict_eq (Some (JStr a)) (Some (JStr b)) = String.eqb a b.
Proof. reflexivity. Qed.

Lemma map_get_set m a v i :
  map_get (map_set m (Some (JStr a)) v) (Some (JStr i)) =
  if String.eqb i a then Some v else map_get m (Some (JStr i)).
Proof.
  induction m as [|[k' v'] m IH]; cbn [map_set map_get]; [reflexivity|].
  destruct (strict_eq (Some (JStr a)) k') eqn:E; cbn [map_get].
  - apply strict_eq_str_l in E as ->. rewrite !strict_eq_strs. destruct (String.eqb i a); reflexivity.
  - rewrite IH. destruct (strict_eq (Some (JStr i)) k') eqn:E2; [|reflexivity].
    apply strict_eq_str_l in E2 as ->. rewrite strict_eq_strs in E.
    destruct (String.eqb_spec i a); [subst; rewrite String.eqb_refl in E; discriminate | reflexivity].
Qed.

(** The [Map] after the entries of [l]: the last entry with the key. *)
Lemma map_get_fold l m i :
  string_ids l ->
  map_get (fold_left (fun m d => map_set m (id_of d) d) l m) (Some (JStr i)) =
  match find (fun d => strict_eq (id_of d) (Some (JStr i))) (rev l) with
  | Some d => Some d
  | None => map_get m (Some (JStr i))
  end.
Proof.
  intros Hl. revert m. induction Hl as [|d l [a Ha] Hl IH]; intros m; [reflexivity|].
  cbn [fold_left rev]. rewrite IH, find_app. cbn [find]. rewrite Ha, map_get_set, strict_eq_strs, (String.eqb_sym a i).
  destruct (find _ (rev l)); [reflexivity|]. destruct (String.eqb i a); reflexivity.
Qed.

(** An entry of the [Map] is keyed by its device's id. *)
Definition keyed (m : list (option json * json)) : Prop := Forall (fun kv => fst kv = id_of (snd kv)) m.

Lemma keyed_set m d : keyed m -> keyed (map_set m (id_of d) d).
Proof.
  induction 1 as [|[k v] m Hk Hm IH]; cbn [map_set]; [repeat constructor|].
  destruct (strict_eq (id_of d) k); repeat constructor; auto.
Qed.

Lemma keyed_device_map l : keyed (device_map l).
Proof.
  unfold device_map. assert (H : keyed []) by constructor. revert H.
  generalize (@nil (option json * json)). induction l as [|d l IH]; intros m Hm; [exact Hm|].
  apply IH, keyed_set, Hm.
Qed.

Lemma map_get_some m k v : map_get m k = Some v -> exists k', In (k', v) m /\ strict_eq k k' = true.
Proof.
  induction m as [|[k' v'] m IH]; cbn [map_get]; [discriminate|].
  destruct (strict_eq k k') eqn:E; [intros H; injection H as <-; exists k'; simpl; auto|].
  intros H. destruct (IH H) as (k'' & ? & ?). exists k''. simpl. auto.
Qed.

Lemma NoDup_map_inj_in {A B} (f : A -> B) l x y : NoDup (map f l) -> In x l -> In y l -> f x = f y -> x = y.
Proof.
  induction l as [|a l IH]; simpl; [tauto|]. intros Hn Hx Hy Hf. inversion Hn as [|? ? Ha Hn']; subst.
  destruct Hx as [<-|Hx], Hy as [<-|Hy]; auto.
  - exfalso. apply Ha. rewrite Hf. apply list_elem_of_In, in_map, Hy.
  - exfalso. apply Ha. rewrite <- Hf. apply list_elem_of_In, in_map, Hx.
Qed.

Lemma find_unique {A} (p : A -> bool) l d :
  In d l -> p d = true -> (forall x, In x l -> p x = true -> x = d) -> find p l = Some d.
Proof.
  induction l as [|a l IH]; simpl; [tauto|]. intros Hd Hp Hu.
  destruct (p a) eqn:E; [f_equal; apply Hu; auto|]. destruct Hd as [<-|Hd]; [congruence|]. apply IH; auto.
Qed.

(** With distinct ids, the [Map] finds each device of the list by its id. *)
Lemma device_map_get l d i :
  string_ids l -> NoDup (map id_of l) -> In d l -> id_of d = Some (JStr i) ->
  map_get (device_map l) (Some (JStr i)) = Some d.
Proof.
  intros Hs Hn Hd Hi. unfold device_map. rewrite map_get_fold by exact Hs.
  rewrite (find_unique _ _ d); [reflexivity | now apply in_rev in Hd | rewrite Hi; apply String.eqb_refl|].
  intros x Hx Hp. apply strict_eq_str in Hp. apply in_rev in Hx.
  exact (NoDup_map_inj_in _ _ _ _ Hn Hx Hd (eq_trans Hp (eq_sym Hi))).
Qed.

Lemma id_of_truthy d v : id_of d = Some v -> truthy (Some d) = true.
Proof. destruct d; try discriminate. reflexivity. Qed.

Lemma filter_truthy_ids v : string_ids v -> List.filter (fun d => truthy (Some d)) v = v.
Proof. induction 1 as [|d v [i Hi] _ IH]; cbn [List.filter]; [reflexivity|]. rewrite (id_of_truthy _ _ Hi). f_equal. exact IH. Qed.

Lemma omap_order v l :
  string_ids v -> (forall d, In d v -> In d l) -> string_ids l -> NoDup (map id_of l) ->
  omap (fun i => map_get (device_map l) (Some i)) (order_of v) = v.
Proof.
  intros Hv Hin Hl Hn. induction Hv as [|d v [i Hi] Hv IH]; [reflexivity|].
  unfold order_of in *. cbn [map]. rewrite Hi. cbn -[map_get device_map].
  rewrite (device_map_get l d i Hl Hn (Hin d (or_introl eq_refl)) Hi).
  f_equal. apply IH. intros x Hx. apply Hin. right. exact Hx.
Qed.

(** The saved order of a permutation of the list brings that permutation back. *)
Lemma on_devices_order v l :
  v ≡ₚ l -> string_ids l -> NoDup (map id_of l) -> on_devices (Some (order_of v)) l = v.
Proof.
  intros Hp Hl Hn. assert (Hv : string_ids v) by (unfold string_ids; rewrite Hp; exact Hl).
  unfold on_devices. unfold order_of at 1. rewrite length_map, (Permutation_length Hp), Nat.eqb_refl.
  rewrite omap_order by (try intros d Hd; try apply (Permutation_in _ Hp Hd); assumption).
  apply filter_truthy_ids, Hv.
Qed.

Lemma moveItemInArray_perm {A} (l : list A) f t : moveItemInArray l f t ≡ₚ l.
Proof.
  unfold moveItemInArray. destruct (Nat.eqb _ _); [reflexivity|].
  destruct (l !! _) as [x|] eqn:E; [|reflexivity].
  rewrite <- Permutation_middle, firstn_skipn. symmetry. apply delete_Permutation, E.
Qed.

Lemma keyed_get l k d : map_get (device_map l) k = Some d -> strict_eq k (id_of d) = true.
Proof.
  intros H. destruct (map_get_some _ _ _ H) as (k' & Hin & Hk).
  pose proof (keyed_device_map l) as Hkd. unfold keyed in Hkd. rewrite List.Forall_forall in Hkd.
  specialize (Hkd _ Hin). simpl in Hkd. now rewrite <- Hkd.
Qed.

(** ** The client's list stays typed *)

Lemma string_ids_update x c :
  string_ids (devicesSubject c) -> (exists i, id_of x = Some (JStr i)) ->
  string_ids (devicesSubject (updateDeviceLocal x c)).
Proof. intros Hc Hx. unfold updateDeviceLocal. destruct (findIndex _ _); [apply Forall_insert|]; assumption. Qed.

Lemma string_ids_filter p l : string_ids l -> string_ids (List.filter p l).
Proof. unfold string_ids. rewrite !List.Forall_forall. intros H x Hx. apply filter_In in Hx. apply H, Hx. Qed.

Lemma string_ids_in l d : string_ids l -> In d l -> exists i, id_of d = Some (JStr i).
Proof. intros H Hd. exact (proj1 (List.Forall_forall _ _) H d Hd). Qed.

(** Setting [state] keeps the id. *)
Lemma id_of_set_state o v : id_of (JObj (set o "state" v)) = id_of (JObj o).
Proof. unfold id_of. simpl. apply get_set_ne. discriminate. Qed.

Lemma id_of_listed row : exists i, id_of (serialize (listed_json row)) = Some (JStr i).
Proof. destruct row as [d st]. exists (id d). reflexivity. Qed.

Lemma id_of_event_payload e : exists i, id_of (serialize (event_payload e)) = Some (JStr i).
Proof. destruct e as [d init| d | i t | i t st]; unfold event_payload, created_obj; [destruct (templateId d)| | |]; eexists; reflexivity. Qed.

Lemma string_ids_updateDeviceState i st c :
  string_ids (devicesSubject c) -> string_ids (devicesSubject (updateDeviceState i st c)).
Proof.
  intros Hc. unfold updateDeviceState, getDevice. destruct (find _ _) as [[| | | | |o]|] eqn:Ef; try exact Hc.
  apply find_some in Ef as [Hin _]. destruct (string_ids_in _ _ Hc Hin) as [j Hj].
  destruct (truthy _); [|exact Hc]. destruct (get o "state") as [[]|]; try exact Hc.
  apply string_ids_update; [exact Hc|]. exists j. rewrite id_of_set_state. exact Hj.
Qed.

Lemma string_ids_receive e c : string_ids (devicesSubject c) -> string_ids (devicesSubject (receive e c)).
Proof.
  intros Hc. destruct (id_of_event_payload e) as [i Hi]. unfold receive.
  destruct e; cbv beta iota zeta.
  - unfold onDeviceCreated. destruct (truthy _); [|exact Hc]. apply Forall_app. split; [exact Hc|]. eauto.
  - unfold onDeviceUpdated. destruct (truthy _); [|exact Hc]. apply string_ids_update; eauto.
  - unfold onDeviceDeleted. destruct (truthy _); [|exact Hc]. apply string_ids_filter, Hc.
  - unfold onDeviceStateChanged. destruct (truthy _); [|exact Hc]. apply string_ids_updateDeviceState, Hc.
Qed.

Lemma string_ids_load msg pl d ty sl pg lim c :
  string_ids (devicesSubject c) -> string_ids (devicesSubject (loadDevices msg pl d ty sl pg lim c)).
Proof.
  intros Hc. unfold loadDevices, on_list_response. destruct (Query.controller_list _ _ _ _ _ _) as [pg'|e]; [|exact Hc].
  unfold string_ids. apply List.Forall_forall. intros x Hx. apply in_map_iff in Hx as (row & <- & _).
  apply id_of_listed.
Qed.

Lemma string_ids_toggle dv c :
  string_ids (devicesSubject c) -> In dv (devicesSubject c) -> string_ids (devicesSubject (toggle_local dv c)).
Proof.
  intros Hc Hin. destruct (string_ids_in _ _ Hc Hin) as [i Hi]. unfold toggle_local.
  destruct dv as [| | | | |o]; try exact Hc.
  destruct (get o "state") as [[| | | | |so]|]; try exact Hc.
  destruct (get so "data") as [[| | | | |dat]|]; try exact Hc; apply string_ids_update; eauto.
  exists i. rewrite id_of_set_state. exact Hi.
Qed.

(** ** Switching a light *)

Lemma findIndex_In p l y : In y l -> p y = true -> exists k, findIndex p l = Some k.
Proof.
  induction l as [|x l IH]; simpl; [tauto|]. intros [->|Hy] Hp; [rewrite Hp; eauto|].
  destruct (p x); [eauto|]. destruct (IH Hy Hp) as [k ->]. eauto.
Qed.

(** The light's reducer with a [state] command sets exactly that state. *)
Lemma light_reduce_state prev caps x :
  x = "ON" \/ x = "OFF" -> get (own_props (Light.reduce prev [("state", JStr x)] caps)) "state" = Some (JStr x).
Proof.
  intros Hx. unfold Light.reduce. cbn [get String.eqb]. rewrite !andb_false_r.
  destruct Hx as [-> | ->]; cbn -[set get]; destruct (negb _); cbn [own_props];
    rewrite ?get_set_ne by discriminate; apply get_set_eq.
Qed.

Lemma newState_cases d : newState d = "ON" \/ newState d = "OFF".
Proof. unfold newState. destruct (strict_eq _ _); auto. Qed.

Lemma two_cards_ok : string_ids [card lamp; card desk] /\ NoDup (map id_of [card lamp; card desk]).
Proof.
  split; [repeat constructor; eexists; reflexivity|].
  constructor; [rewrite list_elem_of_In; simpl; intros [H|[]]; discriminate | constructor; [rewrite list_elem_of_In; simpl; tauto | constructor]].
Qed.

(** ** Theorems *)

(** the dashboard's [Map] from id to device agrees with
    [DeviceStateService.getDevice]'s [find] on a list whose ids are
    distinct strings: the [Map] keeps the last entry of a key and [find]
    the first, which are the same entry. *)
Theorem device_map_agrees c i :
  string_ids (devicesSubject c) -> NoDup (ids c) ->
  map_get (device_map (devicesSubject c)) (Some (JStr i)) = getDevice c (Some (JStr i)).
Proof.
  intros Hs Hn. unfold getDevice. destruct (find _ _) as [d|] eqn:E.
  - apply find_some in E as [Hd Hp]. apply strict_eq_str in Hp. exact (device_map_get _ _ _ Hs Hn Hd Hp).
  - unfold device_map. rewrite map_get_fold by exact Hs.
    destruct (find _ (rev _)) as [x|] eqn:E2; [exfalso | reflexivity].
    apply find_some in E2 as [Hx Hp]. apply in_rev in Hx. rewrite (find_none _ _ E x Hx) in Hp. discriminate.
Qed.

(** C24: a drag survives the next emission of the list.  When the shown
    list is a reordering of the client's list (distinct string ids) and
    a card is dropped at another index, the order [drop] saves makes the
    [devices$] subscriber show the list exactly as it was left. *)
Theorem drag_survives_reload l st i j :
  string_ids l -> NoDup (map id_of l) -> shown st ≡ₚ l -> i <> j ->
  shown (render l (drop i j st)) = shown (drop i j st).
Proof.
  intros Hl Hn Hp Hij. unfold drop. rewrite (proj2 (Nat.eqb_neq _ _) Hij). cbn [render shown deviceOrder].
  apply on_devices_order; [rewrite moveItemInArray_perm; exact Hp | exact Hl | exact Hn].
Qed.

Lemma drag_survives_reload_witness :
  shown (render [card lamp; card desk] (drop 0 1 (mkDashboard [card lamp; card desk] None))) =
  shown (drop 0 1 (mkDashboard [card lamp; card desk] None)).
Proof.
  apply drag_survives_reload; [apply two_cards_ok | apply two_cards_ok | reflexivity | lia].
Defined.

(** C25: a saved order of the right length but with stale ids hides
    devices.  After a device is deleted and another created (elsewhere,
    or by a reload), the saved order still has the list's length; the
    new device, whose id is not in it, is not shown. *)
Theorem stale_order_hides order l d i :
  length order = length l -> id_of d = Some (JStr i) ->
  existsb (fun k => strict_eq (Some k) (Some (JStr i))) order = false ->
  ~ In d (on_devices (Some order) l).
Proof.
  intros Hlen Hi Hno Hd. unfold on_devices in Hd. rewrite Hlen, Nat.eqb_refl in Hd.
  apply filter_In in Hd as [Hd _]. apply list_elem_of_In, list_elem_of_omap in Hd as (k & Hk & Hget).
  apply keyed_get in Hget. rewrite Hi in Hget. apply list_elem_of_In in Hk.
  rewrite existsb_false_iff in Hno. rewrite (Hno k Hk) in Hget. discriminate.
Qed.

Lemma stale_order_hides_witness :
  on_devices (Some [JStr "uuid-0"]) [card desk] = [] /\ ~ In (card desk) (on_devices (Some [JStr "uuid-0"]) [card desk]).
Proof. split; [reflexivity | apply (stale_order_hides _ _ _ "uuid-1"); reflexivity]. Defined.

(** the client's list stays typed.  Through the app's loads, the
    socket's four events and the dashboard's own updates, every entry of
    [DeviceStateService]'s list has a string id, the precondition of the
    dashboard's [Map] and of [getDevice]. *)
Theorem client_list_typed msg c : client_reach msg c -> string_ids (devicesSubject c).
Proof.
  induction 1 as [| pl d ty sl pg lim c _ IH | e c _ IH | dv c _ IH Hin | dv c _ IH].
  - constructor.
  - apply string_ids_load, IH.
  - apply string_ids_receive, IH.
  - apply string_ids_toggle; assumption.
  - apply string_ids_filter, IH.
Qed.

(** the dashboard's light switch agrees with the server.  For a
    device listed with its state row, the command posted is the opposite
    of the shown state; the light's reducer stores exactly that state, and
    the client's entry for the device shows it after the [next] callback. *)
Theorem toggle_agrees o so dat c prev caps :
  In (JObj o) (devicesSubject c) -> get o "state" = Some (JObj so) -> get so "data" = Some (JObj dat) ->
  (exists i, id_of (JObj o) = Some (JStr i)) ->
  get (own_props (Light.reduce prev (toggle_cmd (JObj o)) caps)) "state" = Some (JStr (newState (JObj o))) /\
  exists dv, getDevice (toggle_local (JObj o) c) (id_of (JObj o)) = Some dv /\
             getStateValue dv "state" = Some (JStr (newState (JObj o))).
Proof.
  intros Hin Hs Hd [i Hi]. split; [apply light_reduce_state, newState_cases|].
  unfold toggle_local. rewrite Hs, Hd.
  set (x := JObj (set o "state" _)).
  assert (Hx : id_of x = id_of (JObj o)) by apply id_of_set_state.
  unfold updateDeviceLocal. rewrite Hx.
  destruct (findIndex_In (fun d => strict_eq (id_of d) (id_of (JObj o))) _ _ Hin) as [k Hk];
    [rewrite Hi; apply String.eqb_refl|].
  rewrite Hk. exists x. split.
  - unfold getDevice. cbn [devicesSubject with_devices]. apply find_insert_first; [exact Hk|]. rewrite Hx, Hi. apply String.eqb_refl.
  - unfold getStateValue, x. rewrite !prop_obj, get_set_eq, prop_obj, get_set_eq, prop_obj. apply get_set_eq.
Qed.

Lemma toggle_agrees_witness :
  let o := [("id", JStr "uuid-0"); ("state", JObj [("deviceId", JStr "uuid-0"); ("data", JObj [("state", JStr "ON")])])] in
  get (own_props (Light.reduce (JObj [("state", JStr "ON")]) (toggle_cmd (JObj o)) [])) "state" = Some (JStr "OFF") /\
  exists dv, getDevice (toggle_local (JObj o) (with_devices initial [JObj o])) (Some (JStr "uuid-0")) = Some dv /\
             getStateValue dv "state" = Some (JStr "OFF").
Proof.
  intros o. apply (toggle_agrees o [("deviceId", JStr "uuid-0"); ("data", JObj [("state", JStr "ON")])]
    [("state", JStr "ON")]); [left | | | eexists]; reflexivity.
Defined.

(** C26: a light that arrived through [device:created] carries its state
    data as [state] itself, so [device.state?.data?.state] is undefined
    and the dashboard's switch posts [ON] whatever the light's state,
    until a state change event gives the entry a [state.data]. *)
Theorem toggle_created_sends_on d caps :
  toggle_cmd (serialize (JObj (created_obj d (Light.defaultState caps)))) = [("state", JStr "ON")].
Proof.
  unfold toggle_cmd, newState, getStateValue, created_obj, Light.defaultState.
  destruct (templateId d);
    destruct (truthy (get (Light.merged_caps caps) "brightness")), (truthy (get (Light.merged_caps caps) "color_temp")),
      (truthy (get (Light.merged_caps caps) "rgb")); reflexivity.
Qed.

(** C27: deleting on the dashboard lowers the total by two.  The DELETE
    removes the device and the gateway announces it to [devices:all];
    the page's [next] callback removes it from the client's list as
    well, so, whichever of the two arrives first, the list loses the
    device once and [totalDevices] loses two. *)
Theorem dashboard_delete_counts_twice s c dv i dev :
  findById (db s) i = Some dev -> id_of dv = Some (JStr i) ->
  let seen := flat_map (delivered handleConnection) (emitted s (snd (remove i s))) in
  totalDevicesSubject (receive_all seen (delete_local dv c)) = num_sub (num_sub (totalDevicesSubject c) (Fin 1)) (Fin 1) /\
  totalDevicesSubject (delete_local dv (receive_all seen c)) = num_sub (num_sub (totalDevicesSubject c) (Fin 1)) (Fin 1).
Proof.
  intros Hd Hi seen. subst seen. rewrite (emitted_fed s _ [DeviceDeleted i (type dev)]) by (rewrite (remove_run _ _ _ Hd); reflexivity).
  unfold delete_local. rewrite Hi. split; reflexivity.
Qed.

Lemma dashboard_delete_counts_twice_witness :
  let s := set_db (snd (onModuleInit (boot "sim" 1 true true (mkDB [] ∅)))) (mkDB [lamp] ∅) in
  let seen := flat_map (delivered handleConnection) (emitted s (snd (remove "uuid-0" s))) in
  totalDevicesSubject (receive_all seen (delete_local (card lamp) (with_total (with_devices initial [card lamp]) (Fin 1)))) =
    num_sub (num_sub (Fin 1) (Fin 1)) (Fin 1) /\
  totalDevicesSubject (delete_local (card lamp) (receive_all seen (with_total (with_devices initial [card lamp]) (Fin 1)))) =
    num_sub (num_sub (Fin 1) (Fin 1)) (Fin 1).
Proof. intros s seen. exact (dashboard_delete_counts_twice s _ (card lamp) "uuid-0" lamp eq_refl eq_refl). Defined.

End Dashboard.
