(* ===== verification/Control.v ===== *)
(** * The device view, the device form and the import dialog
    (src/mqtt-web: features/devices/device-control.component.ts,
    features/devices/device-form.component.ts,
    shared/components/import-dialog.component.ts)

    The device view shows, per device type, buttons and sliders whose
    handlers post a command object to [/devices/:id/command], the
    service's [sendById]; a slider's value is the text of its input,
    read with [parseNumber] ([parseFloat], NaN read as 0).  The template's
    [*ngIf] guards decide which controls a device shows.  The form posts
    [CreateDeviceDto] or the PATCH body from its four fields, an empty
    field read as undefined; the import dialog posts the devices of a
    JSON file.

    The theorems show that every value the brightness slider can send is
    accepted by the light's validation and read as the slider's integer;
    that the colour-temperature slider is dead (it is guarded by a
    capability no light has, and its command field is not the one the
    light reads); that a slug the form lets through but the DTO's pattern
    rejects fails with 400 before anything changes; and that clearing the
    template field of the edit form keeps the stored template. *)

From Stdlib Require Import QArith String List Bool Arith Lia.
From stdpp Require Import list.
From S2P Require Import Prelude JsNum Json Kind Light Registry Slug Store Service System Web.
Import ListNotations.
Open Scope string_scope.

Module Control.
Import Store Service System Web.
Open Scope svc_scope.

(** ** The device view *)

(** [parseNumber(value)]: [parseFloat(value)], NaN read as 0. *)
Definition parseNumber (value : string) : num :=
  let n := parse_float value in if is_nan n then Fin 0 else n.

(** The value of a range input with step 1 that shows the integer [z]:
    the number's text. *)
Definition slider_value (z : Z) : string := num_to_string (Fin (inject_Z z)).

(** The controls of the view, with the value a slider or the fan's
    select hands its handler. *)
Inductive control : Type :=
| LightOn | LightOff | Brightness (value : string) | ColorTemperature (value : string)
| SwitchOn | SwitchOff
| CoverOpen | CoverStop | CoverClose | Position (value : string)
| FanSpeed (value : json).

(** The command each control's handler sends. *)
Definition command (c : control) : obj :=
  match c with
  | LightOn | SwitchOn => [("state", JStr "ON")]
  | LightOff | SwitchOff => [("state", JStr "OFF")]
  | Brightness v => [("brightness", JNum (parseNumber v))]
  | ColorTemperature v => [("colorTemperature", JNum (parseNumber v))]
  | CoverOpen => [("action", JStr "OPEN")]
  | CoverStop => [("action", JStr "STOP")]
  | CoverClose => [("action", JStr "CLOSE")]
  | Position v => [("position", JNum (parseNumber v))]
  | FanSpeed v => [("speed", v)]
  end.

(** The template's guards: the device's [type], and for a slider a
    truthy [capabilities?.<key>]. *)
Definition shown (device : json) (c : control) : bool :=
  let is_type t := strict_eq (prop (Some device) "type") (Some (JStr t)) in
  let cap k := truthy (prop (prop (Some device) "capabilities") k) in
  match c with
  | LightOn | LightOff => is_type "light"
  | Brightness _ => is_type "light" && cap "brightness"
  | ColorTemperature _ => is_type "light" && cap "colorTemperature"
  | SwitchOn | SwitchOff => is_type "switch"
  | CoverOpen | CoverStop | CoverClose => is_type "cover"
  | Position _ => is_type "cover" && cap "position"
  | FanSpeed _ => is_type "fan"
  end.

(** [sendCommand(device, command)]: the POST, answered by [sendById]. *)
Definition sendCommand (c : control) (deviceId : string) : M unit := sendById deviceId (command c).

(** ** The device form *)

(** The form's four controls, as strings. *)
Record FormValue : Type := mkFormValue {
  form_type : string; form_name : string; form_slug : string; form_templateId : string
}.

(** [Validators.required] on the type, [required] and [minLength(1)] on
    the name; the slug and the template are not validated. *)
Definition form_valid (f : FormValue) : bool :=
  negb (String.eqb (form_type f) "") && negb (String.eqb (form_name f) "").

(** [x || undefined] on a string field. *)
Definition or_undefined (x : string) : option string := if String.eqb x "" then None else Some x.

(** The create branch of [onSubmit]: [createDevice({ type, name, slug ||
    undefined, templateId || undefined })]. *)
Definition create_request (f : FormValue) : CreateDto :=
  mkCreateDto (form_type f) (form_name f) (or_undefined (form_slug f)) (or_undefined (form_templateId f)) None.

Definition submit_create (tpl : string -> option Template) (f : FormValue) : M unit :=
  if form_valid f then discard (controller_create tpl (create_request f)) else ret tt.

(** The edit branch: the type and slug controls are disabled (and left
    out of the value and of validation); [updateDevice(id, { name,
    templateId: templateId || undefined })]. *)
Definition submit_update (deviceId : string) (f : FormValue) : M unit :=
  if String.eqb (form_name f) "" then ret tt
  else discard (updateDevice deviceId (Some (JStr (form_name f))) None
                  (option_map JStr (or_undefined (form_templateId f)))).

(** ** The import dialog *)

(** [import()]: the file's text parsed ([None] when it is not JSON,
    caught and logged), then [{ devices: data.devices || data,
    replaceAll }] posted to the import route. *)
Definition import_request (fileContent : option json) (replaceAll : bool) : option json :=
  match fileContent with
  | Some data =>
      let devs := prop (Some data) "devices" in
      Some (JObj [("devices", if truthy devs then coalesce devs JNull else data); ("replaceAll", JBool replaceAll)])
  | None => None
  end.

(** A light created from the template [warm], for the examples. *)
Definition warm_lamp : Device :=
  mkDevice "uuid-0" "light" "Lamp" (Some "lamp") [] (Some "warm") "sim/light" true (Fin 0) 0 0.

(** The slider values that read back as their integer and pass the
    light's range test. *)
Definition slider_ok (z : Z) : bool :=
  match parseNumber (slider_value z) with
  | Fin q => Z.eqb (Qnum q) z && Pos.eqb (Qden q) 1 &&
             negb (js_lt (Some (JNum (Fin q))) (Some (num_lit 0)) || js_lt (Some (num_lit 255)) (Some (JNum (Fin q))))
  | _ => false
  end.

(** ** Lemmas *)

Lemma slider_values : forallb slider_ok (map Z.of_nat (seq 0 256)) = true.
Proof. vm_compute. reflexivity. Qed.

Lemma slider_ok_range z : (0 <= z <= 255)%Z -> slider_ok z = true.
Proof.
  intros Hz. apply (proj1 (forallb_forall _ _) slider_values). apply in_map_iff.
  exists (Z.to_nat z). split; [lia|]. apply in_seq. lia.
Qed.

(** An UPDATE of a row that is there stores the new row under its id. *)
Lemma save_findById d x d' : save d x = Ok d' -> findById d (id x) <> None -> findById d' (id x) = Some x.
Proof.
  unfold save. destruct (negb (row_ok x) || collides d x); [discriminate|].
  destruct (existsb _ (devices d)) eqn:Ex; intros H; injection H as <-; intros Hf;
    destruct (findById d (id x)) as [e|] eqn:E; try congruence.
  - change (findById (mkDB (map (replace x) (devices d)) (states d)) (id x) = Some x).
    rewrite findById_replace, E. cbn. unfold replace.
    rewrite (proj2 (findById_In _ _ _ E)), String.eqb_refl. reflexivity.
  - exfalso. apply findById_In in E as [Hin Hid]. rewrite existsb_false_iff in Ex.
    specialize (Ex e Hin). cbv beta in Ex. rewrite Hid, String.eqb_refl in Ex. discriminate.
Qed.

(** The light's reducer leaves [colorTemp] alone for a command without it. *)
Lemma light_reduce_colorTemp prev caps v :
  get (own_props (Light.reduce prev [("colorTemperature", v)] caps)) "colorTemp" = get (own_props prev) "colorTemp".
Proof.
  unfold Light.reduce. cbn [get String.eqb]. rewrite !andb_false_r.
  cbn -[set get]. destruct (negb _); cbn [own_props]; rewrite ?get_set_ne by discriminate; reflexivity.
Qed.

(** ** Theorems *)

(** C28: every value the brightness slider (0..255, step 1) can send is
    read by [parseNumber] as the slider's integer and passes the light's
    validation, on any light with the brightness capability. *)
Theorem brightness_slider_accepted z caps :
  (0 <= z <= 255)%Z -> truthy (get (Light.merged_caps caps) "brightness") = true ->
  parseNumber (slider_value z) = Fin (inject_Z z) /\
  Light.validate (command (Brightness (slider_value z))) caps = Ok tt.
Proof.
  intros Hz Hc. pose proof (slider_ok_range z Hz) as H. unfold slider_ok in H.
  destruct (parseNumber (slider_value z)) as [q| | |] eqn:E; try discriminate.
  apply andb_prop in H as [H Hr]. apply andb_prop in H as [Hn Hd].
  apply Z.eqb_eq in Hn. apply Pos.eqb_eq in Hd. apply negb_true_iff in Hr.
  split; [destruct q; cbn in *; subst; reflexivity|].
  unfold Light.validate, command. rewrite E. cbn -[js_lt Light.merged_caps]. rewrite Hc. cbn -[js_lt].
  rewrite Hr. reflexivity.
Qed.

Lemma brightness_slider_accepted_witness :
  parseNumber (slider_value 128) = Fin (inject_Z 128) /\
  Light.validate (command (Brightness (slider_value 128))) [] = Ok tt.
Proof. apply brightness_slider_accepted; [lia | reflexivity]. Defined.

(** C29: the colour-temperature slider is dead.  It is shown only for a
    [colorTemperature] capability, which the light's default
    capabilities do not name (they name [color_temp]); and its command, which the light accepts, names a
    field the light's reducer never reads, so [colorTemp] stays as it
    was. *)
Theorem color_temperature_dead dev st v prev caps :
  get (capabilities dev) "colorTemperature" = None ->
  shown (serialize (listed_json (dev, st))) (ColorTemperature v) = false /\
  Light.validate (command (ColorTemperature v)) caps = Ok tt /\
  get (own_props (Light.reduce prev (command (ColorTemperature v)) caps)) "colorTemp" = get (own_props prev) "colorTemp".
Proof.
  intros Hcap. split; [|split; [reflexivity | apply light_reduce_colorTemp]].
  unfold shown. cbn -[strict_eq]. rewrite get_serialize, Hcap. apply andb_false_r.
Qed.

Lemma color_temperature_dead_witness :
  shown (serialize (listed_json (lamp, None))) (ColorTemperature "300") = false /\
  Light.validate (command (ColorTemperature "300")) [] = Ok tt /\
  get (own_props (Light.reduce (JObj [("state", JStr "OFF")]) (command (ColorTemperature "300")) []))
      "colorTemp" = get (own_props (JObj [("state", JStr "OFF")])) "colorTemp".
Proof. apply color_temperature_dead. reflexivity. Defined.

(** C30: the form lets through a slug that the DTO's pattern rejects
    ([@Matches] on [slug]); the POST answers 400 and nothing changes. *)
Theorem form_bad_slug_rejected tpl f s :
  form_valid f = true -> form_slug f <> "" -> Slug.is_slug (form_slug f) = false ->
  controller_create tpl (create_request f) s = (Throw (BadRequest "Bad Request"), s).
Proof.
  intros Hv Hs Hb. unfold controller_create, create_dto_ok, create_request, or_undefined. cbn [dto_type dto_name dto_slug].
  rewrite (proj2 (String.eqb_neq _ _) Hs), Hb, andb_false_r. reflexivity.
Qed.

Lemma form_bad_slug_rejected_witness :
  controller_create (fun _ => None) (create_request (mkFormValue "light" "Lamp" "My Lamp" "")) (svc booted) =
  (Throw (BadRequest "Bad Request"), svc booted).
Proof. apply form_bad_slug_rejected; [reflexivity | discriminate | reflexivity]. Defined.

(** C31: the edit form cannot remove a device's template: an emptied
    template field is sent as undefined, which [updateDevice] reads as
    "keep", so the stored row keeps its [templateId] (or, when the save
    fails, the row is unchanged). *)
Theorem edit_form_keeps_template s i f dev d' :
  findById (db s) i = Some dev -> form_templateId f = "" ->
  findById (db (snd (submit_update i f s))) i = Some d' -> templateId d' = templateId dev.
Proof.
  intros Hd Ht. pose proof (proj2 (findById_In _ _ _ Hd)) as Hid. unfold submit_update.
  destruct (String.eqb (form_name f) ""); [cbn; congruence|].
  unfold discard, updateDevice, or_undefined, db_step. rewrite Ht. cbn [String.eqb option_map].
  cbv [mbind ret gets emit modify set_db set_events publishDiscoveryIfEnabled publish set_mqtt].
  rewrite (find_or_404_ok _ _ _ Hd).
  match goal with |- context [save (db s) ?x] => set (y := x) end.
  destruct (save (db s) y) as [d1|e] eqn:Es; [|cbn; congruence].
  assert (Hy : findById d1 i = Some y).
  { rewrite <- Hid. exact (save_findById _ y _ Es ltac:(cbn; rewrite Hid, Hd; discriminate)). }
  destruct (discoveryEnabled s); cbn; rewrite Hy; intros H; injection H as <-; reflexivity.
Qed.

Lemma edit_form_keeps_template_witness :
  let s := set_db (svc booted) (mkDB [warm_lamp] ∅) in
  let d' := mkDevice "uuid-0" "light" "Lamp 2" (Some "lamp") [] (Some "warm") "sim/light" true (Fin 0) 0 0 in
  findById (db (snd (submit_update "uuid-0" (mkFormValue "light" "Lamp 2" "lamp" "") s))) "uuid-0" = Some d' /\
  templateId d' = Some "warm".
Proof.
  intros s d'.
  assert (H : findById (db (snd (submit_update "uuid-0" (mkFormValue "light" "Lamp 2" "lamp" "") s))) "uuid-0" = Some d')
    by reflexivity.
  exact (conj H (edit_form_keeps_template s "uuid-0" (mkFormValue "light" "Lamp 2" "lamp" "") warm_lamp d' eq_refl eq_refl H)).
Defined.

End Control.
