(* ===== verification/Api.v ===== *)
(** * The HTTP interface between the app and the service
    (src/mqtt-web: core/services/api.service.ts; src/mqtt-sim:
    devices/devices.controller.ts, health/health.controller.ts and the
    global [ValidationPipe] of main.ts)

    [ApiService] builds one HTTP request per call: a method, the URL
    [${apiUrl}/...] with the call's id in it, the [HttpParams] and a JSON
    body.  The service answers it with Nest's router: the routes of
    [DevicesController] and [HealthController] in the order Nest
    registers them (module order, then method order), each path
    compared case-insensitively with an optional trailing slash, as
    Express does by default; a request no route matches is Nest's 404
    [Cannot <METHOD> <path>].  A matched route first runs the global
    [ValidationPipe({ whitelist, forbidNonWhitelisted, transform })] on
    a body typed by a DTO class, then the handler, which is one
    operation [System.op] of the process or one of the read-only routes.

    The theorems show that each call the app makes reaches the handler
    the other files model it with (the refinement the client theorems
    rely on), that [getDevice] can never succeed, that every import is
    refused by the pipe, and when [ready] reports [ok]. *)

From Stdlib Require Import QArith NArith String Ascii List Bool Arith Lia.
From S2P Require Import Prelude JsNum Json Registry Store Mqtt Service System Web Control.
Import ListNotations.
Open Scope string_scope.

Module Api.
Import Store Service System Web Control.

(** ** Requests *)

Inductive method : Type := GET | POST | PATCH | DELETE.

Definition method_eqb (a b : method) : bool :=
  match a, b with
  | GET, GET | POST, POST | PATCH, PATCH | DELETE, DELETE => true
  | _, _ => false
  end.

Definition method_name (m : method) : string :=
  match m with GET => "GET" | POST => "POST" | PATCH => "PATCH" | DELETE => "DELETE" end.

(** An [HttpClient] request: the URL, the [HttpParams] (set, so each key
    at most once) and the body object, which goes over the wire as
    [JSON.stringify]. *)
Record request : Type := mkRequest {
  req_method : method;
  req_url : string;
  req_params : list (string * string);
  req_body : option json
}.

(** ** ApiService *)

Definition apiUrl : string := "http://localhost:4444".

(** [listDevices(type?, slug?, page = 1, limit = 50)]: [page] and
    [limit] as text, [type] and [slug] only when truthy. *)
Definition listDevices (type slug : option string) (page limit : num) : request :=
  mkRequest GET (apiUrl ++ "/devices")
    ([("page", num_to_string page); ("limit", num_to_string limit)] ++
     match truthy_str type with Some t => [("type", t)] | None => [] end ++
     match truthy_str slug with Some s => [("slug", s)] | None => [] end) None.

Definition getDevice (id : string) : request := mkRequest GET (apiUrl ++ "/devices/" ++ id) [] None.

Definition createDevice (r : json) : request := mkRequest POST (apiUrl ++ "/devices") [] (Some r).

Definition updateDevice (id : string) (r : json) : request :=
  mkRequest PATCH (apiUrl ++ "/devices/" ++ id) [] (Some r).

Definition deleteDevice (id : string) : request := mkRequest DELETE (apiUrl ++ "/devices/" ++ id) [] None.

Definition sendCommand (id : string) (command : obj) : request :=
  mkRequest POST (apiUrl ++ "/devices/" ++ id ++ "/command") [] (Some (JObj command)).

Definition updateTelemetry (id : string) (telemetry : json) : request :=
  mkRequest PATCH (apiUrl ++ "/devices/" ++ id ++ "/telemetry") [] (Some telemetry).

Definition refreshDiscovery (id : string) : request :=
  mkRequest POST (apiUrl ++ "/devices/" ++ id ++ "/discovery") [] (Some (JObj [])).

Definition getDeviceTypes : request := mkRequest GET (apiUrl ++ "/devices/types") [] None.

Definition getDeviceTemplates : request := mkRequest GET (apiUrl ++ "/devices/templates") [] None.

Definition exportDevices : request := mkRequest GET (apiUrl ++ "/devices/export/json") [] None.

Definition importDevices (r : json) : request := mkRequest POST (apiUrl ++ "/devices/import/json") [] (Some r).

Definition checkHealth : request := mkRequest GET (apiUrl ++ "/health") [] None.

Definition checkReadiness : request := mkRequest GET (apiUrl ++ "/ready") [] None.

(** The bodies the device form sends: [{ type, name, slug: slug ||
    undefined, templateId: templateId || undefined }] and [{ name,
    templateId: templateId || undefined }]; [JSON.stringify] leaves the
    undefined ones out. *)
Definition create_body (f : FormValue) : json :=
  JObj (set_opt (set_opt [("type", JStr (form_type f)); ("name", JStr (form_name f))]
                   "slug" (option_map JStr (or_undefined (form_slug f))))
          "templateId" (option_map JStr (or_undefined (form_templateId f)))).

Definition update_body (f : FormValue) : json :=
  JObj (set_opt [("name", JStr (form_name f))] "templateId" (option_map JStr (or_undefined (form_templateId f)))).

(** ** The router *)

(** The part of a URL the server sees: after the origin, before [?] or
    [#]. *)
Fixpoint strip_prefix (p s : string) : option string :=
  match p, s with
  | EmptyString, _ => Some s
  | String a p', String b s' => if Ascii.eqb a b then strip_prefix p' s' else None
  | String _ _, EmptyString => None
  end.

Fixpoint path_of (s : string) : string :=
  match s with
  | EmptyString => EmptyString
  | String c s' => if Ascii.eqb c "?" || Ascii.eqb c "#" then EmptyString else String c (path_of s')
  end.

(** [path.split('/')]. *)
Fixpoint split_path (s : string) : list string :=
  match s with
  | EmptyString => [""]
  | String c s' =>
      let r := split_path s' in
      if Ascii.eqb c "/" then "" :: r
      else match r with x :: r' => String c x :: r' | [] => [String c EmptyString] end
  end.

(** The segments of a path: the leading [/] and one trailing [/]
    dropped ([strict: false]). *)
Definition segments (p : string) : list string :=
  let l := match split_path p with "" :: l => l | l => l end in
  match rev l with "" :: r => rev r | _ => l end.

(** Case folding of the route regexps' [i] flag. *)
Definition lower_ascii (c : ascii) : ascii :=
  let n := N_of_ascii c in
  if N.leb 65 n && N.leb n 90 then ascii_of_N (N.add n 32) else c.

Fixpoint lower (s : string) : string :=
  match s with EmptyString => EmptyString | String c s' => String (lower_ascii c) (lower s') end.

(** A route pattern: literal segments and [:id]. *)
Inductive seg : Type := Lit (s : string) | Param.

(** Matching a pattern; [:id] takes a non-empty segment. *)
Fixpoint match_path (p : list seg) (path : list string) : option (list string) :=
  match p, path with
  | [], [] => Some []
  | Lit l :: p', x :: path' => if String.eqb (lower l) (lower x) then match_path p' path' else None
  | Param :: p', x :: path' => if String.eqb x "" then None else option_map (cons x) (match_path p' path')
  | _, _ => None
  end.

(** The handlers of the two controllers. *)
Inductive handler : Type :=
| hList | hListTypes | hListTemplates | hCreate | hSend | hSetTelemetry | hUpdate
| hRefreshDiscovery | hRemove | hExportAll | hImportAll | hHealth | hReady.

(** [@Controller('devices')] with its decorated methods in source
    order, then [HealthController] ([DevicesModule] is imported before
    [HealthModule]). *)
Definition routes : list (method * list seg * handler) :=
  [(GET, [Lit "devices"], hList);
   (GET, [Lit "devices"; Lit "types"], hListTypes);
   (GET, [Lit "devices"; Lit "templates"], hListTemplates);
   (POST, [Lit "devices"], hCreate);
   (POST, [Lit "devices"; Param; Lit "command"], hSend);
   (PATCH, [Lit "devices"; Param; Lit "telemetry"], hSetTelemetry);
   (PATCH, [Lit "devices"; Param], hUpdate);
   (POST, [Lit "devices"; Param; Lit "discovery"], hRefreshDiscovery);
   (DELETE, [Lit "devices"; Param], hRemove);
   (GET, [Lit "devices"; Lit "export"; Lit "json"], hExportAll);
   (POST, [Lit "devices"; Lit "import"; Lit "json"], hImportAll);
   (GET, [Lit "health"], hHealth);
   (GET, [Lit "ready"], hReady)].

(** The first route of the method whose pattern matches. *)
Fixpoint router (rs : list (method * list seg * handler)) (m : method) (path : list string)
    : option (handler * list string) :=
  match rs with
  | [] => None
  | (m', p, h) :: rs' =>
      if method_eqb m m' then
        match match_path p path with Some ps => Some (h, ps) | None => router rs' m path end
      else router rs' m path
  end.

(** ** The validation pipe *)

(** [whitelist] with [forbidNonWhitelisted]: every own property of the
    transformed instance must carry a class-validator decorator. *)
Definition whitelisted (allowed props : list string) : bool :=
  forallb (fun k => existsb (String.eqb k) allowed) props.

(** [@IsOptional() @IsString()]: null or undefined skip the check. *)
Definition opt_string (v : option json) : option (option string) :=
  match v with
  | None | Some JNull => Some None
  | Some (JStr s) => Some (Some s)
  | Some _ => None
  end.

(** The decorated properties of [CreateDeviceDto]. *)
Definition create_props : list string := ["type"; "name"; "slug"; "templateId"; "capabilities"].

(** [CreateDeviceDto] through the pipe: the whitelist, then [@IsString]
    on [type] and [name] and the optional strings.  The value
    constraints ([@IsIn], [@MinLength], [@Matches]) are
    [System.create_dto_ok], checked by [System.controller_create] with
    the same 400.  [CreateDto] keeps its capabilities as an object: a
    capabilities value that is not an object is read as its own
    properties, as the template branch's spread reads it. *)
Definition validate_create (body : json) : result CreateDto :=
  if negb (whitelisted create_props (keys body)) then Throw (BadRequest "Bad Request") else
  match prop (Some body) "type", prop (Some body) "name",
        opt_string (prop (Some body) "slug"), opt_string (prop (Some body) "templateId") with
  | Some (JStr t), Some (JStr n), Some s, Some tid =>
      Ok (mkCreateDto t n s tid
            (match prop (Some body) "capabilities" with
             | None | Some JNull => None
             | Some c => Some (own_props c)
             end))
  | _, _, _, _ => Throw (BadRequest "Bad Request")
  end.

(** [ImportPayloadDto] has no class-validator decorator; its instance
    has the initialised [mode] and [replaceAll] besides the body's
    properties. *)
Definition validate_import (body : json) : result json :=
  if whitelisted [] ("mode" :: "replaceAll" :: keys body) then Ok body else Throw (BadRequest "Bad Request").

(** ** Dispatch *)

(** What a request reaches: an operation of the process, or a
    read-only route with its arguments. *)
Inductive call : Type :=
| CallOp (o : op)
| CallList (type slug page limit : option string)
| CallListTypes | CallListTemplates | CallExportAll | CallHealth | CallReady.

(** [@Query(k)]. *)
Fixpoint query_param (q : list (string * string)) (k : string) : option string :=
  match q with
  | [] => None
  | (k', v) :: q' => if String.eqb k k' then Some v else query_param q' k
  end.

(** The handlers, after the pipe.  The update and telemetry bodies are
    typed by literal types and the command body by [any], which the pipe
    does not validate. *)
Definition dispatch (h : handler) (ps : list string) (q : list (string * string)) (body : json) : result call :=
  let i := hd "" ps in
  match h with
  | hList => Ok (CallList (query_param q "type") (query_param q "slug") (query_param q "page") (query_param q "limit"))
  | hListTypes => Ok CallListTypes
  | hListTemplates => Ok CallListTemplates
  | hCreate => match validate_create body with Ok d => Ok (CallOp (Create d)) | Throw e => Throw e end
  | hSend => Ok (CallOp (Command i (own_props body)))
  | hSetTelemetry => Ok (CallOp (SetTelemetry i (prop (Some body) "intervalSec")))
  | hUpdate => Ok (CallOp (Update i (prop (Some body) "name") (prop (Some body) "capabilities")
                                    (prop (Some body) "templateId")))
  | hRefreshDiscovery => Ok (CallOp (Rediscover i))
  | hRemove => Ok (CallOp (Remove i))
  | hExportAll => Ok CallExportAll
  | hImportAll => match validate_import body with Ok p => Ok (CallOp (Import p)) | Throw e => Throw e end
  | hHealth => Ok CallHealth
  | hReady => Ok CallReady
  end.

(** The server's answer to a request of the app: the body parsed from
    its JSON text ([{}] when there is none), the route, the handler, or
    Nest's 404. *)
Definition serve (r : request) : result call :=
  let body := match req_body r with Some b => serialize b | None => JObj [] end in
  match strip_prefix apiUrl (req_url r) with
  | Some p =>
      let path := path_of p in
      match router routes (req_method r) (segments path) with
      | Some (h, ps) => dispatch h ps (req_params r) body
      | None => Throw (NotFound ("Cannot " ++ method_name (req_method r) ++ " " ++ path))
      end
  | None => Throw (NotFound ("Cannot " ++ method_name (req_method r) ++ " " ++ req_url r))
  end.

(** [listTypes()]'s answer: [listKinds()] as JSON. *)
Definition listTypes_body : json :=
  JArr (map (fun k => let '(i, t, c) := k in JObj [("id", JStr i); ("title", JStr t); ("capabilities", JObj c)])
            Registry.listKinds).

(** ** HealthController *)

(** [health()]. *)
Definition health (uptime : Q) : json := JObj [("status", JStr "ok"); ("uptime", num_lit uptime)].

(** [ready()]: the database check ([None] when [SELECT 1] succeeds, else
    the error's text [e?.message || String(e)]), the client's
    [isConnected()], and every check's [ok === true]. *)
Definition ready (dbError : option string) (c : Mqtt.Client) (now : nat) : json :=
  let database := match dbError with
                  | None => JObj [("ok", JBool true)]
                  | Some m => JObj [("ok", JBool false); ("error", JStr m)]
                  end in
  let checks := [("database", database); ("mqtt", JObj [("ok", JBool (Mqtt.isConnected c))])] in
  let ok := forallb (fun kv => strict_eq (prop (Some (snd kv)) "ok") (Some (JBool true))) checks in
  JObj ([("status", JStr (if ok then "ok" else "degraded"))] ++ checks ++ [("timestamp", JStr (iso now))]).

(** An id the app puts in a URL as one path segment: non-empty, with
    no [/], [?], [#] or [%] (a uuid). *)
Definition is_sep (c : ascii) : bool :=
  Ascii.eqb c "/" || Ascii.eqb c "?" || Ascii.eqb c "#" || Ascii.eqb c "%".

Fixpoint plain (s : string) : bool :=
  match s with EmptyString => true | String c s' => negb (is_sep c) && plain s' end.

Definition id_ok (i : string) : bool := negb (String.eqb i "") && plain i.

(** ** Lemmas *)

Lemma strip_prefix_app p s : strip_prefix p (p ++ s) = Some s.
Proof. induction p as [|a p IH]; [reflexivity|]. simpl. rewrite Ascii.eqb_refl. exact IH. Qed.

Lemma plain_cons c a :
  plain (String c a) = true ->
  Ascii.eqb c "/" = false /\ Ascii.eqb c "?" = false /\ Ascii.eqb c "#" = false /\ plain a = true.
Proof.
  cbn [plain]. intros [Hc Ha]%andb_prop. apply negb_true_iff in Hc. unfold is_sep in Hc.
  rewrite !orb_false_iff in Hc. tauto.
Qed.

Lemma path_of_app a b : plain a = true -> path_of (a ++ b) = a ++ path_of b.
Proof.
  induction a as [|c a IH]; [reflexivity|]. intros (_ & H1 & H2 & Ha)%plain_cons.
  simpl. rewrite H1, H2, (IH Ha). reflexivity.
Qed.

Lemma path_of_plain a : plain a = true -> path_of a = a.
Proof.
  induction a as [|c a IH]; [reflexivity|]. intros (_ & H1 & H2 & Ha)%plain_cons.
  simpl. rewrite H1, H2, (IH Ha). reflexivity.
Qed.

Lemma split_path_app a b : plain a = true -> split_path (a ++ String "/" b) = a :: split_path b.
Proof.
  induction a as [|c a IH]; [reflexivity|]. intros (H0 & _ & _ & Ha)%plain_cons.
  simpl. rewrite H0, (IH Ha). reflexivity.
Qed.

Lemma split_path_plain a : plain a = true -> split_path a = [a].
Proof.
  induction a as [|c a IH]; [reflexivity|]. intros (H0 & _ & _ & Ha)%plain_cons.
  cbn [split_path]. rewrite H0, (IH Ha). reflexivity.
Qed.

Lemma id_ok_split i : id_ok i = true -> String.eqb i "" = false /\ plain i = true.
Proof. unfold id_ok. intros [H1 H2]%andb_prop. apply negb_true_iff in H1. split; assumption. Qed.

(** The path of [/devices/${id}] and of [/devices/${id}/<action>]. *)
Lemma segments_device i :
  id_ok i = true -> segments (path_of ("/devices/" ++ i)) = ["devices"; i].
Proof.
  intros [Hi Hp]%id_ok_split.
  change (path_of ("/devices/" ++ i)) with ("/devices/" ++ path_of i). rewrite (path_of_plain _ Hp).
  unfold segments. change ("/devices/" ++ i) with ("" ++ String "/" ("devices" ++ String "/" i)).
  rewrite (split_path_app "" _ eq_refl), (split_path_app "devices" _ eq_refl), (split_path_plain _ Hp).
  destruct i; [discriminate | reflexivity].
Qed.

Lemma segments_action i a :
  id_ok i = true -> plain a = true -> String.eqb a "" = false ->
  segments (path_of ("/devices/" ++ i ++ String "/" a)) = ["devices"; i; a].
Proof.
  intros [Hi Hp]%id_ok_split Ha Ha'.
  change (path_of ("/devices/" ++ i ++ String "/" a)) with ("/devices/" ++ path_of (i ++ String "/" a)).
  rewrite (path_of_app _ _ Hp). change (path_of (String "/" a)) with (String "/" (path_of a)).
  rewrite (path_of_plain _ Ha). unfold segments.
  change ("/devices/" ++ i ++ String "/" a) with ("" ++ String "/" ("devices" ++ String "/" (i ++ String "/" a))).
  rewrite (split_path_app "" _ eq_refl), (split_path_app "devices" _ eq_refl), (split_path_app _ _ Hp),
    (split_path_plain _ Ha).
  destruct a; [discriminate | reflexivity].
Qed.

(** [serve] on a request to the API's origin. *)
Lemma serve_api m path q b :
  serve (mkRequest m (apiUrl ++ path) q b) =
  match router routes m (segments (path_of path)) with
  | Some (h, ps) => dispatch h ps q (match b with Some b => serialize b | None => JObj [] end)
  | None => Throw (NotFound ("Cannot " ++ method_name m ++ " " ++ path_of path))
  end.
Proof. unfold serve. cbn [req_url req_method req_params req_body]. rewrite strip_prefix_app. reflexivity. Qed.

Lemma lower_eqb_false x y : lower x = x -> lower y <> x -> String.eqb (lower x) (lower y) = false.
Proof. intros Hx Hy. apply String.eqb_neq. rewrite Hx. intros E. exact (Hy (eq_sym E)). Qed.

Lemma path_of_device i : plain i = true -> path_of ("/devices/" ++ i) = "/devices/" ++ i.
Proof.
  intros Hp. change (path_of ("/devices/" ++ i)) with ("/devices/" ++ path_of i).
  rewrite (path_of_plain _ Hp). reflexivity.
Qed.

(** The routes of the calls that carry an id. *)
Lemma id_routes i :
  String.eqb i "" = false ->
  router routes POST ["devices"; i; "command"] = Some (hSend, [i]) /\
  router routes PATCH ["devices"; i; "telemetry"] = Some (hSetTelemetry, [i]) /\
  router routes PATCH ["devices"; i] = Some (hUpdate, [i]) /\
  router routes POST ["devices"; i; "discovery"] = Some (hRefreshDiscovery, [i]) /\
  router routes DELETE ["devices"; i] = Some (hRemove, [i]).
Proof. intros Hi. unfold router, routes. cbn [method_eqb match_path]. rewrite !Hi. repeat split. Qed.

(** The form's bodies through the pipe and the handlers. *)
Lemma serve_create_body f : serve (createDevice (create_body f)) = Ok (CallOp (Create (create_request f))).
Proof.
  unfold createDevice, create_body, create_request. rewrite serve_api.
  destruct (or_undefined (form_slug f)), (or_undefined (form_templateId f)); reflexivity.
Qed.

Lemma dispatch_update_body i f :
  dispatch hUpdate [i] [] (serialize (update_body f)) =
  Ok (CallOp (Update i (Some (JStr (form_name f))) None (option_map JStr (or_undefined (form_templateId f))))).
Proof. unfold update_body. destruct (or_undefined (form_templateId f)); reflexivity. Qed.

(** ** Theorems *)

(** C15: the app's calls reach the handlers the client models assume.
    For an id that is one path segment, [sendCommand], [updateTelemetry],
    the edit form's [updateDevice], [refreshDiscovery] and
    [deleteDevice] reach [sendById], [updateTelemetry], [updateDevice],
    [refreshDiscovery] and [remove] with that id and the body after its
    JSON round trip; the create form's request passes the pipe as
    [Control.create_request]; and [listDevices] reaches [list] with the
    truthy type and slug and the page and limit as text, the arguments
    [Web.loadDevices] gives [Query.controller_list]. *)
Theorem app_requests_reach_handlers i cmd t f ty sl p l :
  id_ok i = true ->
  serve (sendCommand i cmd) = Ok (CallOp (Command i (own_props (serialize (JObj cmd))))) /\
  serve (updateTelemetry i t) = Ok (CallOp (SetTelemetry i (prop (Some (serialize t)) "intervalSec"))) /\
  serve (updateDevice i (update_body f)) =
    Ok (CallOp (Update i (Some (JStr (form_name f))) None (option_map JStr (or_undefined (form_templateId f))))) /\
  serve (createDevice (create_body f)) = Ok (CallOp (Create (create_request f))) /\
  serve (refreshDiscovery i) = Ok (CallOp (Rediscover i)) /\
  serve (deleteDevice i) = Ok (CallOp (Remove i)) /\
  serve (listDevices ty sl p l) =
    Ok (CallList (truthy_str ty) (truthy_str sl) (Some (num_to_string p)) (Some (num_to_string l))).
Proof.
  intros Hok. destruct (id_ok_split _ Hok) as [Hi _]. destruct (id_routes i Hi) as (R1 & R2 & R3 & R4 & R5).
  unfold sendCommand, updateTelemetry, updateDevice, refreshDiscovery, deleteDevice, listDevices.
  rewrite !serve_api, !segments_action, !segments_device by first [exact Hok | reflexivity].
  rewrite R1, R2, R3, R4, R5, dispatch_update_body, serve_create_body.
  repeat split. destruct (truthy_str ty), (truthy_str sl); reflexivity.
Qed.

Lemma app_requests_reach_handlers_witness :
  serve (deleteDevice "uuid-0") = Ok (CallOp (Remove "uuid-0")).
Proof.
  exact (proj1 (proj2 (proj2 (proj2 (proj2 (proj2
    (app_requests_reach_handlers "uuid-0" [] JNull (mkFormValue "light" "Lamp" "" "") None None (Fin 1) (Fin 50)
       eq_refl))))))).
Defined.

(** C34: [getDevice] never reaches a device.  The controller has no
    [GET /devices/:id], so for an id that is one path segment and is
    not [types] or [templates] in any case the request answers Nest's
    404. *)
Theorem getDevice_not_found i :
  id_ok i = true -> lower i <> "types" -> lower i <> "templates" ->
  serve (getDevice i) = Throw (NotFound ("Cannot GET /devices/" ++ i)).
Proof.
  intros Hok Ht Htp. destruct (id_ok_split _ Hok) as [_ Hp]. unfold getDevice.
  rewrite serve_api, segments_device, path_of_device by assumption.
  unfold router, routes. cbn [method_eqb match_path].
  rewrite (lower_eqb_false "types" i eq_refl Ht), (lower_eqb_false "templates" i eq_refl Htp).
  destruct (String.eqb (lower "export") (lower i)); reflexivity.
Qed.

Lemma getDevice_not_found_witness :
  serve (getDevice "uuid-0") = Throw (NotFound "Cannot GET /devices/uuid-0").
Proof.
  apply (getDevice_not_found "uuid-0"); [reflexivity | intros E; vm_compute in E; discriminate E
                                        | intros E; vm_compute in E; discriminate E].
Defined.

(** Every import is refused: [ImportPayloadDto] carries no
    class-validator decorator, so the pipe's whitelist forbids each
    property of its instance, [mode] and [replaceAll] first. *)
Lemma serve_importDevices r : serve (importDevices r) = Throw (BadRequest "Bad Request").
Proof. unfold importDevices. rewrite serve_api. reflexivity. Qed.

(** [ready()] reports [status: 'ok'] exactly when the database
    answered [SELECT 1] and the MQTT client is connected, and
    ['degraded'] otherwise. *)
Theorem ready_ok dbError c now :
  prop (Some (ready dbError c now)) "status" = Some (JStr "ok") <->
  dbError = None /\ Mqtt.isConnected c = true.
Proof.
  unfold ready. destruct dbError, (Mqtt.isConnected c); cbn; split;
    first [intros H; discriminate H | intros [H1 H2]; discriminate | split; reflexivity | reflexivity].
Qed.

End Api.
