(* ===== verification/Model.v ===== *)
(** * The app's wire types and the export dialog
    (src/mqtt-web: core/models/device.model.ts,
    shared/components/export-dialog.component.ts)

    The TypeScript interfaces the app declares for the service's JSON,
    as type descriptors with a checker [conforms] of a parsed JSON value
    against them: a property [k: T] must be present with a value of
    [T], an optional [k?: T] absent or of [T] ([null] is neither, under
    [strictNullChecks]), extra properties are allowed.  The export
    dialog downloads the export route's answer as a JSON file.

    The theorems show which devices of GET /devices have the type the
    app gives them, and that the export's [devices] never have it. *)

From Stdlib Require Import QArith String Ascii List Bool.
From S2P Require Import Prelude JsNum Json Store Registry Service Transfer Web.
Import ListNotations.
Open Scope string_scope.

Module Model.
Import Store Service Web.

(** ** TypeScript types *)

#[warnings="-register-all"]
Inductive tstype : Type :=
| TString | TNumber | TBoolean | TAny
| TRecord                                        (* Record<string, any> *)
| TArray (t : tstype)                            (* T[] *)
| TIface (fields : list (string * bool * tstype)). (* name, optional, type *)

(** Whether a value parsed from JSON has a type. *)
Fixpoint conforms (t : tstype) (v : json) {struct t} : bool :=
  match t with
  | TString => match v with JStr _ => true | _ => false end
  | TNumber => match v with JNum _ => true | _ => false end
  | TBoolean => match v with JBool _ => true | _ => false end
  | TAny => true
  | TRecord => match v with JObj _ => true | _ => false end
  | TArray u => match v with JArr l => forallb (conforms u) l | _ => false end
  | TIface fs =>
      match v with
      | JObj o =>
          (fix fields (fs : list (string * bool * tstype)) : bool :=
             match fs with
             | [] => true
             | (k, optional, u) :: fs' =>
                 match get o k with None => optional | Some x => conforms u x end && fields fs'
             end) fs
      | _ => false
      end
  end.

(** ** The interfaces of device.model.ts *)

Definition DeviceState_t : tstype := TIface [("deviceId", false, TString); ("data", false, TRecord)].

Definition DeviceTopics_t : tstype :=
  TIface [("cmd", false, TString); ("state", false, TString); ("status", false, TString);
          ("discovery", false, TString)].

Definition Device_t : tstype :=
  TIface [("id", false, TString); ("type", false, TString); ("name", false, TString);
          ("slug", false, TString); ("capabilities", false, TRecord); ("templateId", true, TString);
          ("topicBase", false, TString); ("retained", false, TBoolean);
          ("telemetryIntervalSec", false, TNumber); ("createdAt", true, TString);
          ("updatedAt", true, TString); ("state", true, DeviceState_t); ("topics", true, DeviceTopics_t)].

Definition CreateDeviceRequest_t : tstype :=
  TIface [("type", false, TString); ("name", false, TString); ("slug", true, TString);
          ("templateId", true, TString); ("capabilities", true, TRecord)].

Definition UpdateDeviceRequest_t : tstype :=
  TIface [("name", true, TString); ("capabilities", true, TRecord); ("templateId", true, TString)].

Definition TelemetryUpdate_t : tstype := TIface [("intervalSec", false, TNumber)].

(** [DeviceCommand]: [{ [key: string]: any }]. *)
Definition DeviceCommand_t : tstype := TRecord.

Definition DeviceKind_t : tstype :=
  TIface [("id", false, TString); ("title", false, TString); ("displayName", true, TString);
          ("description", true, TString); ("capabilities", false, TRecord)].

Definition DeviceTemplate_t : tstype :=
  TIface [("id", true, TString); ("kind", false, TString); ("title", false, TString);
          ("displayName", true, TString); ("description", true, TString); ("capabilities", false, TRecord)].

Definition PaginatedResponse_t (t : tstype) : tstype :=
  TIface [("data", false, TArray t);
          ("pagination", false, TIface [("page", false, TNumber); ("limit", false, TNumber);
                                        ("total", false, TNumber); ("pages", false, TNumber)])].

Definition ListDevicesResponse_t : tstype := PaginatedResponse_t Device_t.

Definition ExportResponse_t : tstype :=
  TIface [("version", false, TNumber); ("exportedAt", false, TString); ("namespace", false, TString);
          ("count", false, TNumber); ("devices", false, TArray Device_t)].

(** [Partial<T>]: every property optional. *)
Definition partial (t : tstype) : tstype :=
  match t with
  | TIface fs => TIface (map (fun f => let '(k, _, u) := f in (k, true, u)) fs)
  | _ => t
  end.

Definition ImportRequest_t : tstype :=
  TIface [("devices", false, TArray (partial Device_t)); ("replaceAll", true, TBoolean)].

Definition ImportResponse_t : tstype :=
  TIface [("created", false, TNumber); ("updated", false, TNumber); ("unchanged", false, TNumber);
          ("deleted", false, TNumber); ("errors", false, TNumber); ("details", false, TArray TAny)].

(** [DEVICE_TYPES]. *)
Definition DEVICE_TYPES : list (string * string) :=
  [("LIGHT", "light"); ("SWITCH", "switch"); ("SENSOR_TEMP", "sensor.temp"); ("COVER", "cover"); ("FAN", "fan")].

(** ** The export dialog *)

(** [s.split('T')[0]]. *)
Fixpoint before_T (s : string) : string :=
  match s with
  | EmptyString => EmptyString
  | String c s' => if Ascii.eqb c "T" then EmptyString else String c (before_T s')
  end.

(** [export()] on the route's answer [data]: the file's name from
    [new Date().toISOString()] and its content
    [JSON.stringify(data, null, 2)], as the JSON value a reader parses
    back (the indentation is not modelled). *)
Definition export_download (data : json) (isoNow : string) : string * json :=
  ("mqtt-devices-" ++ before_T isoNow ++ ".json", serialize data).

(** ** Lemmas *)

(** The client's type constants are the service's kinds, in order. *)
Lemma DEVICE_TYPES_kindIds : map snd DEVICE_TYPES = Registry.kindIds.
Proof. reflexivity. Qed.

(** ** Theorems *)

(** C21: the device type of the list route.  A device of GET /devices,
    parsed by the app, has the type [Device] the app gives it exactly
    when it has a slug and a template, a finite telemetry interval and a
    state row whose data is an object: the service sends [null] for a
    missing slug, template or state, which [slug: string],
    [templateId?: string] and [state?: DeviceState] do not admit. *)
Theorem listed_device_conforms d st :
  conforms Device_t (serialize (listed_json (d, st))) = true <->
  slug d <> None /\ templateId d <> None /\ (exists q, telemetryIntervalSec d = Fin q) /\
  (exists o, st = Some (JObj o)).
Proof.
  unfold listed_json, entity_obj.
  destruct (slug d), (templateId d), (telemetryIntervalSec d), st as [[| | [] | | |]|]; cbn;
    first [ split; [intros _; repeat split; try discriminate; eexists; reflexivity | reflexivity]
          | split; [discriminate | intros (H1 & H2 & (q' & H3) & (o' & H4)); congruence] ].
Qed.

(** C22: the export is never typed as the app declares it.  The answer
    of GET /devices/export/json has the type [ExportResponse] exactly
    when there is no device: its [devices] are [ExportedDevice]s,
    without [topicBase] and [retained], not the [Device]s the interface
    promises. *)
Theorem export_conforms_iff_empty s :
  exists v, fst (Transfer.exportAll s) = Ok v /\
    (conforms ExportResponse_t (serialize v) = true <-> devices (db s) = []).
Proof.
  eexists. split; [reflexivity|]. unfold Transfer.exportAll. cbn [fst].
  destruct (devices (db s)) as [|d ds]; [split; reflexivity|].
  split; [|discriminate]. cbn [map]. unfold Transfer.export_device.
  destruct (slug d), (templateId d); intros H; cbn in H; discriminate H.
Qed.

End Model.
