(* ===== verification/View.v ===== *)
(** * The components' lifecycles (src/mqtt-web: app.ts, app.routes.ts,
    features/devices/device-control.component.ts,
    features/devices/device-form.component.ts,
    shared/components/import-dialog.component.ts,
    features/dashboard/dashboard.component.ts)

    What the components do when Angular creates them, when their route
    emits parameters and when they are destroyed, composed with the
    services they call: the device view joins and leaves device rooms
    through [Socket]; the form fills itself from the client's list and
    the service's templates; the import dialog reads a file and posts
    it through [Api.serve]; the dashboard loads its type chips from the
    types route; the app shell routes URLs to pages and loads the list
    on start.

    The theorems show that a device view whose route changes its id
    leaves the socket in the first device's room, so that device's
    events arrive twice; that opening the edit form on a listed device
    and saving it unchanged sends the device's own name and template;
    that its template select offers templates the create route refuses;
    that the import dialog never shows a result nor reloads the list;
    and that the dashboard's start loads the list twice. *)

From Stdlib Require Import QArith String List Bool.
From S2P Require Import Prelude JsNum Json Registry Store Service Query System Templates Web Socket Control Api.
Import ListNotations.
Open Scope string_scope.

Module DeviceControl.
Import Service Web Socket.

(** The component's [deviceId] and the id of its [device$]. *)
Record DeviceControlComponent : Type := mkDeviceControlComponent {
  deviceId : option string;
  device_obs : option string
}.

Definition create : DeviceControlComponent := mkDeviceControlComponent None None.

(** The subscriber of [route.params] that [ngOnInit] installs, on one
    emission: [deviceId = params['id']], and when it is truthy the
    device's observable and [subscribeToDevice]. *)
Definition on_params (id : option string) (v : DeviceControlComponent) (w : WebsocketService)
    : DeviceControlComponent * WebsocketService :=
  match truthy_str id with
  | Some i => (mkDeviceControlComponent id (Some i), subscribeToDevice i w)
  | None => (mkDeviceControlComponent id (device_obs v), w)
  end.

(** [ngOnDestroy]: [unsubscribeFromDevice] of the current id. *)
Definition ngOnDestroy (v : DeviceControlComponent) (w : WebsocketService) : WebsocketService :=
  match truthy_str (deviceId v) with
  | Some i => unsubscribeFromDevice i w
  | None => w
  end.

(** [device$]: [getDeviceObservable(id)], the list's entry with that id. *)
Definition device (c : DeviceStateService) (v : DeviceControlComponent) : option json :=
  match device_obs v with Some i => getDevice c (Some (JStr i)) | None => None end.

(** The view's life: created, the route's emissions, destroyed. *)
Fixpoint on_params_all (ids : list (option string)) (v : DeviceControlComponent) (w : WebsocketService)
    : DeviceControlComponent * WebsocketService :=
  match ids with
  | [] => (v, w)
  | id :: ids' => let '(v', w') := on_params id v w in on_params_all ids' v' w'
  end.

Definition visit (ids : list (option string)) (w : WebsocketService) : WebsocketService :=
  let '(v, w') := on_params_all ids create w in ngOnDestroy v w'.

End DeviceControl.

Module DeviceForm.
Import Service System Web Control.

(** The component's fields: the form, the edit flag, the id, the types
    and templates lists. *)
Record DeviceFormComponent : Type := mkDeviceFormComponent {
  form : FormValue;
  isEdit : bool;
  deviceId : option string;
  deviceTypes : json;
  deviceTemplates : list json
}.

(** The constructor's [fb.group]: type [light], the rest empty. *)
Definition create : DeviceFormComponent :=
  mkDeviceFormComponent (mkFormValue "light" "" "" "") false None (JArr []) [].

(** [loadDeviceTypes]: the types route's answer, as is. *)
Definition loadDeviceTypes (kinds : json) (v : DeviceFormComponent) : DeviceFormComponent :=
  mkDeviceFormComponent (form v) (isEdit v) (deviceId v) kinds (deviceTemplates v).

(** [loadDeviceTemplates]: [Object.entries(data.templates).map(([id,
    template]) => ({ id, ...template }))]. *)
Definition loadDeviceTemplates (templates : obj) (v : DeviceFormComponent) : DeviceFormComponent :=
  mkDeviceFormComponent (form v) (isEdit v) (deviceId v) (deviceTypes v)
    (map (fun kv => JObj (spread [("id", JStr (fst kv))] (own_props (snd kv)))) templates).

(** A control's text after [patchValue]: the patched string.  A value
    that is not a string (a null slug) is not a text of [FormValue]; the
    control keeps its text here, which the edit branch never reads (the
    [type] and [slug] controls are disabled). *)
Definition str_value (v : option json) (old : string) : string :=
  match v with Some (JStr s) => s | _ => old end.

(** [loadDeviceData]: the listed device's [type], [name], [slug] and
    [templateId || ''] patched into the form. *)
Definition loadDeviceData (c : DeviceStateService) (v : DeviceFormComponent) : DeviceFormComponent :=
  match truthy_str (deviceId v) with
  | None => v
  | Some i =>
      match getDevice c (Some (JStr i)) with
      | None => v
      | Some device =>
          let f := form v in
          let tid := prop (Some device) "templateId" in
          mkDeviceFormComponent
            (mkFormValue (str_value (prop (Some device) "type") (form_type f))
                         (str_value (prop (Some device) "name") (form_name f))
                         (str_value (prop (Some device) "slug") (form_slug f))
                         (if truthy tid then str_value tid "" else ""))
            (isEdit v) (deviceId v) (deviceTypes v) (deviceTemplates v)
      end
  end.

(** The subscriber of [route.params]: with an id, the edit mode and
    [loadDeviceData]. *)
Definition on_params (id : option string) (c : DeviceStateService) (v : DeviceFormComponent) : DeviceFormComponent :=
  match truthy_str id with
  | Some i => loadDeviceData c (mkDeviceFormComponent (form v) true (Some i) (deviceTypes v) (deviceTemplates v))
  | None => v
  end.

(** [ngOnInit] with the answers of the two GETs and the route's id. *)
Definition ngOnInit (kinds : json) (templates : obj) (id : option string) (c : DeviceStateService)
    (v : DeviceFormComponent) : DeviceFormComponent :=
  on_params id c (loadDeviceTemplates templates (loadDeviceTypes kinds v)).

(** The type select's options: [kind.id] of each listed type. *)
Definition type_options (v : DeviceFormComponent) : list (option json) :=
  match deviceTypes v with JArr l => map (fun k => prop (Some k) "id") l | _ => [] end.

(** The template select's options: the empty one, then [template.id] of
    every loaded template, whatever the selected type. *)
Definition template_options (v : DeviceFormComponent) : list (option json) :=
  None :: map (fun t => prop (Some t) "id") (deviceTemplates v).

(** [onSubmit] in the component's mode. *)
Definition onSubmit (tpl : string -> option Template) (v : DeviceFormComponent) : M unit :=
  match isEdit v, deviceId v with
  | true, Some i => submit_update i (form v)
  | _, _ => submit_create tpl (form v)
  end.

End DeviceForm.

Module DashboardPage.
Import Service Web Api.

(** [loadDeviceTypes]: [kinds.map((k) => k.id)]. *)
Definition loadDeviceTypes (kinds : list json) : list (option json) := map (fun k => prop (Some k) "id") kinds.

(** [ngOnInit]: [loadInitialData()] ([loadDevices()]) and the type chips
    from the types route's answer. *)
Definition ngOnInit (reload : DeviceStateService -> DeviceStateService) (kinds : list json)
    (c : DeviceStateService) : DeviceStateService * list (option json) :=
  (reload c, loadDeviceTypes kinds).

End DashboardPage.

Module ImportDialog.
Import Service Web Control Api.

(** The dialog's fields: the file's text and name, the [importing]
    flag, the shown result, and the [replaceAll] control. *)
Record ImportDialogComponent : Type := mkImportDialogComponent {
  fileContent : option string;
  fileName : option string;
  importing : bool;
  importResult : option json;
  replaceAll : bool
}.

Definition create : ImportDialogComponent := mkImportDialogComponent None None false None false.

Definition with_importing (v : ImportDialogComponent) (b : bool) : ImportDialogComponent :=
  mkImportDialogComponent (fileContent v) (fileName v) b (importResult v) (replaceAll v).

(** [onFileSelected]: the first file's name; its text comes with the
    reader's [onload]. *)
Definition onFileSelected (file : option string) (v : ImportDialogComponent) : ImportDialogComponent :=
  match file with
  | Some n => mkImportDialogComponent (fileContent v) (Some n) (importing v) (importResult v) (replaceAll v)
  | None => v
  end.

Definition reader_onload (text : string) (v : ImportDialogComponent) : ImportDialogComponent :=
  mkImportDialogComponent (Some text) (fileName v) (importing v) (importResult v) (replaceAll v).

Section Import.

(** [JSON.parse] of a text, [None] when it throws. *)
Variable parse : string -> option json.
(** The service's answer to a call that passed the router and the pipe. *)
Variable handle : call -> result json.
(** [deviceState.loadDevices()]. *)
Variable reload : DeviceStateService -> DeviceStateService.

(** [import()]: nothing without a text; the request of
    [Control.import_request], posted through [ApiService.importDevices];
    on an answer its result is shown and the list reloaded; on an error
    or a text that is not JSON the flag falls back. *)
Definition import_ (v : ImportDialogComponent) (c : DeviceStateService) : ImportDialogComponent * DeviceStateService :=
  match fileContent v with
  | None => (v, c)
  | Some text =>
      if String.eqb text "" then (v, c) else
      match import_request (parse text) (replaceAll v) with
      | None => (with_importing v false, c)
      | Some req =>
          match serve (importDevices req) with
          | Ok k =>
              match handle k with
              | Ok result => (mkImportDialogComponent (fileContent v) (fileName v) false (Some result) (replaceAll v), reload c)
              | Throw _ => (with_importing v false, c)
              end
          | Throw _ => (with_importing v false, c)
          end
      end
  end.

End Import.

End ImportDialog.

Module AppShell.
Import Store Service Web Socket.

(** The pages of [app.routes.ts]. *)
Inductive page : Type := Dashboard_page | NewDevice_page | EditDevice_page (id : string) | ControlDevice_page (id : string).

(** The router's match of a URL's segments, in the table's order, with
    the [**] redirect to the dashboard. *)
Definition route (path : list string) : page :=
  match path with
  | [] => Dashboard_page
  | ["devices"; "new"] => NewDevice_page
  | ["devices"; i; "edit"] => if String.eqb i "" then Dashboard_page else EditDevice_page i
  | ["devices"; i; "control"] => if String.eqb i "" then Dashboard_page else ControlDevice_page i
  | _ => Dashboard_page
  end.

(** The toolbar's connection icon and the progress bar. *)
Definition connection_icon (w : WebsocketService) : string :=
  if isConnected w then "cloud_done" else "cloud_off".

Definition progress_bar (c : DeviceStateService) : bool := loadingSubject c.

Section Start.
Variable http_message : exn -> string.
Variable plan : Query.Plan.
Variable db : DB.

(** [loadDevices()] with its defaults. *)
Definition load (c : DeviceStateService) : DeviceStateService :=
  loadDevices http_message plan db None None (Fin 1%Q) (Fin 50%Q) c.

(** The app's start on a URL: [App.ngOnInit], then the page's
    [ngOnInit]; the dashboard's [loadInitialData] loads again. *)
Definition start (path : list string) (c : DeviceStateService) : DeviceStateService :=
  let c := load c in
  match route path with Dashboard_page => load c | _ => c end.

End Start.

End AppShell.

(** ** Lemmas *)

Import Store Service System Web Socket Control DeviceControl.

Lemma truthy_str_some i : i <> "" -> truthy_str (Some i) = Some i.
Proof. intros H. unfold truthy_str. apply String.eqb_neq in H. rewrite H. reflexivity. Qed.

Lemma empty_app x : "" ++ x = x.
Proof. reflexivity. Qed.

(** Joining a room the socket is not in and leaving it again. *)
Lemma leave_join rooms r : existsb (String.eqb r) rooms = false -> leave (join rooms r) r = rooms.
Proof.
  intros H. unfold join, leave. rewrite H, filter_app. cbn. rewrite String.eqb_refl. cbn. rewrite app_nil_r.
  induction rooms as [|x rooms IH]; [reflexivity|]. cbn in H |- *. apply orb_false_iff in H as [Hx Hr].
  rewrite String.eqb_sym, Hx. cbn. rewrite (IH Hr). reflexivity.
Qed.

(** The chips are the service's kinds, in registry order. *)
Lemma loadDeviceTypes_kinds :
  DashboardPage.loadDeviceTypes (match serialize Api.listTypes_body with JArr l => l | _ => [] end) =
  map (fun i => Some (JStr i)) Registry.kindIds.
Proof. reflexivity. Qed.

(** A property spread from an object that does not have it keeps its
    earlier value. *)
Lemma get_spread_None a b k : get b k = None -> get (spread a b) k = get a k.
Proof.
  unfold spread. revert a. induction b as [|[k' v'] b IH]; intros a Hb; [reflexivity|].
  cbn in Hb |- *. destruct (String.eqb k k') eqn:E; [discriminate|].
  rewrite (IH _ Hb). apply get_set_ne. intros ->. rewrite String.eqb_refl in E. discriminate.
Qed.

Lemma get_In (o : obj) k v : get o k = Some v -> In (k, v) o.
Proof.
  induction o as [|[k' v'] o IH]; cbn; [discriminate|].
  destruct (String.eqb k k') eqn:E; [apply String.eqb_eq in E; intros [= <-]; left; subst; reflexivity|].
  intros H. right. exact (IH H).
Qed.

(** ** Theorems *)

(** C20: the dashboard's start loads the list twice.  Opening the app on
    the dashboard runs [App.ngOnInit]'s and the dashboard's
    [loadDevices()]: the list is that of one load, but a failing GET
    /devices reports its error twice. *)
Theorem start_loads_twice msg pl db c :
  devicesSubject (AppShell.start msg pl db [] c) = devicesSubject (AppShell.load msg pl db c) /\
  errorSubject (AppShell.start msg pl db [] c) =
    (errorSubject c ++
     match Query.controller_list pl db None None (Some (num_to_string (Fin 1%Q))) (Some (num_to_string (Fin 50%Q))) with
     | Ok _ => []
     | Throw e => [("Failed to load devices: " ++ msg e)%string; ("Failed to load devices: " ++ msg e)%string]
     end)%list.
Proof.
  unfold AppShell.start, AppShell.load, loadDevices. cbn [AppShell.route truthy_str].
  destruct (Query.controller_list pl db None None (Some (num_to_string (Fin 1%Q))) (Some (num_to_string (Fin 50%Q))));
    cbn; [rewrite app_nil_r; split; reflexivity | rewrite <- app_assoc; split; reflexivity].
Qed.

(** one visit of the device view gives the socket its rooms back.
    On a connected socket not yet in the device's room, the view of a
    device (a non-empty id) joins its room on [ngOnInit] and leaves it
    on [ngOnDestroy]. *)
Theorem visit_restores_rooms i w s :
  i <> "" -> socket w = Some s -> sock_connected s = true ->
  existsb (String.eqb ("devices:id:" ++ i)) (rooms s) = false ->
  socket (visit [Some i] w) = Some s.
Proof.
  intros Hi Hs Hc Hr. unfold visit. cbn [on_params_all]. unfold on_params, ngOnDestroy. cbn [deviceId].
  rewrite (truthy_str_some _ Hi). unfold subscribeToDevice, unsubscribeFromDevice, emit.
  rewrite Hs, Hc. cbn [socket sock_connected rooms sendBuffer connectedSubject handle].
  cbn [deviceId]. rewrite (truthy_str_some _ Hi). unfold handleSubscribeDevice, handleUnsubscribeDevice.
  rewrite (leave_join _ _ Hr).
  destruct s as [con r buf]; cbn in Hc |- *. rewrite Hc. reflexivity.
Qed.

(** C17: a device view whose route changes the id leaks a room.  When
    the route of the view emits a second id (Angular reuses the
    component), [ngOnInit]'s subscriber joins the second device's room
    without leaving the first, and [ngOnDestroy] leaves only the second:
    after the view, a freshly connected socket is still in the first
    device's room, and receives that device's deletion twice. *)
Theorem view_leaks_room a b t :
  a <> "" -> b <> "" -> a <> b ->
  socket (visit [Some a; Some b] (on_connect init)) = Some (mkSock true ["devices:all"; "devices:id:" ++ a] []) /\
  List.length (delivered ["devices:all"; "devices:id:" ++ a] (DeviceDeleted a t)) = 2%nat.
Proof.
  intros Ha Hb Hab. apply String.eqb_neq in Ha, Hb, Hab.
  assert (Hba : String.eqb b a = false) by (rewrite String.eqb_sym; exact Hab). split.
  - unfold visit, on_params_all, on_params, ngOnDestroy, truthy_str. simpl. rewrite Ha, Hb. simpl.
    rewrite Hb. unfold unsubscribeFromDevice, subscribeToDevice, emit, on_connect, init, setupSocket. simpl.
    unfold handleSubscribeDevice, handleUnsubscribeDevice, handleConnection, join, leave. simpl.
    rewrite !empty_app, Hba. simpl. rewrite !empty_app, Hab, String.eqb_refl. reflexivity.
  - unfold delivered. simpl. rewrite ?empty_app, String.eqb_refl. reflexivity.
Qed.

Lemma view_leaks_room_witness :
  socket (visit [Some "uuid-0"; Some "uuid-1"] (on_connect init)) =
    Some (mkSock true ["devices:all"; "devices:id:uuid-0"] []) /\
  List.length (delivered ["devices:all"; "devices:id:uuid-0"] (DeviceDeleted "uuid-0" "light")) = 2%nat.
Proof. apply (view_leaks_room "uuid-0" "uuid-1" "light"); discriminate. Defined.

(** C35: the import dialog never reports an import.  Whatever the file,
    its parse, the service's handling and the reload, [import()] leaves
    the shown result and the client's list as they were: every request
    it posts is refused by the validation pipe ([Api.serve_importDevices]).
    The [importing] flag is back to false, or nothing happened. *)
Theorem import_never_reports parse handle reload v c :
  ImportDialog.importResult (fst (ImportDialog.import_ parse handle reload v c)) = ImportDialog.importResult v /\
  snd (ImportDialog.import_ parse handle reload v c) = c /\
  (ImportDialog.importing (fst (ImportDialog.import_ parse handle reload v c)) = false \/ fst (ImportDialog.import_ parse handle reload v c) = v).
Proof.
  unfold ImportDialog.import_. destruct (ImportDialog.fileContent v) as [text|]; [|auto].
  destruct (String.eqb text ""); [auto|].
  destruct (import_request (parse text) (ImportDialog.replaceAll v)) as [req|]; [rewrite Api.serve_importDevices|]; cbn; auto.
Qed.

(** C32: editing without a change keeps the device.  Opening the edit
    form on a device the client lists (whatever the types and templates
    routes answer) and saving it unchanged sends the device's own name
    and template to [updateDevice]; a device without a template sends
    none. *)
Theorem edit_unchanged_roundtrip tpl kinds templates c d st :
  id d <> "" -> name d <> "" ->
  getDevice c (Some (JStr (id d))) = Some (serialize (listed_json (d, st))) ->
  DeviceForm.onSubmit tpl (DeviceForm.ngOnInit kinds templates (Some (id d)) c DeviceForm.create) =
  discard (updateDevice (id d) (Some (JStr (name d))) None (option_map JStr (truthy_str (templateId d)))).
Proof.
  intros Hi Hn Hget. unfold DeviceForm.ngOnInit, DeviceForm.on_params. rewrite (truthy_str_some _ Hi).
  unfold DeviceForm.loadDeviceData. cbn [DeviceForm.deviceId]. rewrite (truthy_str_some _ Hi), Hget.
  unfold DeviceForm.onSubmit, submit_update. cbn. apply String.eqb_neq in Hn. rewrite Hn.
  destruct (templateId d) as [t|]; cbn; [|reflexivity].
  unfold or_undefined, truthy_str. destruct (String.eqb t "") eqn:E; cbn; rewrite ?E; reflexivity.
Qed.

Lemma edit_unchanged_roundtrip_witness :
  DeviceForm.onSubmit (fun _ => None)
    (DeviceForm.ngOnInit (JArr []) [] (Some "uuid-0") (with_devices initial [serialize (listed_json (warm_lamp, None))])
       DeviceForm.create) =
  discard (updateDevice "uuid-0" (Some (JStr "Lamp")) None (Some (JStr "warm"))).
Proof.
  apply (edit_unchanged_roundtrip (fun _ => None) (JArr []) [] (with_devices initial [serialize (listed_json (warm_lamp, None))])
           warm_lamp None); [discriminate | discriminate | reflexivity].
Defined.

(** C33: the form offers templates of every kind.  A loaded template
    without an own [id] is an option of the template select whatever the
    selected type; a valid form that picks one of another kind is refused
    by the create route with 400 [Template kind ... does not match type
    ...], with the templates file's entries as the route's templates. *)
Theorem form_offers_foreign_template templates tid o f :
  get templates tid = Some (JObj o) -> get o "id" = None ->
  form_valid f = true -> create_dto_ok (create_request f) = true ->
  form_templateId f = tid -> tid <> "" ->
  prim_to_string (to_prim (get o "kind")) <> form_type f ->
  In (Some (JStr tid)) (DeviceForm.template_options (DeviceForm.loadDeviceTemplates templates DeviceForm.create)) /\
  (forall s, fst (submit_create (fun i => Templates.to_template (get templates i)) f s) =
    Throw (BadRequest ("Template kind '" ++ prim_to_string (to_prim (get o "kind")) ++ "' does not match type '"
                       ++ form_type f ++ "'"))).
Proof.
  intros Ht Hid Hv Hok Hf Hne Hk. split.
  - right. apply in_map_iff. exists (JObj (spread [("id", JStr tid)] o)). split.
    + cbn. rewrite (get_spread_None _ _ _ Hid). reflexivity.
    + apply in_map_iff. exists (tid, JObj o). split; [reflexivity | exact (get_In _ _ _ Ht)].
  - intros s. unfold submit_create. rewrite Hv. unfold discard, controller_create. rewrite Hok.
    unfold create_request. cbn [dto_templateId dto_type negb]. rewrite Hf.
    unfold or_undefined. apply String.eqb_neq in Hne. rewrite Hne. cbn [truthy_str]. rewrite Hne.
    unfold Templates.to_template. rewrite Ht. cbn [truthy prop].
    cbn [tkind]. apply String.eqb_neq in Hk. rewrite Hk. reflexivity.
Qed.

Lemma form_offers_foreign_template_witness :
  In (Some (JStr "fan.basic"))
    (DeviceForm.template_options
       (DeviceForm.loadDeviceTemplates [("fan.basic", JObj [("kind", JStr "fan")])] DeviceForm.create)) /\
  (forall s, fst (submit_create (fun i => Templates.to_template (get [("fan.basic", JObj [("kind", JStr "fan")])] i))
                    (mkFormValue "light" "Lamp" "" "fan.basic") s) =
    Throw (BadRequest "Template kind 'fan' does not match type 'light'")).
Proof.
  apply (form_offers_foreign_template [("fan.basic", JObj [("kind", JStr "fan")])] "fan.basic" [("kind", JStr "fan")]
           (mkFormValue "light" "Lamp" "" "fan.basic")); first [reflexivity | discriminate].
Defined.
